(** * The SQL store of the pipeline-metadata service

    A shallow embedding of [src/zenml/zen_stores/sql_zen_store.py] and of
    [src/zenml/zen_stores/schemas/secret_schemas.py].

    Tables are lists of rows in insertion order, which is the order a query
    without [ORDER BY] is taken to return them in.  A [Session] carries the
    view of the open transaction next to the committed database, so that an
    exception that leaves the [with Session(...)] block discards what was
    added and not committed.  Timestamps ([created], [updated]) and log
    output are left out of the rows.  The constraints the schema declares
    (primary and foreign keys) are not enforced by the tables: a statement
    that relies on one takes it as a hypothesis. *)

From Stdlib Require Import NArith ZArith Ascii String List Bool Lia.
From stdpp Require Import base option list gmap strings.
Import ListNotations.

Local Open Scope string_scope.
Local Open Scope N_scope.
Local Open Scope list_scope.

(** ** Identifiers, enumerations and constants *)

(** A [uuid.UUID]: a 128-bit number of which only equality is used. *)
Definition UUID := N.

(** Modelled from the spec: the [ExecutionStatus] enumeration of
    [zenml.enums], a fixed set of states with a cached terminal state. *)
Inductive ExecutionStatus := FAILED | COMPLETED | RUNNING | CACHED.

Definition status_eqb (a b : ExecutionStatus) : bool :=
  match a, b with
  | FAILED, FAILED | COMPLETED, COMPLETED | RUNNING, RUNNING | CACHED, CACHED => true
  | _, _ => false
  end.

(** Modelled from the spec: [StackComponentType] of [zenml.enums] is a
    string enumeration; the two members the store names are the orchestrator
    and the artifact store. *)
Definition StackComponentType := string.
Definition ORCHESTRATOR : StackComponentType := "orchestrator".
Definition ARTIFACT_STORE : StackComponentType := "artifact_store".

(** Modelled from the spec: the well-known names of
    [zenml.zen_stores.base_zen_store] that mark the protected entities. *)
Definition DEFAULT_STACK_NAME : string := "default".
Definition DEFAULT_STACK_COMPONENT_NAME : string := "default".
Definition ADMIN_ROLE : string := "admin".
Definition GUEST_ROLE : string := "guest".

(** The exceptions the store raises.  [StackExistsError] and
    [StackComponentExistsError] are the stack flavours of
    [EntityExistsError]; [MultipleResultsFound] and [UnmappedInstanceError]
    are the query layer's own, and [DecodeError] stands for what the codec
    libraries raise on text they cannot encode and on bytes or text they
    cannot decode. *)
Inductive error :=
| KeyError
| ValueError
| EntityExistsError
| StackExistsError
| StackComponentExistsError
| IllegalOperationError
| MultipleResultsFound
| UnmappedInstanceError
| DecodeError.

(** The error kinds of the specification. *)
Definition AlreadyExists (e : error) : bool :=
  match e with
  | EntityExistsError | StackExistsError | StackComponentExistsError => true
  | _ => false
  end.

Definition NotFound (e : error) : bool :=
  match e with KeyError => true | _ => false end.

Definition IllegalOperation (e : error) : bool :=
  match e with IllegalOperationError => true | _ => false end.

(** The errors raised by the store's own [raise] statements. *)
Definition guard_error (e : error) : bool :=
  match e with
  | MultipleResultsFound | UnmappedInstanceError | DecodeError => false
  | _ => true
  end.

Inductive result (A : Type) :=
| Ok (a : A)
| Raise (e : error).
Arguments Ok {A} a.
Arguments Raise {A} e.

(** A value of type [Union[str, UUID]]. *)
Inductive name_or_id :=
| Id (u : UUID)
| Name (s : string).

(** Python truth value of an [Optional[Union[str, UUID]]] argument: [None]
    and the empty string are false, every [UUID] is true. *)
Definition truthy (a : option name_or_id) : bool :=
  match a with
  | None => false
  | Some (Id _) => true
  | Some (Name s) => negb (String.eqb s "")
  end.

Definition truthy_str (a : option string) : bool :=
  match a with
  | None => false
  | Some s => negb (String.eqb s "")
  end.

Definition opt_eqb (a b : option UUID) : bool :=
  match a, b with
  | Some x, Some y => x =? y
  | None, None => true
  | _, _ => false
  end.

(** SQL [column == value] on a nullable column: a NULL never compares equal. *)
Definition col_eqb (c : option UUID) (v : UUID) : bool :=
  match c with
  | Some x => x =? v
  | None => false
  end.

(** ** Rows of the tables *)

Module ProjectSchema.
Record t := mk { id : UUID; name : string }.
End ProjectSchema.

Module UserSchema.
Record t := mk {
  id : UUID;
  name : string;
  email : option string;
  email_opted_in : option bool
}.
End UserSchema.

Module TeamSchema.
Record t := mk { id : UUID; name : string }.
End TeamSchema.

Module TeamAssignmentSchema.
Record t := mk { user_id : UUID; team_id : UUID }.
End TeamAssignmentSchema.

Module RoleSchema.
Record t := mk { id : UUID; name : string }.
End RoleSchema.

Module RolePermissionSchema.
Record t := mk { name : string; role_id : UUID }.
End RolePermissionSchema.

Module UserRoleAssignmentSchema.
Record t := mk { role_id : UUID; user_id : UUID; project_id : option UUID }.
End UserRoleAssignmentSchema.

Module TeamRoleAssignmentSchema.
Record t := mk { role_id : UUID; team_id : UUID; project_id : option UUID }.
End TeamRoleAssignmentSchema.

Module StackComponentSchema.
Record t := mk {
  id : UUID;
  name : string;
  type : StackComponentType;
  flavor : string;
  project_id : UUID;
  user_id : UUID;
  is_shared : bool;
  configuration : string
}.
End StackComponentSchema.

Module StackSchema.
Record t := mk {
  id : UUID;
  name : string;
  project_id : UUID;
  user_id : UUID;
  is_shared : bool
}.
End StackSchema.

Module StackCompositionSchema.
Record t := mk { stack_id : UUID; component_id : UUID }.
End StackCompositionSchema.

Module FlavorSchema.
Record t := mk {
  id : UUID;
  name : string;
  type : StackComponentType;
  source : string;
  config_schema : string;
  project_id : UUID;
  user_id : UUID
}.
End FlavorSchema.

Module PipelineSchema.
Record t := mk {
  id : UUID;
  name : string;
  project_id : UUID;
  user_id : UUID;
  docstring : option string;
  spec : string
}.
End PipelineSchema.

Module PipelineRunSchema.
Record t := mk {
  id : UUID;
  name : string;
  project_id : UUID;
  user_id : UUID;
  stack_id : option UUID;
  pipeline_id : option UUID
}.
End PipelineRunSchema.

Module StepRunSchema.
Record t := mk {
  id : UUID;
  name : string;
  pipeline_run_id : UUID;
  status : ExecutionStatus;
  cache_key : option string
}.
End StepRunSchema.

Module StepRunParentsSchema.
Record t := mk { parent_id : UUID; child_id : UUID }.
End StepRunParentsSchema.

Module StepRunInputArtifactSchema.
Record t := mk { step_run_id : UUID; artifact_id : UUID; name : string }.
End StepRunInputArtifactSchema.

Module StepRunOutputArtifactSchema.
Record t := mk { step_run_id : UUID; artifact_id : UUID; name : string }.
End StepRunOutputArtifactSchema.

Module ArtifactSchema.
Record t := mk { id : UUID; uri : string }.
End ArtifactSchema.

(** ** The database *)

Record Store := mkStore {
  projects : list ProjectSchema.t;
  users : list UserSchema.t;
  teams : list TeamSchema.t;
  roles : list RoleSchema.t;
  role_permissions : list RolePermissionSchema.t;
  user_role_assignments : list UserRoleAssignmentSchema.t;
  team_role_assignments : list TeamRoleAssignmentSchema.t;
  stack_components : list StackComponentSchema.t;
  stacks : list StackSchema.t;
  stack_compositions : list StackCompositionSchema.t;
  pipelines : list PipelineSchema.t;
  pipeline_runs : list PipelineRunSchema.t;
  step_runs : list StepRunSchema.t;
  step_run_parents : list StepRunParentsSchema.t;
  step_run_input_artifacts : list StepRunInputArtifactSchema.t;
  step_run_output_artifacts : list StepRunOutputArtifactSchema.t;
  artifacts : list ArtifactSchema.t;
  flavors : list FlavorSchema.t;
  team_assignments : list TeamAssignmentSchema.t
}.

Definition empty_store : Store :=
  mkStore [] [] [] [] [] [] [] [] [] [] [] [] [] [] [] [] [] [] [].

Definition with_projects (f : list ProjectSchema.t -> list ProjectSchema.t) (s : Store) : Store :=
  mkStore (f (projects s)) (users s) (teams s) (roles s) (role_permissions s) (user_role_assignments s) (team_role_assignments s) (stack_components s) (stacks s) (stack_compositions s) (pipelines s) (pipeline_runs s) (step_runs s) (step_run_parents s) (step_run_input_artifacts s) (step_run_output_artifacts s) (artifacts s) (flavors s) (team_assignments s).

Definition with_users (f : list UserSchema.t -> list UserSchema.t) (s : Store) : Store :=
  mkStore (projects s) (f (users s)) (teams s) (roles s) (role_permissions s) (user_role_assignments s) (team_role_assignments s) (stack_components s) (stacks s) (stack_compositions s) (pipelines s) (pipeline_runs s) (step_runs s) (step_run_parents s) (step_run_input_artifacts s) (step_run_output_artifacts s) (artifacts s) (flavors s) (team_assignments s).

Definition with_teams (f : list TeamSchema.t -> list TeamSchema.t) (s : Store) : Store :=
  mkStore (projects s) (users s) (f (teams s)) (roles s) (role_permissions s) (user_role_assignments s) (team_role_assignments s) (stack_components s) (stacks s) (stack_compositions s) (pipelines s) (pipeline_runs s) (step_runs s) (step_run_parents s) (step_run_input_artifacts s) (step_run_output_artifacts s) (artifacts s) (flavors s) (team_assignments s).

Definition with_roles (f : list RoleSchema.t -> list RoleSchema.t) (s : Store) : Store :=
  mkStore (projects s) (users s) (teams s) (f (roles s)) (role_permissions s) (user_role_assignments s) (team_role_assignments s) (stack_components s) (stacks s) (stack_compositions s) (pipelines s) (pipeline_runs s) (step_runs s) (step_run_parents s) (step_run_input_artifacts s) (step_run_output_artifacts s) (artifacts s) (flavors s) (team_assignments s).

Definition with_role_permissions (f : list RolePermissionSchema.t -> list RolePermissionSchema.t) (s : Store) : Store :=
  mkStore (projects s) (users s) (teams s) (roles s) (f (role_permissions s)) (user_role_assignments s) (team_role_assignments s) (stack_components s) (stacks s) (stack_compositions s) (pipelines s) (pipeline_runs s) (step_runs s) (step_run_parents s) (step_run_input_artifacts s) (step_run_output_artifacts s) (artifacts s) (flavors s) (team_assignments s).

Definition with_user_role_assignments (f : list UserRoleAssignmentSchema.t -> list UserRoleAssignmentSchema.t) (s : Store) : Store :=
  mkStore (projects s) (users s) (teams s) (roles s) (role_permissions s) (f (user_role_assignments s)) (team_role_assignments s) (stack_components s) (stacks s) (stack_compositions s) (pipelines s) (pipeline_runs s) (step_runs s) (step_run_parents s) (step_run_input_artifacts s) (step_run_output_artifacts s) (artifacts s) (flavors s) (team_assignments s).

Definition with_team_role_assignments (f : list TeamRoleAssignmentSchema.t -> list TeamRoleAssignmentSchema.t) (s : Store) : Store :=
  mkStore (projects s) (users s) (teams s) (roles s) (role_permissions s) (user_role_assignments s) (f (team_role_assignments s)) (stack_components s) (stacks s) (stack_compositions s) (pipelines s) (pipeline_runs s) (step_runs s) (step_run_parents s) (step_run_input_artifacts s) (step_run_output_artifacts s) (artifacts s) (flavors s) (team_assignments s).

Definition with_stack_components (f : list StackComponentSchema.t -> list StackComponentSchema.t) (s : Store) : Store :=
  mkStore (projects s) (users s) (teams s) (roles s) (role_permissions s) (user_role_assignments s) (team_role_assignments s) (f (stack_components s)) (stacks s) (stack_compositions s) (pipelines s) (pipeline_runs s) (step_runs s) (step_run_parents s) (step_run_input_artifacts s) (step_run_output_artifacts s) (artifacts s) (flavors s) (team_assignments s).

Definition with_stacks (f : list StackSchema.t -> list StackSchema.t) (s : Store) : Store :=
  mkStore (projects s) (users s) (teams s) (roles s) (role_permissions s) (user_role_assignments s) (team_role_assignments s) (stack_components s) (f (stacks s)) (stack_compositions s) (pipelines s) (pipeline_runs s) (step_runs s) (step_run_parents s) (step_run_input_artifacts s) (step_run_output_artifacts s) (artifacts s) (flavors s) (team_assignments s).

Definition with_stack_compositions (f : list StackCompositionSchema.t -> list StackCompositionSchema.t) (s : Store) : Store :=
  mkStore (projects s) (users s) (teams s) (roles s) (role_permissions s) (user_role_assignments s) (team_role_assignments s) (stack_components s) (stacks s) (f (stack_compositions s)) (pipelines s) (pipeline_runs s) (step_runs s) (step_run_parents s) (step_run_input_artifacts s) (step_run_output_artifacts s) (artifacts s) (flavors s) (team_assignments s).

Definition with_pipelines (f : list PipelineSchema.t -> list PipelineSchema.t) (s : Store) : Store :=
  mkStore (projects s) (users s) (teams s) (roles s) (role_permissions s) (user_role_assignments s) (team_role_assignments s) (stack_components s) (stacks s) (stack_compositions s) (f (pipelines s)) (pipeline_runs s) (step_runs s) (step_run_parents s) (step_run_input_artifacts s) (step_run_output_artifacts s) (artifacts s) (flavors s) (team_assignments s).

Definition with_pipeline_runs (f : list PipelineRunSchema.t -> list PipelineRunSchema.t) (s : Store) : Store :=
  mkStore (projects s) (users s) (teams s) (roles s) (role_permissions s) (user_role_assignments s) (team_role_assignments s) (stack_components s) (stacks s) (stack_compositions s) (pipelines s) (f (pipeline_runs s)) (step_runs s) (step_run_parents s) (step_run_input_artifacts s) (step_run_output_artifacts s) (artifacts s) (flavors s) (team_assignments s).

Definition with_step_runs (f : list StepRunSchema.t -> list StepRunSchema.t) (s : Store) : Store :=
  mkStore (projects s) (users s) (teams s) (roles s) (role_permissions s) (user_role_assignments s) (team_role_assignments s) (stack_components s) (stacks s) (stack_compositions s) (pipelines s) (pipeline_runs s) (f (step_runs s)) (step_run_parents s) (step_run_input_artifacts s) (step_run_output_artifacts s) (artifacts s) (flavors s) (team_assignments s).

Definition with_step_run_parents (f : list StepRunParentsSchema.t -> list StepRunParentsSchema.t) (s : Store) : Store :=
  mkStore (projects s) (users s) (teams s) (roles s) (role_permissions s) (user_role_assignments s) (team_role_assignments s) (stack_components s) (stacks s) (stack_compositions s) (pipelines s) (pipeline_runs s) (step_runs s) (f (step_run_parents s)) (step_run_input_artifacts s) (step_run_output_artifacts s) (artifacts s) (flavors s) (team_assignments s).

Definition with_step_run_input_artifacts (f : list StepRunInputArtifactSchema.t -> list StepRunInputArtifactSchema.t) (s : Store) : Store :=
  mkStore (projects s) (users s) (teams s) (roles s) (role_permissions s) (user_role_assignments s) (team_role_assignments s) (stack_components s) (stacks s) (stack_compositions s) (pipelines s) (pipeline_runs s) (step_runs s) (step_run_parents s) (f (step_run_input_artifacts s)) (step_run_output_artifacts s) (artifacts s) (flavors s) (team_assignments s).

Definition with_step_run_output_artifacts (f : list StepRunOutputArtifactSchema.t -> list StepRunOutputArtifactSchema.t) (s : Store) : Store :=
  mkStore (projects s) (users s) (teams s) (roles s) (role_permissions s) (user_role_assignments s) (team_role_assignments s) (stack_components s) (stacks s) (stack_compositions s) (pipelines s) (pipeline_runs s) (step_runs s) (step_run_parents s) (step_run_input_artifacts s) (f (step_run_output_artifacts s)) (artifacts s) (flavors s) (team_assignments s).

Definition with_artifacts (f : list ArtifactSchema.t -> list ArtifactSchema.t) (s : Store) : Store :=
  mkStore (projects s) (users s) (teams s) (roles s) (role_permissions s) (user_role_assignments s) (team_role_assignments s) (stack_components s) (stacks s) (stack_compositions s) (pipelines s) (pipeline_runs s) (step_runs s) (step_run_parents s) (step_run_input_artifacts s) (step_run_output_artifacts s) (f (artifacts s)) (flavors s) (team_assignments s).

Definition with_flavors (f : list FlavorSchema.t -> list FlavorSchema.t) (s : Store) : Store :=
  mkStore (projects s) (users s) (teams s) (roles s) (role_permissions s) (user_role_assignments s) (team_role_assignments s) (stack_components s) (stacks s) (stack_compositions s) (pipelines s) (pipeline_runs s) (step_runs s) (step_run_parents s) (step_run_input_artifacts s) (step_run_output_artifacts s) (artifacts s) (f (flavors s)) (team_assignments s).

Definition with_team_assignments (f : list TeamAssignmentSchema.t -> list TeamAssignmentSchema.t) (s : Store) : Store :=
  mkStore (projects s) (users s) (teams s) (roles s) (role_permissions s) (user_role_assignments s) (team_role_assignments s) (stack_components s) (stacks s) (stack_compositions s) (pipelines s) (pipeline_runs s) (step_runs s) (step_run_parents s) (step_run_input_artifacts s) (step_run_output_artifacts s) (artifacts s) (flavors s) (f (team_assignments s)).

(** ** Sessions

    [db] is what the queries of the open session see: the committed rows and
    the rows added since (the session flushes before each query).
    [committed] is what stays when the block is left. *)

Record Session := mkSession {
  db : Store;
  committed : Store;
  commits : nat;
  opened : nat
}.

Definition M (A : Type) : Type := Session -> result A * Session.

Definition ret {A} (a : A) : M A := fun st => (Ok a, st).

Definition bind {A B} (m : M A) (k : A -> M B) : M B :=
  fun st =>
    match m st with
    | (Ok a, st') => k a st'
    | (Raise e, st') => (Raise e, st')
    end.

Definition raise {A} (e : error) : M A := fun st => (Raise e, st).

Notation "'let*' x ':=' c1 'in' c2" := (bind c1 (fun x => c2))
  (at level 10, x pattern, c1 at level 100, c2 at level 200).

(** The database as the session sees it, for the queries over several
    tables. *)
Definition database : M Store := fun st => (Ok (db st), st).

(** [session.exec(select(T)).all()] *)
Definition rows {A} (table : Store -> list A) : M (list A) :=
  fun st => (Ok (table (db st)), st).

(** [session.exec(select(T).where(p)).first()] *)
Definition first {A} (table : Store -> list A) (p : A -> bool) : M (option A) :=
  fun st => (Ok (find p (table (db st))), st).

(** [session.exec(select(T).where(p)).all()] *)
Definition all {A} (table : Store -> list A) (p : A -> bool) : M (list A) :=
  fun st => (Ok (List.filter p (table (db st))), st).

(** [session.add(row)], [session.delete(row)] and the update of a loaded row,
    each given as the change of a table. *)
Definition on_db (f : Store -> Store) (st : Session) : Session :=
  mkSession (f (db st)) (committed st) (commits st) (opened st).

Definition add (f : Store -> Store) : M unit :=
  fun st => (Ok tt, on_db f st).

(** [session.commit()] *)
Definition commit : M unit :=
  fun st => (Ok tt, mkSession (db st) (db st) (S (commits st)) (opened st)).

Fixpoint for_each {A} (l : list A) (body : A -> M unit) : M unit :=
  match l with
  | [] => ret tt
  | x :: l' => let* _ := body x in for_each l' body
  end.

(** What a public method of the store leaves behind: what it returned or
    raised, the committed database, and how many sessions it opened and
    commits it issued. *)
Record Outcome (A : Type) := mkOutcome {
  returned : result A;
  store : Store;
  n_commits : nat;
  n_sessions : nat
}.
Arguments mkOutcome {A}.
Arguments returned {A}.
Arguments store {A}.
Arguments n_commits {A}.
Arguments n_sessions {A}.

(** [with Session(self.engine) as session: body].  A method that writes is
    given in two parts: [m_block], the body of its session block, and [m],
    that block run in a session. *)
Definition with_Session {A} (body : M A) (s : Store) : Outcome A :=
  let r := body (mkSession s s 0 0) in
  mkOutcome (fst r) (committed (snd r)) (commits (snd r)) (S (opened (snd r))).

(** A call of another public method from inside a session block: the callee
    opens a session of its own on the committed database. *)
Definition call {A} (method : Store -> Outcome A) : M A :=
  fun st =>
    let o := method (committed st) in
    (returned o,
     mkSession (db st) (store o) (commits st + n_commits o) (opened st + n_sessions o)).

(** A [Dict[str, V]] whose order of insertion matters to the code: pairs in
    insertion order; [d[k] = v] overwrites in place or appends. *)
Fixpoint dict_set {V} (k : string) (v : V) (d : list (string * V)) : list (string * V) :=
  match d with
  | [] => [(k, v)]
  | (k', v') :: d' =>
    if String.eqb k' k then (k, v) :: d' else (k', v') :: dict_set k v d'
  end.

(** ** The run-lineage graph *)

Module StepRunModel.
Record t := mk {
  id : UUID;
  name : string;
  pipeline_run_id : UUID;
  status : ExecutionStatus;
  cache_key : option string;
  parent_step_ids : list UUID;
  input_artifacts : list (string * UUID);
  output_artifacts : list (string * UUID)
}.
End StepRunModel.

(** Modelled from the spec: the conversions of [StepRunSchema], which live in
    the schema package: a new row copies the scalar fields of the model, an
    update persists the supplied status, and [to_model] returns the row's
    fields with the three relations it is handed. *)
Definition StepRunSchema_from_create_model (m : StepRunModel.t) : StepRunSchema.t :=
  StepRunSchema.mk (StepRunModel.id m) (StepRunModel.name m)
    (StepRunModel.pipeline_run_id m) (StepRunModel.status m) (StepRunModel.cache_key m).

Definition StepRunSchema_from_update_model (m : StepRunModel.t) (r : StepRunSchema.t) : StepRunSchema.t :=
  StepRunSchema.mk (StepRunSchema.id r) (StepRunSchema.name r)
    (StepRunSchema.pipeline_run_id r) (StepRunModel.status m) (StepRunSchema.cache_key r).

Definition StepRunSchema_to_model (r : StepRunSchema.t)
  (parent_step_ids : list UUID) (input_artifacts output_artifacts : list (string * UUID))
  : StepRunModel.t :=
  StepRunModel.mk (StepRunSchema.id r) (StepRunSchema.name r)
    (StepRunSchema.pipeline_run_id r) (StepRunSchema.status r) (StepRunSchema.cache_key r)
    parent_step_ids input_artifacts output_artifacts.

(** The [UPDATE] a flush issues for a loaded row that was changed: by
    primary key. *)
Definition update_step_run (pk : UUID) (f : StepRunSchema.t -> StepRunSchema.t)
  : list StepRunSchema.t -> list StepRunSchema.t :=
  map (fun r => if StepRunSchema.id r =? pk then f r else r).

Definition _set_run_step_parent_step (child_id parent_id : UUID) : M unit :=
  let* child_step_run := first step_runs (fun r => StepRunSchema.id r =? child_id) in
  match child_step_run with
  | None => raise KeyError
  | Some _ =>
    let* parent_step_run := first step_runs (fun r => StepRunSchema.id r =? parent_id) in
    match parent_step_run with
    | None => raise KeyError
    | Some _ =>
      let* assignment :=
        first step_run_parents
          (fun a => (StepRunParentsSchema.child_id a =? child_id)
                    && (StepRunParentsSchema.parent_id a =? parent_id)) in
      match assignment with
      | Some _ => ret tt
      | None =>
        add (with_step_run_parents
               (fun l => l ++ [StepRunParentsSchema.mk parent_id child_id]))
      end
    end
  end.

Definition _set_run_step_input_artifact (run_step_id artifact_id : UUID) (name : string) : M unit :=
  let* step_run := first step_runs (fun r => StepRunSchema.id r =? run_step_id) in
  match step_run with
  | None => raise KeyError
  | Some _ =>
    let* artifact := first artifacts (fun r => ArtifactSchema.id r =? artifact_id) in
    match artifact with
    | None => raise KeyError
    | Some _ =>
      let* assignment :=
        first step_run_input_artifacts
          (fun a => (StepRunInputArtifactSchema.step_run_id a =? run_step_id)
                    && (StepRunInputArtifactSchema.artifact_id a =? artifact_id)) in
      match assignment with
      | Some _ => ret tt
      | None =>
        add (with_step_run_input_artifacts
               (fun l => l ++ [StepRunInputArtifactSchema.mk run_step_id artifact_id name]))
      end
    end
  end.

Definition _set_run_step_output_artifact (step_run_id artifact_id : UUID) (name : string) : M unit :=
  let* step_run := first step_runs (fun r => StepRunSchema.id r =? step_run_id) in
  match step_run with
  | None => raise KeyError
  | Some _ =>
    let* artifact := first artifacts (fun r => ArtifactSchema.id r =? artifact_id) in
    match artifact with
    | None => raise KeyError
    | Some _ =>
      let* assignment :=
        first step_run_output_artifacts
          (fun a => (StepRunOutputArtifactSchema.step_run_id a =? step_run_id)
                    && (StepRunOutputArtifactSchema.artifact_id a =? artifact_id)) in
      match assignment with
      | Some _ => ret tt
      | None =>
        add (with_step_run_output_artifacts
               (fun l => l ++ [StepRunOutputArtifactSchema.mk step_run_id artifact_id name]))
      end
    end
  end.

Definition create_run_step_block (step_run : StepRunModel.t) : M StepRunModel.t :=
  let* run :=
    first pipeline_runs
      (fun r => PipelineRunSchema.id r =? StepRunModel.pipeline_run_id step_run) in
  match run with
  | None => raise KeyError
  | Some _ =>
    let* existing_step_run :=
      first step_runs
        (fun r => String.eqb (StepRunSchema.name r) (StepRunModel.name step_run)
                  && (StepRunSchema.pipeline_run_id r =? StepRunModel.pipeline_run_id step_run)) in
    match existing_step_run with
    | Some _ => raise EntityExistsError
    | None =>
      let step_schema := StepRunSchema_from_create_model step_run in
      let* _ := add (with_step_runs (fun l => l ++ [step_schema])) in
      let* _ := for_each (StepRunModel.parent_step_ids step_run)
                  (fun parent_step_id =>
                     _set_run_step_parent_step (StepRunModel.id step_run) parent_step_id) in
      let* _ := for_each (StepRunModel.input_artifacts step_run)
                  (fun '(input_name, artifact_id) =>
                     _set_run_step_input_artifact (StepRunModel.id step_run) artifact_id input_name) in
      let* _ := for_each (StepRunModel.output_artifacts step_run)
                  (fun '(output_name, artifact_id) =>
                     _set_run_step_output_artifact (StepRunModel.id step_run) artifact_id output_name) in
      let* _ := commit in
      ret (StepRunSchema_to_model step_schema
             (StepRunModel.parent_step_ids step_run)
             (StepRunModel.input_artifacts step_run)
             (StepRunModel.output_artifacts step_run))
    end
  end.

Definition create_run_step (step_run : StepRunModel.t) : Store -> Outcome StepRunModel.t :=
  with_Session (create_run_step_block step_run).

Definition update_run_step_block (step_run : StepRunModel.t) : M StepRunModel.t :=
  let* existing_step_run :=
    first step_runs (fun r => StepRunSchema.id r =? StepRunModel.id step_run) in
  match existing_step_run with
  | None => raise KeyError
  | Some existing =>
    let updated := StepRunSchema_from_update_model step_run existing in
    let* _ := add (with_step_runs
                     (update_step_run (StepRunSchema.id existing)
                        (StepRunSchema_from_update_model step_run))) in
    let* _ := for_each (StepRunModel.output_artifacts step_run)
                (fun '(output_name, artifact_id) =>
                   _set_run_step_output_artifact (StepRunModel.id step_run) artifact_id output_name) in
    let* _ := commit in
    ret (StepRunSchema_to_model updated
           (StepRunModel.parent_step_ids step_run)
           (StepRunModel.input_artifacts step_run)
           (StepRunModel.output_artifacts step_run))
  end.

Definition update_run_step (step_run : StepRunModel.t) : Store -> Outcome StepRunModel.t :=
  with_Session (update_run_step_block step_run).

(** The three joins of [_run_step_schema_to_model], in a session of their
    own. *)
Definition _run_step_schema_to_model (step_run : StepRunSchema.t) : Store -> Outcome StepRunModel.t :=
  with_Session (
    let* steps := rows step_runs in
    let* parents := rows step_run_parents in
    let parent_step_ids :=
      flat_map
        (fun st =>
           map (fun _ => StepRunSchema.id st)
             (List.filter
                (fun a => (StepRunParentsSchema.child_id a =? StepRunSchema.id step_run)
                          && (StepRunParentsSchema.parent_id a =? StepRunSchema.id st))
                parents))
        steps in
    let* input_artifact_list :=
      all step_run_input_artifacts
        (fun a => StepRunInputArtifactSchema.step_run_id a =? StepRunSchema.id step_run) in
    let input_artifacts :=
      fold_left
        (fun d a => dict_set (StepRunInputArtifactSchema.name a)
                             (StepRunInputArtifactSchema.artifact_id a) d)
        input_artifact_list [] in
    let* output_artifact_list :=
      all step_run_output_artifacts
        (fun a => StepRunOutputArtifactSchema.step_run_id a =? StepRunSchema.id step_run) in
    let output_artifacts :=
      fold_left
        (fun d a => dict_set (StepRunOutputArtifactSchema.name a)
                             (StepRunOutputArtifactSchema.artifact_id a) d)
        output_artifact_list [] in
    ret (StepRunSchema_to_model step_run parent_step_ids input_artifacts output_artifacts)).

Definition get_run_step (step_run_id : UUID) : Store -> Outcome StepRunModel.t :=
  with_Session (
    let* step_run := first step_runs (fun r => StepRunSchema.id r =? step_run_id) in
    match step_run with
    | None => raise KeyError
    | Some step_run => call (_run_step_schema_to_model step_run)
    end).

(** The query of [get_artifact_producer_step]: the output edges of the
    artifact joined with the step runs that are not cached. *)
Definition producer_edge (artifact_id : UUID) (steps : list StepRunSchema.t)
  (a : StepRunOutputArtifactSchema.t) : bool :=
  (StepRunOutputArtifactSchema.artifact_id a =? artifact_id)
  && existsb
       (fun st => (StepRunOutputArtifactSchema.step_run_id a =? StepRunSchema.id st)
                  && negb (status_eqb (StepRunSchema.status st) CACHED))
       steps.

Definition get_artifact_producer_step (artifact_id : UUID) : Store -> Outcome StepRunModel.t :=
  with_Session (
    let* steps := rows step_runs in
    let* output_artifact := first step_run_output_artifacts (producer_edge artifact_id steps) in
    match output_artifact with
    | None => raise KeyError
    | Some output_artifact =>
      call (get_run_step (StepRunOutputArtifactSchema.step_run_id output_artifact))
    end).

(** ** Models and their conversions *)

(** Rows of the tables that derive from [NamedSchema]. *)
Class NamedSchema (A : Type) := {
  schema_id : A -> UUID;
  schema_name : A -> string
}.

#[global] Instance ProjectSchema_named : NamedSchema ProjectSchema.t :=
  {| schema_id := ProjectSchema.id; schema_name := ProjectSchema.name |}.
#[global] Instance UserSchema_named : NamedSchema UserSchema.t :=
  {| schema_id := UserSchema.id; schema_name := UserSchema.name |}.
#[global] Instance TeamSchema_named : NamedSchema TeamSchema.t :=
  {| schema_id := TeamSchema.id; schema_name := TeamSchema.name |}.
#[global] Instance RoleSchema_named : NamedSchema RoleSchema.t :=
  {| schema_id := RoleSchema.id; schema_name := RoleSchema.name |}.
#[global] Instance PipelineRunSchema_named : NamedSchema PipelineRunSchema.t :=
  {| schema_id := PipelineRunSchema.id; schema_name := PipelineRunSchema.name |}.

Module ComponentModel.
Record t := mk {
  id : UUID;
  name : string;
  type : StackComponentType;
  flavor : string;
  project : UUID;
  user : UUID;
  is_shared : bool;
  configuration : string
}.
End ComponentModel.

Module StackModel.
Record t := mk {
  id : UUID;
  name : string;
  project : UUID;
  user : UUID;
  is_shared : bool;
  components : list (StackComponentType * list UUID)
}.
End StackModel.

(** Modelled from the spec: the conversions of [StackComponentSchema] and
    [StackSchema], which live in the schema package.  A new row copies the
    model.  The payload of an update is a complete model, so every field an
    update may change is provided: it overwrites the name, the sharing flag
    and the configuration (for a stack, the components), and leaves the id,
    the type, the project and the owner. *)
Definition StackComponentSchema_from_create_model (c : ComponentModel.t) : StackComponentSchema.t :=
  StackComponentSchema.mk (ComponentModel.id c) (ComponentModel.name c)
    (ComponentModel.type c) (ComponentModel.flavor c) (ComponentModel.project c)
    (ComponentModel.user c) (ComponentModel.is_shared c) (ComponentModel.configuration c).

Definition StackComponentSchema_from_update_model (c : ComponentModel.t)
  (r : StackComponentSchema.t) : StackComponentSchema.t :=
  StackComponentSchema.mk (StackComponentSchema.id r) (ComponentModel.name c)
    (StackComponentSchema.type r) (StackComponentSchema.flavor r)
    (StackComponentSchema.project_id r) (StackComponentSchema.user_id r)
    (ComponentModel.is_shared c) (ComponentModel.configuration c).

Definition StackComponentSchema_to_model (r : StackComponentSchema.t) : ComponentModel.t :=
  ComponentModel.mk (StackComponentSchema.id r) (StackComponentSchema.name r)
    (StackComponentSchema.type r) (StackComponentSchema.flavor r)
    (StackComponentSchema.project_id r) (StackComponentSchema.user_id r)
    (StackComponentSchema.is_shared r) (StackComponentSchema.configuration r).

Definition StackSchema_from_create_model (m : StackModel.t) : StackSchema.t :=
  StackSchema.mk (StackModel.id m) (StackModel.name m) (StackModel.project m)
    (StackModel.user m) (StackModel.is_shared m).

Definition StackSchema_from_update_model (m : StackModel.t) (r : StackSchema.t) : StackSchema.t :=
  StackSchema.mk (StackSchema.id r) (StackModel.name m) (StackSchema.project_id r)
    (StackSchema.user_id r) (StackModel.is_shared m).

(** [d.setdefault(k, []).append(v)] *)
Fixpoint dict_append {V} (k : string) (v : V) (d : list (string * list V)) : list (string * list V) :=
  match d with
  | [] => [(k, [v])]
  | (k', l) :: d' =>
    if String.eqb k' k then (k', l ++ [v]) :: d' else (k', l) :: dict_append k v d'
  end.

Definition StackSchema_to_model (r : StackSchema.t) (components : list StackComponentSchema.t)
  : StackModel.t :=
  StackModel.mk (StackSchema.id r) (StackSchema.name r) (StackSchema.project_id r)
    (StackSchema.user_id r) (StackSchema.is_shared r)
    (fold_left
       (fun d c => dict_append (StackComponentSchema.type c) (StackComponentSchema.id c) d)
       components []).

(** The component rows a stack row is linked to through the composition
    table. *)
Definition components_of (s : Store) (stack_id : UUID) : list StackComponentSchema.t :=
  flat_map
    (fun link =>
       if StackCompositionSchema.stack_id link =? stack_id
       then List.filter
              (fun c => StackComponentSchema.id c =? StackCompositionSchema.component_id link)
              (stack_components s)
       else [])
    (stack_compositions s).

(** [or_] applied to the unpacked list of clauses: their disjunction; with no clause at all
    the query is left without a [WHERE] and selects every row. *)
Definition or_ {A} (filters : list (A -> bool)) (r : A) : bool :=
  match filters with
  | [] => true
  | _ => existsb (fun f => f r) filters
  end.

Definition update_row {A} (pk : A -> UUID) (key : UUID) (f : A -> A) : list A -> list A :=
  map (fun r => if pk r =? key then f r else r).


(** Roles. *)

Module RoleModel.
Record t := mk {
  id : UUID;
  name : string;
  permissions : gset string
}.
End RoleModel.

(** Modelled from the spec: the conversions of [RoleSchema], which live in
    the schema package: a role row carries the id and the name, an update
    overwrites the name, and the model of a row lists the names of its
    permission rows. *)
Definition RoleSchema_from_create_model (m : RoleModel.t) : RoleSchema.t :=
  RoleSchema.mk (RoleModel.id m) (RoleModel.name m).

Definition RoleSchema_from_update_model (m : RoleModel.t) (r : RoleSchema.t) : RoleSchema.t :=
  RoleSchema.mk (RoleSchema.id r) (RoleModel.name m).

Definition RoleSchema_to_model (r : RoleSchema.t) (permissions : list RolePermissionSchema.t)
  : RoleModel.t :=
  RoleModel.mk (RoleSchema.id r) (RoleSchema.name r)
    (list_to_set (map RolePermissionSchema.name permissions)).


(** Pipeline runs. *)

Module PipelineRunModel.
Record t := mk {
  id : UUID;
  name : string;
  project : UUID;
  user : UUID;
  stack_id : option UUID;
  pipeline_id : option UUID
}.
End PipelineRunModel.

(** Modelled from the spec: the conversions of [PipelineRunSchema], which
    live in the schema package: the row of a new run copies the model, and
    the model of a row copies the row. *)
Definition PipelineRunSchema_from_create_model (m : PipelineRunModel.t) : PipelineRunSchema.t :=
  PipelineRunSchema.mk (PipelineRunModel.id m) (PipelineRunModel.name m)
    (PipelineRunModel.project m) (PipelineRunModel.user m)
    (PipelineRunModel.stack_id m) (PipelineRunModel.pipeline_id m).

Definition PipelineRunSchema_to_model (r : PipelineRunSchema.t) : PipelineRunModel.t :=
  PipelineRunModel.mk (PipelineRunSchema.id r) (PipelineRunSchema.name r)
    (PipelineRunSchema.project_id r) (PipelineRunSchema.user_id r)
    (PipelineRunSchema.stack_id r) (PipelineRunSchema.pipeline_id r).

(** [pipeline_run.stack_id = None] and [pipeline_run.pipeline_id = None]:
    the payload with its two references replaced. *)
Definition with_references (m : PipelineRunModel.t) (stack_id pipeline_id : option UUID)
  : PipelineRunModel.t :=
  PipelineRunModel.mk (PipelineRunModel.id m) (PipelineRunModel.name m)
    (PipelineRunModel.project m) (PipelineRunModel.user m) stack_id pipeline_id.

(** [ORDER BY name]: a stable insertion sort on the code points. *)
Fixpoint insert_by_name {A} (name : A -> string) (x : A) (l : list A) : list A :=
  match l with
  | [] => [x]
  | y :: l' =>
    if String.leb (name y) (name x) then y :: insert_by_name name x l' else x :: l
  end.

Definition order_by {A} (name : A -> string) (l : list A) : list A :=
  fold_left (fun sorted x => insert_by_name name x sorted) l [].

(** One caller after another: the second starts from the database the first
    left, and the sessions and commits add up. *)
Definition after {A B} (o1 : Outcome A) (o2 : Outcome B) : Outcome B :=
  mkOutcome (returned o2) (store o2)
    (n_commits o1 + n_commits o2) (n_sessions o1 + n_sessions o2).

(** ** Resolving a name or an id *)

Section Resolver.

(** Modelled from the spec: [uuid_utils.is_valid_uuid], which is not part of
    the two files, decides whether a name parses as an identifier;
    [parse_uuid] gives the identifier of a string that does. *)
Variable parse_uuid : string -> option UUID.

(** The row a name or id selects: by id when the value is or parses as an
    identifier, by name otherwise; the first match. *)
Definition resolve {A} `{NamedSchema A} (object_name_or_id : name_or_id) (l : list A) : option A :=
  match object_name_or_id with
  | Id u => find (fun r => schema_id r =? u) l
  | Name n =>
    match parse_uuid n with
    | Some u => find (fun r => schema_id r =? u) l
    | None => find (fun r => String.eqb (schema_name r) n) l
    end
  end.

(** The callers pass a value that is not [None], so the [ValueError] branch
    is not reached. *)
Definition _get_schema_by_name_or_id {A} `{NamedSchema A}
  (object_name_or_id : name_or_id) (schema_class : Store -> list A) : M A :=
  let* l := rows schema_class in
  match resolve object_name_or_id l with
  | None => raise KeyError
  | Some schema => ret schema
  end.

Definition _get_project_schema (project_name_or_id : name_or_id) : M ProjectSchema.t :=
  _get_schema_by_name_or_id project_name_or_id projects.

Definition _get_user_schema (user_name_or_id : name_or_id) : M UserSchema.t :=
  _get_schema_by_name_or_id user_name_or_id users.

Definition _get_team_schema (team_name_or_id : name_or_id) : M TeamSchema.t :=
  _get_schema_by_name_or_id team_name_or_id teams.

Definition _get_role_schema (role_name_or_id : name_or_id) : M RoleSchema.t :=
  _get_schema_by_name_or_id role_name_or_id roles.

Definition _get_run_schema (run_name_or_id : name_or_id) : M PipelineRunSchema.t :=
  _get_schema_by_name_or_id run_name_or_id pipeline_runs.

(** A clause that is added to the query only when its value is there. *)
Definition where_ {A V} (value : option V) (clause : V -> A -> bool) (r : A) : bool :=
  match value with
  | Some v => clause v r
  | None => true
  end.

(** The project or user a filter names, when the filter is given: [None]
    when it is absent or empty. *)
Definition filter_schema {A} `{NamedSchema A} (value : option name_or_id)
  (schema_class : Store -> list A) : M (option A) :=
  match value with
  | Some v =>
    if truthy value
    then let* schema := _get_schema_by_name_or_id v schema_class in ret (Some schema)
    else ret None
  | None => ret None
  end.

(** ** Stacks *)

Definition fail_if_stack_with_id_already_exists (stack : StackModel.t) : M unit :=
  let* existing_id_stack :=
    first stacks (fun r => StackSchema.id r =? StackModel.id stack) in
  match existing_id_stack with
  | Some _ => raise StackExistsError
  | None => ret tt
  end.

Definition fail_if_stack_with_name_exists_for_user (stack : StackModel.t)
  (project : ProjectSchema.t) (user : UserSchema.t) : M unit :=
  let* existing_domain_stack :=
    first stacks
      (fun r => String.eqb (StackSchema.name r) (StackModel.name stack)
                && (StackSchema.project_id r =? StackModel.project stack)
                && (StackSchema.user_id r =? StackModel.user stack)) in
  match existing_domain_stack with
  | Some _ => raise StackExistsError
  | None => ret tt
  end.

Definition fail_if_stack_with_name_already_shared (stack : StackModel.t)
  (project : ProjectSchema.t) : M unit :=
  let* existing_shared_stack :=
    first stacks
      (fun r => String.eqb (StackSchema.name r) (StackModel.name stack)
                && (StackSchema.project_id r =? StackModel.project stack)
                && Bool.eqb (StackSchema.is_shared r) (StackModel.is_shared stack)) in
  match existing_shared_stack with
  | Some _ => raise StackExistsError
  | None => ret tt
  end.

Definition create_stack_block (stack : StackModel.t) : M StackModel.t :=
  let* project := _get_project_schema (Id (StackModel.project stack)) in
  let* user := _get_user_schema (Id (StackModel.user stack)) in
  let* _ := fail_if_stack_with_id_already_exists stack in
  let* _ := fail_if_stack_with_name_exists_for_user stack project user in
  let* _ := if StackModel.is_shared stack
            then fail_if_stack_with_name_already_shared stack project
            else ret tt in
  let component_ids := flat_map snd (StackModel.components stack) in
  let filters :=
    map (fun component_id r => StackComponentSchema.id r =? component_id) component_ids in
  let* defined_components := all stack_components (or_ filters) in
  let defined_component_ids := map StackComponentSchema.id defined_components in
  if (0 <? length component_ids)%nat
     && negb (length defined_component_ids =? length component_ids)%nat
  then raise KeyError
  else
    let stack_in_db := StackSchema_from_create_model stack in
    let* _ := add (fun s =>
                with_stack_compositions
                  (fun l => l ++ map (fun c => StackCompositionSchema.mk (StackModel.id stack)
                                                 (StackComponentSchema.id c))
                                   defined_components)
                  (with_stacks (fun l => l ++ [stack_in_db]) s)) in
    let* _ := commit in
    ret (StackSchema_to_model stack_in_db defined_components).

Definition create_stack (stack : StackModel.t) : Store -> Outcome StackModel.t :=
  with_Session (create_stack_block stack).

Definition update_stack_block (stack : StackModel.t) : M StackModel.t :=
  let* existing_stack := first stacks (fun r => StackSchema.id r =? StackModel.id stack) in
  match existing_stack with
  | None => raise KeyError
  | Some existing_stack =>
    if String.eqb (StackSchema.name existing_stack) DEFAULT_STACK_NAME
    then raise IllegalOperationError
    else
      let* _ :=
        if negb (String.eqb (StackSchema.name existing_stack) (StackModel.name stack))
        then
          let* project := _get_project_schema (Id (StackModel.project stack)) in
          let* user := _get_user_schema (Id (StackModel.user stack)) in
          fail_if_stack_with_name_exists_for_user stack project user
        else ret tt in
      let* _ :=
        if negb (StackSchema.is_shared existing_stack) && StackModel.is_shared stack
        then
          let* project := _get_project_schema (Id (StackModel.project stack)) in
          fail_if_stack_with_name_already_shared stack project
        else ret tt in
      let filters :=
        map (fun component_id r => StackComponentSchema.id r =? component_id)
          (flat_map snd (StackModel.components stack)) in
      let* defined_components := all stack_components (or_ filters) in
      let updated := StackSchema_from_update_model stack existing_stack in
      let* _ := add (fun s =>
                  with_stack_compositions
                    (fun l =>
                       List.filter
                         (fun link => negb (StackCompositionSchema.stack_id link
                                            =? StackSchema.id existing_stack)) l
                       ++ map (fun c => StackCompositionSchema.mk (StackSchema.id existing_stack)
                                          (StackComponentSchema.id c))
                            defined_components)
                    (with_stacks
                       (update_row StackSchema.id (StackSchema.id existing_stack)
                          (StackSchema_from_update_model stack)) s)) in
      let* _ := commit in
      ret (StackSchema_to_model updated defined_components)
  end.

Definition update_stack (stack : StackModel.t) : Store -> Outcome StackModel.t :=
  with_Session (update_stack_block stack).

(** ** Stack components *)

Definition fail_if_component_with_id_already_exists (component : ComponentModel.t) : M unit :=
  let* existing_id_component :=
    first stack_components (fun r => StackComponentSchema.id r =? ComponentModel.id component) in
  match existing_id_component with
  | Some _ => raise StackComponentExistsError
  | None => ret tt
  end.

Definition fail_if_component_with_name_type_exists_for_user (component : ComponentModel.t)
  (project : ProjectSchema.t) (user : UserSchema.t) : M unit :=
  let* existing_domain_component :=
    first stack_components
      (fun r => String.eqb (StackComponentSchema.name r) (ComponentModel.name component)
                && (StackComponentSchema.project_id r =? ComponentModel.project component)
                && (StackComponentSchema.user_id r =? ComponentModel.user component)
                && String.eqb (StackComponentSchema.type r) (ComponentModel.type component)) in
  match existing_domain_component with
  | Some _ => raise StackComponentExistsError
  | None => ret tt
  end.

Definition fail_if_component_with_name_type_already_shared (component : ComponentModel.t)
  (project : ProjectSchema.t) : M unit :=
  let* existing_shared_component :=
    first stack_components
      (fun r => String.eqb (StackComponentSchema.name r) (ComponentModel.name component)
                && (StackComponentSchema.project_id r =? ComponentModel.project component)
                && Bool.eqb (StackComponentSchema.is_shared r) (ComponentModel.is_shared component)
                && String.eqb (StackComponentSchema.type r) (ComponentModel.type component)) in
  match existing_shared_component with
  | Some _ => raise StackComponentExistsError
  | None => ret tt
  end.

Definition create_stack_component_block (component : ComponentModel.t) : M ComponentModel.t :=
  let* project := _get_project_schema (Id (ComponentModel.project component)) in
  let* user := _get_user_schema (Id (ComponentModel.user component)) in
  let* _ := fail_if_component_with_id_already_exists component in
  let* _ := fail_if_component_with_name_type_exists_for_user component project user in
  let* _ := if ComponentModel.is_shared component
            then fail_if_component_with_name_type_already_shared component project
            else ret tt in
  let component_in_db := StackComponentSchema_from_create_model component in
  let* _ := add (with_stack_components (fun l => l ++ [component_in_db])) in
  let* _ := commit in
  ret (StackComponentSchema_to_model component_in_db).

Definition create_stack_component (component : ComponentModel.t)
  : Store -> Outcome ComponentModel.t :=
  with_Session (create_stack_component_block component).

(** The guard on the two protected default components. *)
Definition is_default_component (r : StackComponentSchema.t) : bool :=
  String.eqb (StackComponentSchema.name r) DEFAULT_STACK_COMPONENT_NAME
  && (String.eqb (StackComponentSchema.type r) ORCHESTRATOR
      || String.eqb (StackComponentSchema.type r) ARTIFACT_STORE).

Definition update_stack_component_block (component : ComponentModel.t) : M ComponentModel.t :=
  let* existing_component :=
    first stack_components (fun r => StackComponentSchema.id r =? ComponentModel.id component) in
  match existing_component with
  | None => raise KeyError
  | Some existing_component =>
    if is_default_component existing_component
    then raise IllegalOperationError
    else
      let* _ :=
        if negb (String.eqb (StackComponentSchema.name existing_component)
                   (ComponentModel.name component))
        then
          let* project := _get_project_schema (Id (ComponentModel.project component)) in
          let* user := _get_user_schema (Id (ComponentModel.user component)) in
          fail_if_component_with_name_type_exists_for_user component project user
        else ret tt in
      let* _ :=
        if negb (StackComponentSchema.is_shared existing_component)
           && ComponentModel.is_shared component
        then
          let* project := _get_project_schema (Id (ComponentModel.project component)) in
          fail_if_component_with_name_type_already_shared component project
        else ret tt in
      let* _ := add (with_stack_components
                       (update_row StackComponentSchema.id
                          (StackComponentSchema.id existing_component)
                          (StackComponentSchema_from_update_model component))) in
      let* _ := commit in
      ret (StackComponentSchema_to_model
             (StackComponentSchema_from_update_model component existing_component))
  end.

Definition update_stack_component (component : ComponentModel.t)
  : Store -> Outcome ComponentModel.t :=
  with_Session (update_stack_component_block component).

(** ** Roles *)

(** [session.exec(select(T).where(p)).one_or_none()] *)
Definition one_or_none {A} (table : Store -> list A) (p : A -> bool) : M (option A) :=
  let* l := all table p in
  match l with
  | [] => ret None
  | [x] => ret (Some x)
  | _ => raise MultipleResultsFound
  end.

Definition create_role_block (role : RoleModel.t) : M RoleModel.t :=
  let* existing_role :=
    first roles (fun r => String.eqb (RoleSchema.name r) (RoleModel.name role)) in
  match existing_role with
  | Some _ => raise EntityExistsError
  | None =>
    let role_schema := RoleSchema_from_create_model role in
    let* _ := add (with_roles (fun l => l ++ [role_schema])) in
    let* _ := commit in
    let* _ := for_each (elements (RoleModel.permissions role))
                (fun p =>
                   add (with_role_permissions
                          (fun l => l ++ [RolePermissionSchema.mk p (RoleSchema.id role_schema)]))) in
    let* _ := commit in
    let* permissions :=
      all role_permissions
        (fun p => RolePermissionSchema.role_id p =? RoleSchema.id role_schema) in
    ret (RoleSchema_to_model role_schema permissions)
  end.

Definition create_role (role : RoleModel.t) : Store -> Outcome RoleModel.t :=
  with_Session (create_role_block role).

Definition update_role_block (role : RoleModel.t) : M RoleModel.t :=
  let* existing_role := first roles (fun r => RoleSchema.id r =? RoleModel.id role) in
  match existing_role with
  | None => raise KeyError
  | Some existing_role =>
    if String.eqb (RoleSchema.name existing_role) ADMIN_ROLE
       || String.eqb (RoleSchema.name existing_role) GUEST_ROLE
    then raise IllegalOperationError
    else
      let updated := RoleSchema_from_update_model role existing_role in
      let* _ := add (with_roles
                       (update_row RoleSchema.id (RoleSchema.id existing_role)
                          (RoleSchema_from_update_model role))) in
      let* _ := commit in
      let* permission_rows :=
        all role_permissions
          (fun p => RolePermissionSchema.role_id p =? RoleSchema.id existing_role) in
      let existing_permissions : gset string :=
        list_to_set (map RolePermissionSchema.name permission_rows) in
      let diff : gset string :=
        (existing_permissions ∖ RoleModel.permissions role)
        ∪ (RoleModel.permissions role ∖ existing_permissions) in
      let* _ := for_each (elements diff)
                  (fun permission =>
                     if negb (bool_decide (permission ∈ RoleModel.permissions role))
                     then
                       let* permission_to_delete :=
                         one_or_none role_permissions
                           (fun p => String.eqb (RolePermissionSchema.name p) permission
                                     && (RolePermissionSchema.role_id p
                                         =? RoleSchema.id existing_role)) in
                       match permission_to_delete with
                       | None => raise UnmappedInstanceError
                       | Some _ =>
                         add (with_role_permissions
                                (List.filter
                                   (fun p => negb (String.eqb (RolePermissionSchema.name p) permission
                                                   && (RolePermissionSchema.role_id p
                                                       =? RoleSchema.id existing_role)))))
                       end
                     else if negb (bool_decide (permission ∈ existing_permissions))
                     then
                       add (with_role_permissions
                              (fun l => l ++ [RolePermissionSchema.mk permission
                                                (RoleSchema.id existing_role)]))
                     else ret tt) in
      let* _ := commit in
      let* permissions :=
        all role_permissions
          (fun p => RolePermissionSchema.role_id p =? RoleSchema.id existing_role) in
      ret (RoleSchema_to_model updated permissions)
  end.

Definition update_role (role : RoleModel.t) : Store -> Outcome RoleModel.t :=
  with_Session (update_role_block role).

(** ** Role assignments *)

Definition _assign_role_to_user_block (role_name_or_id user_name_or_id : name_or_id)
  (project_name_or_id : option name_or_id) : M unit :=
  let* role := _get_role_schema role_name_or_id in
  let* project := filter_schema project_name_or_id projects in
  let* user := _get_user_schema user_name_or_id in
  let* existing_role_assignment :=
    first user_role_assignments
      (fun a => (UserRoleAssignmentSchema.user_id a =? UserSchema.id user)
                && (UserRoleAssignmentSchema.role_id a =? RoleSchema.id role)
                && match project with
                   | Some project =>
                     col_eqb (UserRoleAssignmentSchema.project_id a) (ProjectSchema.id project)
                   | None => true
                   end) in
  match existing_role_assignment with
  | Some _ => raise EntityExistsError
  | None =>
    let role_assignment :=
      UserRoleAssignmentSchema.mk (RoleSchema.id role) (UserSchema.id user)
        (option_map ProjectSchema.id project) in
    let* _ := add (with_user_role_assignments (fun l => l ++ [role_assignment])) in
    commit
  end.

Definition _assign_role_to_user (role_name_or_id user_name_or_id : name_or_id)
  (project_name_or_id : option name_or_id)
  : Store -> Outcome unit :=
  with_Session (_assign_role_to_user_block role_name_or_id user_name_or_id project_name_or_id).

Definition _assign_role_to_team_block (role_name_or_id team_name_or_id : name_or_id)
  (project_name_or_id : option name_or_id) : M unit :=
  let* role := _get_role_schema role_name_or_id in
  let* project := filter_schema project_name_or_id projects in
  let* team := _get_team_schema team_name_or_id in
  let* existing_role_assignment :=
    first team_role_assignments
      (fun a => (TeamRoleAssignmentSchema.team_id a =? TeamSchema.id team)
                && (TeamRoleAssignmentSchema.role_id a =? RoleSchema.id role)
                && match project with
                   | Some project =>
                     col_eqb (TeamRoleAssignmentSchema.project_id a) (ProjectSchema.id project)
                   | None => true
                   end) in
  match existing_role_assignment with
  | Some _ => raise EntityExistsError
  | None =>
    let role_assignment :=
      TeamRoleAssignmentSchema.mk (RoleSchema.id role) (TeamSchema.id team)
        (option_map ProjectSchema.id project) in
    let* _ := add (with_team_role_assignments (fun l => l ++ [role_assignment])) in
    commit
  end.

Definition _assign_role_to_team (role_name_or_id team_name_or_id : name_or_id)
  (project_name_or_id : option name_or_id)
  : Store -> Outcome unit :=
  with_Session (_assign_role_to_team_block role_name_or_id team_name_or_id project_name_or_id).

Definition assign_role (role_name_or_id user_or_team_name_or_id : name_or_id)
  (project_name_or_id : option name_or_id) (is_user : bool) : Store -> Outcome unit :=
  if is_user
  then _assign_role_to_user role_name_or_id user_or_team_name_or_id project_name_or_id
  else _assign_role_to_team role_name_or_id user_or_team_name_or_id project_name_or_id.

(** ** Pipeline runs *)

(** The lookup of a reference that may dangle: the reference is kept when
    the row exists and dropped otherwise. *)
Definition existing_reference {A} (table : Store -> list A) (pk : A -> UUID)
  (reference : option UUID) : M (option UUID) :=
  match reference with
  | None => ret None
  | Some i =>
    let* row := first table (fun r => pk r =? i) in
    match row with
    | None => ret None
    | Some _ => ret (Some i)
    end
  end.

Definition create_run_block (pipeline_run : PipelineRunModel.t) : M PipelineRunModel.t :=
  let* existing_domain_run :=
    first pipeline_runs
      (fun r => String.eqb (PipelineRunSchema.name r) (PipelineRunModel.name pipeline_run)) in
  match existing_domain_run with
  | Some _ => raise EntityExistsError
  | None =>
    let* existing_id_run :=
      first pipeline_runs
        (fun r => PipelineRunSchema.id r =? PipelineRunModel.id pipeline_run) in
    match existing_id_run with
    | Some _ => raise EntityExistsError
    | None =>
      let* stack_id :=
        existing_reference stacks StackSchema.id (PipelineRunModel.stack_id pipeline_run) in
      let* pipeline_id :=
        existing_reference pipelines PipelineSchema.id
          (PipelineRunModel.pipeline_id pipeline_run) in
      let new_run :=
        PipelineRunSchema_from_create_model
          (with_references pipeline_run stack_id pipeline_id) in
      let* _ := add (with_pipeline_runs (fun l => l ++ [new_run])) in
      let* _ := commit in
      ret (PipelineRunSchema_to_model new_run)
    end
  end.

Definition create_run (pipeline_run : PipelineRunModel.t) : Store -> Outcome PipelineRunModel.t :=
  with_Session (create_run_block pipeline_run).

Definition get_run (run_name_or_id : name_or_id) : Store -> Outcome PipelineRunModel.t :=
  with_Session (
    let* run := _get_run_schema run_name_or_id in
    ret (PipelineRunSchema_to_model run)).

(** [try: create_run except EntityExistsError: try: get_run(id) except
    KeyError: get_run(name)] *)
Definition get_or_create_run (pipeline_run : PipelineRunModel.t) (s : Store)
  : Outcome PipelineRunModel.t :=
  let created := create_run pipeline_run s in
  match returned created with
  | Ok _ => created
  | Raise e =>
    if AlreadyExists e
    then
      let by_id := get_run (Id (PipelineRunModel.id pipeline_run)) (store created) in
      match returned by_id with
      | Raise KeyError =>
        after created
          (after by_id
             (get_run (Name (PipelineRunModel.name pipeline_run)) (store by_id)))
      | _ => after created by_id
      end
    else created
  end.

(** ** Listing *)

(** The rows of [select(StackSchema)] with the clauses that join the
    composition table: one row per pair of a stack and a link of it to the
    component. *)
Definition stacks_with_component (component_id : UUID) (s : Store) : list StackSchema.t :=
  flat_map
    (fun st =>
       map (fun _ => st)
         (List.filter
            (fun link => (StackCompositionSchema.stack_id link =? StackSchema.id st)
                         && (StackCompositionSchema.component_id link =? component_id))
            (stack_compositions s)))
    (stacks s).

(** [list_stacks] with [hydrated=False]. *)
Definition list_stacks (project_name_or_id user_name_or_id : option name_or_id)
  (component_id : option UUID) (name : option string) (is_shared : option bool)
  : Store -> Outcome (list StackModel.t) :=
  with_Session (
    let* project := filter_schema project_name_or_id projects in
    let* user := filter_schema user_name_or_id users in
    let* s := database in
    let source :=
      match component_id with
      | Some component_id => stacks_with_component component_id s
      | None => stacks s
      end in
    let stacks :=
      order_by StackSchema.name
        (List.filter
           (fun r =>
              where_ project (fun p r => StackSchema.project_id r =? ProjectSchema.id p) r
              && where_ user (fun u r => StackSchema.user_id r =? UserSchema.id u) r
              && where_ (if truthy_str name then name else None)
                   (fun n r => String.eqb (StackSchema.name r) n) r
              && where_ is_shared (fun b r => Bool.eqb (StackSchema.is_shared r) b) r)
           source) in
    ret (map (fun stack => StackSchema_to_model stack (components_of s (StackSchema.id stack)))
           stacks)).

Definition list_stack_components (project_name_or_id user_name_or_id : option name_or_id)
  (type flavor_name name : option string) (is_shared : option bool)
  : Store -> Outcome (list ComponentModel.t) :=
  with_Session (
    let* project := filter_schema project_name_or_id projects in
    let* user := filter_schema user_name_or_id users in
    let* list_of_stack_components_in_db :=
      all stack_components
        (fun r =>
           where_ project (fun p r => StackComponentSchema.project_id r =? ProjectSchema.id p) r
           && where_ user (fun u r => StackComponentSchema.user_id r =? UserSchema.id u) r
           && where_ (if truthy_str type then type else None)
                (fun t r => String.eqb (StackComponentSchema.type r) t) r
           && where_ (if truthy_str flavor_name then flavor_name else None)
                (fun f r => String.eqb (StackComponentSchema.flavor r) f) r
           && where_ (if truthy_str name then name else None)
                (fun n r => String.eqb (StackComponentSchema.name r) n) r
           && where_ is_shared (fun b r => Bool.eqb (StackComponentSchema.is_shared r) b) r) in
    ret (map StackComponentSchema_to_model list_of_stack_components_in_db)).

(** [list_artifacts] *)
Definition list_artifacts (artifact_uri : option string) : Store -> Outcome (list ArtifactSchema.t) :=
  with_Session (
    all artifacts
      (where_ artifact_uri (fun uri r => String.eqb (ArtifactSchema.uri r) uri))).

End Resolver.

(** ** The secret values codec

    A Python [str] is a sequence of code points, each below 0x110000; a
    surrogate (0xD800 to 0xDFFF) is a code point like any other and may
    stand alone in a [str].  [bytes] are strings of 8-bit units.  (The
    names in the tables of the store, which are only compared, stay
    [string]s.)  The mapping of a secret is a finite map; the order in
    which [json.dumps] writes the items matters neither to the length of
    the text nor to the equality of mappings. *)

Definition str : Type := list N.

(** [ord(c)] of an ASCII character. *)
Definition ord (c : ascii) : N := N_of_ascii c.

(** The [str] of an ASCII literal. *)
Definition text (s : string) : str := map ord (list_ascii_of_string s).

(** Every code point of a [str] is one [chr] accepts. *)
Definition is_str (s : str) : Prop := Forall (fun c => c < 0x110000) s.

Definition is_ascii (s : str) : Prop := Forall (fun c => c < 128) s.

Definition is_high_surrogate (c : N) : bool := (0xD800 <=? c) && (c <=? 0xDBFF).
Definition is_low_surrogate (c : N) : bool := (0xDC00 <=? c) && (c <=? 0xDFFF).

(** No high surrogate of the [str] is directly followed by a low one. *)
Fixpoint no_surrogate_pair (s : str) : bool :=
  match s with
  | c :: r =>
    match r with
    | c' :: _ => negb (is_high_surrogate c && is_low_surrogate c')
    | [] => true
    end && no_surrogate_pair r
  | [] => true
  end.

Definition DQUOTE : N := 34.
Definition BACKSLASH : N := 92.

Definition hex_digit (n : N) : N :=
  if n <? 10 then ord "0" + n else ord "a" + (n - 10).

Definition hex_value (c : N) : option N :=
  if (ord "0" <=? c) && (c <=? ord "9") then Some (c - ord "0")
  else if (ord "a" <=? c) && (c <=? ord "f") then Some (c - ord "a" + 10)
  else if (ord "A" <=? c) && (c <=? ord "F") then Some (c - ord "A" + 10)
  else None.

(** ['{0:04x}'.format(n)] for [n] below 0x10000. *)
Definition format_04x (n : N) : str :=
  [hex_digit (N.shiftr n 12 mod 16); hex_digit (N.shiftr n 8 mod 16);
   hex_digit (N.shiftr n 4 mod 16); hex_digit (n mod 16)].

Definition u_escape (n : N) : str := BACKSLASH :: ord "u" :: format_04x n.

(** [json.dumps] with its defaults ([ensure_ascii]): the quote, the
    backslash and every character outside the printable ASCII range are
    escaped, a code point from 0x10000 on as the two surrogates of its
    UTF-16 form. *)
Definition escape_char (n : N) : str :=
  if n =? DQUOTE then [BACKSLASH; DQUOTE]
  else if n =? BACKSLASH then [BACKSLASH; BACKSLASH]
  else if n =? 10 then [BACKSLASH; ord "n"]
  else if n =? 13 then [BACKSLASH; ord "r"]
  else if n =? 9 then [BACKSLASH; ord "t"]
  else if n =? 8 then [BACKSLASH; ord "b"]
  else if n =? 12 then [BACKSLASH; ord "f"]
  else if (32 <=? n) && (n <=? 126) then [n]
  else if n <? 0x10000 then u_escape n
  else
    let n := n - 0x10000 in
    let s1 := N.lor 0xd800 (N.land (N.shiftr n 10) 0x3ff) in
    let s2 := N.lor 0xdc00 (N.land n 0x3ff) in
    u_escape s1 ++ u_escape s2.

Fixpoint escape (s : str) : str :=
  match s with
  | [] => []
  | c :: r => escape_char c ++ escape r
  end.

Definition json_string (s : str) : str := DQUOTE :: escape s ++ [DQUOTE].

Definition dump_item (kv : str * str) : str :=
  json_string (fst kv) ++ text ": " ++ json_string (snd kv).

Fixpoint join_items (l : list (str * str)) : str :=
  match l with
  | [] => []
  | [kv] => dump_item kv
  | kv :: l' => dump_item kv ++ text ", " ++ join_items l'
  end.

Definition json_dumps (values : gmap str str) : str :=
  text "{" ++ join_items (map_to_list values) ++ text "}".

(** [json.loads] on the texts that denote a [Dict[str, str]]; [None] stands
    for a [JSONDecodeError] and for a document of another shape. *)
Definition is_whitespace (c : N) : bool :=
  (c =? 32) || (c =? 9) || (c =? 10) || (c =? 13).

Fixpoint skip_whitespace (s : str) : str :=
  match s with
  | [] => []
  | c :: r => if is_whitespace c then skip_whitespace r else s
  end.

Definition unescape (c : N) : option N :=
  if c =? DQUOTE then Some DQUOTE
  else if c =? BACKSLASH then Some BACKSLASH
  else if c =? ord "/" then Some (ord "/")
  else if c =? ord "b" then Some 8
  else if c =? ord "f" then Some 12
  else if c =? ord "n" then Some 10
  else if c =? ord "r" then Some 13
  else if c =? ord "t" then Some 9
  else None.

(** The four hex digits of a [\u] escape. *)
Definition code_point (h1 h2 h3 h4 : N) : option N :=
  match hex_value h1, hex_value h2, hex_value h3, hex_value h4 with
  | Some a, Some b, Some c, Some d =>
    Some (N.lor (N.shiftl (N.lor (N.shiftl (N.lor (N.shiftl a 4) b) 4) c) 4) d)
  | _, _, _, _ => None
  end.

Definition join_surrogates (high low : N) : N :=
  N.lor (N.shiftl (N.land high 0x03FF) 10) (N.land low 0x03FF) + 0x10000.

(** The text of a string after its opening quote: the string and what
    follows its closing quote.  A [\u] escape of a high surrogate that is
    directly followed by a [\u] escape of a low surrogate is read with it
    as one code point. *)
Fixpoint scanstring (s : str) : option (str * str) :=
  match s with
  | [] => None
  | c :: r =>
    if c =? DQUOTE then Some ([], r)
    else if c =? BACKSLASH then
      match r with
      | [] => None
      | e :: r' =>
        if e =? ord "u" then
          match r' with
          | h1 :: h2 :: h3 :: h4 :: r'' =>
            match code_point h1 h2 h3 h4 with
            | Some c =>
              let alone :=
                match scanstring r'' with
                | Some (t, rest) => Some (c :: t, rest)
                | None => None
                end in
              if is_high_surrogate c then
                match r'' with
                | b :: u :: g1 :: g2 :: g3 :: g4 :: r''' =>
                  if (b =? BACKSLASH) && (u =? ord "u") then
                    match code_point g1 g2 g3 g4 with
                    | Some c2 =>
                      if is_low_surrogate c2 then
                        match scanstring r''' with
                        | Some (t, rest) => Some (join_surrogates c c2 :: t, rest)
                        | None => None
                        end
                      else alone
                    | None => None
                    end
                  else alone
                | _ => alone
                end
              else alone
            | None => None
            end
          | _ => None
          end
        else
          match unescape e with
          | Some d =>
            match scanstring r' with
            | Some (t, rest) => Some (d :: t, rest)
            | None => None
            end
          | None => None
          end
      end
    else if c <? 32 then None
    else
      match scanstring r with
      | Some (t, rest) => Some (c :: t, rest)
      | None => None
      end
  end.

(** The items of an object from the opening quote of a key on, up to and
    with the closing brace. *)
Fixpoint scan_items (fuel : nat) (s : str) : option (list (str * str) * str) :=
  match fuel with
  | O => None
  | S fuel' =>
    match s with
    | q :: r =>
      if q =? DQUOTE then
        match scanstring r with
        | Some (k, r1) =>
          match skip_whitespace r1 with
          | colon :: r2 =>
            if colon =? ord ":" then
              match skip_whitespace r2 with
              | q' :: r3 =>
                if q' =? DQUOTE then
                  match scanstring r3 with
                  | Some (v, r4) =>
                    match skip_whitespace r4 with
                    | sep :: r5 =>
                      if sep =? ord "}" then Some ([(k, v)], r5)
                      else if sep =? ord "," then
                        match scan_items fuel' (skip_whitespace r5) with
                        | Some (l, rest) => Some ((k, v) :: l, rest)
                        | None => None
                        end
                      else None
                    | [] => None
                    end
                  | None => None
                  end
                else None
              | [] => None
              end
            else None
          | [] => None
          end
        | None => None
        end
      else None
    | [] => None
    end
  end.

(** A later item replaces an earlier one of the same key. *)
Definition dict_of_items (l : list (str * str)) : gmap str str :=
  fold_left (fun d kv => <[fst kv := snd kv]> d) l ∅.

Definition json_loads (s : str) : option (gmap str str) :=
  match skip_whitespace s with
  | brace :: r =>
    if brace =? ord "{" then
      match skip_whitespace r with
      | c :: r' =>
        if c =? ord "}"
        then match skip_whitespace r' with
             | [] => Some ∅
             | _ => None
             end
        else
          match scan_items (length s) (c :: r') with
          | Some (l, rest) =>
            match skip_whitespace rest with
            | [] => Some (dict_of_items l)
            | _ => None
            end
          | None => None
          end
      | [] => None
      end
    else None
  | [] => None
  end.

(** [str.encode("utf-8")]: one to four bytes for a code point; [None]
    stands for the [UnicodeEncodeError] a surrogate raises. *)
Definition byte (n : N) : ascii := ascii_of_N n.

Definition utf8_encode_char (c : N) : option string :=
  if c <? 0x80 then Some (String (byte c) "")
  else if c <? 0x800 then
    Some (String (byte (N.lor 0xC0 (N.shiftr c 6)))
            (String (byte (N.lor 0x80 (N.land c 0x3F))) ""))
  else if (0xD800 <=? c) && (c <=? 0xDFFF) then None
  else if c <? 0x10000 then
    Some (String (byte (N.lor 0xE0 (N.shiftr c 12)))
            (String (byte (N.lor 0x80 (N.land (N.shiftr c 6) 0x3F)))
               (String (byte (N.lor 0x80 (N.land c 0x3F))) "")))
  else if c <? 0x110000 then
    Some (String (byte (N.lor 0xF0 (N.shiftr c 18)))
            (String (byte (N.lor 0x80 (N.land (N.shiftr c 12) 0x3F)))
               (String (byte (N.lor 0x80 (N.land (N.shiftr c 6) 0x3F)))
                  (String (byte (N.lor 0x80 (N.land c 0x3F))) ""))))
  else None.

Fixpoint utf8_encode (s : str) : option string :=
  match s with
  | [] => Some ""
  | c :: r =>
    match utf8_encode_char c, utf8_encode r with
    | Some b, Some t => Some (b ++ t)%string
    | _, _ => None
    end
  end.

(** A byte 10xxxxxx. *)
Definition is_continuation (n : N) : bool := (0x80 <=? n) && (n <=? 0xBF).

(** [bytes.decode()]: strict UTF-8; [None] stands for the
    [UnicodeDecodeError] raised on a byte that starts no character, a
    character cut short, one written longer than it need be, a surrogate
    and a code point from 0x110000 on. *)
Fixpoint utf8_decode (b : string) : option str :=
  match b with
  | EmptyString => Some []
  | String ch r =>
    let c := N_of_ascii ch in
    if c <? 0x80 then
      match utf8_decode r with
      | Some t => Some (c :: t)
      | None => None
      end
    else if c <? 0xC2 then None
    else if c <? 0xE0 then
      match r with
      | String ch2 r' =>
        let c2 := N_of_ascii ch2 in
        if is_continuation c2 then
          match utf8_decode r' with
          | Some t => Some (N.lor (N.shiftl (N.land c 0x1F) 6) (N.land c2 0x3F) :: t)
          | None => None
          end
        else None
      | _ => None
      end
    else if c <? 0xF0 then
      match r with
      | String ch2 (String ch3 r') =>
        let c2 := N_of_ascii ch2 in
        let c3 := N_of_ascii ch3 in
        if is_continuation c2 && is_continuation c3
           && negb ((c =? 0xE0) && (c2 <? 0xA0))
           && negb ((c =? 0xED) && (0xA0 <=? c2))
        then
          match utf8_decode r' with
          | Some t =>
            Some (N.lor (N.shiftl (N.land c 0x0F) 12)
                    (N.lor (N.shiftl (N.land c2 0x3F) 6) (N.land c3 0x3F)) :: t)
          | None => None
          end
        else None
      | _ => None
      end
    else if c <? 0xF5 then
      match r with
      | String ch2 (String ch3 (String ch4 r')) =>
        let c2 := N_of_ascii ch2 in
        let c3 := N_of_ascii ch3 in
        let c4 := N_of_ascii ch4 in
        if is_continuation c2 && is_continuation c3 && is_continuation c4
           && negb ((c =? 0xF0) && (c2 <? 0x90))
           && negb ((c =? 0xF4) && (0x90 <=? c2))
        then
          match utf8_decode r' with
          | Some t =>
            Some (N.lor (N.shiftl (N.land c 0x07) 18)
                    (N.lor (N.shiftl (N.land c2 0x3F) 12)
                       (N.lor (N.shiftl (N.land c3 0x3F) 6) (N.land c4 0x3F))) :: t)
          | None => None
          end
        else None
      | _ => None
      end
    else None
  end.

(** Base64 of RFC 4648: three bytes are four groups of six bits, most
    significant bit first. *)
Definition sextet : Type := bool * bool * bool * bool * bool * bool.

Definition sextet_value (x : sextet) : N :=
  let '(b5, b4, b3, b2, b1, b0) := x in
  N.b2n b5 * 32 + N.b2n b4 * 16 + N.b2n b3 * 8 + N.b2n b2 * 4 + N.b2n b1 * 2 + N.b2n b0.

Definition sextet_of_value (n : N) : sextet :=
  (N.testbit n 5, N.testbit n 4, N.testbit n 3, N.testbit n 2, N.testbit n 1, N.testbit n 0).

Definition b64_char (x : sextet) : ascii :=
  let n := sextet_value x in
  if n <? 26 then ascii_of_N (65 + n)
  else if n <? 52 then ascii_of_N (71 + n)
  else if n <? 62 then ascii_of_N (n - 4)
  else if n =? 62 then "+"%char
  else "/"%char.

Definition b64_value (c : ascii) : option sextet :=
  let n := N_of_ascii c in
  if (65 <=? n) && (n <=? 90) then Some (sextet_of_value (n - 65))
  else if (97 <=? n) && (n <=? 122) then Some (sextet_of_value (n - 71))
  else if (48 <=? n) && (n <=? 57) then Some (sextet_of_value (n + 4))
  else if n =? 43 then Some (sextet_of_value 62)
  else if n =? 47 then Some (sextet_of_value 63)
  else None.

Definition PAD : ascii := "="%char.

Fixpoint b64encode (b : string) : string :=
  match b with
  | EmptyString => EmptyString
  | String (Ascii a0 a1 a2 a3 a4 a5 a6 a7) EmptyString =>
    String (b64_char (a7, a6, a5, a4, a3, a2))
      (String (b64_char (a1, a0, false, false, false, false))
         (String PAD (String PAD EmptyString)))
  | String (Ascii a0 a1 a2 a3 a4 a5 a6 a7)
      (String (Ascii b0 b1 b2 b3 b4 b5 b6 b7) EmptyString) =>
    String (b64_char (a7, a6, a5, a4, a3, a2))
      (String (b64_char (a1, a0, b7, b6, b5, b4))
         (String (b64_char (b3, b2, b1, b0, false, false))
            (String PAD EmptyString)))
  | String (Ascii a0 a1 a2 a3 a4 a5 a6 a7)
      (String (Ascii b0 b1 b2 b3 b4 b5 b6 b7)
         (String (Ascii c0 c1 c2 c3 c4 c5 c6 c7) r)) =>
    String (b64_char (a7, a6, a5, a4, a3, a2))
      (String (b64_char (a1, a0, b7, b6, b5, b4))
         (String (b64_char (b3, b2, b1, b0, c7, c6))
            (String (b64_char (c5, c4, c3, c2, c1, c0)) (b64encode r))))
  end.

(** The bytes of a group that padding closes after two or three
    characters; the bits of the last character that fill no byte are
    dropped. *)
Definition bytes_of_open_quad (quad : list sextet) : string :=
  match quad with
  | [(a7, a6, a5, a4, a3, a2); (a1, a0, _, _, _, _)] =>
    String (Ascii a0 a1 a2 a3 a4 a5 a6 a7) EmptyString
  | [(a7, a6, a5, a4, a3, a2); (a1, a0, b7, b6, b5, b4); (b3, b2, b1, b0, _, _)] =>
    String (Ascii a0 a1 a2 a3 a4 a5 a6 a7)
      (String (Ascii b0 b1 b2 b3 b4 b5 b6 b7) EmptyString)
  | _ => EmptyString
  end.

(** [binascii.a2b_base64] without [strict_mode]: a character outside the
    alphabet is discarded, padding that fills the group being read up to
    four characters ends the data (what follows is not read), other padding
    is discarded, and data that ends inside a group is an error.  [quad]
    holds the characters of the group being read, [pads] counts the padding
    seen since the last of them; [None] stands for [binascii.Error]. *)
Fixpoint a2b_base64 (s : string) (quad : list sextet) (pads : nat) : option string :=
  match s with
  | EmptyString =>
    match quad with
    | [] => Some EmptyString
    | _ => None
    end
  | String this_ch r =>
    if Ascii.eqb this_ch PAD then
      if (2 <=? length quad)%nat && (4 <=? length quad + S pads)%nat
      then Some (bytes_of_open_quad quad)
      else a2b_base64 r quad (if (2 <=? length quad)%nat then S pads else pads)
    else
      match b64_value this_ch with
      | None => a2b_base64 r quad pads
      | Some x =>
        match quad with
        | [(a7, a6, a5, a4, a3, a2); (a1, a0, b7, b6, b5, b4); (b3, b2, b1, b0, c7, c6)] =>
          let '(c5, c4, c3, c2, c1, c0) := x in
          match a2b_base64 r [] 0 with
          | Some t =>
            Some (String (Ascii a0 a1 a2 a3 a4 a5 a6 a7)
                    (String (Ascii b0 b1 b2 b3 b4 b5 b6 b7)
                       (String (Ascii c0 c1 c2 c3 c4 c5 c6 c7) t)))
          | None => None
          end
        | _ => a2b_base64 r (quad ++ [x]) 0
        end
      end
  end.

(** [base64.b64decode(s)] with its defaults. *)
Definition b64decode (s : string) : option string := a2b_base64 s [] 0.

(** Modelled from the spec: the encryption engine, an external collaborator
    with [encrypt(plaintext) -> bytes] and [decrypt(bytes) -> plaintext];
    an engine value stands for a key together with the nonces it draws, and
    [decrypt] is [None] when the engine rejects the bytes. *)
Record AesGcmEngine := {
  encrypt : str -> string;
  decrypt : string -> option str
}.

(** Decrypting with the key that encrypted returns the plaintext; the law
    is asked of ASCII plaintexts, which is what [json.dumps] hands to the
    engine. *)
Definition same_key (engine : AesGcmEngine) : Prop :=
  forall plaintext,
    is_ascii plaintext -> decrypt engine (encrypt engine plaintext) = Some plaintext.

Section SecretSchema.

(** Modelled from the spec: [TEXT_FIELD_MAX_LENGTH] of [zenml.constants],
    the fixed capacity of the text column. *)
Variable TEXT_FIELD_MAX_LENGTH : N.

(** The bytes [_dump_secret_values] measures and returns. *)
Definition encrypted_values (values : gmap str str)
  (encryption_engine : option AesGcmEngine) : result string :=
  let serialized_values := json_dumps values in
  match encryption_engine with
  | None =>
    match utf8_encode serialized_values with
    | Some bytes => Ok (b64encode bytes)
    | None => Raise DecodeError
    end
  | Some engine => Ok (encrypt engine serialized_values)
  end.

Definition _dump_secret_values (values : gmap str str)
  (encryption_engine : option AesGcmEngine) : result string :=
  match encrypted_values values encryption_engine with
  | Ok encrypted_values =>
    if TEXT_FIELD_MAX_LENGTH <? N.of_nat (String.length encrypted_values)
    then Raise ValueError
    else Ok encrypted_values
  | Raise e => Raise e
  end.

(** [cast] checks nothing: the value of a JSON document of another shape
    than [Dict[str, str]], which the code returns as it is, has no place in
    the type of the mapping and is [DecodeError] here, like bytes and text
    the libraries refuse. *)
Definition _load_secret_values (encrypted_values : string)
  (encryption_engine : option AesGcmEngine) : result (gmap str str) :=
  let serialized_values :=
    match encryption_engine with
    | None =>
      match b64decode encrypted_values with
      | Some bytes => utf8_decode bytes
      | None => None
      end
    | Some engine => decrypt engine encrypted_values
    end in
  match serialized_values with
  | Some serialized_values =>
    match json_loads serialized_values with
    | Some values => Ok values
    | None => Raise DecodeError
    end
  | None => Raise DecodeError
  end.

End SecretSchema.

(** ** Vocabulary of the codec statements *)

(** The text starts with a [\u] escape that [scanstring], having read a
    high surrogate, does not leave for the next character: the escape of a
    low surrogate, or one whose digits are not hexadecimal. *)
Definition escaped_low_surrogate (s : str) : bool :=
  match s with
  | b :: u :: g1 :: g2 :: g3 :: g4 :: _ =>
    (b =? BACKSLASH) && (u =? ord "u")
    && match code_point g1 g2 g3 g4 with
       | Some c2 => is_low_surrogate c2
       | None => true
       end
  | _ => false
  end.

(** The keys and the values of the mapping are [str]. *)
Definition str_values (values : gmap str str) : Prop :=
  forall k v, values !! k = Some v -> is_str k /\ is_str v.

(** No key and no value of the mapping holds a high surrogate directly
    followed by a low one. *)
Definition no_surrogate_pairs (values : gmap str str) : Prop :=
  forall k v, values !! k = Some v ->
    no_surrogate_pair k = true /\ no_surrogate_pair v = true.

(** The bytes of an ASCII text. *)
Definition ascii_bytes (t : str) : string := string_of_list_ascii (map byte t).

(** ** The configuration of the store *)

Definition ZENML_SQLITE_DB_FILENAME : string := "zenml.db".

(** [s.startswith(prefix)] *)
Fixpoint startswith (s prefix : string) {struct prefix} : bool :=
  match prefix, s with
  | EmptyString, _ => true
  | String c prefix', String d s' => Ascii.eqb c d && startswith s' prefix'
  | String _ _, EmptyString => false
  end.

(** [s[n:]] *)
Fixpoint slice_from (n : nat) (s : string) : string :=
  match n, s with
  | O, _ => s
  | S n', String _ s' => slice_from n' s'
  | S _, EmptyString => EmptyString
  end.

Definition get_local_url (path : string) : string :=
  "sqlite:///" +:+ path +:+ "/" +:+ ZENML_SQLITE_DB_FILENAME.

Definition get_local_path (url : string) : option string :=
  let sqlite_prefix := "sqlite:///" in
  if negb (startswith url sqlite_prefix)
  then None
  else Some (slice_from (String.length sqlite_prefix) url).

(** ** The secret row and its values *)

(** Modelled from the spec: [SecretScope] of [zenml.enums], a string
    enumeration. *)
Definition SecretScope := string.

Module SecretSchema.
Record t := mk {
  id : UUID;
  name : string;
  scope : SecretScope;
  workspace_id : UUID;
  user_id : UUID;
  values : option string
}.
End SecretSchema.

(** [self.values = v] *)
Definition with_values (v : option string) (self : SecretSchema.t) : SecretSchema.t :=
  SecretSchema.mk (SecretSchema.id self) (SecretSchema.name self) (SecretSchema.scope self)
    (SecretSchema.workspace_id self) (SecretSchema.user_id self) v.

(** Python truth value of an [Optional[bytes]]. *)
Definition truthy_bytes (a : option string) : bool :=
  match a with
  | None => false
  | Some b => negb (String.eqb b "")
  end.

Section SecretValues.

Variable TEXT_FIELD_MAX_LENGTH : N.

Definition get_secret_values (self : SecretSchema.t) (encryption_engine : option AesGcmEngine)
  : result (gmap str str) :=
  match SecretSchema.values self with
  | Some values =>
    if truthy_bytes (SecretSchema.values self)
    then _load_secret_values values encryption_engine
    else Raise KeyError
  | None => Raise KeyError
  end.

(** The row after the call, or the error that left it as it was. *)
Definition set_secret_values (self : SecretSchema.t) (secret_values : gmap str str)
  (encryption_engine : option AesGcmEngine) : result SecretSchema.t :=
  match _dump_secret_values TEXT_FIELD_MAX_LENGTH secret_values encryption_engine with
  | Ok values => Ok (with_values (Some values) self)
  | Raise e => Raise e
  end.

End SecretValues.

(** ** Queries and deletions of the remaining methods *)

(** [session.exec(select(T).where(p)).one()].  [None] stands for the
    [NoResultFound] of an empty result, which every caller catches and
    turns into a [KeyError]. *)
Definition one {A} (table : Store -> list A) (p : A -> bool) : M (option A) :=
  let* l := all table p in
  match l with
  | [] => ret None
  | [x] => ret (Some x)
  | _ => raise MultipleResultsFound
  end.

(** The [DELETE] a flush issues for [session.delete(row)]: by primary
    key. *)
Definition delete_row {A} (pk : A -> UUID) (key : UUID) : list A -> list A :=
  List.filter (fun r => negb (pk r =? key)).

(** [session.delete(row)] for the row a [.first()] query returned, on the
    tables whose rows are kept without their id: the first row that
    satisfies the query goes. *)
Fixpoint delete_first {A} (p : A -> bool) (l : list A) : list A :=
  match l with
  | [] => []
  | x :: l' => if p x then l' else x :: delete_first p l'
  end.

(** The results of a list comprehension over calls that open sessions of
    their own. *)
Fixpoint collect {A B} (l : list A) (f : A -> M B) : M (list B) :=
  match l with
  | [] => ret []
  | x :: l' =>
    let* y := f x in
    let* ys := collect l' f in
    ret (y :: ys)
  end.

Module ProjectModel.
Record t := mk { id : UUID; name : string }.
End ProjectModel.

Module UserModel.
Record t := mk {
  id : UUID;
  name : string;
  email : option string;
  email_opted_in : option bool
}.
End UserModel.

Module TeamModel.
Record t := mk { id : UUID; name : string }.
End TeamModel.

(** Modelled from the spec: the conversions of [ProjectSchema], [UserSchema]
    and [TeamSchema], which live in the schema package.  Of the fields of
    these entities the store itself reads the id and the name only, and of
    a user it writes the e-mail address and the answer to the e-mail prompt;
    a new row copies them from the model, and an update overwrites the name
    and leaves the e-mail columns, which [user_email_opt_in] sets. *)
Definition ProjectSchema_from_create_model (m : ProjectModel.t) : ProjectSchema.t :=
  ProjectSchema.mk (ProjectModel.id m) (ProjectModel.name m).

Definition ProjectSchema_from_update_model (m : ProjectModel.t) (r : ProjectSchema.t)
  : ProjectSchema.t :=
  ProjectSchema.mk (ProjectSchema.id r) (ProjectModel.name m).

Definition ProjectSchema_to_model (r : ProjectSchema.t) : ProjectModel.t :=
  ProjectModel.mk (ProjectSchema.id r) (ProjectSchema.name r).

Definition UserSchema_from_create_model (m : UserModel.t) : UserSchema.t :=
  UserSchema.mk (UserModel.id m) (UserModel.name m) (UserModel.email m)
    (UserModel.email_opted_in m).

Definition UserSchema_from_update_model (m : UserModel.t) (r : UserSchema.t) : UserSchema.t :=
  UserSchema.mk (UserSchema.id r) (UserModel.name m) (UserSchema.email r)
    (UserSchema.email_opted_in r).

Definition UserSchema_to_model (r : UserSchema.t) : UserModel.t :=
  UserModel.mk (UserSchema.id r) (UserSchema.name r) (UserSchema.email r)
    (UserSchema.email_opted_in r).

Definition TeamSchema_from_create_model (m : TeamModel.t) : TeamSchema.t :=
  TeamSchema.mk (TeamModel.id m) (TeamModel.name m).

Definition TeamSchema_from_update_model (m : TeamModel.t) (r : TeamSchema.t) : TeamSchema.t :=
  TeamSchema.mk (TeamSchema.id r) (TeamModel.name m).

Definition TeamSchema_to_model (r : TeamSchema.t) : TeamModel.t :=
  TeamModel.mk (TeamSchema.id r) (TeamSchema.name r).

(** Modelled from the spec: a role assignment as the store returns it, the
    triple of a role, a user or a team, and an optional project. *)
Module RoleAssignmentModel.
Record t := mk {
  role : UUID;
  project : option UUID;
  team : option UUID;
  user : option UUID
}.
End RoleAssignmentModel.

Definition UserRoleAssignmentSchema_to_model (a : UserRoleAssignmentSchema.t)
  : RoleAssignmentModel.t :=
  RoleAssignmentModel.mk (UserRoleAssignmentSchema.role_id a)
    (UserRoleAssignmentSchema.project_id a) None (Some (UserRoleAssignmentSchema.user_id a)).

Definition TeamRoleAssignmentSchema_to_model (a : TeamRoleAssignmentSchema.t)
  : RoleAssignmentModel.t :=
  RoleAssignmentModel.mk (TeamRoleAssignmentSchema.role_id a)
    (TeamRoleAssignmentSchema.project_id a) (Some (TeamRoleAssignmentSchema.team_id a)) None.

(** The stack rows a component row is linked to through the composition
    table: its [stacks] relationship. *)
Definition stacks_of (s : Store) (component_id : UUID) : list StackSchema.t :=
  flat_map
    (fun link =>
       if StackCompositionSchema.component_id link =? component_id
       then List.filter
              (fun st => StackSchema.id st =? StackCompositionSchema.stack_id link)
              (stacks s)
       else [])
    (stack_compositions s).

(** The permission rows of a role: its [permissions] relationship. *)
Definition permissions_of (role_id : UUID) (p : RolePermissionSchema.t) : bool :=
  RolePermissionSchema.role_id p =? role_id.

(** Two method calls in a row outside any session: the second is made when
    the first returned, and an exception of either is the caller's. *)
Definition then_call {A B C} (o1 : Outcome A) (method : A -> Store -> Outcome B)
  (combine : A -> B -> C) : Outcome C :=
  match returned o1 with
  | Raise e => mkOutcome (Raise e) (store o1) (n_commits o1) (n_sessions o1)
  | Ok a =>
    let o2 := method a (store o1) in
    mkOutcome
      match returned o2 with
      | Ok b => Ok (combine a b)
      | Raise e => Raise e
      end
      (store o2) (n_commits o1 + n_commits o2) (n_sessions o1 + n_sessions o2)
  end.

Section Catalog.

Variable parse_uuid : string -> option UUID.

(** Modelled from the spec: the names of the default user and the default
    project, attributes of the base class of the store. *)
Variable _default_user_name : string.
Variable _default_project_name : string.

(** A filter that is resolved whenever it [is not None], the empty string
    included. *)
Definition given_schema {A} `{NamedSchema A} (value : option name_or_id)
  (schema_class : Store -> list A) : M (option A) :=
  match value with
  | Some v => let* schema := _get_schema_by_name_or_id parse_uuid v schema_class in ret (Some schema)
  | None => ret None
  end.

(** *** Stacks and stack components *)

Definition get_stack (stack_id : UUID) : Store -> Outcome StackModel.t :=
  with_Session (
    let* stack := first stacks (fun r => StackSchema.id r =? stack_id) in
    match stack with
    | None => raise KeyError
    | Some stack =>
      let* s := database in
      ret (StackSchema_to_model stack (components_of s (StackSchema.id stack)))
    end).

Definition get_stack_component (component_id : UUID) : Store -> Outcome ComponentModel.t :=
  with_Session (
    let* stack_component :=
      first stack_components (fun r => StackComponentSchema.id r =? component_id) in
    match stack_component with
    | None => raise KeyError
    | Some stack_component => ret (StackComponentSchema_to_model stack_component)
    end).

Definition delete_stack_component_block (component_id : UUID) : M unit :=
  let* stack_component :=
    one stack_components (fun r => StackComponentSchema.id r =? component_id) in
  match stack_component with
  | None => raise KeyError
  | Some stack_component =>
    if is_default_component stack_component
    then raise IllegalOperationError
    else
      let* s := database in
      if (0 <? length (stacks_of s (StackComponentSchema.id stack_component)))%nat
      then raise IllegalOperationError
      else
        let* _ := add (with_stack_components
                         (delete_row StackComponentSchema.id
                            (StackComponentSchema.id stack_component))) in
        commit
  end.

Definition delete_stack_component (component_id : UUID) : Store -> Outcome unit :=
  with_Session (delete_stack_component_block component_id).

(** *** Users *)

Definition create_user_block (user : UserModel.t) : M UserModel.t :=
  let* existing_user :=
    first users (fun r => String.eqb (UserSchema.name r) (UserModel.name user)) in
  match existing_user with
  | Some _ => raise EntityExistsError
  | None =>
    let new_user := UserSchema_from_create_model user in
    let* _ := add (with_users (fun l => l ++ [new_user])) in
    let* _ := commit in
    ret (UserSchema_to_model new_user)
  end.

Definition create_user (user : UserModel.t) : Store -> Outcome UserModel.t :=
  with_Session (create_user_block user).

Definition get_user (user_name_or_id : name_or_id) : Store -> Outcome UserModel.t :=
  with_Session (
    let* user := _get_user_schema parse_uuid user_name_or_id in
    ret (UserSchema_to_model user)).

Definition list_users : Store -> Outcome (list UserModel.t) :=
  with_Session (
    let* users := rows users in
    ret (map UserSchema_to_model users)).

Definition update_user_block (user : UserModel.t) : M UserModel.t :=
  let* existing_user := _get_user_schema parse_uuid (Id (UserModel.id user)) in
  if String.eqb (UserSchema.name existing_user) _default_user_name
     && negb (String.eqb (UserModel.name user) (UserSchema.name existing_user))
  then raise IllegalOperationError
  else
    let* _ := add (with_users
                     (update_row UserSchema.id (UserSchema.id existing_user)
                        (UserSchema_from_update_model user))) in
    let* _ := commit in
    ret (UserSchema_to_model (UserSchema_from_update_model user existing_user)).

Definition update_user (user : UserModel.t) : Store -> Outcome UserModel.t :=
  with_Session (update_user_block user).

Definition delete_user_block (user_name_or_id : name_or_id) : M unit :=
  let* user := _get_user_schema parse_uuid user_name_or_id in
  if String.eqb (UserSchema.name user) _default_user_name
  then raise IllegalOperationError
  else
    let* _ := add (with_users (delete_row UserSchema.id (UserSchema.id user))) in
    commit.

Definition delete_user (user_name_or_id : name_or_id) : Store -> Outcome unit :=
  with_Session (delete_user_block user_name_or_id).

(** *** Teams *)

Definition create_team_block (team : TeamModel.t) : M TeamModel.t :=
  let* existing_team :=
    first teams (fun r => String.eqb (TeamSchema.name r) (TeamModel.name team)) in
  match existing_team with
  | Some _ => raise EntityExistsError
  | None =>
    let new_team := TeamSchema_from_create_model team in
    let* _ := add (with_teams (fun l => l ++ [new_team])) in
    let* _ := commit in
    ret (TeamSchema_to_model new_team)
  end.

Definition create_team (team : TeamModel.t) : Store -> Outcome TeamModel.t :=
  with_Session (create_team_block team).

Definition get_team (team_name_or_id : name_or_id) : Store -> Outcome TeamModel.t :=
  with_Session (
    let* team := _get_team_schema parse_uuid team_name_or_id in
    ret (TeamSchema_to_model team)).

Definition list_teams : Store -> Outcome (list TeamModel.t) :=
  with_Session (
    let* teams := rows teams in
    ret (map TeamSchema_to_model teams)).

Definition update_team_block (team : TeamModel.t) : M TeamModel.t :=
  let* existing_team := first teams (fun r => TeamSchema.id r =? TeamModel.id team) in
  match existing_team with
  | None => raise KeyError
  | Some existing_team =>
    let* _ := add (with_teams
                     (update_row TeamSchema.id (TeamSchema.id existing_team)
                        (TeamSchema_from_update_model team))) in
    let* _ := commit in
    ret (TeamSchema_to_model (TeamSchema_from_update_model team existing_team))
  end.

Definition update_team (team : TeamModel.t) : Store -> Outcome TeamModel.t :=
  with_Session (update_team_block team).

Definition delete_team_block (team_name_or_id : name_or_id) : M unit :=
  let* team := _get_team_schema parse_uuid team_name_or_id in
  let* _ := add (with_teams (delete_row TeamSchema.id (TeamSchema.id team))) in
  commit.

Definition delete_team (team_name_or_id : name_or_id) : Store -> Outcome unit :=
  with_Session (delete_team_block team_name_or_id).

(** *** Roles and their assignments *)

Definition get_role (role_name_or_id : name_or_id) : Store -> Outcome RoleModel.t :=
  with_Session (
    let* role := _get_role_schema parse_uuid role_name_or_id in
    let* permissions := all role_permissions (permissions_of (RoleSchema.id role)) in
    ret (RoleSchema_to_model role permissions)).

Definition list_roles : Store -> Outcome (list RoleModel.t) :=
  with_Session (
    let* roles := rows roles in
    let* s := database in
    ret (map (fun role =>
                RoleSchema_to_model role
                  (List.filter (permissions_of (RoleSchema.id role)) (role_permissions s)))
           roles)).

Definition delete_role_block (role_name_or_id : name_or_id) : M unit :=
  let* role := _get_role_schema parse_uuid role_name_or_id in
  if String.eqb (RoleSchema.name role) ADMIN_ROLE
     || String.eqb (RoleSchema.name role) GUEST_ROLE
  then raise IllegalOperationError
  else
    let* user_role :=
      all user_role_assignments
        (fun a => UserRoleAssignmentSchema.role_id a =? RoleSchema.id role) in
    let* team_role :=
      all team_role_assignments
        (fun a => TeamRoleAssignmentSchema.role_id a =? RoleSchema.id role) in
    if (0 <? length user_role)%nat || (0 <? length team_role)%nat
    then raise IllegalOperationError
    else
      let* _ := add (with_roles (delete_row RoleSchema.id (RoleSchema.id role))) in
      commit.

Definition delete_role (role_name_or_id : name_or_id) : Store -> Outcome unit :=
  with_Session (delete_role_block role_name_or_id).

Definition _list_user_role_assignments
  (project_name_or_id role_name_or_id user_name_or_id : option name_or_id)
  : Store -> Outcome (list RoleAssignmentModel.t) :=
  with_Session (
    let* project := given_schema project_name_or_id projects in
    let* role := given_schema role_name_or_id roles in
    let* user := given_schema user_name_or_id users in
    let* assignments :=
      all user_role_assignments
        (fun a =>
           where_ project
             (fun p a => col_eqb (UserRoleAssignmentSchema.project_id a) (ProjectSchema.id p)) a
           && where_ role
                (fun r a => UserRoleAssignmentSchema.role_id a =? RoleSchema.id r) a
           && where_ user
                (fun u a => UserRoleAssignmentSchema.user_id a =? UserSchema.id u) a) in
    ret (map UserRoleAssignmentSchema_to_model assignments)).

Definition _list_team_role_assignments
  (project_name_or_id team_name_or_id role_name_or_id : option name_or_id)
  : Store -> Outcome (list RoleAssignmentModel.t) :=
  with_Session (
    let* project := given_schema project_name_or_id projects in
    let* role := given_schema role_name_or_id roles in
    let* team := given_schema team_name_or_id teams in
    let* assignments :=
      all team_role_assignments
        (fun a =>
           where_ project
             (fun p a => col_eqb (TeamRoleAssignmentSchema.project_id a) (ProjectSchema.id p)) a
           && where_ role
                (fun r a => TeamRoleAssignmentSchema.role_id a =? RoleSchema.id r) a
           && where_ team
                (fun t a => TeamRoleAssignmentSchema.team_id a =? TeamSchema.id t) a) in
    ret (map TeamRoleAssignmentSchema_to_model assignments)).

Definition list_role_assignments
  (project_name_or_id role_name_or_id team_name_or_id user_name_or_id : option name_or_id)
  (s : Store) : Outcome (list RoleAssignmentModel.t) :=
  then_call
    (_list_user_role_assignments project_name_or_id role_name_or_id user_name_or_id s)
    (fun _ => _list_team_role_assignments project_name_or_id team_name_or_id role_name_or_id)
    (fun user_role_assignments team_role_assignments =>
       user_role_assignments ++ team_role_assignments).

Definition revoke_role_block (role_name_or_id user_or_team_name_or_id : name_or_id)
  (is_user : bool) (project_name_or_id : option name_or_id) : M unit :=
  let* project := filter_schema parse_uuid project_name_or_id projects in
  let* role := _get_role_schema parse_uuid role_name_or_id in
  if is_user
  then
    let* user := _get_user_schema parse_uuid user_or_team_name_or_id in
    let user_role_query :=
      fun a => (UserRoleAssignmentSchema.user_id a =? UserSchema.id user)
               && (UserRoleAssignmentSchema.role_id a =? RoleSchema.id role)
               && match project with
                  | Some project =>
                    col_eqb (UserRoleAssignmentSchema.project_id a) (ProjectSchema.id project)
                  | None => true
                  end in
    let* role_assignment := first user_role_assignments user_role_query in
    match role_assignment with
    | None => raise KeyError
    | Some _ =>
      let* _ := add (with_user_role_assignments (delete_first user_role_query)) in
      commit
    end
  else
    let* team := _get_team_schema parse_uuid user_or_team_name_or_id in
    let team_role_query :=
      fun a => (TeamRoleAssignmentSchema.team_id a =? TeamSchema.id team)
               && (TeamRoleAssignmentSchema.role_id a =? RoleSchema.id role)
               && match project with
                  | Some project =>
                    col_eqb (TeamRoleAssignmentSchema.project_id a) (ProjectSchema.id project)
                  | None => true
                  end in
    let* role_assignment := first team_role_assignments team_role_query in
    match role_assignment with
    | None => raise KeyError
    | Some _ =>
      let* _ := add (with_team_role_assignments (delete_first team_role_query)) in
      commit
    end.

Definition revoke_role (role_name_or_id user_or_team_name_or_id : name_or_id)
  (is_user : bool) (project_name_or_id : option name_or_id)
  : Store -> Outcome unit :=
  with_Session (revoke_role_block role_name_or_id user_or_team_name_or_id is_user project_name_or_id).

(** *** Projects *)

Definition create_project_block (project : ProjectModel.t) : M ProjectModel.t :=
  let* existing_project :=
    first projects (fun r => String.eqb (ProjectSchema.name r) (ProjectModel.name project)) in
  match existing_project with
  | Some _ => raise EntityExistsError
  | None =>
    let new_project := ProjectSchema_from_create_model project in
    let* _ := add (with_projects (fun l => l ++ [new_project])) in
    let* _ := commit in
    ret (ProjectSchema_to_model new_project)
  end.

Definition create_project (project : ProjectModel.t) : Store -> Outcome ProjectModel.t :=
  with_Session (create_project_block project).

Definition get_project (project_name_or_id : name_or_id) : Store -> Outcome ProjectModel.t :=
  with_Session (
    let* project := _get_project_schema parse_uuid project_name_or_id in
    ret (ProjectSchema_to_model project)).

Definition list_projects : Store -> Outcome (list ProjectModel.t) :=
  with_Session (
    let* projects := rows projects in
    ret (map ProjectSchema_to_model projects)).

Definition update_project_block (project : ProjectModel.t) : M ProjectModel.t :=
  let* existing_project :=
    _get_project_schema parse_uuid (Id (ProjectModel.id project)) in
  if String.eqb (ProjectSchema.name existing_project) _default_project_name
     && negb (String.eqb (ProjectModel.name project) (ProjectSchema.name existing_project))
  then raise IllegalOperationError
  else
    let* _ := add (with_projects
                     (update_row ProjectSchema.id (ProjectSchema.id existing_project)
                        (ProjectSchema_from_update_model project))) in
    let* _ := commit in
    ret (ProjectSchema_to_model
           (ProjectSchema_from_update_model project existing_project)).

Definition update_project (project : ProjectModel.t) : Store -> Outcome ProjectModel.t :=
  with_Session (update_project_block project).

Definition delete_project_block (project_name_or_id : name_or_id) : M unit :=
  let* project := _get_project_schema parse_uuid project_name_or_id in
  if String.eqb (ProjectSchema.name project) _default_project_name
  then raise IllegalOperationError
  else
    let* _ := add (with_projects (delete_row ProjectSchema.id (ProjectSchema.id project))) in
    commit.

Definition delete_project (project_name_or_id : name_or_id) : Store -> Outcome unit :=
  with_Session (delete_project_block project_name_or_id).

(** *** Pipeline runs and step runs *)

(** The rows of [select(PipelineRunSchema)] with the clauses that join the
    composition table: one row per pair of a run and a link of its stack to
    the component. *)
Definition runs_with_component (component_id : UUID) (s : Store) : list PipelineRunSchema.t :=
  flat_map
    (fun run =>
       map (fun _ => run)
         (List.filter
            (fun link => col_eqb (PipelineRunSchema.stack_id run)
                           (StackCompositionSchema.stack_id link)
                         && (StackCompositionSchema.component_id link =? component_id))
            (stack_compositions s)))
    (pipeline_runs s).

(** [list_runs]; the rows of the table are in the order of their creation,
    which is the order [created] sorts them in. *)
Definition list_runs (project_name_or_id : option name_or_id)
  (stack_id component_id : option UUID) (run_name : option string)
  (user_name_or_id : option name_or_id) (pipeline_id : option UUID) (unlisted : bool)
  : Store -> Outcome (list PipelineRunModel.t) :=
  with_Session (
    let* project := given_schema project_name_or_id projects in
    let* user := given_schema user_name_or_id users in
    let* s := database in
    let source :=
      match component_id with
      | Some component_id => runs_with_component component_id s
      | None => pipeline_runs s
      end in
    let runs :=
      List.filter
        (fun r =>
           where_ project (fun p r => PipelineRunSchema.project_id r =? ProjectSchema.id p) r
           && where_ stack_id (fun i r => col_eqb (PipelineRunSchema.stack_id r) i) r
           && where_ run_name (fun n r => String.eqb (PipelineRunSchema.name r) n) r
           && match pipeline_id with
              | Some pipeline_id => col_eqb (PipelineRunSchema.pipeline_id r) pipeline_id
              | None =>
                if unlisted
                then match PipelineRunSchema.pipeline_id r with None => true | Some _ => false end
                else true
              end
           && where_ user (fun u r => PipelineRunSchema.user_id r =? UserSchema.id u) r)
        source in
    ret (map PipelineRunSchema_to_model runs)).

(** The rows of [select(StepRunSchema)] joined with the runs of a
    project. *)
Definition steps_of_project (project_id : UUID) (s : Store) : list StepRunSchema.t :=
  flat_map
    (fun step =>
       map (fun _ => step)
         (List.filter
            (fun run => (StepRunSchema.pipeline_run_id step =? PipelineRunSchema.id run)
                        && (PipelineRunSchema.project_id run =? project_id))
            (pipeline_runs s)))
    (step_runs s).

Definition string_col_eqb (c : option string) (v : string) : bool :=
  match c with
  | Some x => String.eqb x v
  | None => false
  end.

Definition list_run_steps (run_id project_id : option UUID) (cache_key : option string)
  (status : option ExecutionStatus) : Store -> Outcome (list StepRunModel.t) :=
  with_Session (
    let* s := database in
    let source :=
      match run_id, project_id with
      | Some _, _ => step_runs s
      | None, Some project_id => steps_of_project project_id s
      | None, None => step_runs s
      end in
    let steps :=
      List.filter
        (fun r =>
           where_ run_id (fun i r => StepRunSchema.pipeline_run_id r =? i) r
           && where_ cache_key (fun k r => string_col_eqb (StepRunSchema.cache_key r) k) r
           && where_ status (fun st r => status_eqb (StepRunSchema.status r) st) r)
        source in
    collect steps (fun step => call (_run_step_schema_to_model step))).

End Catalog.

(** ** Flavors, team membership, pipelines and the remaining writers *)

Module FlavorModel.
Record t := mk {
  id : UUID;
  name : string;
  type : StackComponentType;
  source : string;
  config_schema : string;
  project : UUID;
  user : UUID
}.
End FlavorModel.

Module PipelineModel.
Record t := mk {
  id : UUID;
  name : string;
  project : UUID;
  user : UUID;
  docstring : option string;
  spec : string
}.
End PipelineModel.

Module ArtifactModel.
Record t := mk { id : UUID; uri : string }.
End ArtifactModel.

(** Modelled from the spec: the conversions of [FlavorSchema],
    [PipelineSchema] and [ArtifactSchema], which live in the schema
    package.  A new row copies the model; an update of a flavor overwrites
    its name, its implementation source and its configuration schema, an
    update of a pipeline its name, its docstring and its spec, and both
    leave the id, the type, the project and the owner. *)
Definition FlavorSchema_from_create_model (flavor : FlavorModel.t) : FlavorSchema.t :=
  FlavorSchema.mk (FlavorModel.id flavor) (FlavorModel.name flavor) (FlavorModel.type flavor)
    (FlavorModel.source flavor) (FlavorModel.config_schema flavor)
    (FlavorModel.project flavor) (FlavorModel.user flavor).

Definition FlavorSchema_from_update_model (flavor : FlavorModel.t) (r : FlavorSchema.t)
  : FlavorSchema.t :=
  FlavorSchema.mk (FlavorSchema.id r) (FlavorModel.name flavor) (FlavorSchema.type r)
    (FlavorModel.source flavor) (FlavorModel.config_schema flavor)
    (FlavorSchema.project_id r) (FlavorSchema.user_id r).

Definition FlavorSchema_to_model (r : FlavorSchema.t) : FlavorModel.t :=
  FlavorModel.mk (FlavorSchema.id r) (FlavorSchema.name r) (FlavorSchema.type r)
    (FlavorSchema.source r) (FlavorSchema.config_schema r)
    (FlavorSchema.project_id r) (FlavorSchema.user_id r).

Definition PipelineSchema_from_create_model (pipeline : PipelineModel.t) : PipelineSchema.t :=
  PipelineSchema.mk (PipelineModel.id pipeline) (PipelineModel.name pipeline)
    (PipelineModel.project pipeline) (PipelineModel.user pipeline)
    (PipelineModel.docstring pipeline) (PipelineModel.spec pipeline).

Definition PipelineSchema_from_update_model (pipeline : PipelineModel.t) (r : PipelineSchema.t)
  : PipelineSchema.t :=
  PipelineSchema.mk (PipelineSchema.id r) (PipelineModel.name pipeline)
    (PipelineSchema.project_id r) (PipelineSchema.user_id r)
    (PipelineModel.docstring pipeline) (PipelineModel.spec pipeline).

Definition PipelineSchema_to_model (r : PipelineSchema.t) : PipelineModel.t :=
  PipelineModel.mk (PipelineSchema.id r) (PipelineSchema.name r)
    (PipelineSchema.project_id r) (PipelineSchema.user_id r)
    (PipelineSchema.docstring r) (PipelineSchema.spec r).

Definition ArtifactSchema_from_create_model (artifact : ArtifactModel.t) : ArtifactSchema.t :=
  ArtifactSchema.mk (ArtifactModel.id artifact) (ArtifactModel.uri artifact).

Definition ArtifactSchema_to_model (r : ArtifactSchema.t) : ArtifactModel.t :=
  ArtifactModel.mk (ArtifactSchema.id r) (ArtifactSchema.uri r).

(** Modelled from the spec: [PipelineRunSchema.from_update_model], which
    lives in the schema package.  The id and the name identify a run, and
    its owner, its project and its two references are set when it is
    created; an update persists the other fields of the payload, none of
    which the store reads, so that the columns of the row that are modelled
    stay as they are. *)
Definition PipelineRunSchema_from_update_model (run : PipelineRunModel.t)
  (r : PipelineRunSchema.t) : PipelineRunSchema.t :=
  PipelineRunSchema.mk (PipelineRunSchema.id r) (PipelineRunSchema.name r)
    (PipelineRunSchema.project_id r) (PipelineRunSchema.user_id r)
    (PipelineRunSchema.stack_id r) (PipelineRunSchema.pipeline_id r).

(** Modelled from the spec: the many-to-many membership of users in teams,
    which the schema package declares as the relationships [users] of a
    team and [teams] of a user through the membership table.  Reading the
    relationship joins the table; assigning a list to it inserts the rows
    of the members that are new and deletes those of the members that are
    gone. *)
Definition users_of (s : Store) (team_id : UUID) : list UserSchema.t :=
  flat_map
    (fun link =>
       if TeamAssignmentSchema.team_id link =? team_id
       then List.filter (fun u => UserSchema.id u =? TeamAssignmentSchema.user_id link)
              (users s)
       else [])
    (team_assignments s).

Definition teams_of (s : Store) (user_id : UUID) : list TeamSchema.t :=
  flat_map
    (fun link =>
       if TeamAssignmentSchema.user_id link =? user_id
       then List.filter (fun t => TeamSchema.id t =? TeamAssignmentSchema.team_id link)
              (teams s)
       else [])
    (team_assignments s).

(** [user.email = email; user.email_opted_in = user_opt_in_response] *)
Definition with_email (email : option string) (user_opt_in_response : bool)
  (r : UserSchema.t) : UserSchema.t :=
  UserSchema.mk (UserSchema.id r) (UserSchema.name r) email (Some user_opt_in_response).

Section Entities.

Variable parse_uuid : string -> option UUID.

(** *** Stacks *)

(** Modelled from the spec: the [components] relationship of a stack, which
    the schema package declares over the composition table; the rows of
    the stack in that table are deleted with it. *)
Definition delete_stack_block (stack_id : UUID) : M unit :=
  let* stack := one stacks (fun r => StackSchema.id r =? stack_id) in
  match stack with
  | None => raise KeyError
  | Some stack =>
    if String.eqb (StackSchema.name stack) DEFAULT_STACK_NAME
    then raise IllegalOperationError
    else
      let* _ := add (fun s =>
                  with_stack_compositions
                    (List.filter
                       (fun link => negb (StackCompositionSchema.stack_id link
                                          =? StackSchema.id stack)))
                    (with_stacks (delete_row StackSchema.id (StackSchema.id stack)) s)) in
      commit
  end.

Definition delete_stack (stack_id : UUID) : Store -> Outcome unit :=
  with_Session (delete_stack_block stack_id).

(** *** Flavors *)

Definition create_flavor_block (flavor : FlavorModel.t) : M FlavorModel.t :=
  let* existing_flavor :=
    first flavors
      (fun r => String.eqb (FlavorSchema.name r) (FlavorModel.name flavor)
                && String.eqb (FlavorSchema.type r) (FlavorModel.type flavor)
                && (FlavorSchema.project_id r =? FlavorModel.project flavor)
                && (FlavorSchema.user_id r =? FlavorModel.user flavor)) in
  match existing_flavor with
  | Some _ => raise EntityExistsError
  | None =>
    let flavor_in_db := FlavorSchema_from_create_model flavor in
    let* _ := add (with_flavors (fun l => l ++ [flavor_in_db])) in
    let* _ := commit in
    ret (FlavorSchema_to_model flavor_in_db)
  end.

Definition create_flavor (flavor : FlavorModel.t) : Store -> Outcome FlavorModel.t :=
  with_Session (create_flavor_block flavor).

(** The [KeyError] is raised after the block is left, which changes
    nothing in what the method leaves behind. *)
Definition get_flavor (flavor_id : UUID) : Store -> Outcome FlavorModel.t :=
  with_Session (
    let* flavor_in_db := first flavors (fun r => FlavorSchema.id r =? flavor_id) in
    match flavor_in_db with
    | None => raise KeyError
    | Some flavor_in_db => ret (FlavorSchema_to_model flavor_in_db)
    end).


Definition update_flavor_block (flavor : FlavorModel.t) : M FlavorModel.t :=
  let* existing_flavor := first flavors (fun r => FlavorSchema.id r =? FlavorModel.id flavor) in
  match existing_flavor with
  | None => raise KeyError
  | Some existing_flavor =>
    let* _ := add (with_flavors
                     (update_row FlavorSchema.id (FlavorSchema.id existing_flavor)
                        (FlavorSchema_from_update_model flavor))) in
    let* _ := commit in
    ret (FlavorSchema_to_model (FlavorSchema_from_update_model flavor existing_flavor))
  end.

Definition update_flavor (flavor : FlavorModel.t) : Store -> Outcome FlavorModel.t :=
  with_Session (update_flavor_block flavor).

Definition delete_flavor_block (flavor_id : UUID) : M unit :=
  let* flavor_in_db := one flavors (fun r => FlavorSchema.id r =? flavor_id) in
  match flavor_in_db with
  | None => raise KeyError
  | Some flavor_in_db =>
    let* components_of_flavor :=
      all stack_components
        (fun c => String.eqb (StackComponentSchema.flavor c) (FlavorSchema.name flavor_in_db)) in
    if (0 <? length components_of_flavor)%nat
    then raise IllegalOperationError
    else
      let* _ := add (with_flavors (delete_row FlavorSchema.id (FlavorSchema.id flavor_in_db))) in
      commit
  end.

Definition delete_flavor (flavor_id : UUID) : Store -> Outcome unit :=
  with_Session (delete_flavor_block flavor_id).

(** *** Users and team membership *)

Definition user_email_opt_in_block (user_name_or_id : name_or_id)
  (user_opt_in_response : bool) (email : option string) : M UserModel.t :=
  let* user := _get_user_schema parse_uuid user_name_or_id in
  let* _ := add (with_users
                   (update_row UserSchema.id (UserSchema.id user)
                      (with_email email user_opt_in_response))) in
  let* _ := commit in
  ret (UserSchema_to_model (with_email email user_opt_in_response user)).

Definition user_email_opt_in (user_name_or_id : name_or_id) (user_opt_in_response : bool)
  (email : option string) : Store -> Outcome UserModel.t :=
  with_Session (user_email_opt_in_block user_name_or_id user_opt_in_response email).

Definition get_users_for_team (team_name_or_id : name_or_id)
  : Store -> Outcome (list UserModel.t) :=
  with_Session (
    let* team := _get_team_schema parse_uuid team_name_or_id in
    let* s := database in
    ret (map UserSchema_to_model (users_of s (TeamSchema.id team)))).

Definition get_teams_for_user (user_name_or_id : name_or_id)
  : Store -> Outcome (list TeamModel.t) :=
  with_Session (
    let* user := _get_user_schema parse_uuid user_name_or_id in
    let* s := database in
    ret (map TeamSchema_to_model (teams_of s (UserSchema.id user)))).

Definition add_user_to_team_block (user_name_or_id team_name_or_id : name_or_id) : M unit :=
  let* team := _get_team_schema parse_uuid team_name_or_id in
  let* user := _get_user_schema parse_uuid user_name_or_id in
  let* existing_user_in_team :=
    first team_assignments
      (fun a => (TeamAssignmentSchema.user_id a =? UserSchema.id user)
                && (TeamAssignmentSchema.team_id a =? TeamSchema.id team)) in
  match existing_user_in_team with
  | Some _ => raise EntityExistsError
  | None =>
    let* _ := add (with_team_assignments
                     (fun l => l ++ [TeamAssignmentSchema.mk (UserSchema.id user)
                                       (TeamSchema.id team)])) in
    commit
  end.

Definition add_user_to_team (user_name_or_id team_name_or_id : name_or_id)
  : Store -> Outcome unit :=
  with_Session (add_user_to_team_block user_name_or_id team_name_or_id).

Definition remove_user_from_team_block (user_name_or_id team_name_or_id : name_or_id)
  : M unit :=
  let* team := _get_team_schema parse_uuid team_name_or_id in
  let* user := _get_user_schema parse_uuid user_name_or_id in
  let* _ := add (with_team_assignments
                   (List.filter
                      (fun a => negb ((TeamAssignmentSchema.team_id a =? TeamSchema.id team)
                                      && (TeamAssignmentSchema.user_id a
                                          =? UserSchema.id user))))) in
  commit.

Definition remove_user_from_team (user_name_or_id team_name_or_id : name_or_id)
  : Store -> Outcome unit :=
  with_Session (remove_user_from_team_block user_name_or_id team_name_or_id).

(** *** Pipelines *)

Definition create_pipeline_block (pipeline : PipelineModel.t) : M PipelineModel.t :=
  let* existing_pipeline :=
    first pipelines
      (fun r => String.eqb (PipelineSchema.name r) (PipelineModel.name pipeline)
                && (PipelineSchema.project_id r =? PipelineModel.project pipeline)) in
  match existing_pipeline with
  | Some _ => raise EntityExistsError
  | None =>
    let new_pipeline := PipelineSchema_from_create_model pipeline in
    let* _ := add (with_pipelines (fun l => l ++ [new_pipeline])) in
    let* _ := commit in
    ret (PipelineSchema_to_model new_pipeline)
  end.

Definition create_pipeline (pipeline : PipelineModel.t) : Store -> Outcome PipelineModel.t :=
  with_Session (create_pipeline_block pipeline).

Definition get_pipeline (pipeline_id : UUID) : Store -> Outcome PipelineModel.t :=
  with_Session (
    let* pipeline := first pipelines (fun r => PipelineSchema.id r =? pipeline_id) in
    match pipeline with
    | None => raise KeyError
    | Some pipeline => ret (PipelineSchema_to_model pipeline)
    end).


Definition update_pipeline_block (pipeline : PipelineModel.t) : M PipelineModel.t :=
  let* existing_pipeline :=
    first pipelines (fun r => PipelineSchema.id r =? PipelineModel.id pipeline) in
  match existing_pipeline with
  | None => raise KeyError
  | Some existing_pipeline =>
    let* _ := add (with_pipelines
                     (update_row PipelineSchema.id (PipelineSchema.id existing_pipeline)
                        (PipelineSchema_from_update_model pipeline))) in
    let* _ := commit in
    ret (PipelineSchema_to_model
           (PipelineSchema_from_update_model pipeline existing_pipeline))
  end.

Definition update_pipeline (pipeline : PipelineModel.t) : Store -> Outcome PipelineModel.t :=
  with_Session (update_pipeline_block pipeline).

Definition delete_pipeline_block (pipeline_id : UUID) : M unit :=
  let* pipeline := first pipelines (fun r => PipelineSchema.id r =? pipeline_id) in
  match pipeline with
  | None => raise KeyError
  | Some pipeline =>
    let* _ := add (with_pipelines (delete_row PipelineSchema.id (PipelineSchema.id pipeline))) in
    commit
  end.

Definition delete_pipeline (pipeline_id : UUID) : Store -> Outcome unit :=
  with_Session (delete_pipeline_block pipeline_id).

(** *** Pipeline runs and artifacts *)

Definition update_run_block (run : PipelineRunModel.t) : M PipelineRunModel.t :=
  let* existing_run :=
    first pipeline_runs (fun r => PipelineRunSchema.id r =? PipelineRunModel.id run) in
  match existing_run with
  | None => raise KeyError
  | Some existing_run =>
    let* _ := add (with_pipeline_runs
                     (update_row PipelineRunSchema.id (PipelineRunSchema.id existing_run)
                        (PipelineRunSchema_from_update_model run))) in
    let* _ := commit in
    ret (PipelineRunSchema_to_model (PipelineRunSchema_from_update_model run existing_run))
  end.

Definition update_run (run : PipelineRunModel.t) : Store -> Outcome PipelineRunModel.t :=
  with_Session (update_run_block run).

Definition create_artifact_block (artifact : ArtifactModel.t) : M ArtifactModel.t :=
  let artifact_schema := ArtifactSchema_from_create_model artifact in
  let* _ := add (with_artifacts (fun l => l ++ [artifact_schema])) in
  let* _ := commit in
  ret (ArtifactSchema_to_model artifact_schema).

Definition create_artifact (artifact : ArtifactModel.t) : Store -> Outcome ArtifactModel.t :=
  with_Session (create_artifact_block artifact).

Definition get_artifact (artifact_id : UUID) : Store -> Outcome ArtifactModel.t :=
  with_Session (
    let* artifact := first artifacts (fun r => ArtifactSchema.id r =? artifact_id) in
    match artifact with
    | None => raise KeyError
    | Some artifact => ret (ArtifactSchema_to_model artifact)
    end).

End Entities.

(** ** Vocabulary of the statements *)

Definition step_run_in (s : Store) (i : UUID) : Prop :=
  exists r, In r (step_runs s) /\ StepRunSchema.id r = i.

Definition artifact_in (s : Store) (i : UUID) : Prop :=
  exists r, In r (artifacts s) /\ ArtifactSchema.id r = i.

Definition parent_edge_in (s : Store) (child parent : UUID) : Prop :=
  In (StepRunParentsSchema.mk parent child) (step_run_parents s).

(** An input edge from the artifact to the step run, under whatever name. *)
Definition input_edge_in (s : Store) (step artifact : UUID) : Prop :=
  exists a, In a (step_run_input_artifacts s)
            /\ StepRunInputArtifactSchema.step_run_id a = step
            /\ StepRunInputArtifactSchema.artifact_id a = artifact.

Definition output_edge_in (s : Store) (step artifact : UUID) : Prop :=
  exists a, In a (step_run_output_artifacts s)
            /\ StepRunOutputArtifactSchema.step_run_id a = step
            /\ StepRunOutputArtifactSchema.artifact_id a = artifact.

(** A fresh session on a database. *)
Definition session_on (s : Store) : Session := mkSession s s 0 0.

(** The edge-writing part of [create_run_step]: its three loops. *)
Definition set_run_step_edges (step_run : StepRunModel.t) : M unit :=
  let* _ := for_each (StepRunModel.parent_step_ids step_run)
              (fun parent_step_id =>
                 _set_run_step_parent_step (StepRunModel.id step_run) parent_step_id) in
  let* _ := for_each (StepRunModel.input_artifacts step_run)
              (fun '(input_name, artifact_id) =>
                 _set_run_step_input_artifact (StepRunModel.id step_run) artifact_id input_name) in
  for_each (StepRunModel.output_artifacts step_run)
    (fun '(output_name, artifact_id) =>
       _set_run_step_output_artifact (StepRunModel.id step_run) artifact_id output_name).

(** A step run that is not cached and has an output edge to the artifact. *)
Definition producer_of (s : Store) (artifact : UUID) (r : StepRunSchema.t) : Prop :=
  In r (step_runs s)
  /\ StepRunSchema.status r <> CACHED
  /\ output_edge_in s (StepRunSchema.id r) artifact.

Definition project_in (s : Store) (i : UUID) : Prop :=
  exists r, In r (projects s) /\ ProjectSchema.id r = i.

Definition user_in (s : Store) (i : UUID) : Prop :=
  exists r, In r (users s) /\ UserSchema.id r = i.

(** Some owner already shares a component of this name and type in the
    project. *)
Definition shared_component_in (s : Store) (name : string) (project : UUID)
  (type : StackComponentType) : Prop :=
  exists r, In r (stack_components s)
            /\ StackComponentSchema.name r = name
            /\ StackComponentSchema.project_id r = project
            /\ StackComponentSchema.type r = type
            /\ StackComponentSchema.is_shared r = true.

Definition shared_stack_in (s : Store) (name : string) (project : UUID) : Prop :=
  exists r, In r (stacks s)
            /\ StackSchema.name r = name
            /\ StackSchema.project_id r = project
            /\ StackSchema.is_shared r = true.

(** The row an update loads for the id of its payload. *)
Definition component_by_id (s : Store) (i : UUID) : option StackComponentSchema.t :=
  find (fun r => StackComponentSchema.id r =? i) (stack_components s).

Definition stack_by_id (s : Store) (i : UUID) : option StackSchema.t :=
  find (fun r => StackSchema.id r =? i) (stacks s).

(** The method fails with an error of the kind. *)
Definition fails_with {A} (kind : error -> bool) (o : Outcome A) : Prop :=
  exists e, returned o = Raise e /\ kind e = true.

(** A part of a session body that neither commits nor opens a session, and
    raises only errors in [P]. *)
Definition quiet {A} (P : error -> Prop) (m : M A) : Prop :=
  forall st,
    committed (snd (m st)) = committed st
    /\ commits (snd (m st)) = commits st
    /\ opened (snd (m st)) = opened st
    /\ forall e, fst (m st) = Raise e -> P e.

(** A method that opens one session, commits [k] times when it returns, and
    has committed nothing when one of its guards raises. *)
Definition transactional {A} (k : nat) (method : Store -> Outcome A) : Prop :=
  forall s,
    n_sessions (method s) = 1%nat
    /\ match returned (method s) with
       | Ok _ => n_commits (method s) = k
       | Raise e => guard_error e = true -> n_commits (method s) = 0%nat /\ store (method s) = s
       end.

(** The user assignments a new assignment of the role to the user collides
    with when uniqueness is per triple of role, user and project-or-global. *)
Definition same_user_assignment (role user : UUID) (project : option UUID)
  (a : UserRoleAssignmentSchema.t) : Prop :=
  UserRoleAssignmentSchema.role_id a = role
  /\ UserRoleAssignmentSchema.user_id a = user
  /\ UserRoleAssignmentSchema.project_id a = project.

Definition same_team_assignment (role team : UUID) (project : option UUID)
  (a : TeamRoleAssignmentSchema.t) : Prop :=
  TeamRoleAssignmentSchema.role_id a = role
  /\ TeamRoleAssignmentSchema.team_id a = team
  /\ TeamRoleAssignmentSchema.project_id a = project.

(** The stored runs that have the id or the name of the payload. *)
Definition same_run (r : PipelineRunModel.t) (x : PipelineRunSchema.t) : bool :=
  (PipelineRunSchema.id x =? PipelineRunModel.id r)
  || String.eqb (PipelineRunSchema.name x) (PipelineRunModel.name r).

Definition runs_like (r : PipelineRunModel.t) (s : Store) : list PipelineRunSchema.t :=
  List.filter (same_run r) (pipeline_runs s).

(** The two reads [get_or_create_run] falls back on: the run of the id, else
    the run the name resolves to. *)
Definition fallback (parse_uuid : string -> option UUID) (s : Store)
  (r : PipelineRunModel.t) : result PipelineRunModel.t :=
  match resolve parse_uuid (Id (PipelineRunModel.id r)) (pipeline_runs s) with
  | Some run => Ok (PipelineRunSchema_to_model run)
  | None =>
    match resolve parse_uuid (Name (PipelineRunModel.name r)) (pipeline_runs s) with
    | Some run => Ok (PipelineRunSchema_to_model run)
    | None => Raise KeyError
    end
  end.

(** What a project or user filter of a list method comes to: no clause when
    the value is absent or empty, the row it resolves to, or [KeyError]. *)
Definition resolved_filter {A} `{NamedSchema A} (parse_uuid : string -> option UUID)
  (value : option name_or_id) (l : list A) : result (option A) :=
  match value with
  | Some x =>
    if truthy value
    then match resolve parse_uuid x l with
         | Some r => Ok (Some r)
         | None => Raise KeyError
         end
    else Ok None
  | None => Ok None
  end.

(** A stack row that satisfies every clause of [list_stacks]. *)
Definition stack_selected (project : option ProjectSchema.t) (user : option UserSchema.t)
  (component_id : option UUID) (name : option string) (is_shared : option bool)
  (s : Store) (r : StackSchema.t) : Prop :=
  (forall p, project = Some p -> StackSchema.project_id r = ProjectSchema.id p)
  /\ (forall u, user = Some u -> StackSchema.user_id r = UserSchema.id u)
  /\ (forall c, component_id = Some c ->
        exists link, In link (stack_compositions s)
                     /\ StackCompositionSchema.stack_id link = StackSchema.id r
                     /\ StackCompositionSchema.component_id link = c)
  /\ (forall n, name = Some n -> n <> "" -> StackSchema.name r = n)
  /\ (forall b, is_shared = Some b -> StackSchema.is_shared r = b).

(** A component row that satisfies every clause of
    [list_stack_components]. *)
Definition component_selected (project : option ProjectSchema.t) (user : option UserSchema.t)
  (type flavor_name name : option string) (is_shared : option bool)
  (r : StackComponentSchema.t) : Prop :=
  (forall p, project = Some p -> StackComponentSchema.project_id r = ProjectSchema.id p)
  /\ (forall u, user = Some u -> StackComponentSchema.user_id r = UserSchema.id u)
  /\ (forall t, type = Some t -> t <> "" -> StackComponentSchema.type r = t)
  /\ (forall f, flavor_name = Some f -> f <> "" -> StackComponentSchema.flavor r = f)
  /\ (forall n, name = Some n -> n <> "" -> StackComponentSchema.name r = n)
  /\ (forall b, is_shared = Some b -> StackComponentSchema.is_shared r = b).

(** ** One session, one commit *)

(** A session block that commits [k] times when it returns and then leaves
    nothing unsaved: what is committed when the block is left is what the
    session last saw, so that every write of the block has landed and none
    follows the last commit; that opens no session of its own; and that has
    committed nothing, so that the database is as it was, when one of its
    guards raises. *)
Definition all_or_nothing {A} (k : nat) (block : M A) : Prop :=
  forall s,
    opened (snd (block (session_on s))) = 0%nat
    /\ match fst (block (session_on s)) with
       | Ok _ =>
         commits (snd (block (session_on s))) = k
         /\ committed (snd (block (session_on s))) = db (snd (block (session_on s)))
       | Raise e =>
         guard_error e = true ->
         commits (snd (block (session_on s))) = 0%nat
         /\ committed (snd (block (session_on s))) = s
       end.

(** A public method that is its block run in one session. *)
Definition in_one_session {A} (k : nat) (method : Store -> Outcome A) (block : M A) : Prop :=
  method = with_Session block /\ all_or_nothing k block.

(** ** Vocabulary of the list methods *)








(** ** Example data *)

(** A run with a failed step 11 and a cached replay 12 of it, both with an
    output edge to artifact 100; the replay's edge comes first in the
    table. *)
Definition lineage_example : Store :=
  with_pipeline_runs (fun _ => [PipelineRunSchema.mk 1 "run" 7 8 None None])
    (with_step_runs
       (fun _ => [StepRunSchema.mk 11 "trainer" 1 FAILED None;
                  StepRunSchema.mk 12 "trainer_replay" 1 CACHED None])
       (with_artifacts (fun _ => [ArtifactSchema.mk 100 "s3://bucket/model"])
          (with_step_run_parents (fun _ => [StepRunParentsSchema.mk 11 12])
             (with_step_run_input_artifacts
                (fun _ => [StepRunInputArtifactSchema.mk 12 100 "data"])
                (with_step_run_output_artifacts
                   (fun _ => [StepRunOutputArtifactSchema.mk 12 100 "model";
                              StepRunOutputArtifactSchema.mk 11 100 "model"])
                   empty_store))))).

(** The same with the edges in the order of production. *)
Definition lineage_example_in_order : Store :=
  with_step_run_output_artifacts
    (fun _ => [StepRunOutputArtifactSchema.mk 11 100 "model";
               StepRunOutputArtifactSchema.mk 12 100 "model"])
    lineage_example.

(** A payload for step 12 that repeats its edges, the artifact under other
    names. *)
Definition replay_payload : StepRunModel.t :=
  StepRunModel.mk 12 "trainer_replay" 1 COMPLETED None
    [11; 11] [("features", 100)] [("weights", 100)].

(** Step 12 as it is stored, with the edges it has. *)
Definition stored_replay_payload : StepRunModel.t :=
  StepRunModel.mk 12 "trainer_replay" 1 CACHED None
    [11] [("data", 100)] [("model", 100)].

(** A new step 13 of run 1 whose payload names parent 11 twice and artifact
    100 under two output names. *)
Definition new_step_payload : StepRunModel.t :=
  StepRunModel.mk 13 "evaluator" 1 RUNNING None
    [11; 11] [("data", 100)] [("model", 100); ("copy", 100)].

(** A reading of [is_valid_uuid] under which no name parses as an
    identifier. *)
Definition no_uuid_names : string -> option UUID := fun _ => None.

(** Project 1 with the users 2 and 3.  User 2 shares an orchestrator and a
    stack, both called "default", and an orchestrator and a stack called
    "prod"; user 3 owns private ones of the same names. *)
Definition sharing_example : Store :=
  with_projects (fun _ => [ProjectSchema.mk 1 "default"])
    (with_users (fun _ => [UserSchema.mk 2 "alice" None None;
                           UserSchema.mk 3 "bob" None None])
       (with_stack_components
          (fun _ => [StackComponentSchema.mk 10 "default" ORCHESTRATOR "local" 1 2 true "";
                     StackComponentSchema.mk 11 "default" ORCHESTRATOR "local" 1 3 false "";
                     StackComponentSchema.mk 12 "prod" ORCHESTRATOR "kubeflow" 1 2 true "";
                     StackComponentSchema.mk 13 "prod" ORCHESTRATOR "kubeflow" 1 3 false ""])
          (with_stacks
             (fun _ => [StackSchema.mk 20 "default" 1 2 true;
                        StackSchema.mk 21 "default" 1 3 false;
                        StackSchema.mk 22 "prod" 1 2 true;
                        StackSchema.mk 23 "prod" 1 3 false])
             empty_store))).

(** The payloads with which user 3 asks to share what they own. *)
Definition share_default_component : ComponentModel.t :=
  ComponentModel.mk 11 "default" ORCHESTRATOR "local" 1 3 true "".
Definition share_prod_component : ComponentModel.t :=
  ComponentModel.mk 13 "prod" ORCHESTRATOR "kubeflow" 1 3 true "".
Definition share_default_stack : StackModel.t :=
  StackModel.mk 21 "default" 1 3 true [].
Definition share_prod_stack : StackModel.t :=
  StackModel.mk 23 "prod" 1 3 true [].

(** A new shared component and a new shared stack of user 3 called "prod". *)
Definition new_shared_component : ComponentModel.t :=
  ComponentModel.mk 14 "prod" ORCHESTRATOR "airflow" 1 3 true "".
Definition new_shared_stack : StackModel.t :=
  StackModel.mk 24 "prod" 1 3 true [].

(** Role 5 is assigned to user 2 and to team 4 in project 1 only. *)
Definition role_example : Store :=
  with_projects (fun _ => [ProjectSchema.mk 1 "default"])
    (with_users (fun _ => [UserSchema.mk 2 "alice" None None])
       (with_teams (fun _ => [TeamSchema.mk 4 "ops"])
          (with_roles (fun _ => [RoleSchema.mk 5 "editor"])
             (with_user_role_assignments
                (fun _ => [UserRoleAssignmentSchema.mk 5 2 (Some 1)])
                (with_team_role_assignments
                   (fun _ => [TeamRoleAssignmentSchema.mk 5 4 (Some 1)])
                   empty_store))))).

Definition editor_role : RoleModel.t :=
  RoleModel.mk 5 "editor" {["read"; "write"]}.

Definition nightly_run : PipelineRunModel.t :=
  PipelineRunModel.mk 30 "nightly" 1 2 (Some 20) None.

(** A secret with a quote, a line feed, a backslash, characters beyond
    ASCII, one beyond the basic plane and a lone surrogate in its values. *)
Definition secret_example : gmap str str :=
  {[ text "user" := text "al" ++ [34; 10; 92; 127; 233; 0x20AC; 0x1F600; 0xD83D; 65];
     text "password" := text "s3cr=t/+" ]}.

(** A secret whose value is the two surrogates of U+1F600, and the secret
    whose value is that one character. *)
Definition paired_secret : gmap str str := {[ text "token" := [0xD83D; 0xDE00] ]}.
Definition joined_secret : gmap str str := {[ text "token" := [0x1F600] ]}.

(** A stand-in for an engine, to show that the law of [same_key] can be
    met: it marks the bytes of the plaintext with a byte and accepts only
    marked bytes. *)
Definition marking_engine : AesGcmEngine :=
  {| encrypt := fun plaintext =>
                  match utf8_encode plaintext with
                  | Some bytes => String "k" bytes
                  | None => EmptyString
                  end;
     decrypt := fun bytes =>
                  match bytes with
                  | String c plaintext => if Ascii.eqb c "k" then utf8_decode plaintext else None
                  | EmptyString => None
                  end |}.

(** A run whose name has the shape of an identifier, a reading of
    [is_valid_uuid] that recognises that name, and a payload of the same
    name with an id of its own. *)
Definition identifier_shaped_name : string := "123e4567-e89b-12d3-a456-426614174000".

Definition recognise_identifier_shaped_name : string -> option UUID :=
  fun s =>
    if String.eqb s identifier_shaped_name
    then Some 24249434048109030647017182301789831168
    else None.

Definition identifier_named_run_example : Store :=
  with_pipeline_runs
    (fun _ => [PipelineRunSchema.mk 40 identifier_shaped_name 1 2 None None])
    empty_store.

Definition identifier_named_payload : PipelineRunModel.t :=
  PipelineRunModel.mk 41 identifier_shaped_name 1 2 None None.

(** ** Vocabulary of the further statements *)

(** The component ids a stack payload lists, in the order of its
    mapping. *)
Definition component_ids (stack : StackModel.t) : list UUID :=
  flat_map snd (StackModel.components stack).

Definition component_in (s : Store) (i : UUID) : Prop :=
  exists r, In r (stack_components s) /\ StackComponentSchema.id r = i.

(** No stored stack has the id of the payload, none has its name in its
    project under its owner, and when the payload is shared none of its
    name is shared in the project. *)
Definition stack_is_new (s : Store) (stack : StackModel.t) : Prop :=
  stack_by_id s (StackModel.id stack) = None
  /\ forall r, In r (stacks s) ->
       StackSchema.name r = StackModel.name stack ->
       StackSchema.project_id r = StackModel.project stack ->
       StackSchema.user_id r <> StackModel.user stack
       /\ (StackModel.is_shared stack = true -> StackSchema.is_shared r = false).

(** Every row of the composition table belongs to a stored stack. *)
Definition compositions_have_stacks (s : Store) : Prop :=
  forall link, In link (stack_compositions s) ->
    stack_by_id s (StackCompositionSchema.stack_id link) <> None.

Definition role_in (s : Store) (i : UUID) : Prop :=
  exists r, In r (roles s) /\ RoleSchema.id r = i.

(** Every assignment is of a stored role. *)
Definition assignments_have_roles (s : Store) : Prop :=
  (forall a, In a (user_role_assignments s) ->
     role_in s (UserRoleAssignmentSchema.role_id a))
  /\ (forall a, In a (team_role_assignments s) ->
        role_in s (TeamRoleAssignmentSchema.role_id a)).

Definition builtin_role (r : RoleSchema.t) : Prop :=
  RoleSchema.name r = ADMIN_ROLE \/ RoleSchema.name r = GUEST_ROLE.

(** The names of the permission rows of a role. *)
Definition permission_names (s : Store) (role_id : UUID) : gset string :=
  list_to_set
    (map RolePermissionSchema.name
       (List.filter (permissions_of role_id) (role_permissions s))).

(** The body of the loop of [update_role] over the permissions that
    differ. *)
Definition sync_permission (role_id : UUID) (requested existing_permissions : gset string)
  (permission : string) : M unit :=
  if negb (bool_decide (permission ∈ requested))
  then
    let* permission_to_delete :=
      one_or_none role_permissions
        (fun p => String.eqb (RolePermissionSchema.name p) permission
                  && (RolePermissionSchema.role_id p =? role_id)) in
    match permission_to_delete with
    | None => raise UnmappedInstanceError
    | Some _ =>
      add (with_role_permissions
             (List.filter
                (fun p => negb (String.eqb (RolePermissionSchema.name p) permission
                                && (RolePermissionSchema.role_id p =? role_id)))))
    end
  else if negb (bool_decide (permission ∈ existing_permissions))
  then
    add (with_role_permissions
           (fun l => l ++ [RolePermissionSchema.mk permission role_id]))
  else ret tt.

(** The reference [create_run] keeps: the one of the payload when the row
    it names is stored. *)
Definition kept_reference {A} (l : list A) (pk : A -> UUID) (reference : option UUID)
  : option UUID :=
  match reference with
  | Some i =>
    match find (fun r => pk r =? i) l with
    | Some _ => Some i
    | None => None
    end
  | None => None
  end.

Definition pipeline_in (s : Store) (i : UUID) : Prop :=
  exists r, In r (pipelines s) /\ PipelineSchema.id r = i.

Definition stack_in (s : Store) (i : UUID) : Prop :=
  exists r, In r (stacks s) /\ StackSchema.id r = i.

(** The model [_run_step_schema_to_model] computes for a row. *)
Definition step_model (s : Store) (step : StepRunSchema.t) : StepRunModel.t :=
  match returned (_run_step_schema_to_model step s) with
  | Ok m => m
  | Raise _ => StepRunSchema_to_model step [] [] []
  end.

(** A method that leaves the database as it was and commits nothing. *)
Definition read_only {A} (method : Store -> Outcome A) : Prop :=
  forall s, store (method s) = s /\ n_commits (method s) = 0%nat.


(** ** Further example data *)

(** Two projects, three users of whom the last is the default account, a
    team, the roles "editor", "admin" and "auditor", the two permissions of
    the editor, and its assignment to alice in the default project. *)
Definition staffing_example : Store :=
  with_projects (fun _ => [ProjectSchema.mk 1 "default"; ProjectSchema.mk 6 "research"])
    (with_users (fun _ => [UserSchema.mk 2 "alice" None None; UserSchema.mk 3 "bob" None None;
                           UserSchema.mk 9 "default" None None])
       (with_teams (fun _ => [TeamSchema.mk 4 "ops"])
          (with_roles (fun _ => [RoleSchema.mk 5 "editor"; RoleSchema.mk 7 "admin";
                                 RoleSchema.mk 10 "auditor"])
             (with_role_permissions
                (fun _ => [RolePermissionSchema.mk "read" 5; RolePermissionSchema.mk "write" 5])
                (with_user_role_assignments
                   (fun _ => [UserRoleAssignmentSchema.mk 5 2 (Some 1)])
                   empty_store))))).

(** A private orchestrator of bob under a new name, and a stack made of his
    "prod" orchestrator. *)
Definition staging_component : ComponentModel.t :=
  ComponentModel.mk 15 "staging" ORCHESTRATOR "airflow" 1 3 false "".

Definition staging_stack : StackModel.t :=
  StackModel.mk 25 "staging" 1 3 false [(ORCHESTRATOR, [13])].

(** An update of bob's stack "prod" that lists his orchestrator and an id
    that no component has. *)
Definition prod_stack_update : StackModel.t :=
  StackModel.mk 23 "prod" 1 3 false [(ORCHESTRATOR, [13; 99])].

(** The editor with "write" replaced by "deploy", and a new role. *)
Definition deploying_editor : RoleModel.t :=
  RoleModel.mk 5 "editor" {["read"; "deploy"]}.

Definition viewer_role : RoleModel.t :=
  RoleModel.mk 8 "viewer" {["read"]}.

(** A run that names a pipeline and a stack that are not stored. *)
Definition adhoc_run : PipelineRunModel.t :=
  PipelineRunModel.mk 32 "adhoc" 1 2 (Some 98) (Some 77).

(** A secret row whose values were never written. *)
Definition database_secret : SecretSchema.t :=
  SecretSchema.mk 1 "database" "workspace" 2 3 None.

(** The stacks of the sharing example once bob has registered his stack
    "staging". *)
Definition staging_example : Store :=
  store (create_stack no_uuid_names staging_stack sharing_example).

(** ** Example data for the sharing rule *)

(** The sharing example with a third user, who owns nothing, and the
    components and stacks called "prod" that they ask to create, shared and
    private. *)
Definition three_owner_example : Store :=
  with_users (fun l => l ++ [UserSchema.mk 4 "carol" None None]) sharing_example.

Definition carol_shared_component : ComponentModel.t :=
  ComponentModel.mk 14 "prod" ORCHESTRATOR "airflow" 1 4 true "".
Definition carol_private_component : ComponentModel.t :=
  ComponentModel.mk 14 "prod" ORCHESTRATOR "airflow" 1 4 false "".
Definition carol_shared_stack : StackModel.t :=
  StackModel.mk 24 "prod" 1 4 true [].
Definition carol_private_stack : StackModel.t :=
  StackModel.mk 24 "prod" 1 4 false [].


(** * Properties *)

(** ** Queries on lists *)

Lemma find_hit {A} (p : A -> bool) (l : list A) (x : A) :
  In x l -> p x = true -> exists y, find p l = Some y.
Proof.
  induction l as [|a l IH]; simpl; [tauto|].
  intros [->|Hin] Hp.
  - rewrite Hp. eauto.
  - destruct (p a); eauto.
Qed.

Lemma find_app_miss {A} (p : A -> bool) (l l' : list A) :
  find p l = None -> find p (l ++ l') = find p l'.
Proof.
  induction l as [|a l IH]; simpl; [reflexivity|].
  destruct (p a); [discriminate|exact IH].
Qed.

Lemma find_app_hit {A} (p : A -> bool) (l l' : list A) (x : A) :
  find p l = Some x -> find p (l ++ l') = Some x.
Proof.
  induction l as [|a l IH]; simpl; [discriminate|].
  destruct (p a); [trivial|exact IH].
Qed.

(** ** Lookups of the lineage tables *)

Lemma step_run_found (s : Store) (i : UUID) :
  step_run_in s i ->
  exists r, find (fun r => StepRunSchema.id r =? i) (step_runs s) = Some r.
Proof.
  intros (r & Hin & Hid). apply (find_hit _ _ r Hin).
  rewrite Hid. apply N.eqb_refl.
Qed.

Lemma artifact_found (s : Store) (i : UUID) :
  artifact_in s i ->
  exists r, find (fun r => ArtifactSchema.id r =? i) (artifacts s) = Some r.
Proof.
  intros (r & Hin & Hid). apply (find_hit _ _ r Hin).
  rewrite Hid. apply N.eqb_refl.
Qed.

Lemma parent_edge_found (s : Store) (child parent : UUID) :
  parent_edge_in s child parent ->
  exists a, find (fun a => (StepRunParentsSchema.child_id a =? child)
                           && (StepRunParentsSchema.parent_id a =? parent))
              (step_run_parents s) = Some a.
Proof.
  intros Hin. apply (find_hit _ _ _ Hin). simpl.
  now rewrite !N.eqb_refl.
Qed.

Lemma input_edge_found (s : Store) (step artifact : UUID) :
  input_edge_in s step artifact ->
  exists a, find (fun a => (StepRunInputArtifactSchema.step_run_id a =? step)
                           && (StepRunInputArtifactSchema.artifact_id a =? artifact))
              (step_run_input_artifacts s) = Some a.
Proof.
  intros (a & Hin & H1 & H2). apply (find_hit _ _ a Hin).
  now rewrite H1, H2, !N.eqb_refl.
Qed.

Lemma output_edge_found (s : Store) (step artifact : UUID) :
  output_edge_in s step artifact ->
  exists a, find (fun a => (StepRunOutputArtifactSchema.step_run_id a =? step)
                           && (StepRunOutputArtifactSchema.artifact_id a =? artifact))
              (step_run_output_artifacts s) = Some a.
Proof.
  intros (a & Hin & H1 & H2). apply (find_hit _ _ a Hin).
  now rewrite H1, H2, !N.eqb_refl.
Qed.

(** ** Re-asserting an edge *)

Lemma set_parent_step_existing (st : Session) (child parent : UUID) :
  step_run_in (db st) child -> step_run_in (db st) parent ->
  parent_edge_in (db st) child parent ->
  _set_run_step_parent_step child parent st = (Ok tt, st).
Proof.
  intros Hc Hp He.
  destruct (step_run_found _ _ Hc) as [rc Hrc].
  destruct (step_run_found _ _ Hp) as [rp Hrp].
  destruct (parent_edge_found _ _ _ He) as [a Ha].
  unfold _set_run_step_parent_step, bind, first. simpl.
  rewrite Hrc, Hrp, Ha. reflexivity.
Qed.

Lemma set_input_artifact_existing (st : Session) (step artifact : UUID) (name : string) :
  step_run_in (db st) step -> artifact_in (db st) artifact ->
  input_edge_in (db st) step artifact ->
  _set_run_step_input_artifact step artifact name st = (Ok tt, st).
Proof.
  intros Hs Ha He.
  destruct (step_run_found _ _ Hs) as [r Hr].
  destruct (artifact_found _ _ Ha) as [ar Har].
  destruct (input_edge_found _ _ _ He) as [a Hf].
  unfold _set_run_step_input_artifact, bind, first. simpl.
  rewrite Hr, Har, Hf. reflexivity.
Qed.

Lemma set_output_artifact_existing (st : Session) (step artifact : UUID) (name : string) :
  step_run_in (db st) step -> artifact_in (db st) artifact ->
  output_edge_in (db st) step artifact ->
  _set_run_step_output_artifact step artifact name st = (Ok tt, st).
Proof.
  intros Hs Ha He.
  destruct (step_run_found _ _ Hs) as [r Hr].
  destruct (artifact_found _ _ Ha) as [ar Har].
  destruct (output_edge_found _ _ _ He) as [a Hf].
  unfold _set_run_step_output_artifact, bind, first. simpl.
  rewrite Hr, Har, Hf. reflexivity.
Qed.

(** ** What one call of an edge helper does *)

Lemma on_db_id (f : Store -> Store) (st : Session) :
  f (db st) = db st -> on_db f st = st.
Proof. destruct st as [d c n o]. unfold on_db. simpl. now intros ->. Qed.

Lemma with_parents_nil (s : Store) :
  with_step_run_parents (fun l => l ++ []) s = s.
Proof. destruct s. unfold with_step_run_parents. simpl. now rewrite app_nil_r. Qed.

Lemma with_inputs_nil (s : Store) :
  with_step_run_input_artifacts (fun l => l ++ []) s = s.
Proof. destruct s. unfold with_step_run_input_artifacts. simpl. now rewrite app_nil_r. Qed.

Lemma with_outputs_nil (s : Store) :
  with_step_run_output_artifacts (fun l => l ++ []) s = s.
Proof. destruct s. unfold with_step_run_output_artifacts. simpl. now rewrite app_nil_r. Qed.

Lemma with_parents_app (s : Store) (a b : list StepRunParentsSchema.t) :
  with_step_run_parents (fun l => l ++ b) (with_step_run_parents (fun l => l ++ a) s)
  = with_step_run_parents (fun l => l ++ (a ++ b)) s.
Proof. unfold with_step_run_parents. simpl. now rewrite app_assoc. Qed.

Lemma with_inputs_app (s : Store) (a b : list StepRunInputArtifactSchema.t) :
  with_step_run_input_artifacts (fun l => l ++ b)
    (with_step_run_input_artifacts (fun l => l ++ a) s)
  = with_step_run_input_artifacts (fun l => l ++ (a ++ b)) s.
Proof. unfold with_step_run_input_artifacts. simpl. now rewrite app_assoc. Qed.

Lemma with_outputs_app (s : Store) (a b : list StepRunOutputArtifactSchema.t) :
  with_step_run_output_artifacts (fun l => l ++ b)
    (with_step_run_output_artifacts (fun l => l ++ a) s)
  = with_step_run_output_artifacts (fun l => l ++ (a ++ b)) s.
Proof. unfold with_step_run_output_artifacts. simpl. now rewrite app_assoc. Qed.

Lemma find_step_run_in (s : Store) (i : UUID) (r : StepRunSchema.t) :
  find (fun r => StepRunSchema.id r =? i) (step_runs s) = Some r -> step_run_in s i.
Proof.
  intros H. apply find_some in H as [Hin Hid].
  exists r. split; [exact Hin|]. now apply N.eqb_eq.
Qed.

Lemma find_artifact_in (s : Store) (i : UUID) (r : ArtifactSchema.t) :
  find (fun r => ArtifactSchema.id r =? i) (artifacts s) = Some r -> artifact_in s i.
Proof.
  intros H. apply find_some in H as [Hin Hid].
  exists r. split; [exact Hin|]. now apply N.eqb_eq.
Qed.

Lemma set_parent_step_spec (st : Session) (child parent : UUID) :
  exists r st', _set_run_step_parent_step child parent st = (r, st') /\
    ((r = Raise KeyError /\ st' = st) \/
     (r = Ok tt /\ step_run_in (db st) child /\ step_run_in (db st) parent /\
      ((parent_edge_in (db st) child parent /\ st' = st) \/
       (~ parent_edge_in (db st) child parent /\
        st' = on_db (with_step_run_parents
                       (fun l => l ++ [StepRunParentsSchema.mk parent child])) st)))).
Proof.
  unfold _set_run_step_parent_step, bind, first, raise, ret, add. simpl.
  destruct (find _ (step_runs (db st))) as [rc|] eqn:Hc; [|eauto 6].
  destruct (find (fun r => StepRunSchema.id r =? parent) _) as [rp|] eqn:Hp; [|eauto 6].
  apply find_step_run_in in Hc, Hp.
  destruct (find _ (step_run_parents (db st))) as [a|] eqn:Ha.
  - do 2 eexists. split; [reflexivity|]. right. repeat split; trivial. left.
    split; trivial. apply find_some in Ha as [Hin Hb].
    apply andb_true_iff in Hb as [H1 H2]. apply N.eqb_eq in H1, H2.
    destruct a as [p c]. simpl in *. subst. exact Hin.
  - do 2 eexists. split; [reflexivity|]. right. repeat split; trivial. right.
    split; trivial. intros Hin.
    apply (find_none _ _ Ha) in Hin. simpl in Hin. now rewrite !N.eqb_refl in Hin.
Qed.

Lemma set_input_artifact_spec (st : Session) (step artifact : UUID) (name : string) :
  exists r st', _set_run_step_input_artifact step artifact name st = (r, st') /\
    ((r = Raise KeyError /\ st' = st) \/
     (r = Ok tt /\ step_run_in (db st) step /\ artifact_in (db st) artifact /\
      ((input_edge_in (db st) step artifact /\ st' = st) \/
       (~ input_edge_in (db st) step artifact /\
        st' = on_db (with_step_run_input_artifacts
                       (fun l => l ++ [StepRunInputArtifactSchema.mk step artifact name])) st)))).
Proof.
  unfold _set_run_step_input_artifact, bind, first, raise, ret, add. simpl.
  destruct (find _ (step_runs (db st))) as [rc|] eqn:Hc; [|eauto 6].
  destruct (find _ (artifacts (db st))) as [ra|] eqn:Hp; [|eauto 6].
  apply find_step_run_in in Hc. apply find_artifact_in in Hp.
  destruct (find _ (step_run_input_artifacts (db st))) as [a|] eqn:Ha.
  - do 2 eexists. split; [reflexivity|]. right. repeat split; trivial. left.
    split; trivial. apply find_some in Ha as [Hin Hb].
    apply andb_true_iff in Hb as [H1 H2]. apply N.eqb_eq in H1, H2.
    exists a. auto.
  - do 2 eexists. split; [reflexivity|]. right. repeat split; trivial. right.
    split; trivial. intros (a & Hin & H1 & H2).
    apply (find_none _ _ Ha) in Hin. now rewrite H1, H2, !N.eqb_refl in Hin.
Qed.

Lemma set_output_artifact_spec (st : Session) (step artifact : UUID) (name : string) :
  exists r st', _set_run_step_output_artifact step artifact name st = (r, st') /\
    ((r = Raise KeyError /\ st' = st) \/
     (r = Ok tt /\ step_run_in (db st) step /\ artifact_in (db st) artifact /\
      ((output_edge_in (db st) step artifact /\ st' = st) \/
       (~ output_edge_in (db st) step artifact /\
        st' = on_db (with_step_run_output_artifacts
                       (fun l => l ++ [StepRunOutputArtifactSchema.mk step artifact name])) st)))).
Proof.
  unfold _set_run_step_output_artifact, bind, first, raise, ret, add. simpl.
  destruct (find _ (step_runs (db st))) as [rc|] eqn:Hc; [|eauto 6].
  destruct (find _ (artifacts (db st))) as [ra|] eqn:Hp; [|eauto 6].
  apply find_step_run_in in Hc. apply find_artifact_in in Hp.
  destruct (find _ (step_run_output_artifacts (db st))) as [a|] eqn:Ha.
  - do 2 eexists. split; [reflexivity|]. right. repeat split; trivial. left.
    split; trivial. apply find_some in Ha as [Hin Hb].
    apply andb_true_iff in Hb as [H1 H2]. apply N.eqb_eq in H1, H2.
    exists a. auto.
  - do 2 eexists. split; [reflexivity|]. right. repeat split; trivial. right.
    split; trivial. intros (a & Hin & H1 & H2).
    apply (find_none _ _ Ha) in Hin. now rewrite H1, H2, !N.eqb_refl in Hin.
Qed.

(** ** The loops over the edges of a payload *)

Lemma output_edge_in_grow (s : Store) (added : list StepRunOutputArtifactSchema.t)
  (step artifact : UUID) :
  output_edge_in s step artifact ->
  output_edge_in (with_step_run_output_artifacts (fun l => l ++ added) s) step artifact.
Proof.
  intros (a & Hin & H). exists a. split; [|exact H].
  unfold with_step_run_output_artifacts. simpl. apply in_or_app. now left.
Qed.

Lemma for_each_output_spec (step : UUID) (l : list (string * UUID)) (st : Session) :
  exists r st' added,
    for_each l (fun '(output_name, artifact_id) =>
                  _set_run_step_output_artifact step artifact_id output_name) st = (r, st')
    /\ st' = on_db (with_step_run_output_artifacts (fun x => x ++ added)) st
    /\ Forall (fun e => StepRunOutputArtifactSchema.step_run_id e = step
                        /\ In (StepRunOutputArtifactSchema.name e,
                               StepRunOutputArtifactSchema.artifact_id e) l
                        /\ ~ output_edge_in (db st) step
                               (StepRunOutputArtifactSchema.artifact_id e)) added
    /\ (r = Ok tt \/ r = Raise KeyError)
    /\ (r = Ok tt -> forall n a, In (n, a) l ->
          step_run_in (db st) step /\ artifact_in (db st) a
          /\ output_edge_in (db st') step a).
Proof.
  revert st. induction l as [|[n a] l IH]; intros st.
  - exists (Ok tt), st, []. split; [reflexivity|].
    split; [symmetry; apply on_db_id, with_outputs_nil|].
    split; [constructor|]. split; [now left|]. intros _ n a [].
  - simpl. unfold bind at 1.
    destruct (set_output_artifact_spec st step a n) as (r1 & st1 & Hrun & Hcases).
    rewrite Hrun.
    destruct Hcases as [[-> ->]|(-> & Hs & Ha & Hedge)].
    + exists (Raise KeyError), st, []. split; [reflexivity|].
      split; [symmetry; apply on_db_id, with_outputs_nil|].
      split; [constructor|]. split; [now right|]. intros H; discriminate H.
    + destruct (IH st1) as (r & st' & added & Hloop & Hst' & Hall & Hr & Hok).
      rewrite Hloop.
      destruct Hedge as [[He ->]|[Hne ->]].
      * exists r, st', added. split; [reflexivity|]. split; [exact Hst'|].
        split.
        { eapply Forall_impl; [exact Hall|]. simpl. intros e (H1 & H2 & H3). auto. }
        split; [exact Hr|]. intros Hrok n' a' [Heq|Hin].
        -- inversion Heq; subst n' a'. split; [exact Hs|]. split; [exact Ha|].
           rewrite Hst'. simpl. now apply output_edge_in_grow.
        -- exact (Hok Hrok _ _ Hin).
      * exists r, st', (StepRunOutputArtifactSchema.mk step a n :: added).
        split; [reflexivity|].
        split.
        { rewrite Hst'. unfold on_db. simpl. now rewrite with_outputs_app. }
        split.
        { constructor; [simpl; auto|].
          eapply Forall_impl; [exact Hall|]. simpl. intros e (H1 & H2 & H3).
          split; [exact H1|]. split; [now right|]. intros Hc. apply H3.
          now apply output_edge_in_grow. }
        split; [exact Hr|]. intros Hrok n' a' [Heq|Hin].
        -- inversion Heq; subst n' a'. split; [exact Hs|]. split; [exact Ha|].
           rewrite Hst'. simpl. apply output_edge_in_grow.
           exists (StepRunOutputArtifactSchema.mk step a n). simpl.
           split; [|auto]. apply in_or_app. right. now left.
        -- destruct (Hok Hrok _ _ Hin) as (Hx & Hy & Hz).
           split; [exact Hx|]. split; [exact Hy|exact Hz].
Qed.

Lemma input_edge_in_grow (s : Store) (added : list StepRunInputArtifactSchema.t)
  (step artifact : UUID) :
  input_edge_in s step artifact ->
  input_edge_in (with_step_run_input_artifacts (fun l => l ++ added) s) step artifact.
Proof.
  intros (a & Hin & H). exists a. split; [|exact H].
  unfold with_step_run_input_artifacts. simpl. apply in_or_app. now left.
Qed.

Lemma for_each_input_spec (step : UUID) (l : list (string * UUID)) (st : Session) :
  exists r st' added,
    for_each l (fun '(input_name, artifact_id) =>
                  _set_run_step_input_artifact step artifact_id input_name) st = (r, st')
    /\ st' = on_db (with_step_run_input_artifacts (fun x => x ++ added)) st
    /\ Forall (fun e => StepRunInputArtifactSchema.step_run_id e = step
                        /\ In (StepRunInputArtifactSchema.name e,
                               StepRunInputArtifactSchema.artifact_id e) l
                        /\ ~ input_edge_in (db st) step
                               (StepRunInputArtifactSchema.artifact_id e)) added
    /\ (r = Ok tt \/ r = Raise KeyError)
    /\ (r = Ok tt -> forall n a, In (n, a) l ->
          step_run_in (db st) step /\ artifact_in (db st) a
          /\ input_edge_in (db st') step a).
Proof.
  revert st. induction l as [|[n a] l IH]; intros st.
  - exists (Ok tt), st, []. split; [reflexivity|].
    split; [symmetry; apply on_db_id, with_inputs_nil|].
    split; [constructor|]. split; [now left|]. intros _ n a [].
  - simpl. unfold bind at 1.
    destruct (set_input_artifact_spec st step a n) as (r1 & st1 & Hrun & Hcases).
    rewrite Hrun.
    destruct Hcases as [[-> ->]|(-> & Hs & Ha & Hedge)].
    + exists (Raise KeyError), st, []. split; [reflexivity|].
      split; [symmetry; apply on_db_id, with_inputs_nil|].
      split; [constructor|]. split; [now right|]. intros H; discriminate H.
    + destruct (IH st1) as (r & st' & added & Hloop & Hst' & Hall & Hr & Hok).
      rewrite Hloop.
      destruct Hedge as [[He ->]|[Hne ->]].
      * exists r, st', added. split; [reflexivity|]. split; [exact Hst'|].
        split.
        { eapply Forall_impl; [exact Hall|]. simpl. intros e (H1 & H2 & H3). auto. }
        split; [exact Hr|]. intros Hrok n' a' [Heq|Hin].
        -- inversion Heq; subst n' a'. split; [exact Hs|]. split; [exact Ha|].
           rewrite Hst'. simpl. now apply input_edge_in_grow.
        -- exact (Hok Hrok _ _ Hin).
      * exists r, st', (StepRunInputArtifactSchema.mk step a n :: added).
        split; [reflexivity|].
        split.
        { rewrite Hst'. unfold on_db. simpl. now rewrite with_inputs_app. }
        split.
        { constructor; [simpl; auto|].
          eapply Forall_impl; [exact Hall|]. simpl. intros e (H1 & H2 & H3).
          split; [exact H1|]. split; [now right|]. intros Hc. apply H3.
          now apply input_edge_in_grow. }
        split; [exact Hr|]. intros Hrok n' a' [Heq|Hin].
        -- inversion Heq; subst n' a'. split; [exact Hs|]. split; [exact Ha|].
           rewrite Hst'. simpl. apply input_edge_in_grow.
           exists (StepRunInputArtifactSchema.mk step a n). simpl.
           split; [|auto]. apply in_or_app. right. now left.
        -- destruct (Hok Hrok _ _ Hin) as (Hx & Hy & Hz).
           split; [exact Hx|]. split; [exact Hy|exact Hz].
Qed.

Lemma parent_edge_in_grow (s : Store) (added : list StepRunParentsSchema.t)
  (child parent : UUID) :
  parent_edge_in s child parent ->
  parent_edge_in (with_step_run_parents (fun l => l ++ added) s) child parent.
Proof.
  unfold parent_edge_in, with_step_run_parents. simpl. intros Hin.
  apply in_or_app. now left.
Qed.

Lemma for_each_parent_spec (child : UUID) (l : list UUID) (st : Session) :
  exists r st' added,
    for_each l (fun parent_step_id => _set_run_step_parent_step child parent_step_id) st
    = (r, st')
    /\ st' = on_db (with_step_run_parents (fun x => x ++ added)) st
    /\ Forall (fun e => StepRunParentsSchema.child_id e = child
                        /\ In (StepRunParentsSchema.parent_id e) l
                        /\ ~ parent_edge_in (db st) child (StepRunParentsSchema.parent_id e))
         added
    /\ (r = Ok tt \/ r = Raise KeyError)
    /\ (r = Ok tt -> forall p, In p l ->
          step_run_in (db st) child /\ step_run_in (db st) p
          /\ parent_edge_in (db st') child p).
Proof.
  revert st. induction l as [|p l IH]; intros st.
  - exists (Ok tt), st, []. split; [reflexivity|].
    split; [symmetry; apply on_db_id, with_parents_nil|].
    split; [constructor|]. split; [now left|]. intros _ p [].
  - simpl. unfold bind at 1.
    destruct (set_parent_step_spec st child p) as (r1 & st1 & Hrun & Hcases).
    rewrite Hrun.
    destruct Hcases as [[-> ->]|(-> & Hs & Ha & Hedge)].
    + exists (Raise KeyError), st, []. split; [reflexivity|].
      split; [symmetry; apply on_db_id, with_parents_nil|].
      split; [constructor|]. split; [now right|]. intros H; discriminate H.
    + destruct (IH st1) as (r & st' & added & Hloop & Hst' & Hall & Hr & Hok).
      rewrite Hloop.
      destruct Hedge as [[He ->]|[Hne ->]].
      * exists r, st', added. split; [reflexivity|]. split; [exact Hst'|].
        split.
        { eapply Forall_impl; [exact Hall|]. simpl. intros e (H1 & H2 & H3). auto. }
        split; [exact Hr|]. intros Hrok p' [Heq|Hin].
        -- subst p'. split; [exact Hs|]. split; [exact Ha|].
           rewrite Hst'. simpl. now apply parent_edge_in_grow.
        -- exact (Hok Hrok _ Hin).
      * exists r, st', (StepRunParentsSchema.mk p child :: added).
        split; [reflexivity|].
        split.
        { rewrite Hst'. unfold on_db. simpl. now rewrite with_parents_app. }
        split.
        { constructor; [simpl; auto|].
          eapply Forall_impl; [exact Hall|]. simpl. intros e (H1 & H2 & H3).
          split; [exact H1|]. split; [now right|]. intros Hc. apply H3.
          now apply parent_edge_in_grow. }
        split; [exact Hr|]. intros Hrok p' [Heq|Hin].
        -- subst p'. split; [exact Hs|]. split; [exact Ha|].
           rewrite Hst'. simpl. apply parent_edge_in_grow.
           unfold parent_edge_in, with_step_run_parents. simpl.
           apply in_or_app. right. now left.
        -- destruct (Hok Hrok _ Hin) as (Hx & Hy & Hz).
           split; [exact Hx|]. split; [exact Hy|exact Hz].
Qed.

Lemma with_Session_eq {A} (body : M A) (s : Store) (r : result A) (st : Session) :
  body (session_on s) = (r, st) ->
  with_Session body s = mkOutcome r (committed st) (commits st) (S (opened st)).
Proof. unfold with_Session, session_on. now intros ->. Qed.

Lemma update_run_step_store (s : Store) (step_run : StepRunModel.t) :
  (exists e, update_run_step step_run s = mkOutcome (Raise e) s 0%nat 1%nat)
  \/ (exists m added,
        update_run_step step_run s =
        mkOutcome (Ok m)
          (with_step_run_output_artifacts (fun l => l ++ added)
             (with_step_runs
                (update_step_run (StepRunModel.id step_run)
                   (StepRunSchema_from_update_model step_run)) s))
          1%nat 1%nat
        /\ step_run_in s (StepRunModel.id step_run)
        /\ Forall (fun e => StepRunOutputArtifactSchema.step_run_id e = StepRunModel.id step_run
                            /\ In (StepRunOutputArtifactSchema.name e,
                                   StepRunOutputArtifactSchema.artifact_id e)
                                  (StepRunModel.output_artifacts step_run)
                            /\ ~ output_edge_in s (StepRunModel.id step_run)
                                   (StepRunOutputArtifactSchema.artifact_id e)) added
        /\ forall n a, In (n, a) (StepRunModel.output_artifacts step_run) ->
             artifact_in s a
             /\ output_edge_in
                  (with_step_run_output_artifacts (fun l => l ++ added) s)
                  (StepRunModel.id step_run) a).
Proof.
  unfold update_run_step, update_run_step_block.
  match goal with |- context [with_Session ?b s] => set (body := b) end.
  destruct (body (session_on s)) as [r st'] eqn:Hb.
  rewrite (with_Session_eq _ _ _ _ Hb).
  unfold body, session_on, bind at 1, first in Hb. simpl in Hb. clear body.
  destruct (find _ (step_runs s)) as [existing|] eqn:Hfind.
  - pose proof (find_step_run_in _ _ _ Hfind) as Hin.
    apply find_some in Hfind as [_ Hid]. apply N.eqb_eq in Hid.
    unfold bind at 1, add in Hb. simpl in Hb. unfold bind at 1 in Hb.
    match type of Hb with
    | context [for_each ?l ?f ?st] =>
      destruct (for_each_output_spec (StepRunModel.id step_run) l st)
        as (r0 & st0 & added & Hloop & Hst' & Hall & Hr & Hok)
    end.
    rewrite Hloop in Hb. destruct Hr as [-> | ->].
    + right. unfold bind, commit, ret in Hb. simpl in Hb.
      inversion Hb; subst r st'; clear Hb. rewrite Hst'. simpl. rewrite Hid.
      eexists _, added. split; [reflexivity|].
      split; [exact Hin|].
      split.
      { eapply Forall_impl; [exact Hall|]. simpl. intros e (H1 & H2 & H3).
        split; [exact H1|]. split; [exact H2|]. intros Hc. apply H3.
        destruct Hc as (a & Ha & Hb). exists a. split; [exact Ha|exact Hb]. }
      intros n a Hna. destruct (Hok eq_refl n a Hna) as (_ & Ha & He).
      split; [exact Ha|]. rewrite Hst' in He. simpl in He.
      destruct He as (x & Hx & Hy). exists x. split; [exact Hx|exact Hy].
    + left. exists KeyError. inversion Hb; subst r st'. rewrite Hst'. reflexivity.
  - left. exists KeyError. inversion Hb; subst r st'. reflexivity.
Qed.

Lemma for_each_parent_existing (st : Session) (child : UUID) (l : list UUID) :
  (forall p, In p l ->
     step_run_in (db st) child /\ step_run_in (db st) p /\ parent_edge_in (db st) child p) ->
  for_each l (fun parent_step_id => _set_run_step_parent_step child parent_step_id) st
  = (Ok tt, st).
Proof.
  induction l as [|p l IH]; intros H; [reflexivity|].
  simpl. unfold bind.
  destruct (H p (or_introl eq_refl)) as (Hc & Hp & He).
  rewrite (set_parent_step_existing st child p Hc Hp He).
  apply IH. intros q Hq. apply H. now right.
Qed.

Lemma for_each_input_existing (st : Session) (step : UUID) (l : list (string * UUID)) :
  (forall n a, In (n, a) l ->
     step_run_in (db st) step /\ artifact_in (db st) a /\ input_edge_in (db st) step a) ->
  for_each l (fun '(input_name, artifact_id) =>
                _set_run_step_input_artifact step artifact_id input_name) st
  = (Ok tt, st).
Proof.
  induction l as [|[n a] l IH]; intros H; [reflexivity|].
  simpl. unfold bind.
  destruct (H n a (or_introl eq_refl)) as (Hc & Hp & He).
  rewrite (set_input_artifact_existing st step a n Hc Hp He).
  apply IH. intros n' a' Hq. apply (H n' a'). now right.
Qed.

Lemma for_each_output_existing (st : Session) (step : UUID) (l : list (string * UUID)) :
  (forall n a, In (n, a) l ->
     step_run_in (db st) step /\ artifact_in (db st) a /\ output_edge_in (db st) step a) ->
  for_each l (fun '(output_name, artifact_id) =>
                _set_run_step_output_artifact step artifact_id output_name) st
  = (Ok tt, st).
Proof.
  induction l as [|[n a] l IH]; intros H; [reflexivity|].
  simpl. unfold bind.
  destruct (H n a (or_introl eq_refl)) as (Hc & Hp & He).
  rewrite (set_output_artifact_existing st step a n Hc Hp He).
  apply IH. intros n' a' Hq. apply (H n' a'). now right.
Qed.

Lemma step_run_in_update (s : Store) (pk i : UUID) (m : StepRunModel.t) :
  step_run_in s i ->
  step_run_in (with_step_runs (update_step_run pk (StepRunSchema_from_update_model m)) s) i.
Proof.
  intros (r & Hin & Hid). unfold step_run_in, with_step_runs, update_step_run. simpl.
  exists (if StepRunSchema.id r =? pk then StepRunSchema_from_update_model m r else r).
  split.
  - apply (in_map (fun r => if StepRunSchema.id r =? pk
                            then StepRunSchema_from_update_model m r else r)) in Hin.
    exact Hin.
  - destruct (StepRunSchema.id r =? pk); exact Hid.
Qed.

(** The committed database after [create_run_step]. *)
Lemma create_run_step_store (s : Store) (step_run : StepRunModel.t) :
  (exists e, create_run_step step_run s = mkOutcome (Raise e) s 0%nat 1%nat)
  \/ (exists m a1 a2 a3,
        let s1 := with_step_runs
                    (fun l => l ++ [StepRunSchema_from_create_model step_run]) s in
        let s' := with_step_run_output_artifacts (fun l => l ++ a3)
                    (with_step_run_input_artifacts (fun l => l ++ a2)
                       (with_step_run_parents (fun l => l ++ a1) s1)) in
        create_run_step step_run s = mkOutcome (Ok m) s' 1%nat 1%nat
        /\ (forall p, In p (StepRunModel.parent_step_ids step_run) ->
              step_run_in s1 p /\ parent_edge_in s' (StepRunModel.id step_run) p)
        /\ (forall n a, In (n, a) (StepRunModel.input_artifacts step_run) ->
              artifact_in s a /\ input_edge_in s' (StepRunModel.id step_run) a)
        /\ (forall n a, In (n, a) (StepRunModel.output_artifacts step_run) ->
              artifact_in s a /\ output_edge_in s' (StepRunModel.id step_run) a)).
Proof.
  unfold create_run_step, create_run_step_block.
  match goal with |- context [with_Session ?b s] => set (body := b) end.
  destruct (body (session_on s)) as [r st'] eqn:Hb.
  rewrite (with_Session_eq _ _ _ _ Hb).
  unfold body, session_on, bind at 1, first in Hb. simpl in Hb. clear body.
  destruct (find _ (pipeline_runs s)) as [run|] eqn:Hrun;
    [|left; exists KeyError; inversion Hb; reflexivity].
  unfold bind at 1, first in Hb. simpl in Hb.
  destruct (find _ (step_runs s)) as [existing|] eqn:Hex;
    [left; exists EntityExistsError; inversion Hb; reflexivity|].
  unfold bind at 1, add in Hb. simpl in Hb. unfold bind at 1 in Hb.
  match type of Hb with
  | context [for_each ?l ?f ?st] =>
    destruct (for_each_parent_spec (StepRunModel.id step_run) l st)
      as (r1 & st1 & a1 & Hl1 & Hst1 & _ & Hr1 & Hok1)
  end.
  rewrite Hl1 in Hb. destruct Hr1 as [-> | ->];
    [|left; exists KeyError; inversion Hb; subst; reflexivity].
  unfold bind at 1 in Hb.
  match type of Hb with
  | context [for_each ?l ?f ?st] =>
    destruct (for_each_input_spec (StepRunModel.id step_run) l st)
      as (r2 & st2 & a2 & Hl2 & Hst2 & _ & Hr2 & Hok2)
  end.
  rewrite Hl2 in Hb. destruct Hr2 as [-> | ->];
    [|left; exists KeyError; inversion Hb; subst; reflexivity].
  unfold bind at 1 in Hb.
  match type of Hb with
  | context [for_each ?l ?f ?st] =>
    destruct (for_each_output_spec (StepRunModel.id step_run) l st)
      as (r3 & st3 & a3 & Hl3 & Hst3 & _ & Hr3 & Hok3)
  end.
  rewrite Hl3 in Hb. destruct Hr3 as [-> | ->];
    [|left; exists KeyError; inversion Hb; subst; reflexivity].
  right. unfold bind, commit, ret in Hb. simpl in Hb.
  inversion Hb; subst r st'; clear Hb. subst st3 st2 st1. simpl.
  eexists _, a1, a2, a3. split; [reflexivity|].
  specialize (Hok1 eq_refl). specialize (Hok2 eq_refl). specialize (Hok3 eq_refl).
  simpl in Hok1, Hok2, Hok3.
  split; [|split].
  - intros p Hp. destruct (Hok1 p Hp) as (_ & H1 & H2). split; [exact H1|].
    exact H2.
  - intros n a Hna. destruct (Hok2 n a Hna) as (_ & H1 & H2). split; [exact H1|].
    destruct H2 as (x & Hx & Hy). exists x. split; [exact Hx|exact Hy].
  - intros n a Hna. destruct (Hok3 n a Hna) as (_ & H1 & H2). split; [exact H1|].
    exact H2.
Qed.

(** ** The producer of an artifact *)

Lemma run_step_schema_to_model_ok (s : Store) (r : StepRunSchema.t) :
  exists ps ins outs,
    _run_step_schema_to_model r s
    = mkOutcome (Ok (StepRunSchema_to_model r ps ins outs)) s 0%nat 1%nat.
Proof. do 3 eexists. reflexivity. Qed.

Lemma get_run_step_found (s : Store) (i : UUID) (r : StepRunSchema.t) :
  find (fun r => StepRunSchema.id r =? i) (step_runs s) = Some r ->
  exists ps ins outs,
    get_run_step i s = mkOutcome (Ok (StepRunSchema_to_model r ps ins outs)) s 0%nat 2%nat.
Proof.
  intros H. unfold get_run_step, with_Session, bind, first. simpl. rewrite H.
  do 3 eexists. reflexivity.
Qed.

Lemma get_run_step_missing (s : Store) (i : UUID) :
  find (fun r => StepRunSchema.id r =? i) (step_runs s) = None ->
  get_run_step i s = mkOutcome (Raise KeyError) s 0%nat 1%nat.
Proof.
  intros H. unfold get_run_step, with_Session, bind, first. simpl. now rewrite H.
Qed.

Lemma unique_step_run (s : Store) (r r' : StepRunSchema.t) :
  NoDup (map StepRunSchema.id (step_runs s)) ->
  In r (step_runs s) -> In r' (step_runs s) ->
  StepRunSchema.id r = StepRunSchema.id r' -> r = r'.
Proof.
  generalize (step_runs s) as l.
  induction l as [|x l IH]; simpl; intros Hnd Hr Hr' Hid; [contradiction|].
  apply NoDup_cons in Hnd as [Hx Hnd].
  destruct Hr as [->|Hr], Hr' as [->|Hr']; trivial.
  - exfalso. apply Hx. rewrite Hid. apply list_elem_of_In. now apply in_map.
  - exfalso. apply Hx. rewrite <- Hid. apply list_elem_of_In. now apply in_map.
  - now apply IH.
Qed.

Lemma status_eqb_eq (a b : ExecutionStatus) : status_eqb a b = true <-> a = b.
Proof. destruct a, b; simpl; split; congruence. Qed.

Lemma producer_edge_true (s : Store) (artifact : UUID) (e : StepRunOutputArtifactSchema.t) :
  In e (step_run_output_artifacts s) ->
  producer_edge artifact (step_runs s) e = true ->
  exists r, producer_of s artifact r
            /\ StepRunSchema.id r = StepRunOutputArtifactSchema.step_run_id e.
Proof.
  intros Hin H. unfold producer_edge in H.
  apply andb_true_iff in H as [Ha Hex]. apply N.eqb_eq in Ha.
  apply existsb_exists in Hex as (r & Hr & Hb).
  apply andb_true_iff in Hb as [Hid Hst]. apply N.eqb_eq in Hid.
  exists r. split; [|now symmetry]. split; [exact Hr|]. split.
  - intros Hc. rewrite Hc in Hst. discriminate.
  - exists e. auto.
Qed.

Lemma producer_edge_of (s : Store) (artifact : UUID) (r : StepRunSchema.t) :
  producer_of s artifact r ->
  exists e, In e (step_run_output_artifacts s)
            /\ producer_edge artifact (step_runs s) e = true.
Proof.
  intros (Hr & Hst & e & He & Hid & Ha). exists e. split; [exact He|].
  unfold producer_edge. rewrite Ha, N.eqb_refl. simpl.
  apply existsb_exists. exists r. split; [exact Hr|].
  rewrite Hid, N.eqb_refl. simpl.
  destruct (status_eqb (StepRunSchema.status r) CACHED) eqn:Hc; [|reflexivity].
  apply status_eqb_eq in Hc. contradiction.
Qed.

(** C5: [get_artifact_producer_step] returns a step run that has an output
    edge to the artifact and whose status is not [CACHED] whenever such a
    step run is stored, and raises [KeyError] (NotFound) when no output edge
    of the artifact comes from a step run that is not cached.  It reads
    only.  Step run ids are the primary key of their table. *)
Theorem producer_step_is_not_cached (s : Store) (artifact_id : UUID) :
  NoDup (map StepRunSchema.id (step_runs s)) ->
  ((exists r, producer_of s artifact_id r) ->
   exists m r,
     returned (get_artifact_producer_step artifact_id s) = Ok m
     /\ producer_of s artifact_id r
     /\ StepRunModel.id m = StepRunSchema.id r
     /\ StepRunModel.status m = StepRunSchema.status r
     /\ StepRunModel.status m <> CACHED)
  /\ ((~ exists r, producer_of s artifact_id r) ->
      returned (get_artifact_producer_step artifact_id s) = Raise KeyError)
  /\ store (get_artifact_producer_step artifact_id s) = s.
Proof.
  intros Hnd.
  unfold get_artifact_producer_step.
  match goal with |- context [with_Session ?b s] => set (body := b) end.
  destruct (body (session_on s)) as [res st'] eqn:Hb.
  rewrite (with_Session_eq _ _ _ _ Hb).
  unfold body, session_on, bind, first, rows, call in Hb.
  cbn [db committed commits opened] in Hb. clear body.
  destruct (find _ (step_run_output_artifacts s)) as [e|] eqn:Hfind.
  - apply find_some in Hfind as [He Hpe].
    destruct (producer_edge_true _ _ _ He Hpe) as (r & Hprod & Hid).
    destruct Hprod as (Hr & Hst & Hedge).
    destruct (find_hit (fun x => StepRunSchema.id x =? StepRunOutputArtifactSchema.step_run_id e)
                _ r Hr) as [r' Hr']; [rewrite Hid; apply N.eqb_refl|].
    destruct (get_run_step_found _ _ _ Hr') as (ps & ins & outs & Hget).
    cbn [db committed commits opened] in Hb.
    rewrite Hget in Hb. cbn [returned store n_commits n_sessions] in Hb.
    inversion Hb; subst res st'; clear Hb. cbn [returned store committed].
    apply find_some in Hr' as [Hin' Hid']. apply N.eqb_eq in Hid'.
    assert (r' = r) as -> by (apply (unique_step_run s); congruence).
    split; [|split; [|reflexivity]].
    + intros _. eexists _, r. split; [reflexivity|]. simpl.
      split; [repeat split; assumption|]. auto.
    + intros Hno. exfalso. apply Hno. exists r. repeat split; assumption.
  - inversion Hb; subst res st'; clear Hb. cbn [returned store committed].
    split; [|split; [|reflexivity]].
    + intros (r & Hprod). destruct (producer_edge_of _ _ _ Hprod) as (e & He & Hpe).
      rewrite (find_none _ _ Hfind e He) in Hpe. discriminate.
    + reflexivity.
Qed.

Example producer_example_returns_failed_step :
  returned (get_artifact_producer_step 100 lineage_example)
  = Ok (StepRunModel.mk 11 "trainer" 1 FAILED None [] [] [("model", 100)])
  /\ returned (get_artifact_producer_step 100 lineage_example_in_order)
     = Ok (StepRunModel.mk 11 "trainer" 1 FAILED None [] [] [("model", 100)]).
Proof. split; vm_compute; reflexivity. Qed.

Lemma producer_step_witness :
  NoDup (map StepRunSchema.id (step_runs lineage_example))
  /\ exists m, returned (get_artifact_producer_step 100 lineage_example) = Ok m
               /\ StepRunModel.id m = 11
               /\ StepRunModel.status m <> CACHED.
Proof.
  assert (Hnd : NoDup (map StepRunSchema.id (step_runs lineage_example))).
  { simpl. repeat constructor; rewrite ?list_elem_of_In; simpl; intuition discriminate. }
  split; [exact Hnd|].
  destruct (producer_step_is_not_cached lineage_example 100 Hnd) as (H & _).
  destruct H as (m & r & Hm & _ & Hid & _ & Hst).
  - exists (StepRunSchema.mk 11 "trainer" 1 FAILED None).
    split; [simpl; auto|]. split; [discriminate|].
    exists (StepRunOutputArtifactSchema.mk 11 100 "model"). simpl. auto.
  - exists m. split; [exact Hm|]. split; [|exact Hst].
    vm_compute in Hm. inversion Hm. reflexivity.
Defined.

(** ** Re-asserting the edges of a payload *)

Lemma set_run_step_edges_existing (s : Store) (step_run : StepRunModel.t) :
  (forall p, In p (StepRunModel.parent_step_ids step_run) ->
     step_run_in s (StepRunModel.id step_run) /\ step_run_in s p
     /\ parent_edge_in s (StepRunModel.id step_run) p) ->
  (forall n a, In (n, a) (StepRunModel.input_artifacts step_run) ->
     step_run_in s (StepRunModel.id step_run) /\ artifact_in s a
     /\ input_edge_in s (StepRunModel.id step_run) a) ->
  (forall n a, In (n, a) (StepRunModel.output_artifacts step_run) ->
     step_run_in s (StepRunModel.id step_run) /\ artifact_in s a
     /\ output_edge_in s (StepRunModel.id step_run) a) ->
  set_run_step_edges step_run (session_on s) = (Ok tt, session_on s).
Proof.
  intros Hp Hi Ho. unfold set_run_step_edges, bind.
  rewrite for_each_parent_existing by exact Hp.
  rewrite for_each_input_existing by exact Hi.
  apply for_each_output_existing. exact Ho.
Qed.

Lemma step_run_in_created (s : Store) (step_run : StepRunModel.t) :
  step_run_in
    (with_step_runs (fun l => l ++ [StepRunSchema_from_create_model step_run]) s)
    (StepRunModel.id step_run).
Proof.
  exists (StepRunSchema_from_create_model step_run). split; [|reflexivity].
  unfold with_step_runs. simpl. apply in_or_app. right. now left.
Qed.

Lemma create_run_step_then_edges (s : Store) (step_run : StepRunModel.t) (m : StepRunModel.t) :
  returned (create_run_step step_run s) = Ok m ->
  set_run_step_edges step_run (session_on (store (create_run_step step_run s)))
  = (Ok tt, session_on (store (create_run_step step_run s))).
Proof.
  intros Hok.
  destruct (create_run_step_store s step_run) as
    [(e & He)|(m' & a1 & a2 & a3 & Heq & Hp & Hi & Ho)].
  - rewrite He in Hok. discriminate.
  - cbv zeta in Heq, Hp, Hi, Ho. rewrite Heq. cbn [store].
    pose proof (step_run_in_created s step_run) as Hself.
    apply set_run_step_edges_existing.
    + intros p Hin. destruct (Hp p Hin) as [H1 H2]. repeat split; assumption.
    + intros n a Hin. destruct (Hi n a Hin) as [(r & H1 & H1') H2].
      split; [exact Hself|]. split; [|exact H2]. exists r. auto.
    + intros n a Hin. destruct (Ho n a Hin) as [(r & H1 & H1') H2].
      split; [exact Hself|]. split; [|exact H2]. exists r. auto.
Qed.

Lemma update_run_step_twice (s : Store) (step_run : StepRunModel.t) (m : StepRunModel.t) :
  returned (update_run_step step_run s) = Ok m ->
  exists m',
    returned (update_run_step step_run (store (update_run_step step_run s))) = Ok m'
    /\ step_run_parents (store (update_run_step step_run (store (update_run_step step_run s))))
       = step_run_parents (store (update_run_step step_run s))
    /\ step_run_input_artifacts
         (store (update_run_step step_run (store (update_run_step step_run s))))
       = step_run_input_artifacts (store (update_run_step step_run s))
    /\ step_run_output_artifacts
         (store (update_run_step step_run (store (update_run_step step_run s))))
       = step_run_output_artifacts (store (update_run_step step_run s)).
Proof.
  intros Hok.
  destruct (update_run_step_store s step_run) as
    [(e & He)|(m1 & added & Heq & Hin & _ & Hedges)].
  { rewrite He in Hok. discriminate. }
  rewrite Heq. cbn [store]. clear Hok Heq.
  set (s1 := with_step_run_output_artifacts _ _).
  assert (Hin1 : step_run_in s1 (StepRunModel.id step_run)).
  { destruct (step_run_in_update s (StepRunModel.id step_run) _ step_run Hin)
      as (r & Hr & Hid).
    exists r. split; [exact Hr|exact Hid]. }
  destruct (update_run_step_store s1 step_run) as
    [(e & He)|(m2 & added2 & Heq2 & _ & Hall2 & _)].
  - exfalso. revert He. unfold update_run_step, update_run_step_block, with_Session, bind at 1, first.
    cbn [db fst snd].
    destruct (step_run_found _ _ Hin1) as [r Hr]. rewrite Hr.
    unfold bind at 1, add. cbn [fst snd]. unfold bind at 1.
    rewrite for_each_output_existing.
    + unfold bind, commit, ret. cbn. discriminate.
    + intros n a Hna. destruct (Hedges n a Hna) as [(x & Hx & Hx') (y & Hy & Hy')].
      split; [|split].
      * cbn [db on_db]. apply step_run_in_update. exact Hin1.
      * exists x. split; [exact Hx|exact Hx'].
      * exists y. split; [exact Hy|exact Hy'].
  - exists m2. rewrite Heq2. cbn [returned store].
    split; [reflexivity|]. split; [reflexivity|]. split; [reflexivity|].
    destruct added2 as [|e2 added2].
    + unfold with_step_run_output_artifacts. simpl. now rewrite app_nil_r.
    + exfalso. apply Forall_cons in Hall2 as [(H1 & H2 & H3) _]. apply H3.
      destruct (Hedges _ _ H2) as [_ (y & Hy & Hy')].
      exists y. split; [exact Hy|exact Hy'].
Qed.

(** C7: [update_run_step] never touches the parent-step edges nor the
    input-artifact edges, whatever [parent_step_ids] and [input_artifacts]
    the payload carries; the only rows it can add to the edge tables are
    output edges of the updated step that the payload names and whose
    artifact was not yet linked to the step. *)
Theorem update_run_step_freezes_parents_and_inputs (s : Store) (step_run : StepRunModel.t) :
  step_run_parents (store (update_run_step step_run s)) = step_run_parents s
  /\ step_run_input_artifacts (store (update_run_step step_run s))
     = step_run_input_artifacts s
  /\ exists added,
       step_run_output_artifacts (store (update_run_step step_run s))
       = step_run_output_artifacts s ++ added
       /\ Forall (fun e => StepRunOutputArtifactSchema.step_run_id e = StepRunModel.id step_run
                           /\ In (StepRunOutputArtifactSchema.name e,
                                  StepRunOutputArtifactSchema.artifact_id e)
                                 (StepRunModel.output_artifacts step_run)
                           /\ ~ output_edge_in s (StepRunModel.id step_run)
                                  (StepRunOutputArtifactSchema.artifact_id e)) added.
Proof.
  destruct (update_run_step_store s step_run) as
    [(e & ->)|(m & added & -> & _ & Hall & _)]; cbn [store].
  - split; [reflexivity|]. split; [reflexivity|].
    exists []. split; [now rewrite app_nil_r|constructor].
  - split; [reflexivity|]. split; [reflexivity|].
    exists added. split; [reflexivity|exact Hall].
Qed.

(** A payload with other parents and inputs than the stored ones: the
    update succeeds and both tables stay. *)
Example update_ignores_parents_and_inputs :
  exists m,
    returned (update_run_step
                (StepRunModel.mk 11 "trainer" 1 COMPLETED None [12] [("x", 100)] [])
                lineage_example) = Ok m
    /\ step_run_parents
         (store (update_run_step
                   (StepRunModel.mk 11 "trainer" 1 COMPLETED None [12] [("x", 100)] [])
                   lineage_example))
       = [StepRunParentsSchema.mk 11 12]
    /\ step_run_input_artifacts
         (store (update_run_step
                   (StepRunModel.mk 11 "trainer" 1 COMPLETED None [12] [("x", 100)] [])
                   lineage_example))
       = [StepRunInputArtifactSchema.mk 12 100 "data"].
Proof. eexists. split; [|split]; reflexivity. Qed.

(** What a repeated [create_run_step] comes to: the step run of that name is
    stored in the run, so the call is refused before an edge is looked at. *)
Lemma create_run_step_refuses_stored_name (s : Store) (step_run : StepRunModel.t)
  (existing : StepRunSchema.t) (run : PipelineRunSchema.t) :
  In run (pipeline_runs s) ->
  PipelineRunSchema.id run = StepRunModel.pipeline_run_id step_run ->
  In existing (step_runs s) ->
  StepRunSchema.name existing = StepRunModel.name step_run ->
  StepRunSchema.pipeline_run_id existing = StepRunModel.pipeline_run_id step_run ->
  create_run_step step_run s = mkOutcome (Raise EntityExistsError) s 0%nat 1%nat.
Proof.
  intros Hrun Hrid Hin Hname Hpr.
  destruct (find_hit (fun r => PipelineRunSchema.id r =? StepRunModel.pipeline_run_id step_run)
              _ run Hrun) as [x Hx]; [rewrite Hrid; apply N.eqb_refl|].
  destruct (find_hit
              (fun r => String.eqb (StepRunSchema.name r) (StepRunModel.name step_run)
                        && (StepRunSchema.pipeline_run_id r
                            =? StepRunModel.pipeline_run_id step_run))
              _ existing Hin) as [y Hy];
    [rewrite Hname, Hpr, String.eqb_refl, N.eqb_refl; reflexivity|].
  unfold create_run_step, create_run_step_block, with_Session, bind, first. cbn [db fst snd].
  rewrite Hx. cbn [db fst snd]. rewrite Hy. reflexivity.
Qed.

(** C6, as the code has it: re-asserting an edge of the lineage graph that
    is already stored, between a step run and a parent step or an artifact
    that are stored, through the helper that writes it is a silent no-op:
    each of the three helpers returns without raising and leaves every
    table as it was.  Hence re-running the edge loops of [create_run_step]
    on the payload that was just created, and repeating an
    [update_run_step], leave the three edge tables and so their row counts
    unchanged.  A [create_run_step] for a step run whose name is already
    stored in the run does not reach the helpers: it raises
    [EntityExistsError], and the tables stay as they were. *)
Theorem re_adding_lineage_edge_is_noop :
  (forall st child parent,
     step_run_in (db st) child -> step_run_in (db st) parent ->
     parent_edge_in (db st) child parent ->
     _set_run_step_parent_step child parent st = (Ok tt, st))
  /\ (forall st step artifact name,
        step_run_in (db st) step -> artifact_in (db st) artifact ->
        In (StepRunInputArtifactSchema.mk step artifact name)
           (step_run_input_artifacts (db st)) ->
        _set_run_step_input_artifact step artifact name st = (Ok tt, st))
  /\ (forall st step artifact name,
        step_run_in (db st) step -> artifact_in (db st) artifact ->
        In (StepRunOutputArtifactSchema.mk step artifact name)
           (step_run_output_artifacts (db st)) ->
        _set_run_step_output_artifact step artifact name st = (Ok tt, st))
  /\ (forall s step_run m,
        returned (create_run_step step_run s) = Ok m ->
        set_run_step_edges step_run (session_on (store (create_run_step step_run s)))
        = (Ok tt, session_on (store (create_run_step step_run s))))
  /\ (forall s step_run m,
        returned (update_run_step step_run s) = Ok m ->
        let s1 := store (update_run_step step_run s) in
        let s2 := store (update_run_step step_run s1) in
        (exists m', returned (update_run_step step_run s1) = Ok m')
        /\ length (step_run_parents s2) = length (step_run_parents s1)
        /\ length (step_run_input_artifacts s2) = length (step_run_input_artifacts s1)
        /\ length (step_run_output_artifacts s2) = length (step_run_output_artifacts s1))
  /\ (forall s step_run existing run,
        In run (pipeline_runs s) ->
        PipelineRunSchema.id run = StepRunModel.pipeline_run_id step_run ->
        In existing (step_runs s) ->
        StepRunSchema.name existing = StepRunModel.name step_run ->
        StepRunSchema.pipeline_run_id existing = StepRunModel.pipeline_run_id step_run ->
        create_run_step step_run s = mkOutcome (Raise EntityExistsError) s 0%nat 1%nat).
Proof.
  split; [exact set_parent_step_existing|].
  split.
  { intros st step artifact name Hs Ha Hin.
    apply set_input_artifact_existing; trivial.
    eexists. split; [exact Hin|]. split; reflexivity. }
  split.
  { intros st step artifact name Hs Ha Hin.
    apply set_output_artifact_existing; trivial.
    eexists. split; [exact Hin|]. split; reflexivity. }
  split; [exact create_run_step_then_edges|].
  split; [|exact create_run_step_refuses_stored_name].
  intros s step_run m Hok s1 s2.
  destruct (update_run_step_twice s step_run m Hok) as (m' & Hm' & Hp & Hi & Ho).
  subst s1 s2. split; [now exists m'|]. now rewrite Hp, Hi, Ho.
Qed.

Lemma re_adding_lineage_edge_witness :
  _set_run_step_parent_step 12 11 (session_on lineage_example)
  = (Ok tt, session_on lineage_example)
  /\ _set_run_step_input_artifact 12 100 "data" (session_on lineage_example)
     = (Ok tt, session_on lineage_example)
  /\ _set_run_step_output_artifact 11 100 "model" (session_on lineage_example)
     = (Ok tt, session_on lineage_example)
  /\ set_run_step_edges new_step_payload
       (session_on (store (create_run_step new_step_payload lineage_example)))
     = (Ok tt, session_on (store (create_run_step new_step_payload lineage_example)))
  /\ length (step_run_output_artifacts
               (store (update_run_step replay_payload
                         (store (update_run_step replay_payload lineage_example)))))
     = length (step_run_output_artifacts
                 (store (update_run_step replay_payload lineage_example))).
Proof.
  destruct re_adding_lineage_edge_is_noop as (Hp & Hi & Ho & Hc & Hu & _).
  split; [|split; [|split; [|split]]].
  - apply Hp.
    + exists (StepRunSchema.mk 12 "trainer_replay" 1 CACHED None). simpl. auto.
    + exists (StepRunSchema.mk 11 "trainer" 1 FAILED None). simpl. auto.
    + unfold parent_edge_in. simpl. auto.
  - apply Hi.
    + exists (StepRunSchema.mk 12 "trainer_replay" 1 CACHED None). simpl. auto.
    + exists (ArtifactSchema.mk 100 "s3://bucket/model"). simpl. auto.
    + simpl. auto.
  - apply Ho.
    + exists (StepRunSchema.mk 11 "trainer" 1 FAILED None). simpl. auto.
    + exists (ArtifactSchema.mk 100 "s3://bucket/model"). simpl. auto.
    + simpl. auto.
  - eapply Hc. vm_compute. reflexivity.
  - refine (proj2 (proj2 (proj2 (Hu lineage_example replay_payload _ _)))).
    vm_compute. reflexivity.
Defined.

(** Step run 12 is stored with its parent edge to step run 11; calling
    [create_run_step] again with the stored step run and its edges raises,
    and writes nothing. *)
Lemma re_creating_a_step_run_raises :
  parent_edge_in lineage_example 12 11
  /\ returned (create_run_step stored_replay_payload lineage_example)
     = Raise EntityExistsError
  /\ store (create_run_step stored_replay_payload lineage_example) = lineage_example.
Proof.
  split; [unfold parent_edge_in; simpl; auto|].
  split; vm_compute; reflexivity.
Qed.

(** C10: the check that makes the artifact edges idempotent looks at the
    pair of step run and artifact only.  When the artifact is already linked
    to the step run under some name, linking it under any other name returns
    without raising and leaves the session, hence the edge table and the
    stored name, exactly as they were; when the pair is not linked, the edge
    is appended under the supplied name. *)
Theorem artifact_edge_check_ignores_name (st : Session) (step artifact : UUID)
  (stored supplied : string) :
  step_run_in (db st) step -> artifact_in (db st) artifact ->
  (In (StepRunInputArtifactSchema.mk step artifact stored)
      (step_run_input_artifacts (db st)) ->
   _set_run_step_input_artifact step artifact supplied st = (Ok tt, st))
  /\ (In (StepRunOutputArtifactSchema.mk step artifact stored)
         (step_run_output_artifacts (db st)) ->
      _set_run_step_output_artifact step artifact supplied st = (Ok tt, st))
  /\ (~ input_edge_in (db st) step artifact ->
      _set_run_step_input_artifact step artifact supplied st
      = (Ok tt, on_db (with_step_run_input_artifacts
                         (fun l => l ++ [StepRunInputArtifactSchema.mk step artifact supplied]))
                  st))
  /\ (~ output_edge_in (db st) step artifact ->
      _set_run_step_output_artifact step artifact supplied st
      = (Ok tt, on_db (with_step_run_output_artifacts
                         (fun l => l ++ [StepRunOutputArtifactSchema.mk step artifact supplied]))
                  st)).
Proof.
  intros Hs Ha. split; [|split; [|split]].
  - intros Hin. apply set_input_artifact_existing; trivial.
    eexists. split; [exact Hin|]. split; reflexivity.
  - intros Hin. apply set_output_artifact_existing; trivial.
    eexists. split; [exact Hin|]. split; reflexivity.
  - intros Hne.
    destruct (set_input_artifact_spec st step artifact supplied)
      as (r & st' & Hrun & [[-> ->]|(-> & _ & _ & [[He _]|[_ ->]])]).
    + exfalso. revert Hrun.
      unfold _set_run_step_input_artifact, bind, first. simpl.
      destruct (step_run_found _ _ Hs) as [x ->].
      destruct (artifact_found _ _ Ha) as [y ->].
      destruct (find _ (step_run_input_artifacts (db st))); discriminate.
    + contradiction.
    + exact Hrun.
  - intros Hne.
    destruct (set_output_artifact_spec st step artifact supplied)
      as (r & st' & Hrun & [[-> ->]|(-> & _ & _ & [[He _]|[_ ->]])]).
    + exfalso. revert Hrun.
      unfold _set_run_step_output_artifact, bind, first. simpl.
      destruct (step_run_found _ _ Hs) as [x ->].
      destruct (artifact_found _ _ Ha) as [y ->].
      destruct (find _ (step_run_output_artifacts (db st))); discriminate.
    + contradiction.
    + exact Hrun.
Qed.

Lemma artifact_edge_check_witness :
  _set_run_step_input_artifact 12 100 "features" (session_on lineage_example)
  = (Ok tt, session_on lineage_example)
  /\ _set_run_step_output_artifact 12 100 "weights" (session_on lineage_example)
     = (Ok tt, session_on lineage_example).
Proof.
  assert (Hs : step_run_in (db (session_on lineage_example)) 12).
  { exists (StepRunSchema.mk 12 "trainer_replay" 1 CACHED None). simpl. auto. }
  assert (Ha : artifact_in (db (session_on lineage_example)) 100).
  { exists (ArtifactSchema.mk 100 "s3://bucket/model"). simpl. auto. }
  split.
  - apply (proj1 (artifact_edge_check_ignores_name _ 12 100 "data" "features" Hs Ha)).
    simpl. auto.
  - apply (proj1 (proj2 (artifact_edge_check_ignores_name _ 12 100 "model" "weights" Hs Ha))).
    simpl. auto.
Defined.

(** The same through the public method: an update of step 12 that names
    artifact 100 as output "weights" keeps the one edge named "model". *)
Example update_keeps_the_stored_name :
  exists m,
    returned (update_run_step replay_payload lineage_example) = Ok m
    /\ step_run_output_artifacts (store (update_run_step replay_payload lineage_example))
       = [StepRunOutputArtifactSchema.mk 12 100 "model";
          StepRunOutputArtifactSchema.mk 11 100 "model"].
Proof. eexists. split; reflexivity. Qed.

(** A payload that names one artifact under two output names stores the
    first name only. *)
Example create_keeps_the_first_name :
  exists m,
    returned (create_run_step new_step_payload lineage_example) = Ok m
    /\ step_run_output_artifacts (store (create_run_step new_step_payload lineage_example))
       = [StepRunOutputArtifactSchema.mk 12 100 "model";
          StepRunOutputArtifactSchema.mk 11 100 "model";
          StepRunOutputArtifactSchema.mk 13 100 "model"]
    /\ step_run_parents (store (create_run_step new_step_payload lineage_example))
       = [StepRunParentsSchema.mk 11 12; StepRunParentsSchema.mk 11 13].
Proof. eexists. split; [|split]; reflexivity. Qed.

(** ** Sharing a stack component or a stack *)

Ltac reduce_session :=
  cbn [db fst snd committed commits opened on_db returned store n_commits n_sessions
       negb andb orb].

Ltac break_query :=
  match goal with
  | |- context [match find ?p ?l with _ => _ end] => destruct (find p l) eqn:?
  | |- context [match resolve ?u ?x ?l with _ => _ end] => destruct (resolve u x l) eqn:?
  | |- context [if ?b then _ else _] => destruct b eqn:?
  end; reduce_session.

Ltac run_session :=
  unfold with_Session, filter_schema, _get_project_schema, _get_user_schema, _get_team_schema,
    _get_role_schema, _get_run_schema, _get_schema_by_name_or_id,
    bind, rows, first, all, database, raise, ret, add, commit;
  reduce_session.

Section Sharing.
Variable parse_uuid : string -> option UUID.

Lemma project_resolves (s : Store) (i : UUID) :
  project_in s i -> exists r, resolve parse_uuid (Id i) (projects s) = Some r.
Proof.
  intros (r & Hin & Hid). simpl. apply (find_hit _ _ r Hin).
  simpl. rewrite Hid. apply N.eqb_refl.
Qed.

Lemma user_resolves (s : Store) (i : UUID) :
  user_in s i -> exists r, resolve parse_uuid (Id i) (users s) = Some r.
Proof.
  intros (r & Hin & Hid). simpl. apply (find_hit _ _ r Hin).
  simpl. rewrite Hid. apply N.eqb_refl.
Qed.

Lemma shared_component_found (s : Store) (c : ComponentModel.t) :
  ComponentModel.is_shared c = true ->
  shared_component_in s (ComponentModel.name c) (ComponentModel.project c)
    (ComponentModel.type c) ->
  exists r,
    find (fun r => String.eqb (StackComponentSchema.name r) (ComponentModel.name c)
                   && (StackComponentSchema.project_id r =? ComponentModel.project c)
                   && Bool.eqb (StackComponentSchema.is_shared r) (ComponentModel.is_shared c)
                   && String.eqb (StackComponentSchema.type r) (ComponentModel.type c))
      (stack_components s) = Some r.
Proof.
  intros Hs (r & Hin & Hn & Hp & Ht & Hsh). apply (find_hit _ _ r Hin).
  rewrite Hn, Hp, Ht, Hsh, Hs, String.eqb_refl, N.eqb_refl, String.eqb_refl. reflexivity.
Qed.

Lemma shared_stack_found (s : Store) (c : StackModel.t) :
  StackModel.is_shared c = true ->
  shared_stack_in s (StackModel.name c) (StackModel.project c) ->
  exists r,
    find (fun r => String.eqb (StackSchema.name r) (StackModel.name c)
                   && (StackSchema.project_id r =? StackModel.project c)
                   && Bool.eqb (StackSchema.is_shared r) (StackModel.is_shared c))
      (stacks s) = Some r.
Proof.
  intros Hs (r & Hin & Hn & Hp & Hsh). apply (find_hit _ _ r Hin).
  rewrite Hn, Hp, Hsh, Hs, String.eqb_refl, N.eqb_refl. reflexivity.
Qed.

Lemma create_shared_component_fails (s : Store) (c : ComponentModel.t) :
  ComponentModel.is_shared c = true ->
  project_in s (ComponentModel.project c) -> user_in s (ComponentModel.user c) ->
  shared_component_in s (ComponentModel.name c) (ComponentModel.project c)
    (ComponentModel.type c) ->
  returned (create_stack_component parse_uuid c s) = Raise StackComponentExistsError
  /\ store (create_stack_component parse_uuid c s) = s.
Proof.
  intros Hs Hp Hu Hsh.
  destruct (project_resolves _ _ Hp) as [p Hpr].
  destruct (user_resolves _ _ Hu) as [u Hur].
  destruct (shared_component_found _ _ Hs Hsh) as [r Hr].
  unfold create_stack_component, create_stack_component_block,
    fail_if_component_with_id_already_exists,
    fail_if_component_with_name_type_exists_for_user,
    fail_if_component_with_name_type_already_shared.
  run_session. repeat break_query; try congruence; split; reflexivity.
Qed.

Lemma update_to_shared_component_fails (s : Store) (c : ComponentModel.t)
  (existing : StackComponentSchema.t) :
  component_by_id s (ComponentModel.id c) = Some existing ->
  StackComponentSchema.is_shared existing = false ->
  ComponentModel.is_shared c = true ->
  project_in s (ComponentModel.project c) ->
  (StackComponentSchema.name existing <> ComponentModel.name c ->
   user_in s (ComponentModel.user c)) ->
  shared_component_in s (ComponentModel.name c) (ComponentModel.project c)
    (ComponentModel.type c) ->
  returned (update_stack_component parse_uuid c s)
  = Raise (if is_default_component existing
           then IllegalOperationError else StackComponentExistsError)
  /\ store (update_stack_component parse_uuid c s) = s.
Proof.
  unfold component_by_id. intros Hex Hns Hs Hp Hu Hsh.
  destruct (project_resolves _ _ Hp) as [p Hpr].
  destruct (shared_component_found _ _ Hs Hsh) as [r Hr].
  unfold update_stack_component, update_stack_component_block,
    fail_if_component_with_name_type_exists_for_user,
    fail_if_component_with_name_type_already_shared.
  run_session. rewrite Hex. reduce_session.
  destruct (is_default_component existing); [split; reflexivity|].
  rewrite Hns, Hs. rewrite Hs in Hr. reduce_session.
  destruct (String.eqb_spec (StackComponentSchema.name existing) (ComponentModel.name c))
    as [Hname|Hname]; reduce_session.
  - repeat break_query; try congruence; split; reflexivity.
  - destruct (user_resolves _ _ (Hu Hname)) as [u Hur].
    repeat break_query; try congruence; split; reflexivity.
Qed.

Lemma create_shared_stack_fails (s : Store) (c : StackModel.t) :
  StackModel.is_shared c = true ->
  project_in s (StackModel.project c) -> user_in s (StackModel.user c) ->
  shared_stack_in s (StackModel.name c) (StackModel.project c) ->
  returned (create_stack parse_uuid c s) = Raise StackExistsError
  /\ store (create_stack parse_uuid c s) = s.
Proof.
  intros Hs Hp Hu Hsh.
  destruct (project_resolves _ _ Hp) as [p Hpr].
  destruct (user_resolves _ _ Hu) as [u Hur].
  destruct (shared_stack_found _ _ Hs Hsh) as [r Hr].
  unfold create_stack, create_stack_block, fail_if_stack_with_id_already_exists,
    fail_if_stack_with_name_exists_for_user, fail_if_stack_with_name_already_shared.
  run_session. rewrite Hs. rewrite Hs in Hr.
  repeat break_query; try congruence; split; reflexivity.
Qed.

Lemma update_to_shared_stack_fails (s : Store) (c : StackModel.t) (existing : StackSchema.t) :
  stack_by_id s (StackModel.id c) = Some existing ->
  StackSchema.is_shared existing = false ->
  StackModel.is_shared c = true ->
  project_in s (StackModel.project c) ->
  (StackSchema.name existing <> StackModel.name c -> user_in s (StackModel.user c)) ->
  shared_stack_in s (StackModel.name c) (StackModel.project c) ->
  returned (update_stack parse_uuid c s)
  = Raise (if String.eqb (StackSchema.name existing) DEFAULT_STACK_NAME
           then IllegalOperationError else StackExistsError)
  /\ store (update_stack parse_uuid c s) = s.
Proof.
  unfold stack_by_id. intros Hex Hns Hs Hp Hu Hsh.
  destruct (project_resolves _ _ Hp) as [p Hpr].
  destruct (shared_stack_found _ _ Hs Hsh) as [r Hr].
  unfold update_stack, update_stack_block, fail_if_stack_with_name_exists_for_user,
    fail_if_stack_with_name_already_shared.
  run_session. rewrite Hex. reduce_session.
  destruct (String.eqb (StackSchema.name existing) DEFAULT_STACK_NAME); [split; reflexivity|].
  rewrite Hns, Hs. rewrite Hs in Hr. reduce_session.
  destruct (String.eqb_spec (StackSchema.name existing) (StackModel.name c))
    as [Hname|Hname]; reduce_session.
  - repeat break_query; try congruence; split; reflexivity.
  - destruct (user_resolves _ _ (Hu Hname)) as [u Hur].
    repeat break_query; try congruence; split; reflexivity.
Qed.

(** C1, as the code has it: in a project where some owner already shares a
    component of a name and type (a stack of a name), creating another one
    of that name and type as shared, by a stored user of the project, fails
    with an error of the AlreadyExists kind, whatever the order of the rows
    and whoever the owners are; and so does an update that turns an unshared
    row into a shared one when its payload carries that name, project and
    type (for a stack, that name and project) and its project is stored
    (and, when the update renames, its user), unless the row to update is a
    protected default (a component called "default" that is an orchestrator
    or an artifact store, a stack called "default"): that update fails with
    [IllegalOperationError] before the sharing check.  The sharing check
    reads the name, the project and the type from the payload and not from
    the stored row; the last two parts state the rule for two stored rows
    of one name, project and type and the payload that only sets the flag.
    In each case the stored state is unchanged. *)
Theorem sharing_a_taken_name_fails (s : Store) :
  (forall c,
     ComponentModel.is_shared c = true ->
     project_in s (ComponentModel.project c) -> user_in s (ComponentModel.user c) ->
     shared_component_in s (ComponentModel.name c) (ComponentModel.project c)
       (ComponentModel.type c) ->
     fails_with AlreadyExists (create_stack_component parse_uuid c s)
     /\ store (create_stack_component parse_uuid c s) = s)
  /\ (forall c existing,
        component_by_id s (ComponentModel.id c) = Some existing ->
        StackComponentSchema.is_shared existing = false ->
        ComponentModel.is_shared c = true ->
        project_in s (ComponentModel.project c) ->
        (StackComponentSchema.name existing <> ComponentModel.name c ->
         user_in s (ComponentModel.user c)) ->
        shared_component_in s (ComponentModel.name c) (ComponentModel.project c)
          (ComponentModel.type c) ->
        fails_with (if is_default_component existing then IllegalOperation else AlreadyExists)
          (update_stack_component parse_uuid c s)
        /\ store (update_stack_component parse_uuid c s) = s)
  /\ (forall c,
        StackModel.is_shared c = true ->
        project_in s (StackModel.project c) -> user_in s (StackModel.user c) ->
        shared_stack_in s (StackModel.name c) (StackModel.project c) ->
        fails_with AlreadyExists (create_stack parse_uuid c s)
        /\ store (create_stack parse_uuid c s) = s)
  /\ (forall c existing,
        stack_by_id s (StackModel.id c) = Some existing ->
        StackSchema.is_shared existing = false ->
        StackModel.is_shared c = true ->
        project_in s (StackModel.project c) ->
        (StackSchema.name existing <> StackModel.name c -> user_in s (StackModel.user c)) ->
        shared_stack_in s (StackModel.name c) (StackModel.project c) ->
        fails_with (if String.eqb (StackSchema.name existing) DEFAULT_STACK_NAME
                    then IllegalOperation else AlreadyExists)
          (update_stack parse_uuid c s)
        /\ store (update_stack parse_uuid c s) = s)
  /\ (forall c existing shared,
        component_by_id s (ComponentModel.id c) = Some existing ->
        In shared (stack_components s) ->
        StackComponentSchema.name shared = StackComponentSchema.name existing ->
        StackComponentSchema.project_id shared = StackComponentSchema.project_id existing ->
        StackComponentSchema.type shared = StackComponentSchema.type existing ->
        StackComponentSchema.user_id shared <> StackComponentSchema.user_id existing ->
        StackComponentSchema.is_shared shared = true ->
        StackComponentSchema.is_shared existing = false ->
        project_in s (StackComponentSchema.project_id existing) ->
        ComponentModel.name c = StackComponentSchema.name existing ->
        ComponentModel.project c = StackComponentSchema.project_id existing ->
        ComponentModel.type c = StackComponentSchema.type existing ->
        ComponentModel.is_shared c = true ->
        fails_with (if is_default_component existing then IllegalOperation else AlreadyExists)
          (update_stack_component parse_uuid c s)
        /\ store (update_stack_component parse_uuid c s) = s)
  /\ (forall c existing shared,
        stack_by_id s (StackModel.id c) = Some existing ->
        In shared (stacks s) ->
        StackSchema.name shared = StackSchema.name existing ->
        StackSchema.project_id shared = StackSchema.project_id existing ->
        StackSchema.user_id shared <> StackSchema.user_id existing ->
        StackSchema.is_shared shared = true ->
        StackSchema.is_shared existing = false ->
        project_in s (StackSchema.project_id existing) ->
        StackModel.name c = StackSchema.name existing ->
        StackModel.project c = StackSchema.project_id existing ->
        StackModel.is_shared c = true ->
        fails_with (if String.eqb (StackSchema.name existing) DEFAULT_STACK_NAME
                    then IllegalOperation else AlreadyExists)
          (update_stack parse_uuid c s)
        /\ store (update_stack parse_uuid c s) = s).
Proof.
  assert (Hcomponent : forall c existing,
    component_by_id s (ComponentModel.id c) = Some existing ->
    StackComponentSchema.is_shared existing = false ->
    ComponentModel.is_shared c = true ->
    project_in s (ComponentModel.project c) ->
    (StackComponentSchema.name existing <> ComponentModel.name c ->
     user_in s (ComponentModel.user c)) ->
    shared_component_in s (ComponentModel.name c) (ComponentModel.project c)
      (ComponentModel.type c) ->
    fails_with (if is_default_component existing then IllegalOperation else AlreadyExists)
      (update_stack_component parse_uuid c s)
    /\ store (update_stack_component parse_uuid c s) = s).
  { intros c existing Hex Hns Hs Hp Hu Hsh.
    destruct (update_to_shared_component_fails s c existing Hex Hns Hs Hp Hu Hsh) as [Hr Hst].
    split; [|exact Hst]. eexists. split; [exact Hr|].
    destruct (is_default_component existing); reflexivity. }
  assert (Hstack : forall c existing,
    stack_by_id s (StackModel.id c) = Some existing ->
    StackSchema.is_shared existing = false ->
    StackModel.is_shared c = true ->
    project_in s (StackModel.project c) ->
    (StackSchema.name existing <> StackModel.name c -> user_in s (StackModel.user c)) ->
    shared_stack_in s (StackModel.name c) (StackModel.project c) ->
    fails_with (if String.eqb (StackSchema.name existing) DEFAULT_STACK_NAME
                then IllegalOperation else AlreadyExists)
      (update_stack parse_uuid c s)
    /\ store (update_stack parse_uuid c s) = s).
  { intros c existing Hex Hns Hs Hp Hu Hsh.
    destruct (update_to_shared_stack_fails s c existing Hex Hns Hs Hp Hu Hsh) as [Hr Hst].
    split; [|exact Hst]. eexists. split; [exact Hr|].
    destruct (String.eqb (StackSchema.name existing) DEFAULT_STACK_NAME); reflexivity. }
  split; [|split; [|split; [|split; [|split]]]].
  - intros c Hs Hp Hu Hsh.
    destruct (create_shared_component_fails s c Hs Hp Hu Hsh) as [Hr Hst].
    split; [|exact Hst]. exists StackComponentExistsError. split; [exact Hr|reflexivity].
  - exact Hcomponent.
  - intros c Hs Hp Hu Hsh.
    destruct (create_shared_stack_fails s c Hs Hp Hu Hsh) as [Hr Hst].
    split; [|exact Hst]. exists StackExistsError. split; [exact Hr|reflexivity].
  - exact Hstack.
  - intros c existing shared Hex Hin Hn Hp Ht _ Hsh Hns Hproject Hcn Hcp Hct Hcs.
    apply Hcomponent; try assumption.
    + now rewrite Hcp.
    + intros Hne. now rewrite Hcn in Hne.
    + exists shared. rewrite Hcn, Hcp, Hct. auto.
  - intros c existing shared Hex Hin Hn Hp _ Hsh Hns Hproject Hcn Hcp Hcs.
    apply Hstack; try assumption.
    + now rewrite Hcp.
    + intros Hne. now rewrite Hcn in Hne.
    + exists shared. rewrite Hcn, Hcp. auto.
Qed.
End Sharing.

Lemma sharing_example_facts :
  project_in sharing_example 1 /\ user_in sharing_example 3
  /\ shared_component_in sharing_example "prod" 1 ORCHESTRATOR
  /\ shared_component_in sharing_example "default" 1 ORCHESTRATOR
  /\ shared_stack_in sharing_example "prod" 1
  /\ shared_stack_in sharing_example "default" 1.
Proof.
  split; [exists (ProjectSchema.mk 1 "default"); simpl; auto|].
  split; [exists (UserSchema.mk 3 "bob" None None); simpl; auto|].
  split; [exists (StackComponentSchema.mk 12 "prod" ORCHESTRATOR "kubeflow" 1 2 true "");
          simpl; auto 10|].
  split; [exists (StackComponentSchema.mk 10 "default" ORCHESTRATOR "local" 1 2 true "");
          simpl; auto 10|].
  split; [exists (StackSchema.mk 22 "prod" 1 2 true); simpl; auto 10|].
  exists (StackSchema.mk 20 "default" 1 2 true); simpl; auto 10.
Defined.

Lemma three_owner_example_facts :
  project_in three_owner_example 1 /\ user_in three_owner_example 4
  /\ shared_component_in three_owner_example "prod" 1 ORCHESTRATOR
  /\ shared_stack_in three_owner_example "prod" 1.
Proof.
  split; [exists (ProjectSchema.mk 1 "default"); simpl; auto|].
  split; [exists (UserSchema.mk 4 "carol" None None); simpl; auto|].
  split; [exists (StackComponentSchema.mk 12 "prod" ORCHESTRATOR "kubeflow" 1 2 true "");
          simpl; auto 10|].
  exists (StackSchema.mk 22 "prod" 1 2 true); simpl; auto 10.
Defined.

Lemma sharing_a_taken_name_witness :
  (fails_with AlreadyExists
     (create_stack_component no_uuid_names carol_shared_component three_owner_example)
   /\ returned (create_stack_component no_uuid_names carol_private_component
                  three_owner_example)
      = Ok carol_private_component)
  /\ fails_with AlreadyExists
       (update_stack_component no_uuid_names share_prod_component sharing_example)
  /\ (fails_with AlreadyExists
        (create_stack no_uuid_names carol_shared_stack three_owner_example)
      /\ exists m, returned (create_stack no_uuid_names carol_private_stack
                               three_owner_example) = Ok m)
  /\ fails_with AlreadyExists (update_stack no_uuid_names share_prod_stack sharing_example).
Proof.
  destruct sharing_example_facts as (Hp & Hu & Hc & _ & Hs & _).
  destruct three_owner_example_facts as (Hp' & Hu' & Hc' & Hs').
  destruct (sharing_a_taken_name_fails no_uuid_names sharing_example)
    as (_ & _ & _ & _ & H5 & H6).
  destruct (sharing_a_taken_name_fails no_uuid_names three_owner_example)
    as (H1 & _ & H3 & _).
  split; [|split; [|split]].
  - split; [|reflexivity].
    exact (proj1 (H1 carol_shared_component eq_refl Hp' Hu' Hc')).
  - refine (proj1 (H5 share_prod_component
                     (StackComponentSchema.mk 13 "prod" ORCHESTRATOR "kubeflow" 1 3 false "")
                     (StackComponentSchema.mk 12 "prod" ORCHESTRATOR "kubeflow" 1 2 true "")
                     eq_refl _ eq_refl eq_refl eq_refl _ eq_refl eq_refl Hp
                     eq_refl eq_refl eq_refl eq_refl)).
    + simpl. auto.
    + discriminate.
  - split; [|eexists; reflexivity].
    exact (proj1 (H3 carol_shared_stack eq_refl Hp' Hu' Hs')).
  - refine (proj1 (H6 share_prod_stack (StackSchema.mk 23 "prod" 1 3 false)
                     (StackSchema.mk 22 "prod" 1 2 true)
                     eq_refl _ eq_refl eq_refl _ eq_refl eq_refl Hp
                     eq_refl eq_refl eq_refl)).
    + simpl. auto.
    + discriminate.
Defined.

(** User 2 shares an orchestrator called "default" in project 1 and user 3
    owns an unshared one of the same name and type: the update that shares
    the second is refused as an illegal operation, not as a duplicate. *)
Lemma sharing_a_default_component_is_illegal :
  shared_component_in sharing_example "default" 1 ORCHESTRATOR
  /\ component_by_id sharing_example 11
     = Some (StackComponentSchema.mk 11 "default" ORCHESTRATOR "local" 1 3 false "")
  /\ returned (update_stack_component no_uuid_names share_default_component sharing_example)
     = Raise IllegalOperationError
  /\ ~ fails_with AlreadyExists
        (update_stack_component no_uuid_names share_default_component sharing_example).
Proof.
  split; [exact (proj1 (proj2 (proj2 (proj2 sharing_example_facts))))|].
  split; [reflexivity|]. split; [reflexivity|].
  intros (e & He & Hk). vm_compute in He. inversion He; subst e. discriminate Hk.
Qed.

Example sharing_a_default_stack_is_illegal :
  returned (update_stack no_uuid_names share_default_stack sharing_example)
  = Raise IllegalOperationError.
Proof. reflexivity. Qed.

(** ** Role assignments *)

Section Assignments.
Variable parse_uuid : string -> option UUID.

(** What [_assign_role_to_user] does once its three lookups succeed: with
    a project it refuses exactly when the same triple is stored; without a
    project it refuses as soon as the user holds the role in any scope. *)
Lemma assign_role_to_user_spec (s : Store) (role user : name_or_id)
  (project : option name_or_id) (r : RoleSchema.t) (u : UserSchema.t) :
  resolve parse_uuid role (roles s) = Some r ->
  resolve parse_uuid user (users s) = Some u ->
  (forall x p, project = Some x -> truthy project = true ->
     resolve parse_uuid x (projects s) = Some p ->
     returned (_assign_role_to_user parse_uuid role user project s) = Raise EntityExistsError
     <-> exists a, In a (user_role_assignments s)
                   /\ same_user_assignment (RoleSchema.id r) (UserSchema.id u)
                        (Some (ProjectSchema.id p)) a)
  /\ (truthy project = false ->
      returned (_assign_role_to_user parse_uuid role user project s) = Raise EntityExistsError
      <-> exists a, In a (user_role_assignments s)
                    /\ UserRoleAssignmentSchema.role_id a = RoleSchema.id r
                    /\ UserRoleAssignmentSchema.user_id a = UserSchema.id u).
Proof.
  intros Hr Hu. split.
  - intros x p -> Ht Hp. unfold _assign_role_to_user, _assign_role_to_user_block. run_session.
    rewrite Hr. reduce_session. rewrite Ht. reduce_session. rewrite Hp. reduce_session.
    rewrite Hu. reduce_session.
    destruct (find _ (user_role_assignments s)) as [a|] eqn:Hf; reduce_session.
    + split; [intros _|reflexivity]. apply find_some in Hf as [Hin Hb].
      apply andb_true_iff in Hb as [Hb H3]. apply andb_true_iff in Hb as [H1 H2].
      apply N.eqb_eq in H1, H2. exists a. split; [exact Hin|].
      unfold same_user_assignment, col_eqb in *.
      destruct (UserRoleAssignmentSchema.project_id a); [|discriminate].
      apply N.eqb_eq in H3. subst. auto.
    + split; [discriminate|]. intros (a & Hin & H1 & H2 & H3). exfalso.
      apply (find_none _ _ Hf) in Hin. unfold col_eqb in Hin.
      now rewrite H1, H2, H3, !N.eqb_refl in Hin.
  - intros Ht. unfold _assign_role_to_user, _assign_role_to_user_block. run_session.
    rewrite Hr. reduce_session.
    destruct project as [x|]; [rewrite Ht|]; reduce_session;
      rewrite Hu; reduce_session;
      (destruct (find _ (user_role_assignments s)) as [a|] eqn:Hf; reduce_session;
       [ split; [intros _|reflexivity]; apply find_some in Hf as [Hin Hb];
         apply andb_true_iff in Hb as [Hb _]; apply andb_true_iff in Hb as [H1 H2];
         apply N.eqb_eq in H1, H2; exists a; auto
       | split; [discriminate|]; intros (a & Hin & H1 & H2); exfalso;
         apply (find_none _ _ Hf) in Hin;
         now rewrite H1, H2, !N.eqb_refl in Hin ]).
Qed.

(** What [_assign_role_to_team] does once its three lookups succeed: with
    a project it refuses exactly when the same triple is stored; without a
    project it refuses as soon as the team holds the role in any scope. *)
Lemma assign_role_to_team_spec (s : Store) (role team : name_or_id)
  (project : option name_or_id) (r : RoleSchema.t) (u : TeamSchema.t) :
  resolve parse_uuid role (roles s) = Some r ->
  resolve parse_uuid team (teams s) = Some u ->
  (forall x p, project = Some x -> truthy project = true ->
     resolve parse_uuid x (projects s) = Some p ->
     returned (_assign_role_to_team parse_uuid role team project s) = Raise EntityExistsError
     <-> exists a, In a (team_role_assignments s)
                   /\ same_team_assignment (RoleSchema.id r) (TeamSchema.id u)
                        (Some (ProjectSchema.id p)) a)
  /\ (truthy project = false ->
      returned (_assign_role_to_team parse_uuid role team project s) = Raise EntityExistsError
      <-> exists a, In a (team_role_assignments s)
                    /\ TeamRoleAssignmentSchema.role_id a = RoleSchema.id r
                    /\ TeamRoleAssignmentSchema.team_id a = TeamSchema.id u).
Proof.
  intros Hr Hu. split.
  - intros x p -> Ht Hp. unfold _assign_role_to_team, _assign_role_to_team_block. run_session.
    rewrite Hr. reduce_session. rewrite Ht. reduce_session. rewrite Hp. reduce_session.
    rewrite Hu. reduce_session.
    destruct (find _ (team_role_assignments s)) as [a|] eqn:Hf; reduce_session.
    + split; [intros _|reflexivity]. apply find_some in Hf as [Hin Hb].
      apply andb_true_iff in Hb as [Hb H3]. apply andb_true_iff in Hb as [H1 H2].
      apply N.eqb_eq in H1, H2. exists a. split; [exact Hin|].
      unfold same_team_assignment, col_eqb in *.
      destruct (TeamRoleAssignmentSchema.project_id a); [|discriminate].
      apply N.eqb_eq in H3. subst. auto.
    + split; [discriminate|]. intros (a & Hin & H1 & H2 & H3). exfalso.
      apply (find_none _ _ Hf) in Hin. unfold col_eqb in Hin.
      now rewrite H1, H2, H3, !N.eqb_refl in Hin.
  - intros Ht. unfold _assign_role_to_team, _assign_role_to_team_block. run_session.
    rewrite Hr. reduce_session.
    destruct project as [x|]; [rewrite Ht|]; reduce_session;
      rewrite Hu; reduce_session;
      (destruct (find _ (team_role_assignments s)) as [a|] eqn:Hf; reduce_session;
       [ split; [intros _|reflexivity]; apply find_some in Hf as [Hin Hb];
         apply andb_true_iff in Hb as [Hb _]; apply andb_true_iff in Hb as [H1 H2];
         apply N.eqb_eq in H1, H2; exists a; auto
       | split; [discriminate|]; intros (a & Hin & H1 & H2); exfalso;
         apply (find_none _ _ Hf) in Hin;
         now rewrite H1, H2, !N.eqb_refl in Hin ]).
Qed.
End Assignments.

(** C2 at the input where the code departs from it: role 5 is assigned to
    user 2 and to team 4 in project 1 only, so no global assignment of the
    role to either is stored; assigning the role to them globally (no
    project argument) is refused with [EntityExistsError] all the same,
    while the assignment in another scope is what the triple rule allows. *)
Theorem global_assignment_refused_after_scoped_one :
  (~ exists a, In a (user_role_assignments role_example) /\ same_user_assignment 5 2 None a)
  /\ returned (assign_role no_uuid_names (Id 5) (Id 2) None true role_example)
     = Raise EntityExistsError
  /\ (~ exists a, In a (team_role_assignments role_example) /\ same_team_assignment 5 4 None a)
  /\ returned (assign_role no_uuid_names (Id 5) (Id 4) None false role_example)
     = Raise EntityExistsError.
Proof.
  split; [|split; [reflexivity|split; [|reflexivity]]].
  - intros (a & [<-|[]] & _ & _ & H). discriminate H.
  - intros (a & [<-|[]] & _ & _ & H). discriminate H.
Qed.

(** The other order is accepted: a role held globally can still be assigned
    in a project. *)
Example scoped_assignment_accepted_after_global_one :
  returned
    (assign_role no_uuid_names (Id 5) (Id 2) (Some (Id 1)) true
       (with_user_role_assignments (fun _ => [UserRoleAssignmentSchema.mk 5 2 None])
          role_example))
  = Ok tt.
Proof. reflexivity. Qed.

(** ** Getting or creating a run *)

Lemma existing_reference_run {A} (table : Store -> list A) (pk : A -> UUID)
  (reference : option UUID) (st : Session) :
  exists kept, existing_reference table pk reference st = (Ok kept, st).
Proof.
  unfold existing_reference. destruct reference as [i|]; [|eexists; reflexivity].
  run_session. destruct (find _ (table (db st))); eexists; reflexivity.
Qed.

Lemma find_same_run_none (r : PipelineRunModel.t) (l : list PipelineRunSchema.t) :
  find (fun x => String.eqb (PipelineRunSchema.name x) (PipelineRunModel.name r)) l = None ->
  find (fun x => PipelineRunSchema.id x =? PipelineRunModel.id r) l = None ->
  List.filter (same_run r) l = [].
Proof.
  intros Hn Hi. induction l as [|x l IH]; [reflexivity|].
  simpl in *. unfold same_run at 1.
  destruct (String.eqb (PipelineRunSchema.name x) (PipelineRunModel.name r)); [discriminate|].
  destruct (PipelineRunSchema.id x =? PipelineRunModel.id r); [discriminate|].
  simpl. now apply IH.
Qed.

(** [create_run] either refuses, because a run of the name or of the id is
    stored, or appends one row with the id and the name of the payload. *)
Lemma create_run_cases (s : Store) (r : PipelineRunModel.t) :
  (create_run r s = mkOutcome (Raise EntityExistsError) s 0%nat 1%nat
   /\ runs_like r s <> [])
  \/ (exists row,
        create_run r s
        = mkOutcome (Ok (PipelineRunSchema_to_model row))
            (with_pipeline_runs (fun l => l ++ [row]) s) 1%nat 1%nat
        /\ PipelineRunSchema.id row = PipelineRunModel.id r
        /\ PipelineRunSchema.name row = PipelineRunModel.name r
        /\ runs_like r s = []).
Proof.
  unfold create_run, create_run_block, runs_like. run_session.
  destruct (find _ (pipeline_runs s)) as [x|] eqn:Hn; reduce_session.
  { left. split; [reflexivity|]. apply find_some in Hn as [Hin Hb].
    intros Hc. assert (In x (List.filter (same_run r) (pipeline_runs s))) as Hx.
    { apply filter_In. split; [exact Hin|]. unfold same_run. rewrite Hb. apply orb_true_r. }
    rewrite Hc in Hx. contradiction. }
  destruct (find (fun x => PipelineRunSchema.id x =? _) (pipeline_runs s)) as [x|] eqn:Hi;
    reduce_session.
  { left. split; [reflexivity|]. apply find_some in Hi as [Hin Hb].
    intros Hc. assert (In x (List.filter (same_run r) (pipeline_runs s))) as Hx.
    { apply filter_In. split; [exact Hin|]. unfold same_run. now rewrite Hb. }
    rewrite Hc in Hx. contradiction. }
  right.
  match goal with
  | |- context [existing_reference ?t ?k ?v ?st] =>
    destruct (existing_reference_run t k v st) as [sid ->]
  end.
  reduce_session.
  match goal with
  | |- context [existing_reference ?t ?k ?v ?st] =>
    destruct (existing_reference_run t k v st) as [pid ->]
  end.
  reduce_session.
  eexists. split; [reflexivity|]. split; [reflexivity|]. split; [reflexivity|].
  now apply find_same_run_none.
Qed.

Section Runs.
Variable parse_uuid : string -> option UUID.

Lemma get_run_outcome (s : Store) (x : name_or_id) :
  get_run parse_uuid x s
  = mkOutcome
      match resolve parse_uuid x (pipeline_runs s) with
      | Some run => Ok (PipelineRunSchema_to_model run)
      | None => Raise KeyError
      end s 0%nat 1%nat.
Proof.
  unfold get_run. run_session.
  destruct (resolve parse_uuid x (pipeline_runs s)); reflexivity.
Qed.

Lemma get_or_create_run_refused (s : Store) (r : PipelineRunModel.t) :
  create_run r s = mkOutcome (Raise EntityExistsError) s 0%nat 1%nat ->
  returned (get_or_create_run parse_uuid r s) = fallback parse_uuid s r
  /\ store (get_or_create_run parse_uuid r s) = s
  /\ n_commits (get_or_create_run parse_uuid r s) = 0%nat
  /\ (2 <= n_sessions (get_or_create_run parse_uuid r s) <= 3)%nat.
Proof.
  intros Hc. unfold get_or_create_run, fallback. rewrite Hc. cbn [returned store AlreadyExists].
  rewrite !get_run_outcome. cbn [returned store].
  destruct (resolve parse_uuid (Id (PipelineRunModel.id r)) (pipeline_runs s)); cbn.
  - repeat split; lia.
  - destruct (resolve parse_uuid (Name (PipelineRunModel.name r)) (pipeline_runs s)); cbn;
      repeat split; lia.
Qed.

Lemma same_run_ext (r r' : PipelineRunModel.t) :
  PipelineRunModel.id r' = PipelineRunModel.id r ->
  PipelineRunModel.name r' = PipelineRunModel.name r ->
  forall s, runs_like r' s = runs_like r s.
Proof. intros Hi Hn s. unfold runs_like, same_run. now rewrite Hi, Hn. Qed.

Lemma fallback_ext (r r' : PipelineRunModel.t) (s : Store) :
  PipelineRunModel.id r' = PipelineRunModel.id r ->
  PipelineRunModel.name r' = PipelineRunModel.name r ->
  fallback parse_uuid s r' = fallback parse_uuid s r.
Proof. intros Hi Hn. unfold fallback. now rewrite Hi, Hn. Qed.

Lemma runs_like_found (s : Store) (r : PipelineRunModel.t) :
  runs_like r s <> [] ->
  find (fun x => PipelineRunSchema.id x =? PipelineRunModel.id r) (pipeline_runs s) = None ->
  exists x, find (fun x => String.eqb (PipelineRunSchema.name x) (PipelineRunModel.name r))
              (pipeline_runs s) = Some x.
Proof.
  intros Hne Hid.
  destruct (find (fun x => String.eqb _ _) (pipeline_runs s)) as [x|] eqn:Hn; [eauto|].
  exfalso. apply Hne. now apply find_same_run_none.
Qed.

(** [get_or_create_run] returns what [create_run] returns when that
    succeeds; when [create_run] raises, which it only does with the one
    [EntityExistsError] for a stored name as for a stored id, nothing is
    written and the result is that of [get_run] on the id or, when that
    raises [KeyError], that of [get_run] on the name.  A name that does not
    parse as an identifier is then always found.  Whenever the first call
    returns, a second call with the same id and name returns the same run and
    adds nothing, and when no run of that id or name was stored before,
    exactly one is stored after, under the id of the payload. *)
Theorem get_or_create_run_twice (s : Store) (r : PipelineRunModel.t) :
  (forall m, returned (create_run r s) = Ok m ->
     get_or_create_run parse_uuid r s = create_run r s)
  /\ (forall e, returned (create_run r s) = Raise e ->
        AlreadyExists e = true
        /\ store (get_or_create_run parse_uuid r s) = s
        /\ returned (get_or_create_run parse_uuid r s)
           = match returned (get_run parse_uuid (Id (PipelineRunModel.id r)) s) with
             | Raise KeyError =>
               returned (get_run parse_uuid (Name (PipelineRunModel.name r)) s)
             | found => found
             end)
  /\ (parse_uuid (PipelineRunModel.name r) = None ->
      exists m, returned (get_or_create_run parse_uuid r s) = Ok m)
  /\ (forall m r',
        PipelineRunModel.id r' = PipelineRunModel.id r ->
        PipelineRunModel.name r' = PipelineRunModel.name r ->
        returned (get_or_create_run parse_uuid r s) = Ok m ->
        returned (get_or_create_run parse_uuid r' (store (get_or_create_run parse_uuid r s)))
        = Ok m
        /\ store (get_or_create_run parse_uuid r' (store (get_or_create_run parse_uuid r s)))
           = store (get_or_create_run parse_uuid r s)
        /\ (runs_like r s = [] ->
            PipelineRunModel.id m = PipelineRunModel.id r
            /\ length (runs_like r (store (get_or_create_run parse_uuid r s))) = 1%nat)).
Proof.
  destruct (create_run_cases s r) as [[Hc Hne]|(row & Hc & Hid & Hname & Hnone)].
  - destruct (get_or_create_run_refused s r Hc) as (Hret & Hst & _).
    split; [intros m Hm; rewrite Hc in Hm; discriminate|].
    split.
    { intros e He. rewrite Hc in He. inversion He; subst e.
      split; [reflexivity|]. split; [exact Hst|]. rewrite Hret.
      rewrite !get_run_outcome. unfold fallback. cbn [returned].
      destruct (resolve parse_uuid (Id (PipelineRunModel.id r)) (pipeline_runs s));
        reflexivity. }
    split.
    { intros Hp. rewrite Hret. unfold fallback.
      cbn [resolve schema_id schema_name PipelineRunSchema_named]. rewrite Hp.
      destruct (find (fun x => _ =? _) (pipeline_runs s)) eqn:Hf; [eauto|].
      destruct (runs_like_found s r Hne Hf) as [x ->]. eauto. }
    intros m r' Hi Hn Hm. rewrite Hst.
    assert (Hc' : create_run r' s = mkOutcome (Raise EntityExistsError) s 0%nat 1%nat).
    { destruct (create_run_cases s r') as [[H _]|(row & _ & _ & _ & H)]; [exact H|].
      rewrite (same_run_ext r r' Hi Hn) in H. contradiction. }
    destruct (get_or_create_run_refused s r' Hc') as (Hret' & Hst' & _).
    split; [rewrite Hret', (fallback_ext r r' s Hi Hn), <- Hret; exact Hm|].
    split; [exact Hst'|]. intros H. contradiction.
  - assert (Hg : get_or_create_run parse_uuid r s = create_run r s).
    { unfold get_or_create_run. rewrite Hc. reflexivity. }
    split; [intros; exact Hg|].
    split; [intros e He; rewrite Hc in He; discriminate|].
    split; [rewrite Hg, Hc; eauto|].
    intros m r' Hi Hn Hm. rewrite Hg, Hc in *. cbn [returned store] in *.
    inversion Hm; subst m; clear Hm.
    set (s1 := with_pipeline_runs (fun l => l ++ [row]) s).
    assert (Hruns : pipeline_runs s1 = pipeline_runs s ++ [row]) by reflexivity.
    assert (Hfn : find (fun x => String.eqb (PipelineRunSchema.name x) (PipelineRunModel.name r))
                    (pipeline_runs s) = None).
    { destruct (find (fun x => String.eqb (PipelineRunSchema.name x) (PipelineRunModel.name r))
                  (pipeline_runs s)) as [x|] eqn:Hf; [|reflexivity]. exfalso.
      apply find_some in Hf as [Hin Hb].
      assert (In x (runs_like r s)) as Hx.
      { apply filter_In. split; [exact Hin|]. unfold same_run. rewrite Hb. apply orb_true_r. }
      rewrite Hnone in Hx. contradiction. }
    assert (Hfi : find (fun x => PipelineRunSchema.id x =? PipelineRunModel.id r)
                    (pipeline_runs s) = None).
    { destruct (find (fun x => PipelineRunSchema.id x =? PipelineRunModel.id r)
                  (pipeline_runs s)) as [x|] eqn:Hf; [|reflexivity]. exfalso.
      apply find_some in Hf as [Hin Hb].
      assert (In x (runs_like r s)) as Hx.
      { apply filter_In. split; [exact Hin|]. unfold same_run. now rewrite Hb. }
      rewrite Hnone in Hx. contradiction. }
    assert (Hlike : runs_like r s1 = [row]).
    { unfold runs_like. rewrite Hruns, List.filter_app. fold (runs_like r s). rewrite Hnone.
      simpl. unfold same_run. now rewrite Hid, N.eqb_refl. }
    assert (Hc' : create_run r' s1 = mkOutcome (Raise EntityExistsError) s1 0%nat 1%nat).
    { destruct (create_run_cases s1 r') as [[H _]|(row' & _ & _ & _ & H)]; [exact H|].
      rewrite (same_run_ext r r' Hi Hn), Hlike in H. discriminate. }
    destruct (get_or_create_run_refused s1 r' Hc') as (Hret' & Hst' & _).
    split.
    { rewrite Hret', (fallback_ext r r' s1 Hi Hn). unfold fallback.
      cbn [resolve schema_id schema_name PipelineRunSchema_named].
      rewrite Hruns, (find_app_miss _ _ _ Hfi). simpl. now rewrite Hid, N.eqb_refl. }
    split; [exact Hst'|]. intros _.
    split; [exact Hid|]. now rewrite Hlike.
Qed.
End Runs.

Example get_or_create_run_on_new_name :
  exists m,
    returned (get_or_create_run no_uuid_names nightly_run sharing_example) = Ok m
    /\ returned (get_or_create_run no_uuid_names nightly_run
                   (store (get_or_create_run no_uuid_names nightly_run sharing_example)))
       = Ok m
    /\ PipelineRunModel.id m = 30
    /\ length (runs_like nightly_run
                 (store (get_or_create_run no_uuid_names nightly_run sharing_example)))
       = 1%nat.
Proof.
  destruct (get_or_create_run_twice no_uuid_names sharing_example nightly_run)
    as (_ & _ & Htotal & Htwice).
  destruct (Htotal eq_refl) as [m Hm].
  destruct (Htwice m nightly_run eq_refl eq_refl Hm) as (H2 & _ & H3).
  destruct (H3 eq_refl) as [Hid Hlen].
  exists m. split; [exact Hm|]. split; [exact H2|]. split; [exact Hid|exact Hlen].
Defined.

(** A run whose stack is not stored is recorded without it, and a second
    call finds the run of the first by its id. *)
Example get_or_create_run_example :
  returned (get_or_create_run no_uuid_names
              (PipelineRunModel.mk 31 "weekly" 1 2 (Some 99) None) sharing_example)
  = Ok (PipelineRunModel.mk 31 "weekly" 1 2 None None)
  /\ n_sessions (get_or_create_run no_uuid_names
                   (PipelineRunModel.mk 31 "weekly" 1 2 (Some 99) None)
                   (store (get_or_create_run no_uuid_names
                             (PipelineRunModel.mk 31 "weekly" 1 2 (Some 99) None)
                             sharing_example)))
     = 2%nat.
Proof. split; reflexivity. Qed.

(** C4 at the input where the code departs from it: a run of the name is
    stored, under another id than the payload's, and the name has the shape
    of an identifier.  [create_run] raises [EntityExistsError] for the name,
    [get_run] on the id raises [KeyError], and the fallback [get_run] on the
    name looks the name up as an id and raises [KeyError] too: the stored
    run of that name is not returned. *)
Theorem get_or_create_run_misses_identifier_shaped_name :
  (exists x, In x (pipeline_runs identifier_named_run_example)
             /\ PipelineRunSchema.name x = PipelineRunModel.name identifier_named_payload)
  /\ returned (create_run identifier_named_payload identifier_named_run_example)
     = Raise EntityExistsError
  /\ returned (get_run recognise_identifier_shaped_name
                 (Id (PipelineRunModel.id identifier_named_payload))
                 identifier_named_run_example)
     = Raise KeyError
  /\ returned (get_run recognise_identifier_shaped_name
                 (Name (PipelineRunModel.name identifier_named_payload))
                 identifier_named_run_example)
     = Raise KeyError
  /\ returned (get_or_create_run recognise_identifier_shaped_name
                 identifier_named_payload identifier_named_run_example)
     = Raise KeyError.
Proof.
  split.
  - exists (PipelineRunSchema.mk 40 identifier_shaped_name 1 2 None None).
    split; [simpl; auto|reflexivity].
  - repeat split; vm_compute; reflexivity.
Qed.

(** With a name that is not of that shape the stored run is returned. *)
Example get_or_create_run_finds_plain_name :
  returned (get_or_create_run no_uuid_names
              (PipelineRunModel.mk 41 "nightly" 1 2 None None)
              (with_pipeline_runs
                 (fun _ => [PipelineRunSchema.mk 40 "nightly" 1 2 None None]) empty_store))
  = Ok (PipelineRunModel.mk 40 "nightly" 1 2 None None).
Proof. vm_compute. reflexivity. Qed.

(** ** Listing with filters *)

Lemma insert_by_name_In {A} (name : A -> string) (x y : A) (l : list A) :
  In y (insert_by_name name x l) <-> y = x \/ In y l.
Proof.
  induction l as [|z l IH]; simpl; [intuition congruence|].
  destruct (String.leb (name z) (name x)); simpl; [rewrite IH|]; intuition congruence.
Qed.

Lemma order_by_In {A} (name : A -> string) (y : A) (l : list A) :
  In y (order_by name l) <-> In y l.
Proof.
  unfold order_by.
  assert (H : forall acc, In y (fold_left (fun sorted x => insert_by_name name x sorted) l acc)
                          <-> In y acc \/ In y l).
  { induction l as [|x l IH]; intros acc; simpl; [tauto|].
    rewrite IH, insert_by_name_In. intuition congruence. }
  rewrite H. simpl. tauto.
Qed.

Lemma where_true {A V} (value : option V) (clause : V -> A -> bool) (r : A) :
  where_ value clause r = true -> forall v, value = Some v -> clause v r = true.
Proof. intros H v ->. exact H. Qed.

Lemma string_eqb_empty (n : string) : String.eqb n "" = false <-> n <> "".
Proof.
  split.
  - intros H ->. discriminate.
  - intros H. destruct (String.eqb n "") eqn:E; [|reflexivity].
    apply String.eqb_eq in E. contradiction.
Qed.

Lemma where_str_true {A} (value : option string) (col : A -> string) (r : A) :
  where_ (if truthy_str value then value else None)
    (fun n r => String.eqb (col r) n) r = true ->
  forall n, value = Some n -> n <> "" -> col r = n.
Proof.
  intros H n -> Hn. unfold truthy_str in H.
  apply string_eqb_empty in Hn. rewrite Hn in H. simpl in H.
  now apply String.eqb_eq.
Qed.

Lemma stacks_with_component_In (c : UUID) (s : Store) (r : StackSchema.t) :
  In r (stacks_with_component c s) ->
  In r (stacks s)
  /\ exists link, In link (stack_compositions s)
                  /\ StackCompositionSchema.stack_id link = StackSchema.id r
                  /\ StackCompositionSchema.component_id link = c.
Proof.
  unfold stacks_with_component. intros H.
  apply in_flat_map in H as (st & Hst & H).
  apply in_map_iff in H as (link & <- & Hl).
  apply filter_In in Hl as [Hl Hb]. apply andb_true_iff in Hb as [H1 H2].
  apply N.eqb_eq in H1, H2. split; [exact Hst|]. exists link. auto.
Qed.

Section Listing.
Variable parse_uuid : string -> option UUID.

Lemma filter_schema_run {A} `{NamedSchema A} (value : option name_or_id)
  (schema_class : Store -> list A) (st : Session) :
  filter_schema parse_uuid value schema_class st
  = (resolved_filter parse_uuid value (schema_class (db st)), st).
Proof.
  unfold filter_schema, resolved_filter. destruct value as [x|]; [|reflexivity].
  destruct (truthy (Some x)); [|reflexivity].
  unfold _get_schema_by_name_or_id, bind, rows, ret, raise. cbn [db].
  destruct (resolve parse_uuid x (schema_class (db st))); reflexivity.
Qed.

Lemma list_stacks_result (s : Store) (project user : option name_or_id)
  (component_id : option UUID) (name : option string) (is_shared : option bool) :
  store (list_stacks parse_uuid project user component_id name is_shared s) = s
  /\ match resolved_filter parse_uuid project (projects s) with
     | Raise e =>
       returned (list_stacks parse_uuid project user component_id name is_shared s) = Raise e
     | Ok p =>
       match resolved_filter parse_uuid user (users s) with
       | Raise e =>
         returned (list_stacks parse_uuid project user component_id name is_shared s)
         = Raise e
       | Ok u =>
         exists l,
           returned (list_stacks parse_uuid project user component_id name is_shared s) = Ok l
           /\ forall m, In m l ->
                exists r, In r (stacks s)
                          /\ stack_selected p u component_id name is_shared s r
                          /\ m = StackSchema_to_model r (components_of s (StackSchema.id r))
       end
     end.
Proof.
  unfold list_stacks.
  match goal with |- context [with_Session ?b s] => set (body := b) end.
  destruct (body (session_on s)) as [res st'] eqn:Hb.
  rewrite (with_Session_eq _ _ _ _ Hb). cbn [returned store].
  unfold body, session_on, bind at 1 in Hb. clear body.
  rewrite filter_schema_run in Hb. cbn [db] in Hb.
  destruct (resolved_filter parse_uuid project (projects s)) as [p|e];
    [|inversion Hb; split; reflexivity].
  unfold bind at 1 in Hb. rewrite filter_schema_run in Hb. cbn [db] in Hb.
  destruct (resolved_filter parse_uuid user (users s)) as [u|e];
    [|inversion Hb; split; reflexivity].
  unfold bind, database, ret in Hb. cbn [db] in Hb.
  inversion Hb; subst res st'; clear Hb. cbn [committed].
  split; [reflexivity|]. eexists. split; [reflexivity|].
  intros m Hm. apply in_map_iff in Hm as (r & <- & Hr).
  apply order_by_In in Hr. apply filter_In in Hr as [Hsrc Hb].
  apply andb_true_iff in Hb as [Hb H4]. apply andb_true_iff in Hb as [Hb H3].
  apply andb_true_iff in Hb as [H1 H2].
  exists r.
  assert (Hin : In r (stacks s)
                /\ forall c, component_id = Some c ->
                     exists link, In link (stack_compositions s)
                                  /\ StackCompositionSchema.stack_id link = StackSchema.id r
                                  /\ StackCompositionSchema.component_id link = c).
  { destruct component_id as [c|].
    - apply stacks_with_component_In in Hsrc as [Hs Hl]. split; [exact Hs|].
      intros c' Hc'. inversion Hc'; subst c'. exact Hl.
    - split; [exact Hsrc|]. intros c Hc. discriminate. }
  destruct Hin as [Hin Hcomp].
  split; [exact Hin|]. split; [|reflexivity].
  split; [intros p' ->; apply N.eqb_eq; exact H1|].
  split; [intros u' ->; apply N.eqb_eq; exact H2|].
  split; [exact Hcomp|].
  split; [exact (where_str_true _ _ _ H3)|].
  intros b ->. simpl in H4. now apply Bool.eqb_prop.
Qed.

Lemma list_stack_components_result (s : Store) (project user : option name_or_id)
  (type flavor_name name : option string) (is_shared : option bool) :
  store (list_stack_components parse_uuid project user type flavor_name name is_shared s) = s
  /\ match resolved_filter parse_uuid project (projects s) with
     | Raise e =>
       returned (list_stack_components parse_uuid project user type flavor_name name
                   is_shared s) = Raise e
     | Ok p =>
       match resolved_filter parse_uuid user (users s) with
       | Raise e =>
         returned (list_stack_components parse_uuid project user type flavor_name name
                     is_shared s) = Raise e
       | Ok u =>
         exists l,
           returned (list_stack_components parse_uuid project user type flavor_name name
                       is_shared s) = Ok l
           /\ forall m, In m l ->
                exists r, In r (stack_components s)
                          /\ component_selected p u type flavor_name name is_shared r
                          /\ m = StackComponentSchema_to_model r
       end
     end.
Proof.
  unfold list_stack_components.
  match goal with |- context [with_Session ?b s] => set (body := b) end.
  destruct (body (session_on s)) as [res st'] eqn:Hb.
  rewrite (with_Session_eq _ _ _ _ Hb). cbn [returned store].
  unfold body, session_on, bind at 1 in Hb. clear body.
  rewrite filter_schema_run in Hb. cbn [db] in Hb.
  destruct (resolved_filter parse_uuid project (projects s)) as [p|e];
    [|inversion Hb; split; reflexivity].
  unfold bind at 1 in Hb. rewrite filter_schema_run in Hb. cbn [db] in Hb.
  destruct (resolved_filter parse_uuid user (users s)) as [u|e];
    [|inversion Hb; split; reflexivity].
  unfold bind, all, ret in Hb. cbn [db] in Hb.
  inversion Hb; subst res st'; clear Hb. cbn [committed].
  split; [reflexivity|]. eexists. split; [reflexivity|].
  intros m Hm. apply in_map_iff in Hm as (r & <- & Hr).
  apply filter_In in Hr as [Hin Hb].
  apply andb_true_iff in Hb as [Hb H6]. apply andb_true_iff in Hb as [Hb H5].
  apply andb_true_iff in Hb as [Hb H4]. apply andb_true_iff in Hb as [Hb H3].
  apply andb_true_iff in Hb as [H1 H2].
  exists r. split; [exact Hin|]. split; [|reflexivity].
  split; [intros p' ->; apply N.eqb_eq; exact H1|].
  split; [intros u' ->; apply N.eqb_eq; exact H2|].
  split; [exact (where_str_true _ _ _ H3)|].
  split; [exact (where_str_true _ _ _ H4)|].
  split; [exact (where_str_true _ _ _ H5)|].
  intros b ->. simpl in H6. now apply Bool.eqb_prop.
Qed.

End Listing.



Example listing_stacks_of_unknown_user_raises :
  returned (list_stacks no_uuid_names None (Some (Name "carol")) None None None
              sharing_example)
  = Raise KeyError.
Proof. reflexivity. Qed.

Example listing_stacks_sorted_by_name :
  exists l,
    returned (list_stacks no_uuid_names (Some (Id 1)) (Some (Name "bob")) None None None
                sharing_example) = Ok l
    /\ map StackModel.name l = ["default"; "prod"].
Proof. eexists. split; reflexivity. Qed.

(** ** Sessions and commits *)

Lemma for_each_quiet {A} (P : error -> Prop) (l : list A) (body : A -> M unit) :
  (forall x, quiet P (body x)) -> quiet P (for_each l body).
Proof.
  intros Hb. induction l as [|x l IH]; intros st.
  - simpl. unfold ret. simpl. repeat split. intros e H. discriminate H.
  - simpl. unfold bind. destruct (Hb x st) as (H1 & H2 & H3 & H4).
    destruct (body x st) as [[[]|e] st1]; simpl in *.
    + destruct (IH st1) as (I1 & I2 & I3 & I4).
      repeat split; try congruence. exact I4.
    + repeat split; trivial.
Qed.

Lemma add_quiet (P : error -> Prop) (f : Store -> Store) : quiet P (add f).
Proof. intros st. unfold add. simpl. repeat split. intros e H. discriminate H. Qed.

Lemma create_role_commits_twice (role : RoleModel.t) : transactional 2 (create_role role).
Proof.
  intros s. unfold create_role, create_role_block.
  match goal with |- context [with_Session ?b s] => set (body := b) end.
  destruct (body (session_on s)) as [res st'] eqn:Hb.
  rewrite (with_Session_eq _ _ _ _ Hb). cbn [returned store n_commits n_sessions].
  unfold body, session_on, bind at 1, first in Hb. cbn [db] in Hb. clear body.
  destruct (find _ (roles s)).
  { inversion Hb; subst. simpl. auto. }
  unfold bind at 1, add in Hb. cbn [fst snd] in Hb.
  unfold bind at 1, commit in Hb. cbn [fst snd db committed commits opened on_db] in Hb.
  unfold bind at 1 in Hb.
  match type of Hb with
  | context [for_each ?l ?f ?st] =>
    pose proof (for_each_quiet (fun _ => False) l f (fun x => add_quiet _ _) st)
      as (H1 & H2 & H3 & H4);
    destruct (for_each l f st) as [[[]|e] st1]
  end.
  - unfold bind, commit, all, ret in Hb. simpl in Hb. inversion Hb; subst.
    simpl in *. split; congruence.
  - exfalso. exact (H4 e eq_refl).
Qed.

Lemma one_or_none_quiet {A} (table : Store -> list A) (p : A -> bool) :
  quiet (fun e => guard_error e = false) (one_or_none table p).
Proof.
  intros st. unfold one_or_none, bind, all, ret, raise. cbn [fst snd db].
  destruct (List.filter p (table (db st))) as [|x [|y l]]; simpl; repeat split;
    intros e H; inversion H; reflexivity.
Qed.

Lemma update_role_commits_twice (role : RoleModel.t) : transactional 2 (update_role role).
Proof.
  intros s. unfold update_role, update_role_block.
  match goal with |- context [with_Session ?b s] => set (body := b) end.
  destruct (body (session_on s)) as [res st'] eqn:Hb.
  rewrite (with_Session_eq _ _ _ _ Hb). cbn [returned store n_commits n_sessions].
  unfold body, session_on, bind at 1, first in Hb. cbn [db] in Hb. clear body.
  destruct (find _ (roles s)) as [existing|].
  2:{ inversion Hb; subst. simpl. auto. }
  destruct (_ || _).
  { inversion Hb; subst. simpl. auto. }
  unfold bind at 1, add in Hb. cbn [fst snd] in Hb.
  unfold bind at 1, commit in Hb. cbn [fst snd db committed commits opened on_db] in Hb.
  unfold bind at 1, all in Hb. cbn [fst snd db committed commits opened on_db] in Hb.
  unfold bind at 1 in Hb.
  match type of Hb with
  | context [for_each ?l ?f ?st] =>
    assert (Hq : quiet (fun e => guard_error e = false) (for_each l f));
    [|destruct (Hq st) as (H1 & H2 & H3 & H4);
      destruct (for_each l f st) as [[[]|e] st1]]
  end.
  - apply for_each_quiet. intros permission st.
    destruct (negb (bool_decide (permission ∈ RoleModel.permissions role))).
    + unfold bind.
      match goal with
      | |- context [one_or_none ?t ?p st] =>
        destruct (one_or_none_quiet t p st) as (H1 & H2 & H3 & H4);
        destruct (one_or_none t p st) as [[[x|]|e] st1]
      end; simpl in *.
      * repeat split; trivial. intros e H. discriminate H.
      * repeat split; trivial. intros e H. inversion H. reflexivity.
      * split; [exact H1|split; [exact H2|split; [exact H3|]]].
        intros e0 He0. inversion He0; subst e0. exact (H4 e eq_refl).
    + destruct (negb _); simpl; repeat split; intros e H; discriminate H.
  - unfold bind, commit, all, ret in Hb. simpl in Hb. inversion Hb; subst.
    simpl in *. split; congruence.
  - inversion Hb; subst. simpl in *. split; [congruence|].
    intros Hg. rewrite (H4 e eq_refl) in Hg. discriminate Hg.
Qed.

Ltac break_any :=
  match goal with
  | |- context [match find ?p ?l with _ => _ end] => destruct (find p l) eqn:?
  | |- context [match resolve ?u ?x ?l with _ => _ end] => destruct (resolve u x l) eqn:?
  | |- context [if ?b then _ else _] => destruct b eqn:?
  | |- context [match ?x with _ => _ end] => is_var x; destruct x
  end; reduce_session.

Ltac by_cases :=
  run_session; repeat break_any;
  (split; [reflexivity|]); try reflexivity; intros _; split; reflexivity.

Section Transactions.
Variable parse_uuid : string -> option UUID.

Lemma create_stack_commits_once (stack : StackModel.t) :
  transactional 1 (create_stack parse_uuid stack).
Proof.
  intros s. unfold create_stack, create_stack_block, fail_if_stack_with_id_already_exists,
    fail_if_stack_with_name_exists_for_user, fail_if_stack_with_name_already_shared.
  by_cases.
Qed.

Lemma update_stack_commits_once (stack : StackModel.t) :
  transactional 1 (update_stack parse_uuid stack).
Proof.
  intros s. unfold update_stack, update_stack_block, fail_if_stack_with_name_exists_for_user,
    fail_if_stack_with_name_already_shared.
  by_cases.
Qed.

Lemma create_stack_component_commits_once (component : ComponentModel.t) :
  transactional 1 (create_stack_component parse_uuid component).
Proof.
  intros s. unfold create_stack_component, create_stack_component_block,
    fail_if_component_with_id_already_exists,
    fail_if_component_with_name_type_exists_for_user,
    fail_if_component_with_name_type_already_shared.
  by_cases.
Qed.

Lemma update_stack_component_commits_once (component : ComponentModel.t) :
  transactional 1 (update_stack_component parse_uuid component).
Proof.
  intros s. unfold update_stack_component, update_stack_component_block,
    fail_if_component_with_name_type_exists_for_user,
    fail_if_component_with_name_type_already_shared.
  by_cases.
Qed.

Lemma assign_role_commits_once (role subject : name_or_id) (project : option name_or_id)
  (is_user : bool) :
  transactional 1 (assign_role parse_uuid role subject project is_user).
Proof.
  intros s. unfold assign_role. destruct is_user.
  - unfold _assign_role_to_user, _assign_role_to_user_block. by_cases.
  - unfold _assign_role_to_team, _assign_role_to_team_block. by_cases.
Qed.
End Transactions.

Lemma create_run_commits_once (r : PipelineRunModel.t) : transactional 1 (create_run r).
Proof.
  intros s. destruct (create_run_cases s r) as [[-> _]|(row & -> & _)]; simpl; auto.
Qed.

Lemma create_run_step_commits_once (m : StepRunModel.t) : transactional 1 (create_run_step m).
Proof.
  intros s. destruct (create_run_step_store s m) as [(e & ->)|(x & a1 & a2 & a3 & H)].
  - simpl. auto.
  - cbv zeta in H. destruct H as (-> & _). simpl. auto.
Qed.

Lemma update_run_step_commits_once (m : StepRunModel.t) : transactional 1 (update_run_step m).
Proof.
  intros s. destruct (update_run_step_store s m) as [(e & ->)|(x & added & -> & _)];
    simpl; auto.
Qed.

Section RunAttempts.
Variable parse_uuid : string -> option UUID.

Lemma get_or_create_run_sessions (r : PipelineRunModel.t) (s : Store) :
  (1 <= n_sessions (get_or_create_run parse_uuid r s) <= 3)%nat
  /\ match returned (get_or_create_run parse_uuid r s) with
     | Ok _ => (n_commits (get_or_create_run parse_uuid r s) <= 1)%nat
     | Raise _ =>
       n_commits (get_or_create_run parse_uuid r s) = 0%nat
       /\ store (get_or_create_run parse_uuid r s) = s
     end.
Proof.
  destruct (create_run_cases s r) as [[Hc _]|(row & Hc & _)].
  - destruct (get_or_create_run_refused parse_uuid s r Hc) as (_ & Hst & Hn & Hs).
    split; [lia|]. destruct (returned _); [lia|auto].
  - unfold get_or_create_run. rewrite Hc. cbn. split; lia.
Qed.
End RunAttempts.

(** Creating a role on the empty database succeeds with two commits in its
    one session, and a second attempt to get or create a run takes two
    sessions. *)
Lemma create_role_commits_twice_on_empty_store :
  returned (create_role editor_role empty_store) = Ok editor_role
  /\ n_commits (create_role editor_role empty_store) = 2%nat
  /\ ~ transactional 1 (create_role editor_role)
  /\ n_sessions (get_or_create_run no_uuid_names nightly_run
                   (store (get_or_create_run no_uuid_names nightly_run empty_store)))
     = 2%nat.
Proof.
  assert (H : n_commits (create_role editor_role empty_store) = 2%nat) by (vm_compute; reflexivity).
  split; [|split; [exact H|split; [|reflexivity]]].
  - unfold create_role, create_role_block, with_Session. cbn [returned]. vm_compute. reflexivity.
  - intros Ht. destruct (Ht empty_store) as [_ Hc].
    assert (Hr : returned (create_role editor_role empty_store) = Ok editor_role)
      by (vm_compute; reflexivity).
    rewrite Hr, H in Hc. discriminate Hc.
Qed.
(** ** The secret values codec *)

(** *** Bits *)

Lemma lor_shiftl (x y k : N) : y < 2 ^ k -> N.lor (N.shiftl x k) y = x * 2 ^ k + y.
Proof.
  intros Hy. rewrite N.shiftl_mul_pow2.
  assert (Hland : N.land (x * 2 ^ k) y = 0).
  { apply N.bits_inj. intros i. rewrite N.land_spec, N.bits_0.
    destruct (N.lt_ge_cases i k) as [Hi|Hi].
    - now rewrite N.mul_pow2_bits_low.
    - rewrite <- (N.mod_small y (2 ^ k)) by exact Hy.
      rewrite (N.mod_pow2_bits_high y k i) by exact Hi. apply andb_false_r. }
  rewrite <- (N.lxor_lor _ _ Hland). symmetry. now apply N.add_nocarry_lxor.
Qed.

Ltac euclid := zify; Z.to_euclidean_division_equations; lia.

(** *** Hexadecimal digits *)

Lemma hex_digit_cases (d : N) :
  d < 16 ->
  d = 0 \/ d = 1 \/ d = 2 \/ d = 3 \/ d = 4 \/ d = 5 \/ d = 6 \/ d = 7
  \/ d = 8 \/ d = 9 \/ d = 10 \/ d = 11 \/ d = 12 \/ d = 13 \/ d = 14 \/ d = 15.
Proof. lia. Qed.

Lemma hex_value_digit (d : N) : d < 16 -> hex_value (hex_digit d) = Some d.
Proof.
  intros H. apply hex_digit_cases in H.
  repeat (destruct H as [->|H]; [reflexivity|]). subst d. reflexivity.
Qed.

Lemma hex_digit_ascii (d : N) : d < 16 -> hex_digit d < 128.
Proof.
  intros H. apply hex_digit_cases in H.
  repeat (destruct H as [->|H]; [reflexivity|]). subst d. reflexivity.
Qed.

Lemma code_point_format (n : N) :
  n < 0x10000 ->
  code_point (hex_digit (N.shiftr n 12 mod 16)) (hex_digit (N.shiftr n 8 mod 16))
    (hex_digit (N.shiftr n 4 mod 16)) (hex_digit (n mod 16))
  = Some n.
Proof.
  intros Hn. unfold code_point.
  rewrite !hex_value_digit by (apply N.mod_upper_bound; discriminate).
  f_equal.
  rewrite !lor_shiftl by (apply N.mod_upper_bound; discriminate).
  rewrite !N.shiftr_div_pow2.
  change (2 ^ 4) with 16. change (2 ^ 8) with 256. change (2 ^ 12) with 4096.
  euclid.
Qed.

(** *** Surrogates *)

Lemma high_surrogate_of (n : N) :
  n < 0x100000 ->
  N.lor 0xd800 (N.land (N.shiftr n 10) 0x3ff) = 0xd800 + n / 1024.
Proof.
  intros Hn. change 0x3ff with (N.ones 10). rewrite N.land_ones.
  change 0xd800 with (N.shiftl 54 10) at 1.
  rewrite lor_shiftl by (apply N.mod_upper_bound; discriminate).
  rewrite N.shiftr_div_pow2. change (2 ^ 10) with 1024. euclid.
Qed.

Lemma low_surrogate_of (n : N) :
  N.lor 0xdc00 (N.land n 0x3ff) = 0xdc00 + n mod 1024.
Proof.
  change 0x3ff with (N.ones 10). rewrite N.land_ones.
  change 0xdc00 with (N.shiftl 55 10) at 1.
  rewrite lor_shiftl by (apply N.mod_upper_bound; discriminate).
  change (2 ^ 10) with 1024. lia.
Qed.

Lemma join_surrogates_of (n : N) :
  n < 0x100000 ->
  join_surrogates (0xd800 + n / 1024) (0xdc00 + n mod 1024) = n + 0x10000.
Proof.
  intros Hn. unfold join_surrogates. f_equal.
  change 0x03FF with (N.ones 10). rewrite !N.land_ones.
  rewrite lor_shiftl by (apply N.mod_upper_bound; discriminate).
  change (2 ^ 10) with 1024. euclid.
Qed.

(** *** The escape of a character *)

Lemma escape_char_cases (c : N) :
  c < 0x110000 ->
  (exists e, escape_char c = [BACKSLASH; e]
             /\ (e =? ord "u") = false /\ unescape e = Some c)
  \/ (escape_char c = [c]
      /\ (c =? DQUOTE) = false /\ (c =? BACKSLASH) = false /\ (c <? 32) = false
      /\ c < 128)
  \/ (escape_char c = u_escape c /\ c < 0x10000)
  \/ (exists s1 s2,
        escape_char c = u_escape s1 ++ u_escape s2
        /\ is_high_surrogate s1 = true /\ is_low_surrogate s2 = true
        /\ join_surrogates s1 s2 = c).
Proof.
  intros Hc. unfold escape_char.
  destruct (N.eqb_spec c DQUOTE) as [->|H1]; [left; eexists; repeat split|].
  destruct (N.eqb_spec c BACKSLASH) as [->|H2]; [left; eexists; repeat split|].
  destruct (N.eqb_spec c 10) as [->|H3]; [left; eexists; repeat split|].
  destruct (N.eqb_spec c 13) as [->|H4]; [left; eexists; repeat split|].
  destruct (N.eqb_spec c 9) as [->|H5]; [left; eexists; repeat split|].
  destruct (N.eqb_spec c 8) as [->|H6]; [left; eexists; repeat split|].
  destruct (N.eqb_spec c 12) as [->|H7]; [left; eexists; repeat split|].
  destruct (N.leb_spec 32 c) as [H8|H8]; cbn [andb].
  - destruct (N.leb_spec c 126) as [H9|H9].
    + right; left. repeat split; try lia.
      apply N.ltb_ge. exact H8.
    + destruct (N.ltb_spec c 0x10000) as [H10|H10]; [right; right; left; now split|].
      right; right; right. cbv zeta.
      rewrite high_surrogate_of, low_surrogate_of by lia.
      eexists _, _. split; [reflexivity|].
      split; [|split].
      * unfold is_high_surrogate. apply andb_true_iff. split; apply N.leb_le; euclid.
      * unfold is_low_surrogate. apply andb_true_iff. split; apply N.leb_le; euclid.
      * rewrite join_surrogates_of by lia. lia.
  - right; right; left. split; [|lia].
    destruct (N.ltb_spec c 0x10000); [reflexivity|lia].
Qed.

Lemma format_04x_ascii (n : N) : is_ascii (format_04x n).
Proof.
  unfold format_04x.
  repeat constructor; apply hex_digit_ascii; apply N.mod_upper_bound; discriminate.
Qed.

Lemma u_escape_ascii (n : N) : is_ascii (u_escape n).
Proof.
  unfold u_escape. constructor; [reflexivity|]. constructor; [reflexivity|].
  apply format_04x_ascii.
Qed.

Lemma escape_char_ascii (c : N) : is_ascii (escape_char c).
Proof.
  unfold escape_char.
  repeat match goal with
         | |- context [if ?x =? ?y then _ else _] =>
           destruct (x =? y); [repeat constructor|]
         end.
  destruct (N.leb_spec 32 c); cbn [andb].
  - destruct (N.leb_spec c 126).
    + repeat constructor. lia.
    + destruct (c <? 0x10000); [apply u_escape_ascii|].
      apply Forall_app. split; apply u_escape_ascii.
  - destruct (c <? 0x10000); [apply u_escape_ascii|].
    apply Forall_app. split; apply u_escape_ascii.
Qed.

Lemma escape_ascii (s : str) : is_ascii (escape s).
Proof.
  induction s as [|c s IH]; [constructor|].
  cbn [escape]. apply Forall_app. split; [apply escape_char_ascii|exact IH].
Qed.

(** *** JSON strings *)

Lemma surrogate_below (c : N) :
  is_high_surrogate c = true \/ is_low_surrogate c = true -> c < 0x10000.
Proof.
  unfold is_high_surrogate, is_low_surrogate. intros [H|H];
    apply andb_true_iff in H as [_ H]; apply N.leb_le in H; lia.
Qed.

Lemma high_is_not_low (c : N) : is_high_surrogate c = true -> is_low_surrogate c = false.
Proof.
  unfold is_high_surrogate, is_low_surrogate. intros H.
  apply andb_true_iff in H as [_ H]. apply N.leb_le in H.
  apply andb_false_iff. left. apply N.leb_gt. lia.
Qed.

Lemma low_is_not_high (c : N) : is_low_surrogate c = true -> is_high_surrogate c = false.
Proof.
  intros H. destruct (is_high_surrogate c) eqn:Hh; [|reflexivity].
  apply high_is_not_low in Hh. congruence.
Qed.

Lemma scanstring_u_escape (c : N) (tail : str) :
  c < 0x10000 ->
  scanstring (u_escape c ++ tail)
  = let alone := match scanstring tail with
                 | Some (t, rest) => Some (c :: t, rest)
                 | None => None
                 end in
    if is_high_surrogate c then
      match tail with
      | b :: u :: g1 :: g2 :: g3 :: g4 :: r =>
        if (b =? BACKSLASH) && (u =? ord "u") then
          match code_point g1 g2 g3 g4 with
          | Some c2 =>
            if is_low_surrogate c2 then
              match scanstring r with
              | Some (t, rest) => Some (join_surrogates c c2 :: t, rest)
              | None => None
              end
            else alone
          | None => None
          end
        else alone
      | _ => alone
      end
    else alone.
Proof.
  intros Hc. unfold u_escape, format_04x.
  cbn [app scanstring].
  change (BACKSLASH =? DQUOTE) with false. change (BACKSLASH =? BACKSLASH) with true.
  change (ord "u" =? ord "u") with true. cbn iota.
  rewrite (code_point_format c Hc). reflexivity.
Qed.

Lemma scanstring_alone (c : N) (tail : str) :
  c < 0x10000 ->
  (is_high_surrogate c = true -> escaped_low_surrogate tail = false) ->
  scanstring (u_escape c ++ tail)
  = match scanstring tail with
    | Some (t, rest) => Some (c :: t, rest)
    | None => None
    end.
Proof.
  intros Hc Htail. rewrite scanstring_u_escape by exact Hc. cbv zeta.
  destruct (is_high_surrogate c); [|reflexivity].
  specialize (Htail eq_refl).
  destruct tail as [|b [|u [|g1 [|g2 [|g3 [|g4 r]]]]]]; try reflexivity.
  cbn [escaped_low_surrogate] in Htail.
  destruct ((b =? BACKSLASH) && (u =? ord "u")); [|reflexivity].
  cbn [andb] in Htail.
  destruct (code_point g1 g2 g3 g4); [|discriminate].
  now rewrite Htail.
Qed.

Lemma scanstring_pair (s1 s2 : N) (tail : str) :
  is_high_surrogate s1 = true ->
  is_low_surrogate s2 = true ->
  scanstring (u_escape s1 ++ u_escape s2 ++ tail)
  = match scanstring tail with
    | Some (t, rest) => Some (join_surrogates s1 s2 :: t, rest)
    | None => None
    end.
Proof.
  intros H1 H2.
  rewrite scanstring_u_escape by (apply surrogate_below; now left).
  cbv zeta. rewrite H1. unfold u_escape at 1, format_04x. cbn [app].
  change ((BACKSLASH =? BACKSLASH) && (ord "u" =? ord "u")) with true. cbn iota.
  rewrite code_point_format by (apply surrogate_below; now right).
  now rewrite H2.
Qed.

Lemma scanstring_escape_char (c : N) (tail : str) :
  c < 0x110000 ->
  (is_high_surrogate c = true -> escaped_low_surrogate tail = false) ->
  scanstring (escape_char c ++ tail)
  = match scanstring tail with
    | Some (t, rest) => Some (c :: t, rest)
    | None => None
    end.
Proof.
  intros Hc Htail.
  destruct (escape_char_cases c Hc)
    as [(e & -> & He & Hu)|[(-> & Hq & Hb & Hctl & _)|[(-> & Hlt)|(s1 & s2 & -> & H1 & H2 & <-)]]].
  - cbn [app scanstring].
    change (BACKSLASH =? DQUOTE) with false. change (BACKSLASH =? BACKSLASH) with true.
    cbn iota. now rewrite He, Hu.
  - cbn [app scanstring]. now rewrite Hq, Hb, Hctl.
  - now apply scanstring_alone.
  - rewrite <- app_assoc. now apply scanstring_pair.
Qed.

Lemma quote_is_no_escape (rest : str) : escaped_low_surrogate (DQUOTE :: rest) = false.
Proof. destruct rest as [|u [|g1 [|g2 [|g3 [|g4 r]]]]]; reflexivity. Qed.

Lemma u_escape_is_no_low_escape (c : N) (tail : str) :
  c < 0x10000 -> is_low_surrogate c = false ->
  escaped_low_surrogate (u_escape c ++ tail) = false.
Proof.
  intros Hc Hlow. unfold u_escape, format_04x. cbn [app escaped_low_surrogate].
  rewrite code_point_format by exact Hc. rewrite Hlow. reflexivity.
Qed.

Lemma escape_char_is_no_low_escape (c : N) (tail : str) :
  c < 0x110000 -> is_low_surrogate c = false ->
  escaped_low_surrogate (escape_char c ++ tail) = false.
Proof.
  intros Hc Hlow.
  destruct (escape_char_cases c Hc)
    as [(e & -> & He & Hu)|[(-> & Hq & Hb & Hctl & _)|[(-> & Hlt)|(s1 & s2 & -> & H1 & H2 & _)]]].
  - cbn [app]. destruct tail as [|g1 [|g2 [|g3 [|g4 r]]]]; try reflexivity.
    cbn [escaped_low_surrogate]. rewrite He. reflexivity.
  - cbn [app]. destruct tail as [|u [|g1 [|g2 [|g3 [|g4 r]]]]]; try reflexivity.
    cbn [escaped_low_surrogate]. change BACKSLASH with 92.
    change (c =? BACKSLASH) with (c =? 92) in Hb.
    rewrite Hb. reflexivity.
  - now apply u_escape_is_no_low_escape.
  - rewrite <- app_assoc. apply u_escape_is_no_low_escape.
    + apply surrogate_below. now left.
    + now apply high_is_not_low.
Qed.

Lemma scanstring_escape (s rest : str) :
  is_str s -> no_surrogate_pair s = true ->
  scanstring (escape s ++ DQUOTE :: rest) = Some (s, rest).
Proof.
  intros Hs. induction Hs as [|c s Hc Hs IH]; intros Hpair.
  - cbn [escape app scanstring]. reflexivity.
  - cbn [escape]. rewrite <- app_assoc.
    cbn [no_surrogate_pair] in Hpair. apply andb_true_iff in Hpair as [Hhead Hpair].
    rewrite scanstring_escape_char; [now rewrite IH|exact Hc|].
    intros Hhigh. destruct Hs as [|c' s' Hc' Hs].
    + apply quote_is_no_escape.
    + cbn [escape]. rewrite <- app_assoc.
      apply escape_char_is_no_low_escape; [exact Hc'|].
      rewrite Hhigh in Hhead. cbn [andb] in Hhead.
      now apply negb_true_iff in Hhead.
Qed.

(** *** JSON objects *)

Lemma join_items_cons (kv : str * str) (l : list (str * str)) (rest : str) :
  join_items (kv :: l) ++ ord "}" :: rest
  = dump_item kv
    ++ match l with
       | [] => ord "}" :: rest
       | _ => ord "," :: ord " " :: join_items l ++ ord "}" :: rest
       end.
Proof.
  destruct l as [|kv' l]; [reflexivity|].
  change (join_items (kv :: kv' :: l))
    with (dump_item kv ++ text ", " ++ join_items (kv' :: l)).
  change (text ", ") with [ord ","; ord " "].
  rewrite <- !app_assoc. reflexivity.
Qed.

Lemma dump_item_shape (kv : str * str) (rest : str) :
  dump_item kv ++ rest
  = DQUOTE
    :: escape (fst kv)
       ++ DQUOTE :: ord ":" :: ord " " :: DQUOTE :: escape (snd kv) ++ DQUOTE :: rest.
Proof.
  unfold dump_item, json_string. change (text ": ") with [ord ":"; ord " "].
  cbn [app]. rewrite <- !app_assoc. cbn [app]. rewrite <- !app_assoc. reflexivity.
Qed.

Lemma join_items_starts_with_quote (kv : str * str) (l : list (str * str)) (rest : str) :
  exists body, join_items (kv :: l) ++ ord "}" :: rest = DQUOTE :: body.
Proof. rewrite join_items_cons, dump_item_shape. eauto. Qed.

(** One item and what follows it. *)
Lemma scan_items_item (fuel : nat) (k v tail : str) :
  is_str k -> no_surrogate_pair k = true ->
  is_str v -> no_surrogate_pair v = true ->
  scan_items (S fuel)
    (DQUOTE
     :: escape k ++ DQUOTE :: ord ":" :: ord " " :: DQUOTE :: escape v ++ DQUOTE :: tail)
  = match skip_whitespace tail with
    | sep :: r5 =>
      if sep =? ord "}" then Some ([(k, v)], r5)
      else if sep =? ord "," then
        match scan_items fuel (skip_whitespace r5) with
        | Some (l, rest) => Some ((k, v) :: l, rest)
        | None => None
        end
      else None
    | [] => None
    end.
Proof.
  intros Hk Hkp Hv Hvp. cbn [scan_items].
  change (DQUOTE =? DQUOTE) with true. cbn iota.
  rewrite (scanstring_escape k _ Hk Hkp).
  change (skip_whitespace (ord ":" :: ?x)) with (ord ":" :: x).
  change (ord ":" =? ord ":") with true. cbn iota.
  change (skip_whitespace (ord " " :: DQUOTE :: ?x)) with (DQUOTE :: x).
  change (DQUOTE =? DQUOTE) with true. cbn iota.
  rewrite (scanstring_escape v _ Hv Hvp). reflexivity.
Qed.

Lemma scan_items_join (l : list (str * str)) (kv : str * str) (fuel : nat) (rest : str) :
  Forall (fun kv => (is_str (fst kv) /\ no_surrogate_pair (fst kv) = true)
                    /\ is_str (snd kv) /\ no_surrogate_pair (snd kv) = true) (kv :: l) ->
  (length l < fuel)%nat ->
  scan_items fuel (join_items (kv :: l) ++ ord "}" :: rest) = Some (kv :: l, rest).
Proof.
  revert kv fuel. induction l as [|kv' l IH]; intros [k v] fuel Hall Hfuel;
    inversion Hall as [|? ? [[Hk Hkp] [Hv Hvp]] Hrest]; subst; cbn [fst snd] in *.
  - destruct fuel as [|fuel]; [simpl in Hfuel; lia|].
    rewrite join_items_cons, dump_item_shape. cbn [fst snd].
    rewrite scan_items_item by assumption. reflexivity.
  - destruct fuel as [|fuel]; [simpl in Hfuel; lia|].
    rewrite join_items_cons, dump_item_shape. cbn [fst snd].
    rewrite scan_items_item by assumption.
    change (skip_whitespace (ord "," :: ?x)) with (ord "," :: x).
    change (ord "," =? ord "}") with false. change (ord "," =? ord ",") with true.
    cbn iota.
    destruct (join_items_starts_with_quote kv' l rest) as [body Hbody].
    change (skip_whitespace (ord " " :: ?x)) with (skip_whitespace x).
    assert (Hskip : skip_whitespace (join_items (kv' :: l) ++ ord "}" :: rest)
                    = join_items (kv' :: l) ++ ord "}" :: rest).
    { rewrite Hbody. reflexivity. }
    rewrite Hskip, IH; [reflexivity|exact Hrest|simpl in Hfuel; lia].
Qed.

Lemma length_join_items (l : list (str * str)) :
  (length l <= length (join_items l))%nat.
Proof.
  induction l as [|kv l IH]; [simpl; lia|].
  destruct l as [|kv' l].
  - unfold join_items, dump_item, json_string.
    rewrite !length_app. simpl. lia.
  - change (join_items (kv :: kv' :: l))
      with (dump_item kv ++ text ", " ++ join_items (kv' :: l)).
    rewrite !length_app. simpl in *. lia.
Qed.

Lemma dict_of_items_list_to_map (l : list (str * str)) :
  dict_of_items l = list_to_map (rev l).
Proof.
  unfold dict_of_items. rewrite <- fold_left_rev_right.
  induction (rev l) as [|[k v] r IH]; [reflexivity|].
  simpl. now rewrite IH.
Qed.

Lemma dict_of_items_map_to_list (m : gmap str str) :
  dict_of_items (map_to_list m) = m.
Proof.
  rewrite dict_of_items_list_to_map.
  rewrite <- (list_to_map_to_list m) at 2.
  apply list_to_map_proper.
  - rewrite <- (Permutation_rev (map_to_list m)). apply NoDup_fst_map_to_list.
  - symmetry. apply Permutation_rev.
Qed.

Lemma json_loads_dumps (values : gmap str str) :
  str_values values -> no_surrogate_pairs values ->
  json_loads (json_dumps values) = Some values.
Proof.
  intros Hstr Hpairs.
  assert (Hall : Forall (fun kv => (is_str (fst kv) /\ no_surrogate_pair (fst kv) = true)
                                   /\ is_str (snd kv) /\ no_surrogate_pair (snd kv) = true)
                   (map_to_list values)).
  { apply Forall_forall. intros [k v] Hin.
    apply elem_of_map_to_list in Hin. cbn [fst snd].
    destruct (Hstr k v Hin), (Hpairs k v Hin). tauto. }
  unfold json_dumps. destruct (map_to_list values) as [|kv l] eqn:Hl.
  - apply map_to_list_empty_iff in Hl. subst values. reflexivity.
  - rewrite <- (dict_of_items_map_to_list values), Hl.
    change (text "{" ++ ?x) with (ord "{" :: x). change (text "}") with [ord "}"].
    unfold json_loads.
    change (skip_whitespace (ord "{" :: ?x)) with (ord "{" :: x).
    cbn iota. change (ord "{" =? ord "{") with true. cbn iota.
    destruct (join_items_starts_with_quote kv l []) as [body Hbody].
    pose proof (scan_items_join l kv
                  (length (ord "{" :: join_items (kv :: l) ++ [ord "}"]))
                  [] Hall) as Hscan.
    rewrite Hbody in *.
    change (skip_whitespace (DQUOTE :: body)) with (DQUOTE :: body).
    change (DQUOTE =? ord "}") with false. cbn iota.
    rewrite Hscan; [reflexivity|].
    rewrite <- Hbody. cbn [length]. rewrite length_app.
    pose proof (length_join_items (kv :: l)) as Hlen. simpl in Hlen |- *. lia.
Qed.

Lemma json_string_ascii (s : str) : is_ascii (json_string s).
Proof.
  unfold json_string. constructor; [reflexivity|].
  apply Forall_app. split; [apply escape_ascii|repeat constructor].
Qed.

Lemma dump_item_ascii (kv : str * str) : is_ascii (dump_item kv).
Proof.
  unfold dump_item. apply Forall_app. split; [apply json_string_ascii|].
  apply Forall_app. split; [repeat constructor|apply json_string_ascii].
Qed.

Lemma join_items_ascii (l : list (str * str)) : is_ascii (join_items l).
Proof.
  induction l as [|kv l IH]; [constructor|].
  destruct l as [|kv' l]; [apply dump_item_ascii|].
  change (join_items (kv :: kv' :: l))
    with (dump_item kv ++ text ", " ++ join_items (kv' :: l)).
  apply Forall_app. split; [apply dump_item_ascii|].
  apply Forall_app. split; [repeat constructor|exact IH].
Qed.

Lemma json_dumps_ascii (values : gmap str str) : is_ascii (json_dumps values).
Proof.
  unfold json_dumps. apply Forall_app. split; [repeat constructor|].
  apply Forall_app. split; [apply join_items_ascii|repeat constructor].
Qed.

(** *** UTF-8 *)

Lemma utf8_encode_ascii (t : str) : is_ascii t -> utf8_encode t = Some (ascii_bytes t).
Proof.
  intros Ht. induction Ht as [|c t Hc Ht IH]; [reflexivity|].
  cbn [utf8_encode]. unfold utf8_encode_char.
  destruct (N.ltb_spec c 0x80) as [_|H]; [|lia].
  rewrite IH. reflexivity.
Qed.

Lemma utf8_decode_ascii (t : str) : is_ascii t -> utf8_decode (ascii_bytes t) = Some t.
Proof.
  intros Ht. induction Ht as [|c t Hc Ht IH]; [reflexivity|].
  change (ascii_bytes (c :: t)) with (String (byte c) (ascii_bytes t)).
  cbn [utf8_decode]. unfold byte at 1 2.
  rewrite N_ascii_embedding by lia.
  destruct (N.ltb_spec c 0x80) as [_|H]; [|lia].
  now rewrite IH.
Qed.

(** *** Base64 *)

Lemma b64_value_char (x : sextet) : b64_value (b64_char x) = Some x.
Proof. destruct x as [[[[[[] []] []] []] []] []]; reflexivity. Qed.

Lemma b64_value_pad : b64_value PAD = None.
Proof. reflexivity. Qed.

Lemma b64_char_is_not_pad (x : sextet) : Ascii.eqb (b64_char x) PAD = false.
Proof. destruct x as [[[[[[] []] []] []] []] []]; reflexivity. Qed.

Lemma a2b_base64_char (x : sextet) (r : string) (quad : list sextet) (pads : nat) :
  a2b_base64 (String (b64_char x) r) quad pads
  = match quad with
    | [(a7, a6, a5, a4, a3, a2); (a1, a0, b7, b6, b5, b4); (b3, b2, b1, b0, c7, c6)] =>
      let '(c5, c4, c3, c2, c1, c0) := x in
      match a2b_base64 r [] 0 with
      | Some t =>
        Some (String (Ascii a0 a1 a2 a3 a4 a5 a6 a7)
                (String (Ascii b0 b1 b2 b3 b4 b5 b6 b7)
                   (String (Ascii c0 c1 c2 c3 c4 c5 c6 c7) t)))
      | None => None
      end
    | _ => a2b_base64 r (quad ++ [x]) 0
    end.
Proof. cbn [a2b_base64]. now rewrite b64_char_is_not_pad, b64_value_char. Qed.

Lemma b64decode_encode_upto (n : nat) (b : string) :
  (String.length b <= n)%nat -> b64decode (b64encode b) = Some b.
Proof.
  unfold b64decode. revert b. induction n as [|n IH]; intros b Hlen.
  - destruct b; [reflexivity|simpl in Hlen; lia].
  - destruct b as [|[a0 a1 a2 a3 a4 a5 a6 a7] b]; [reflexivity|].
    destruct b as [|[b0 b1 b2 b3 b4 b5 b6 b7] b].
    { cbn [b64encode]. rewrite !a2b_base64_char. reflexivity. }
    destruct b as [|[c0 c1 c2 c3 c4 c5 c6 c7] b].
    { cbn [b64encode]. rewrite !a2b_base64_char. reflexivity. }
    cbn [b64encode]. rewrite !a2b_base64_char. cbn [app].
    rewrite IH by (simpl in Hlen; lia). reflexivity.
Qed.

Lemma b64decode_encode (b : string) : b64decode (b64encode b) = Some b.
Proof. apply (b64decode_encode_upto (String.length b)). lia. Qed.

(** Characters outside the alphabet are discarded and nothing is read after
    the padding that closes a group; data that ends inside a group is
    refused. *)
Example b64decode_is_lenient :
  b64decode "aGVs bG8=junk" = Some "hello"
  /\ b64decode "aGVsbA=-=" = Some "hell"
  /\ b64decode "=aGVs" = Some "hel"
  /\ b64decode "aGVsbG8" = None.
Proof. vm_compute. repeat split. Qed.

(** The characters U+00E9, U+20AC and U+1F600 take two, three and four
    bytes; a surrogate is not encoded, and neither a surrogate nor a
    character written longer than it need be is decoded. *)
Example utf8_of_three_characters :
  option_map String.length (utf8_encode [0xE9; 0x20AC; 0x1F600]) = Some 9%nat
  /\ match utf8_encode [0xE9; 0x20AC; 0x1F600] with
     | Some bytes => utf8_decode bytes
     | None => None
     end = Some [0xE9; 0x20AC; 0x1F600]
  /\ utf8_encode [0xD83D] = None
  /\ utf8_decode (String (byte 0xED) (String (byte 0xA0) (String (byte 0xBD) ""))) = None
  /\ utf8_decode (String (byte 0xC0) (String (byte 0x80) "")) = None.
Proof. vm_compute. repeat split. Qed.

(** *** The two class methods *)

Lemma encrypted_values_without_engine (values : gmap str str) :
  encrypted_values values None = Ok (b64encode (ascii_bytes (json_dumps values))).
Proof.
  unfold encrypted_values. now rewrite (utf8_encode_ascii _ (json_dumps_ascii values)).
Qed.

Lemma encrypted_values_returns (values : gmap str str)
  (encryption_engine : option AesGcmEngine) :
  exists encrypted, encrypted_values values encryption_engine = Ok encrypted.
Proof.
  destruct encryption_engine as [engine|].
  - eexists. reflexivity.
  - eexists. apply encrypted_values_without_engine.
Qed.

Lemma load_encrypted_values (values : gmap str str)
  (encryption_engine : option AesGcmEngine) (encrypted : string) :
  str_values values -> no_surrogate_pairs values ->
  (forall engine, encryption_engine = Some engine -> same_key engine) ->
  encrypted_values values encryption_engine = Ok encrypted ->
  _load_secret_values encrypted encryption_engine = Ok values.
Proof.
  intros Hstr Hpairs Hkey Henc. unfold _load_secret_values.
  destruct encryption_engine as [engine|].
  - injection Henc as <-.
    rewrite (Hkey engine eq_refl _ (json_dumps_ascii values)).
    now rewrite json_loads_dumps.
  - rewrite encrypted_values_without_engine in Henc.
    replace encrypted with (b64encode (ascii_bytes (json_dumps values))) by congruence.
    rewrite b64decode_encode, (utf8_decode_ascii _ (json_dumps_ascii values)).
    now rewrite json_loads_dumps.
Qed.

Section Codec.
Variable TEXT_FIELD_MAX_LENGTH : N.

(** C8, as the code has it: [_dump_secret_values] always gets as far as the
    bytes to store; it raises [ValueError] exactly when they are longer
    than [TEXT_FIELD_MAX_LENGTH] and returns them otherwise.  For every mapping
    from [str] to [str] in which no key and no value holds a high surrogate
    directly followed by a low surrogate, what [_dump_secret_values]
    returns is loaded back by [_load_secret_values] as the same mapping, in
    the mode without an engine (base64) as with an engine whose decryption
    undoes its encryption (the same key on both sides). *)
Theorem secret_values_round_trip (values : gmap str str)
  (encryption_engine : option AesGcmEngine) :
  exists encrypted,
    encrypted_values values encryption_engine = Ok encrypted
    /\ (str_values values -> no_surrogate_pairs values ->
        (forall engine, encryption_engine = Some engine -> same_key engine) ->
        forall blob,
          _dump_secret_values TEXT_FIELD_MAX_LENGTH values encryption_engine = Ok blob ->
          _load_secret_values blob encryption_engine = Ok values)
    /\ (_dump_secret_values TEXT_FIELD_MAX_LENGTH values encryption_engine = Raise ValueError
        <-> TEXT_FIELD_MAX_LENGTH < N.of_nat (String.length encrypted))
    /\ (N.of_nat (String.length encrypted) <= TEXT_FIELD_MAX_LENGTH ->
        _dump_secret_values TEXT_FIELD_MAX_LENGTH values encryption_engine = Ok encrypted).
Proof.
  destruct (encrypted_values_returns values encryption_engine) as [encrypted Henc].
  exists encrypted. split; [exact Henc|].
  unfold _dump_secret_values. rewrite Henc.
  destruct (N.ltb_spec TEXT_FIELD_MAX_LENGTH (N.of_nat (String.length encrypted)))
    as [Hlt|Hle].
  - split; [intros _ _ _ blob H; discriminate H|]. split; [tauto|]. intros H. lia.
  - split.
    { intros Hstr Hpairs Hkey blob H. inversion H; subst blob.
      now apply (load_encrypted_values values). }
    split; [|reflexivity]. split; [discriminate|]. intros H. lia.
Qed.
End Codec.

Lemma marking_engine_same_key : same_key marking_engine.
Proof.
  intros plaintext Hascii. cbn [encrypt decrypt marking_engine].
  rewrite (utf8_encode_ascii _ Hascii). cbn [Ascii.eqb]. 
  change (Ascii.eqb "k" "k") with true. cbn iota.
  now apply utf8_decode_ascii.
Qed.

Lemma secret_example_is_text : str_values secret_example /\ no_surrogate_pairs secret_example.
Proof.
  split; intros k v H; unfold secret_example in H;
    apply lookup_insert_Some in H as [[<- <-]|[_ H]];
    try (apply lookup_singleton_Some in H as [<- <-]);
    split; try reflexivity; unfold is_str; repeat constructor.
Qed.

Lemma paired_secret_is_str : str_values paired_secret.
Proof.
  intros k v H. unfold paired_secret in H.
  apply lookup_singleton_Some in H as [<- <-].
  split; unfold is_str; repeat constructor.
Qed.

(** A value that holds the two surrogates of U+1F600 is written as the
    escapes of the two and read back as the one character U+1F600, without
    an engine as with one whose decryption undoes its encryption. *)
Lemma surrogate_pair_is_read_as_one_character :
  str_values paired_secret
  /\ same_key marking_engine
  /\ (exists blob,
        _dump_secret_values 65535 paired_secret None = Ok blob
        /\ _load_secret_values blob None = Ok joined_secret)
  /\ (exists blob,
        _dump_secret_values 65535 paired_secret (Some marking_engine) = Ok blob
        /\ _load_secret_values blob (Some marking_engine) = Ok joined_secret)
  /\ joined_secret <> paired_secret.
Proof.
  split; [exact paired_secret_is_str|]. split; [exact marking_engine_same_key|].
  split; [|split].
  - eexists. split; vm_compute; reflexivity.
  - eexists. split; vm_compute; reflexivity.
  - intros H. apply (f_equal (fun m => m !! text "token")) in H.
    unfold joined_secret, paired_secret in H. rewrite !lookup_singleton in H.
    discriminate H.
Qed.

Lemma secret_values_round_trip_witness :
  (exists blob,
     _dump_secret_values 65535 secret_example None = Ok blob
     /\ _load_secret_values blob None = Ok secret_example)
  /\ (exists blob,
        _dump_secret_values 65535 secret_example (Some marking_engine) = Ok blob
        /\ _load_secret_values blob (Some marking_engine) = Ok secret_example)
  /\ _dump_secret_values 40 secret_example None = Raise ValueError.
Proof.
  destruct secret_example_is_text as [Hstr Hpairs].
  assert (Hnone : forall engine, @None AesGcmEngine = Some engine -> same_key engine)
    by (intros engine H; discriminate H).
  assert (Hsome : forall engine, Some marking_engine = Some engine -> same_key engine)
    by (intros engine H; inversion H; exact marking_engine_same_key).
  split; [|split].
  - destruct (secret_values_round_trip 65535 secret_example None)
      as (encrypted & Henc & Hload & _ & Hok).
    exists encrypted.
    assert (Hdump : _dump_secret_values 65535 secret_example None = Ok encrypted).
    { apply Hok. vm_compute in Henc. injection Henc as <-. vm_compute. discriminate. }
    split; [exact Hdump|]. now apply Hload.
  - destruct (secret_values_round_trip 65535 secret_example (Some marking_engine))
      as (encrypted & Henc & Hload & _ & Hok).
    exists encrypted.
    assert (Hdump : _dump_secret_values 65535 secret_example (Some marking_engine)
                    = Ok encrypted).
    { apply Hok. vm_compute in Henc. injection Henc as <-. vm_compute. discriminate. }
    split; [exact Hdump|]. now apply Hload.
  - destruct (secret_values_round_trip 40 secret_example None)
      as (encrypted & Henc & _ & Hraise & _).
    apply Hraise. vm_compute in Henc. injection Henc as <-. vm_compute. reflexivity.
Defined.

Example secret_example_base64 :
  _dump_secret_values 65535 {[ text "pw" := text "s3cr=t/+" ]} None
  = Ok "eyJwdyI6ICJzM2NyPXQvKyJ9".
Proof. vm_compute. reflexivity. Qed.

(** ** The local database of the configuration *)

Lemma startswith_append (p s : string) : startswith (p +:+ s) p = true.
Proof.
  induction p as [|c p IH]; [reflexivity|].
  change (String c p +:+ s) with (String c (p +:+ s)). simpl.
  rewrite Ascii.eqb_refl. exact IH.
Qed.

Lemma slice_from_append (p s : string) : slice_from (String.length p) (p +:+ s) = s.
Proof.
  induction p as [|c p IH]; [destruct s; reflexivity|].
  change (String c p +:+ s) with (String c (p +:+ s)). simpl. exact IH.
Qed.

Lemma startswith_split (s p : string) :
  startswith s p = true -> s = p +:+ slice_from (String.length p) s.
Proof.
  revert s. induction p as [|c p IH]; intros s H.
  - destruct s; reflexivity.
  - destruct s as [|d s]; [discriminate|]. simpl in H.
    apply andb_true_iff in H as [Hc Hp]. apply Ascii.eqb_eq in Hc. subst d.
    change (String c p +:+ slice_from (String.length (String c p)) (String c s))
      with (String c (p +:+ slice_from (String.length p) s)).
    f_equal. now apply IH.
Qed.

(** [get_local_path] undoes [get_local_url]: the url built for a directory
    reads back as the database file inside that directory; and a url has a
    local path exactly when it is "sqlite:///" followed by that path, every
    other url giving [None]. *)
Theorem local_path_of_local_url :
  (forall path,
     get_local_path (get_local_url path) = Some (path +:+ "/" +:+ ZENML_SQLITE_DB_FILENAME))
  /\ (forall url path, get_local_path url = Some path <-> url = "sqlite:///" +:+ path).
Proof.
  split.
  - intros path. unfold get_local_path, get_local_url.
    rewrite startswith_append. cbn [negb].
    now rewrite slice_from_append.
  - intros url path. unfold get_local_path. split.
    + destruct (startswith url "sqlite:///") eqn:H; cbn [negb]; [|discriminate].
      intros [= <-]. now apply startswith_split.
    + intros ->. rewrite startswith_append. cbn [negb].
      now rewrite slice_from_append.
Qed.

(** ** Secret values kept in the row *)

Lemma b64encode_not_empty (c : ascii) (r : string) : b64encode (String c r) <> "".
Proof.
  destruct c. destruct r as [|[] [|[] r]]; simpl; discriminate.
Qed.

Lemma encoded_values_not_empty (values : gmap str str) (encrypted : string) :
  encrypted_values values None = Ok encrypted -> encrypted <> "".
Proof.
  rewrite encrypted_values_without_engine. intros H.
  replace encrypted with (b64encode (ascii_bytes (json_dumps values))) by congruence.
  unfold json_dumps. change (text "{" ++ ?x) with (ord "{" :: x).
  change (ascii_bytes (ord "{" :: ?x)) with (String (byte (ord "{")) (ascii_bytes x)).
  apply b64encode_not_empty.
Qed.

Section SecretRows.
Variable TEXT_FIELD_MAX_LENGTH : N.

(** Values written with [set_secret_values] are what [get_secret_values]
    reads, when no key and no value holds a high surrogate directly
    followed by a low surrogate, without an engine and with an engine that
    decrypts what it encrypted and does not produce empty bytes; the call
    changes no other field of the row.  A row whose values were never
    written, or hold no bytes, raises [KeyError]. *)
Theorem secret_values_are_read_back (self : SecretSchema.t) (secret_values : gmap str str)
  (encryption_engine : option AesGcmEngine) :
  str_values secret_values -> no_surrogate_pairs secret_values ->
  (forall engine, encryption_engine = Some engine ->
     same_key engine /\ encrypt engine (json_dumps secret_values) <> "") ->
  (forall stored,
     set_secret_values TEXT_FIELD_MAX_LENGTH self secret_values encryption_engine = Ok stored ->
     get_secret_values stored encryption_engine = Ok secret_values
     /\ with_values (SecretSchema.values self) stored = self)
  /\ (SecretSchema.values self = None \/ SecretSchema.values self = Some "" ->
      get_secret_values self encryption_engine = Raise KeyError).
Proof.
  intros Hstr Hpairs Hengine. split.
  - intros stored Hset. unfold set_secret_values in Hset.
    destruct (_dump_secret_values TEXT_FIELD_MAX_LENGTH secret_values encryption_engine)
      as [blob|e] eqn:Hdump; [|discriminate].
    injection Hset as <-.
    assert (Hblob : encrypted_values secret_values encryption_engine = Ok blob).
    { unfold _dump_secret_values in Hdump.
      destruct (encrypted_values secret_values encryption_engine) as [encrypted|];
        [|discriminate].
      destruct (TEXT_FIELD_MAX_LENGTH <? _); [discriminate|]. exact Hdump. }
    split; [|destruct self; reflexivity].
    unfold get_secret_values, with_values. cbn [SecretSchema.values truthy_bytes].
    assert (Hne : blob <> "").
    { destruct encryption_engine as [engine|].
      - injection Hblob as <-. apply (Hengine engine eq_refl).
      - now apply (encoded_values_not_empty secret_values). }
    destruct (String.eqb_spec blob ""); [contradiction|]. cbn [negb].
    apply (load_encrypted_values secret_values); try assumption.
    intros engine He. apply (Hengine engine He).
  - intros [H|H]; unfold get_secret_values; rewrite H; reflexivity.
Qed.
End SecretRows.

Lemma secret_values_are_read_back_witness :
  exists stored,
    set_secret_values 65535 database_secret secret_example
      (Some marking_engine) = Ok stored
    /\ get_secret_values stored (Some marking_engine) = Ok secret_example.
Proof.
  eexists. split; [vm_compute; reflexivity|].
  apply (secret_values_are_read_back 65535 database_secret
           secret_example (Some marking_engine)).
  - apply secret_example_is_text.
  - apply secret_example_is_text.
  - intros engine [= <-]. split; [apply marking_engine_same_key|].
    vm_compute. discriminate.
  - vm_compute. reflexivity.
Defined.

(** ** Stacks and components: what is stored is what is found *)

Ltac run_catalog :=
  unfold with_Session, filter_schema, given_schema, one,
    _get_project_schema, _get_user_schema, _get_team_schema,
    _get_role_schema, _get_run_schema, _get_schema_by_name_or_id,
    bind, rows, first, all, database, raise, ret, add, commit;
  reduce_session.

Section Components.
Variable parse_uuid : string -> option UUID.

(** The committed database after [create_stack_component], and what it
    returned. *)
Lemma create_stack_component_cases (s : Store) (component : ComponentModel.t) :
  (exists e, create_stack_component parse_uuid component s = mkOutcome (Raise e) s 0%nat 1%nat)
  \/ (create_stack_component parse_uuid component s
      = mkOutcome
          (Ok (StackComponentSchema_to_model (StackComponentSchema_from_create_model component)))
          (with_stack_components
             (fun l => l ++ [StackComponentSchema_from_create_model component]) s)
          1%nat 1%nat
      /\ component_by_id s (ComponentModel.id component) = None).
Proof.
  unfold create_stack_component, create_stack_component_block, fail_if_component_with_id_already_exists,
    fail_if_component_with_name_type_exists_for_user,
    fail_if_component_with_name_type_already_shared, component_by_id.
  run_session.
  destruct (resolve parse_uuid _ (projects s)); reduce_session; [|left; eexists; reflexivity].
  destruct (resolve parse_uuid _ (users s)); reduce_session; [|left; eexists; reflexivity].
  destruct (find (fun r => StackComponentSchema.id r =? ComponentModel.id component)
              (stack_components s)) eqn:Hid;
    reduce_session; [left; eexists; reflexivity|].
  repeat (break_query; try (left; eexists; reflexivity));
    right; (split; [reflexivity|first [exact Hid|reflexivity]]).
Qed.

(** A component that [create_stack_component] returned is what
    [get_stack_component] returns for its id from then on, and a lookup of
    an id that no stored component has raises [KeyError]; neither lookup
    writes. *)
Theorem created_component_is_found (s : Store) (component m : ComponentModel.t) :
  returned (create_stack_component parse_uuid component s) = Ok m ->
  get_stack_component (ComponentModel.id component)
    (store (create_stack_component parse_uuid component s))
  = mkOutcome (Ok m) (store (create_stack_component parse_uuid component s)) 0%nat 1%nat
  /\ get_stack_component (ComponentModel.id component) s = mkOutcome (Raise KeyError) s 0%nat 1%nat.
Proof.
  intros Hok.
  destruct (create_stack_component_cases s component) as [[e He]|[Hc Hid]].
  { rewrite He in Hok. discriminate. }
  rewrite Hc in Hok |- *. cbn [returned store] in *. injection Hok as <-.
  unfold component_by_id in Hid.
  unfold get_stack_component. run_catalog. cbn [stack_components with_stack_components].
  rewrite (find_app_miss _ _ _ Hid), Hid. cbn [find StackComponentSchema_from_create_model StackComponentSchema.id].
  rewrite N.eqb_refl. split; reflexivity.
Qed.
End Components.

Lemma existsb_map_apply {A B} (g : B -> A -> bool) (ids : list B) (r : A) :
  existsb (fun f => f r) (map g ids) = existsb (fun i => g i r) ids.
Proof. induction ids as [|i ids IH]; simpl; [reflexivity|]. now rewrite IH. Qed.

Lemma NoDup_map_filter {A B} (f : A -> B) (p : A -> bool) (l : list A) :
  NoDup (map f l) -> NoDup (map f (List.filter p l)).
Proof.
  induction l as [|x l IH]; simpl; intros Hnd; [constructor|].
  apply NoDup_cons in Hnd as [Hx Hnd].
  destruct (p x); simpl; [|now apply IH].
  apply NoDup_cons. split; [|now apply IH].
  intros Hin. apply Hx. apply list_elem_of_In in Hin. apply list_elem_of_In.
  apply in_map_iff in Hin as (y & Hy & Hin). apply in_map_iff. exists y.
  split; [exact Hy|]. apply filter_In in Hin. tauto.
Qed.

(** The components a list of ids selects are as many as the ids exactly
    when no id is listed twice and each is the id of a component. *)
Lemma selected_components_count (comps : list StackComponentSchema.t) (ids : list UUID) :
  NoDup (map StackComponentSchema.id comps) ->
  length (List.filter (fun r => existsb (fun i => StackComponentSchema.id r =? i) ids) comps)
  = length ids
  <-> NoDup ids
      /\ forall i, In i ids -> exists r, In r comps /\ StackComponentSchema.id r = i.
Proof.
  intros Hnd.
  set (sel := List.filter _ comps).
  assert (Hsel : NoDup (map StackComponentSchema.id sel)) by now apply NoDup_map_filter.
  assert (Hincl : incl (map StackComponentSchema.id sel) ids).
  { intros i Hi. apply in_map_iff in Hi as (r & <- & Hr).
    apply filter_In in Hr as [_ Hr]. apply existsb_exists in Hr as (j & Hj & Hb).
    apply N.eqb_eq in Hb. now rewrite Hb. }
  assert (Hle : (length sel <= length ids)%nat).
  { rewrite <- (length_map StackComponentSchema.id sel).
    apply List.NoDup_incl_length; [now apply NoDup_ListNoDup|exact Hincl]. }
  split.
  - intros Hlen.
    assert (Hback : incl ids (map StackComponentSchema.id sel)).
    { apply List.NoDup_length_incl; [now apply NoDup_ListNoDup| |exact Hincl].
      rewrite length_map. lia. }
    split.
    + apply NoDup_ListNoDup.
      apply (@List.NoDup_incl_NoDup _ (map StackComponentSchema.id sel) ids);
        [now apply NoDup_ListNoDup| |exact Hincl].
      rewrite length_map. lia.
    + intros i Hi. apply Hback in Hi. apply in_map_iff in Hi as (r & Hr & Hin).
      exists r. split; [|exact Hr]. apply filter_In in Hin. tauto.
  - intros [Hids Hall].
    assert (Hback : incl ids (map StackComponentSchema.id sel)).
    { intros i Hi. destruct (Hall i Hi) as (r & Hr & Hid).
      apply in_map_iff. exists r. split; [exact Hid|].
      apply filter_In. split; [exact Hr|].
      apply existsb_exists. exists i. split; [exact Hi|]. rewrite Hid. apply N.eqb_refl. }
    pose proof (List.NoDup_incl_length (proj1 (NoDup_ListNoDup _) Hids) Hback) as Hge.
    rewrite length_map in Hge. lia.
Qed.

Section Stacks.
Variable parse_uuid : string -> option UUID.

Lemma or_component_ids (ids : list UUID) (r : StackComponentSchema.t) :
  ids <> [] ->
  or_ (map (fun component_id r => StackComponentSchema.id r =? component_id) ids) r
  = existsb (fun i => StackComponentSchema.id r =? i) ids.
Proof.
  intros Hne. destruct ids as [|i ids]; [congruence|].
  unfold or_. cbn [map existsb]. now rewrite existsb_map_apply.
Qed.

(** The committed database after [create_stack] and what it returned. *)
Lemma create_stack_cases (s : Store) (stack : StackModel.t) :
  let defined :=
    List.filter
      (or_ (map (fun component_id r => StackComponentSchema.id r =? component_id)
              (component_ids stack)))
      (stack_components s) in
  (exists e, create_stack parse_uuid stack s = mkOutcome (Raise e) s 0%nat 1%nat)
  \/ (create_stack parse_uuid stack s
      = mkOutcome
          (Ok (StackSchema_to_model (StackSchema_from_create_model stack) defined))
          (with_stack_compositions
             (fun l => l ++ map (fun c => StackCompositionSchema.mk (StackModel.id stack)
                                            (StackComponentSchema.id c)) defined)
             (with_stacks (fun l => l ++ [StackSchema_from_create_model stack]) s))
          1%nat 1%nat
      /\ stack_by_id s (StackModel.id stack) = None
      /\ (component_ids stack = [] \/ length defined = length (component_ids stack))).
Proof.
  intros defined. subst defined. unfold component_ids.
  unfold create_stack, create_stack_block, fail_if_stack_with_id_already_exists,
    fail_if_stack_with_name_exists_for_user,
    fail_if_stack_with_name_already_shared, stack_by_id.
  run_session.
  destruct (resolve parse_uuid _ (projects s)); reduce_session; [|left; eexists; reflexivity].
  destruct (resolve parse_uuid _ (users s)); reduce_session; [|left; eexists; reflexivity].
  destruct (find (fun r => StackSchema.id r =? StackModel.id stack) (stacks s)) eqn:Hid;
    reduce_session; [left; eexists; reflexivity|].
  break_query; [left; eexists; reflexivity|].
  set (ids := flat_map snd (StackModel.components stack)).
  assert (Hempty : (0 <? length ids)%nat = false -> ids = []).
  { intros Hpos. apply Nat.ltb_ge in Hpos. destruct ids; [reflexivity|simpl in Hpos; lia]. }
  destruct (StackModel.is_shared stack); reduce_session;
    [break_query; [left; eexists; reflexivity|]|];
    rewrite length_map;
    (destruct ((0 <? length ids)%nat) eqn:Hpos; reduce_session;
     [ match goal with
       | |- context [negb (?a =? ?b)%nat] => destruct (Nat.eqb_spec a b)
       end; reduce_session;
       [ right; split; [reflexivity|]; split; [reflexivity|]; right; assumption
       | left; eexists; reflexivity ]
     | right; split; [reflexivity|]; split; [reflexivity|]; left; now apply Hempty ]).
Qed.
End Stacks.

Section StackCreation.
Variable parse_uuid : string -> option UUID.

Lemma create_stack_accepts (s : Store) (stack : StackModel.t) :
  project_in s (StackModel.project stack) -> user_in s (StackModel.user stack) ->
  stack_is_new s stack ->
  (component_ids stack = []
   \/ length (List.filter
                (or_ (map (fun component_id r => StackComponentSchema.id r =? component_id)
                        (component_ids stack)))
                (stack_components s))
      = length (component_ids stack)) ->
  exists m, returned (create_stack parse_uuid stack s) = Ok m.
Proof.
  intros Hp Hu [Hid Hnew] Hids.
  destruct (project_resolves parse_uuid _ _ Hp) as [p Hpr].
  destruct (user_resolves parse_uuid _ _ Hu) as [u Hur].
  unfold stack_by_id in Hid. unfold component_ids in Hids.
  unfold create_stack, create_stack_block, fail_if_stack_with_id_already_exists,
    fail_if_stack_with_name_exists_for_user,
    fail_if_stack_with_name_already_shared.
  run_session. rewrite Hpr. reduce_session. rewrite Hur. reduce_session.
  rewrite Hid. reduce_session.
  break_query.
  { exfalso. apply find_some in Heqo as [Hin Hb].
    apply andb_true_iff in Hb as [Hb H3]. apply andb_true_iff in Hb as [H1 H2].
    apply String.eqb_eq in H1. apply N.eqb_eq in H2, H3.
    now destruct (Hnew _ Hin H1 H2) as [Hne _]. }
  assert (Hcheck :
    (0 <? length (flat_map snd (StackModel.components stack)))%nat
    && negb (Nat.eqb
               (length (List.filter
                          (or_ (map (fun component_id r =>
                                       StackComponentSchema.id r =? component_id)
                                  (flat_map snd (StackModel.components stack))))
                          (stack_components s)))
               (length (flat_map snd (StackModel.components stack)))) = false).
  { destruct Hids as [-> | ->]; [reflexivity|]. rewrite Nat.eqb_refl. apply andb_false_r. }
  destruct (StackModel.is_shared stack) eqn:Hshared; reduce_session.
  - break_query.
    { exfalso. apply find_some in Heqo0 as [Hin Hb].
      apply andb_true_iff in Hb as [Hb H3]. apply andb_true_iff in Hb as [H1 H2].
      apply String.eqb_eq in H1. apply N.eqb_eq in H2. apply Bool.eqb_prop in H3.
      destruct (Hnew _ Hin H1 H2) as [_ Hsh]. rewrite (Hsh eq_refl) in H3. discriminate. }
    rewrite length_map, Hcheck. reduce_session. eexists. reflexivity.
  - rewrite length_map, Hcheck. reduce_session. eexists. reflexivity.
Qed.

(** [create_stack] accepts the components of a payload exactly when every
    listed id is the id of a registered component and no id is listed
    twice: a stack that it returned has such a list, and a new stack of a
    stored project and user with such a list is returned.  A refused call
    stores nothing. *)
Theorem create_stack_checks_components (s : Store) (stack : StackModel.t) :
  NoDup (map StackComponentSchema.id (stack_components s)) ->
  (forall m, returned (create_stack parse_uuid stack s) = Ok m ->
     NoDup (component_ids stack)
     /\ forall i, In i (component_ids stack) -> component_in s i)
  /\ (project_in s (StackModel.project stack) -> user_in s (StackModel.user stack) ->
      stack_is_new s stack ->
      NoDup (component_ids stack) ->
      (forall i, In i (component_ids stack) -> component_in s i) ->
      exists m, returned (create_stack parse_uuid stack s) = Ok m)
  /\ (forall e, returned (create_stack parse_uuid stack s) = Raise e ->
      store (create_stack parse_uuid stack s) = s).
Proof.
  intros Hnd. split; [|split].
  - intros m Hok.
    destruct (create_stack_cases parse_uuid s stack) as [[e He]|(_ & _ & Hids)].
    { rewrite He in Hok. discriminate. }
    destruct Hids as [Hnil|Hlen].
    + rewrite Hnil. split; [constructor|]. intros i [].
    + destruct (component_ids stack) as [|i0 ids] eqn:Hids.
      { split; [constructor|]. intros i []. }
      rewrite <- Hids in *.
      assert (Hne : component_ids stack <> []) by (rewrite Hids; discriminate).
      rewrite (filter_ext _ _ (fun r => or_component_ids _ r Hne)) in Hlen.
      apply (selected_components_count _ _ Hnd) in Hlen. exact Hlen.
  - intros Hp Hu Hnew Hids Hall.
    apply create_stack_accepts; trivial.
    destruct (component_ids stack) as [|i0 ids] eqn:Hi; [now left|right].
    rewrite <- Hi in *.
    assert (Hne : component_ids stack <> []) by (rewrite Hi; discriminate).
    rewrite (filter_ext _ _ (fun r => or_component_ids _ r Hne)).
    apply (selected_components_count _ _ Hnd). split; [exact Hids|exact Hall].
  - intros e He.
    destruct (create_stack_cases parse_uuid s stack) as [[e' He']|(Hok & _)].
    + now rewrite He'.
    + rewrite Hok in He. discriminate.
Qed.

Lemma filter_none {A} (p : A -> bool) (l : list A) :
  (forall y, In y l -> p y = false) -> List.filter p l = [].
Proof.
  induction l as [|x l IH]; simpl; intros H; [reflexivity|].
  rewrite (H x (or_introl eq_refl)). apply IH. intros y Hy. apply H. now right.
Qed.

Lemma flat_map_none {A B} (f : A -> list B) (l : list A) :
  (forall x, In x l -> f x = []) -> flat_map f l = [].
Proof.
  induction l as [|x l IH]; simpl; intros H; [reflexivity|].
  rewrite (H x (or_introl eq_refl)). apply IH. intros y Hy. apply H. now right.
Qed.

Lemma flat_map_singletons {A B} (f : B -> list A) (g : A -> B) (l : list A) :
  (forall x, In x l -> f (g x) = [x]) -> flat_map f (map g l) = l.
Proof.
  induction l as [|x l IH]; simpl; intros H; [reflexivity|].
  rewrite (H x (or_introl eq_refl)). simpl. f_equal. apply IH.
  intros y Hy. apply H. now right.
Qed.

Lemma filter_by_id_unique (comps : list StackComponentSchema.t) (c : StackComponentSchema.t) :
  NoDup (map StackComponentSchema.id comps) -> In c comps ->
  List.filter (fun c' => StackComponentSchema.id c' =? StackComponentSchema.id c) comps = [c].
Proof.
  induction comps as [|x comps IH]; simpl; intros Hnd Hin; [contradiction|].
  apply NoDup_cons in Hnd as [Hx Hnd].
  destruct Hin as [->|Hin].
  - rewrite N.eqb_refl. f_equal.
    apply filter_none. intros y Hy. apply N.eqb_neq.
    intros Heq. apply Hx. rewrite <- Heq. apply list_elem_of_In. now apply in_map.
  - destruct (N.eqb_spec (StackComponentSchema.id x) (StackComponentSchema.id c)) as [Heq|_].
    + exfalso. apply Hx. rewrite Heq. apply list_elem_of_In. now apply in_map.
    + now apply IH.
Qed.

Lemma get_stack_outcome (s : Store) (i : UUID) :
  get_stack i s
  = mkOutcome
      match stack_by_id s i with
      | Some stack => Ok (StackSchema_to_model stack (components_of s (StackSchema.id stack)))
      | None => Raise KeyError
      end s 0%nat 1%nat.
Proof.
  unfold get_stack, stack_by_id. run_catalog.
  destruct (find _ (stacks s)); reflexivity.
Qed.

(** A stack that [create_stack] returned is what [get_stack] returns for
    its id afterwards, components included, when the ids of the components
    are unique and the composition table held rows of stored stacks only.
    Before the call the lookup of the id raised [KeyError]. *)
Theorem created_stack_is_found (s : Store) (stack m : StackModel.t) :
  NoDup (map StackComponentSchema.id (stack_components s)) ->
  compositions_have_stacks s ->
  returned (create_stack parse_uuid stack s) = Ok m ->
  returned (get_stack (StackModel.id stack) (store (create_stack parse_uuid stack s))) = Ok m
  /\ returned (get_stack (StackModel.id stack) s) = Raise KeyError.
Proof.
  intros Hnd Hfk Hok.
  destruct (create_stack_cases parse_uuid s stack) as [[e He]|(Hc & Hid & _)].
  { rewrite He in Hok. discriminate. }
  rewrite Hc in Hok |- *. cbn [returned store] in *. injection Hok as <-.
  rewrite !get_stack_outcome. cbn [returned]. rewrite Hid. split; [|reflexivity].
  unfold stack_by_id in *. cbn [stacks with_stack_compositions with_stacks].
  rewrite (find_app_miss _ _ _ Hid).
  cbn [find StackSchema_from_create_model StackSchema.id]. rewrite N.eqb_refl.
  f_equal. f_equal.
  unfold components_of.
  cbn [StackSchema_from_create_model StackSchema.id].
  cbn [stack_compositions stack_components with_stack_compositions with_stacks].
  rewrite flat_map_app.
  set (defined := List.filter _ (stack_components s)).
  rewrite flat_map_none, app_nil_l.
  - apply flat_map_singletons. intros c Hdef.
    cbn [StackCompositionSchema.stack_id StackCompositionSchema.component_id].
    rewrite N.eqb_refl. apply filter_by_id_unique; [exact Hnd|].
    apply filter_In in Hdef. tauto.
  - intros link Hlink.
    destruct (N.eqb_spec (StackCompositionSchema.stack_id link) (StackModel.id stack))
      as [Heq|_]; [|reflexivity].
    exfalso. apply (Hfk link); [exact Hlink|]. unfold stack_by_id. now rewrite Heq.
Qed.
End StackCreation.

(** ** Deleting a stack component *)

Lemma delete_row_find {A} (pk : A -> UUID) (key j : UUID) (l : list A) :
  find (fun r => pk r =? j) (delete_row pk key l)
  = if j =? key then None else find (fun r => pk r =? j) l.
Proof.
  unfold delete_row. induction l as [|x l IH]; simpl.
  - now destruct (j =? key).
  - destruct (N.eqb_spec (pk x) key) as [Hx|Hx]; simpl.
    + rewrite IH. destruct (N.eqb_spec j key) as [Hj|Hj]; [reflexivity|].
      destruct (N.eqb_spec (pk x) j); [congruence|reflexivity].
    + destruct (N.eqb_spec (pk x) j) as [Hxj|Hxj].
      * destruct (N.eqb_spec j key); [congruence|reflexivity].
      * exact IH.
Qed.

Lemma one_row {A} (table : Store -> list A) (p : A -> bool) (st : Session) :
  one table p st
  = match List.filter p (table (db st)) with
    | [] => (Ok None, st)
    | [x] => (Ok (Some x), st)
    | _ => (Raise MultipleResultsFound, st)
    end.
Proof.
  unfold one, bind, all, ret, raise. cbn [fst snd].
  destruct (List.filter p (table (db st))) as [|x [|y l]]; reflexivity.
Qed.

Lemma filter_singleton_find {A} (p : A -> bool) (l : list A) (x : A) :
  List.filter p l = [x] -> find p l = Some x.
Proof.
  induction l as [|y l IH]; simpl; [discriminate|].
  destruct (p y); [now intros [= ->]|exact IH].
Qed.

Lemma get_stack_component_outcome (s : Store) (i : UUID) :
  get_stack_component i s
  = mkOutcome
      match component_by_id s i with
      | Some c => Ok (StackComponentSchema_to_model c)
      | None => Raise KeyError
      end s 0%nat 1%nat.
Proof.
  unfold get_stack_component, component_by_id. run_catalog.
  destruct (find _ (stack_components s)); reflexivity.
Qed.

(** The committed database after [delete_stack_component]. *)
Lemma delete_stack_component_cases (s : Store) (i : UUID) :
  (exists e, delete_stack_component i s = mkOutcome (Raise e) s 0%nat 1%nat)
  \/ (exists c,
        delete_stack_component i s
        = mkOutcome (Ok tt)
            (with_stack_components (delete_row StackComponentSchema.id i) s) 1%nat 1%nat
        /\ List.filter (fun r => StackComponentSchema.id r =? i) (stack_components s) = [c]
        /\ is_default_component c = false
        /\ stacks_of s i = []).
Proof.
  unfold delete_stack_component, delete_stack_component_block, with_Session, bind. rewrite one_row. reduce_session.
  destruct (List.filter _ (stack_components s)) as [|c [|c' l]] eqn:Hone;
    try (left; eexists; reflexivity).
  assert (Hid : StackComponentSchema.id c = i).
  { assert (Hin : In c (List.filter (fun r => StackComponentSchema.id r =? i)
                          (stack_components s))) by (rewrite Hone; now left).
    apply filter_In in Hin as [_ Hb]. now apply N.eqb_eq. }
  destruct (is_default_component c) eqn:Hdef; [left; eexists; reflexivity|].
  unfold database, raise, add, commit. reduce_session. rewrite Hid.
  destruct (stacks_of s i) as [|st l] eqn:Hst; cbn [length Nat.ltb Nat.leb]; reduce_session.
  - right. exists c. repeat split; trivial.
  - left. eexists. reflexivity.
Qed.

(** [delete_stack_component] removes a component only when no stored stack
    contains it: after a call that returned, the component is no longer
    found, every other component is found as before, and the stacks and
    their compositions are as they were; a component of a stored stack is
    refused with [IllegalOperationError]; and a call that raises leaves the
    database as it was. *)
Theorem component_of_a_stack_is_not_deleted (s : Store) (i : UUID) :
  (returned (delete_stack_component i s) = Ok tt ->
     (forall link, In link (stack_compositions s) ->
        StackCompositionSchema.component_id link = i ->
        stack_by_id s (StackCompositionSchema.stack_id link) = None)
     /\ returned (get_stack_component i (store (delete_stack_component i s))) = Raise KeyError
     /\ (forall j, j <> i ->
           returned (get_stack_component j (store (delete_stack_component i s)))
           = returned (get_stack_component j s))
     /\ stacks (store (delete_stack_component i s)) = stacks s
     /\ stack_compositions (store (delete_stack_component i s)) = stack_compositions s)
  /\ (forall c link stack,
        List.filter (fun r => StackComponentSchema.id r =? i) (stack_components s) = [c] ->
        In link (stack_compositions s) ->
        StackCompositionSchema.component_id link = i ->
        stack_by_id s (StackCompositionSchema.stack_id link) = Some stack ->
        returned (delete_stack_component i s) = Raise IllegalOperationError)
  /\ (forall e, returned (delete_stack_component i s) = Raise e ->
        store (delete_stack_component i s) = s).
Proof.
  split; [|split].
  - intros Hok.
    destruct (delete_stack_component_cases s i) as [[e He]|(c & Hc & Hone & Hdef & Hst)].
    { rewrite He in Hok. discriminate. }
    rewrite Hc. cbn [store]. split; [|split; [|split; [|split]]]; try reflexivity.
    + intros link Hlink Hcomp. unfold stack_by_id.
      destruct (find _ (stacks s)) as [st|] eqn:Hf; [|reflexivity]. exfalso.
      apply find_some in Hf as [Hin Hb].
      assert (Hmem : In st (stacks_of s i)).
      { unfold stacks_of. apply in_flat_map. exists link. split; [exact Hlink|].
        rewrite Hcomp, N.eqb_refl. apply filter_In. split; assumption. }
      now rewrite Hst in Hmem.
    + rewrite get_stack_component_outcome. unfold component_by_id.
      cbn [returned stack_components with_stack_components].
      rewrite delete_row_find, N.eqb_refl. reflexivity.
    + intros j Hj. rewrite !get_stack_component_outcome. unfold component_by_id.
      cbn [returned stack_components with_stack_components].
      rewrite delete_row_find. destruct (N.eqb_spec j i); [contradiction|reflexivity].
  - intros c link stack Hone Hlink Hcomp Hstack.
    unfold delete_stack_component, delete_stack_component_block, with_Session, bind. rewrite one_row. reduce_session.
    rewrite Hone.
    assert (Hid : StackComponentSchema.id c = i).
    { assert (Hin : In c (List.filter (fun r => StackComponentSchema.id r =? i)
                            (stack_components s))) by (rewrite Hone; now left).
      apply filter_In in Hin as [_ Hb]. now apply N.eqb_eq. }
    destruct (is_default_component c); [reflexivity|].
    unfold database, raise, add, commit. reduce_session. rewrite Hid.
    assert (Hmem : In stack (stacks_of s i)).
    { unfold stack_by_id in Hstack. apply find_some in Hstack as [Hin Hb].
      unfold stacks_of. apply in_flat_map. exists link. split; [exact Hlink|].
      rewrite Hcomp, N.eqb_refl. apply filter_In. split; assumption. }
    destruct (stacks_of s i); [contradiction|]. reflexivity.
  - intros e He.
    destruct (delete_stack_component_cases s i) as [[e' He']|(c & Hc & _)].
    + now rewrite He'.
    + rewrite Hc in He. discriminate.
Qed.

(** ** Updating the components of a stack *)

Lemma dict_append_ids {V} (k : string) (v : V) (d : list (string * list V)) (i : V) :
  In i (flat_map snd (dict_append k v d)) <-> i = v \/ In i (flat_map snd d).
Proof.
  induction d as [|[k' l] d IH]; simpl.
  - intuition congruence.
  - destruct (String.eqb k' k); simpl.
    + rewrite !in_app_iff. simpl. intuition congruence.
    + rewrite !in_app_iff, IH. tauto.
Qed.

Lemma model_component_ids (r : StackSchema.t) (components : list StackComponentSchema.t)
  (i : UUID) :
  In i (component_ids (StackSchema_to_model r components))
  <-> In i (map StackComponentSchema.id components).
Proof.
  unfold component_ids, StackSchema_to_model. cbn [StackModel.components].
  assert (H : forall acc,
             In i (flat_map snd
                     (fold_left
                        (fun d c => dict_append (StackComponentSchema.type c)
                                      (StackComponentSchema.id c) d)
                        components acc))
             <-> In i (flat_map snd acc) \/ In i (map StackComponentSchema.id components)).
  { induction components as [|c l IH]; intros acc; simpl; [tauto|].
    rewrite IH, dict_append_ids. intuition congruence. }
  rewrite H. simpl. tauto.
Qed.

Section StackUpdate.
Variable parse_uuid : string -> option UUID.

(** Unlike [create_stack], [update_stack] does not check the components of
    its payload: an update of a stored stack that keeps its name and does
    not newly share it returns whatever ids are listed, and the stack it
    returns lists registered components only; of a list that is not empty
    these are exactly the listed ids that are registered. *)
Theorem update_stack_drops_unknown_components (s : Store) (stack : StackModel.t)
  (existing : StackSchema.t) :
  stack_by_id s (StackModel.id stack) = Some existing ->
  StackSchema.name existing <> DEFAULT_STACK_NAME ->
  StackSchema.name existing = StackModel.name stack ->
  StackSchema.is_shared existing = true \/ StackModel.is_shared stack = false ->
  exists m,
    returned (update_stack parse_uuid stack s) = Ok m
    /\ (forall i, In i (component_ids m) -> component_in s i)
    /\ (component_ids stack <> [] ->
        forall i, In i (component_ids m) <-> In i (component_ids stack) /\ component_in s i).
Proof.
  intros Hex Hdef Hname Hshare. unfold stack_by_id in Hex.
  unfold update_stack, update_stack_block. run_session. rewrite Hex. reduce_session.
  destruct (String.eqb_spec (StackSchema.name existing) DEFAULT_STACK_NAME) as [|_];
    [contradiction|].
  rewrite Hname, String.eqb_refl. reduce_session.
  assert (Hguard : negb (StackSchema.is_shared existing) && StackModel.is_shared stack = false).
  { destruct Hshare as [-> | ->]; [reflexivity|apply andb_false_r]. }
  rewrite Hguard. reduce_session.
  eexists. split; [reflexivity|]. split.
  - intros i Hi. apply model_component_ids in Hi.
    apply in_map_iff in Hi as (c & Hc & Hin). apply filter_In in Hin as [Hin _].
    exists c. split; assumption.
  - intros Hne i. rewrite model_component_ids.
    fold (component_ids stack).
    rewrite (filter_ext _ _ (fun r => or_component_ids _ r Hne)).
    rewrite in_map_iff. split.
    + intros (c & Hc & Hin). apply filter_In in Hin as [Hin Hb].
      apply existsb_exists in Hb as (j & Hj & Hb). apply N.eqb_eq in Hb.
      split; [now rewrite <- Hc, Hb|]. exists c. split; assumption.
    + intros [Hi (c & Hin & Hc)]. exists c. split; [exact Hc|].
      apply filter_In. split; [exact Hin|].
      apply existsb_exists. exists i. split; [exact Hi|]. rewrite Hc. apply N.eqb_refl.
Qed.
End StackUpdate.

(** ** Running a session body step by step *)

Lemma bind_ret {A B} (a : A) (k : A -> M B) (st : Session) :
  (let* x := ret a in k x) st = k a st.
Proof. reflexivity. Qed.

Lemma bind_raise {A B} (e : error) (k : A -> M B) (st : Session) :
  (let* x := raise e in k x) st = (Raise e, st).
Proof. reflexivity. Qed.

Lemma bind_first {A B} (table : Store -> list A) (p : A -> bool) (k : option A -> M B)
  (st : Session) :
  (let* x := first table p in k x) st = k (find p (table (db st))) st.
Proof. reflexivity. Qed.

Lemma bind_all {A B} (table : Store -> list A) (p : A -> bool) (k : list A -> M B)
  (st : Session) :
  (let* x := all table p in k x) st = k (List.filter p (table (db st))) st.
Proof. reflexivity. Qed.

Lemma bind_rows {A B} (table : Store -> list A) (k : list A -> M B) (st : Session) :
  (let* x := rows table in k x) st = k (table (db st)) st.
Proof. reflexivity. Qed.

Lemma bind_database {B} (k : Store -> M B) (st : Session) :
  (let* x := database in k x) st = k (db st) st.
Proof. reflexivity. Qed.

Lemma bind_add {B} (f : Store -> Store) (k : unit -> M B) (st : Session) :
  (let* x := add f in k x) st = k tt (on_db f st).
Proof. reflexivity. Qed.

Lemma bind_commit {B} (k : unit -> M B) (st : Session) :
  (let* x := commit in k x) st
  = k tt (mkSession (db st) (db st) (S (commits st)) (opened st)).
Proof. reflexivity. Qed.

Lemma bind_one {A B} (table : Store -> list A) (p : A -> bool) (k : option A -> M B)
  (st : Session) :
  (let* x := one table p in k x) st
  = match List.filter p (table (db st)) with
    | [] => k None st
    | [x] => k (Some x) st
    | _ => (Raise MultipleResultsFound, st)
    end.
Proof.
  unfold bind at 1. rewrite one_row.
  destruct (List.filter p (table (db st))) as [|x [|y l]]; reflexivity.
Qed.

Section Lookups.
Variable parse_uuid : string -> option UUID.

Lemma bind_get_schema {A B} `{NamedSchema A} (x : name_or_id) (table : Store -> list A)
  (k : A -> M B) (st : Session) :
  (let* r := _get_schema_by_name_or_id parse_uuid x table in k r) st
  = match resolve parse_uuid x (table (db st)) with
    | Some r => k r st
    | None => (Raise KeyError, st)
    end.
Proof.
  unfold _get_schema_by_name_or_id, bind, rows, ret, raise.
  destruct (resolve parse_uuid x (table (db st))); reflexivity.
Qed.

Lemma bind_filter_schema {A B} `{NamedSchema A} (value : option name_or_id)
  (table : Store -> list A) (k : option A -> M B) (st : Session) :
  (let* r := filter_schema parse_uuid value table in k r) st
  = match resolved_filter parse_uuid value (table (db st)) with
    | Ok r => k r st
    | Raise e => (Raise e, st)
    end.
Proof.
  unfold bind at 1. rewrite filter_schema_run.
  destruct (resolved_filter parse_uuid value (table (db st))); reflexivity.
Qed.

Lemma bind_given_schema {A B} `{NamedSchema A} (value : option name_or_id)
  (table : Store -> list A) (k : option A -> M B) (st : Session) :
  (let* r := given_schema parse_uuid value table in k r) st
  = match value with
    | Some x =>
      match resolve parse_uuid x (table (db st)) with
      | Some r => k (Some r) st
      | None => (Raise KeyError, st)
      end
    | None => k None st
    end.
Proof.
  unfold given_schema. destruct value as [x|]; [|reflexivity].
  unfold bind at 1. rewrite bind_get_schema.
  destruct (resolve parse_uuid x (table (db st))); reflexivity.
Qed.
End Lookups.

Ltac step :=
  first
    [ rewrite bind_get_schema | rewrite bind_filter_schema | rewrite bind_given_schema
    | rewrite bind_first | rewrite bind_all | rewrite bind_rows | rewrite bind_database
    | rewrite bind_add | rewrite bind_commit | rewrite bind_one
    | rewrite bind_ret | rewrite bind_raise ];
  cbn [db committed commits opened on_db].

Ltac open_session :=
  unfold with_Session, _get_project_schema, _get_user_schema, _get_team_schema,
    _get_role_schema, _get_run_schema;
  cbv zeta.

Ltac close_session := unfold ret, raise, commit, add; reduce_session.

(** ** Roles: assigning, revoking and deleting *)

Lemma delete_first_app_miss {A} (p : A -> bool) (l : list A) (a : A) (l' : list A) :
  find p l = None -> p a = true -> delete_first p (l ++ a :: l') = l ++ l'.
Proof.
  intros Hl Ha. induction l as [|x l IH]; simpl in *.
  - now rewrite Ha.
  - destruct (p x); [discriminate|]. f_equal. now apply IH.
Qed.

Lemma find_app_first {A} (p : A -> bool) (l : list A) (a : A) (l' : list A) :
  find p l = None -> p a = true -> find p (l ++ a :: l') = Some a.
Proof.
  intros Hl Ha. rewrite (find_app_miss _ _ _ Hl). simpl. now rewrite Ha.
Qed.

Section RoleAssignments.
Variable parse_uuid : string -> option UUID.

(** The committed database after [_assign_role_to_user]. *)
Lemma assign_role_to_user_cases (s : Store) (role user : name_or_id)
  (project : option name_or_id) :
  (exists e, _assign_role_to_user parse_uuid role user project s
             = mkOutcome (Raise e) s 0%nat 1%nat)
  \/ (exists r p u,
        resolve parse_uuid role (roles s) = Some r
        /\ resolved_filter parse_uuid project (projects s) = Ok p
        /\ resolve parse_uuid user (users s) = Some u
        /\ find (fun a => (UserRoleAssignmentSchema.user_id a =? UserSchema.id u)
                          && (UserRoleAssignmentSchema.role_id a =? RoleSchema.id r)
                          && match p with
                             | Some project =>
                               col_eqb (UserRoleAssignmentSchema.project_id a)
                                 (ProjectSchema.id project)
                             | None => true
                             end)
             (user_role_assignments s) = None
        /\ _assign_role_to_user parse_uuid role user project s
           = mkOutcome (Ok tt)
               (with_user_role_assignments
                  (fun l => l ++ [UserRoleAssignmentSchema.mk (RoleSchema.id r)
                                    (UserSchema.id u) (option_map ProjectSchema.id p)])
                  s) 1%nat 1%nat).
Proof.
  unfold _assign_role_to_user, _assign_role_to_user_block. open_session. step.
  destruct (resolve parse_uuid role (roles s)) as [r|] eqn:Hr;
    [|left; eexists; reflexivity].
  step.
  destruct (resolved_filter parse_uuid project (projects s)) as [p|e] eqn:Hp;
    [|left; eexists; reflexivity].
  step.
  destruct (resolve parse_uuid user (users s)) as [u|] eqn:Hu;
    [|left; eexists; reflexivity].
  step.
  match goal with
  | |- context [match find ?q ?l with _ => _ end] => destruct (find q l) eqn:Hf
  end; [left; eexists; reflexivity|].
  right. exists r, p, u. repeat split; trivial.
Qed.

(** The committed database after [_assign_role_to_team]. *)
Lemma assign_role_to_team_cases (s : Store) (role team : name_or_id)
  (project : option name_or_id) :
  (exists e, _assign_role_to_team parse_uuid role team project s
             = mkOutcome (Raise e) s 0%nat 1%nat)
  \/ (exists r p u,
        resolve parse_uuid role (roles s) = Some r
        /\ resolved_filter parse_uuid project (projects s) = Ok p
        /\ resolve parse_uuid team (teams s) = Some u
        /\ find (fun a => (TeamRoleAssignmentSchema.team_id a =? TeamSchema.id u)
                          && (TeamRoleAssignmentSchema.role_id a =? RoleSchema.id r)
                          && match p with
                             | Some project =>
                               col_eqb (TeamRoleAssignmentSchema.project_id a)
                                 (ProjectSchema.id project)
                             | None => true
                             end)
             (team_role_assignments s) = None
        /\ _assign_role_to_team parse_uuid role team project s
           = mkOutcome (Ok tt)
               (with_team_role_assignments
                  (fun l => l ++ [TeamRoleAssignmentSchema.mk (RoleSchema.id r)
                                    (TeamSchema.id u) (option_map ProjectSchema.id p)])
                  s) 1%nat 1%nat).
Proof.
  unfold _assign_role_to_team, _assign_role_to_team_block. open_session. step.
  destruct (resolve parse_uuid role (roles s)) as [r|] eqn:Hr;
    [|left; eexists; reflexivity].
  step.
  destruct (resolved_filter parse_uuid project (projects s)) as [p|e] eqn:Hp;
    [|left; eexists; reflexivity].
  step.
  destruct (resolve parse_uuid team (teams s)) as [u|] eqn:Hu;
    [|left; eexists; reflexivity].
  step.
  match goal with
  | |- context [match find ?q ?l with _ => _ end] => destruct (find q l) eqn:Hf
  end; [left; eexists; reflexivity|].
  right. exists r, p, u. repeat split; trivial.
Qed.

Lemma assign_role_cases (s : Store) (role subject : name_or_id)
  (project : option name_or_id) (is_user : bool) :
  (exists e, assign_role parse_uuid role subject project is_user s
             = mkOutcome (Raise e) s 0%nat 1%nat)
  \/ (exists r, resolve parse_uuid role (roles s) = Some r
        /\ n_commits (assign_role parse_uuid role subject project is_user s) = 1%nat
        /\ returned (assign_role parse_uuid role subject project is_user s) = Ok tt
        /\ roles (store (assign_role parse_uuid role subject project is_user s)) = roles s
        /\ ((exists a, In a (user_role_assignments
                               (store (assign_role parse_uuid role subject project is_user s)))
                       /\ UserRoleAssignmentSchema.role_id a = RoleSchema.id r)
            \/ (exists a, In a (team_role_assignments
                                  (store (assign_role parse_uuid role subject project is_user s)))
                          /\ TeamRoleAssignmentSchema.role_id a = RoleSchema.id r))).
Proof.
  unfold assign_role. destruct is_user.
  - destruct (assign_role_to_user_cases s role subject project)
      as [He|(r & p & u & Hr & _ & _ & _ & Hok)]; [now left|right].
    exists r. rewrite Hok. cbn [returned store n_commits].
    split; [exact Hr|]. split; [reflexivity|]. split; [reflexivity|]. split; [reflexivity|].
    left.
    exists (UserRoleAssignmentSchema.mk (RoleSchema.id r) (UserSchema.id u)
              (option_map ProjectSchema.id p)).
    split; [|reflexivity].
    cbn [user_role_assignments with_user_role_assignments].
    apply in_or_app. right. now left.
  - destruct (assign_role_to_team_cases s role subject project)
      as [He|(r & p & u & Hr & _ & _ & _ & Hok)]; [now left|right].
    exists r. rewrite Hok. cbn [returned store n_commits].
    split; [exact Hr|]. split; [reflexivity|]. split; [reflexivity|]. split; [reflexivity|].
    right.
    exists (TeamRoleAssignmentSchema.mk (RoleSchema.id r) (TeamSchema.id u)
              (option_map ProjectSchema.id p)).
    split; [|reflexivity].
    cbn [team_role_assignments with_team_role_assignments].
    apply in_or_app. right. now left.
Qed.

(** The outcome of [delete_role]. *)
Lemma delete_role_outcome (s : Store) (x : name_or_id) :
  delete_role parse_uuid x s
  = match resolve parse_uuid x (roles s) with
    | None => mkOutcome (Raise KeyError) s 0%nat 1%nat
    | Some role =>
      if (String.eqb (RoleSchema.name role) ADMIN_ROLE
          || String.eqb (RoleSchema.name role) GUEST_ROLE)
         || (Nat.ltb 0 (length (List.filter
                                  (fun a => UserRoleAssignmentSchema.role_id a
                                            =? RoleSchema.id role)
                                  (user_role_assignments s)))
             || Nat.ltb 0 (length (List.filter
                                     (fun a => TeamRoleAssignmentSchema.role_id a
                                               =? RoleSchema.id role)
                                     (team_role_assignments s))))
      then mkOutcome (Raise IllegalOperationError) s 0%nat 1%nat
      else mkOutcome (Ok tt)
             (with_roles (delete_row RoleSchema.id (RoleSchema.id role)) s) 1%nat 1%nat
    end.
Proof.
  unfold delete_role, delete_role_block. open_session. step.
  destruct (resolve parse_uuid x (roles s)) as [role|]; [|reflexivity].
  destruct (String.eqb (RoleSchema.name role) ADMIN_ROLE
            || String.eqb (RoleSchema.name role) GUEST_ROLE); [reflexivity|].
  cbn [orb]. step. step.
  destruct (Nat.ltb 0 (length _) || Nat.ltb 0 (length _)); [reflexivity|].
  step. reflexivity.
Qed.

Lemma filter_has {A} (p : A -> bool) (l : list A) (a : A) :
  In a l -> p a = true -> Nat.ltb 0 (length (List.filter p l)) = true.
Proof.
  intros Hin Hp. assert (H : In a (List.filter p l)) by (apply filter_In; tauto).
  destruct (List.filter p l); [contradiction|reflexivity].
Qed.

(** A role that was just assigned cannot be deleted: after [assign_role]
    returned, [delete_role] of the same role raises
    [IllegalOperationError] and leaves the database as the assignment left
    it. *)
Theorem assigned_role_is_not_deleted (s : Store) (role subject : name_or_id)
  (project : option name_or_id) (is_user : bool) :
  returned (assign_role parse_uuid role subject project is_user s) = Ok tt ->
  delete_role parse_uuid role (store (assign_role parse_uuid role subject project is_user s))
  = mkOutcome (Raise IllegalOperationError)
      (store (assign_role parse_uuid role subject project is_user s)) 0%nat 1%nat.
Proof.
  intros Hok.
  destruct (assign_role_cases s role subject project is_user)
    as [[e He]|(r & Hr & _ & _ & Hroles & Hassigned)].
  { rewrite He in Hok. discriminate. }
  rewrite delete_role_outcome, Hroles, Hr.
  destruct (String.eqb (RoleSchema.name r) ADMIN_ROLE
            || String.eqb (RoleSchema.name r) GUEST_ROLE); [reflexivity|].
  cbn [orb].
  destruct Hassigned as [(a & Hin & Ha)|(a & Hin & Ha)].
  - rewrite (filter_has _ _ a Hin); [reflexivity|]. rewrite Ha. apply N.eqb_refl.
  - rewrite (filter_has (fun a => TeamRoleAssignmentSchema.role_id a =? RoleSchema.id r)
               _ a Hin); [|rewrite Ha; apply N.eqb_refl].
    now rewrite orb_true_r.
Qed.
End RoleAssignments.

Section RoleRemoval.
Variable parse_uuid : string -> option UUID.

Lemma delete_row_In {A} (pk : A -> UUID) (key : UUID) (l : list A) (x : A) :
  In x (delete_row pk key l) <-> In x l /\ pk x <> key.
Proof.
  unfold delete_row. rewrite filter_In, negb_true_iff, N.eqb_neq. tauto.
Qed.

Lemma filter_empty {A} (p : A -> bool) (l : list A) (a : A) :
  Nat.ltb 0 (length (List.filter p l)) = false -> In a l -> p a = false.
Proof.
  intros Hlen Hin. destruct (p a) eqn:Hp; [|reflexivity].
  now rewrite (filter_has p l a Hin Hp) in Hlen.
Qed.

Lemma unique_role (l : list RoleSchema.t) (r r' : RoleSchema.t) :
  NoDup (map RoleSchema.id l) -> In r l -> In r' l ->
  RoleSchema.id r = RoleSchema.id r' -> r = r'.
Proof.
  induction l as [|x l IH]; simpl; intros Hnd Hr Hr' Hid; [contradiction|].
  apply NoDup_cons in Hnd as [Hx Hnd].
  destruct Hr as [->|Hr], Hr' as [->|Hr']; trivial.
  - exfalso. apply Hx. rewrite Hid. apply list_elem_of_In. now apply in_map.
  - exfalso. apply Hx. rewrite <- Hid. apply list_elem_of_In. now apply in_map.
  - now apply IH.
Qed.

Lemma resolve_In {A} `{NamedSchema A} (x : name_or_id) (l : list A) (r : A) :
  resolve parse_uuid x l = Some r -> In r l.
Proof.
  unfold resolve. destruct x as [u|n]; [|destruct (parse_uuid n)];
    intros Hf; apply find_some in Hf; tauto.
Qed.

(** [delete_role] removes a role only when it is not built in and no
    assignment refers to it, so that the assignments keep referring to
    stored roles and, the ids of the roles being unique, the built-in roles
    stay; after a call that returned, no role has the id of the role that
    was resolved; a call that raises leaves the database as it was. *)
Theorem delete_role_keeps_references (s : Store) (x : name_or_id) :
  (assignments_have_roles s -> assignments_have_roles (store (delete_role parse_uuid x s)))
  /\ (NoDup (map RoleSchema.id (roles s)) ->
      forall r, In r (roles s) -> builtin_role r ->
        In r (roles (store (delete_role parse_uuid x s))))
  /\ (returned (delete_role parse_uuid x s) = Ok tt ->
      exists r, resolve parse_uuid x (roles s) = Some r
                /\ ~ builtin_role r
                /\ roles (store (delete_role parse_uuid x s))
                   = delete_row RoleSchema.id (RoleSchema.id r) (roles s)
                /\ ~ role_in (store (delete_role parse_uuid x s)) (RoleSchema.id r))
  /\ (forall e, returned (delete_role parse_uuid x s) = Raise e ->
        store (delete_role parse_uuid x s) = s).
Proof.
  rewrite delete_role_outcome.
  assert (Hsame : forall e,
            let o := mkOutcome (@Raise unit e) s 0%nat 1%nat in
            (assignments_have_roles s -> assignments_have_roles (store o))
            /\ (NoDup (map RoleSchema.id (roles s)) ->
                forall r, In r (roles s) -> builtin_role r -> In r (roles (store o)))
            /\ (returned o = Ok tt ->
                exists r, resolve parse_uuid x (roles s) = Some r
                          /\ ~ builtin_role r
                          /\ roles (store o)
                             = delete_row RoleSchema.id (RoleSchema.id r) (roles s)
                          /\ ~ role_in (store o) (RoleSchema.id r))
            /\ (forall e', returned o = Raise e' -> store o = s)).
  { intros e o. subst o. cbn [store returned].
    split; [trivial|]. split; [intros _ r Hin _; exact Hin|].
    split; [discriminate|reflexivity]. }
  destruct (resolve parse_uuid x (roles s)) as [role|] eqn:Hr; [|apply Hsame].
  destruct (String.eqb (RoleSchema.name role) ADMIN_ROLE
            || String.eqb (RoleSchema.name role) GUEST_ROLE) eqn:Hbuiltin.
  { apply Hsame. }
  cbn [orb].
  destruct (Nat.ltb 0 (length _) || Nat.ltb 0 (length _)) eqn:Hused.
  { apply Hsame. }
  clear Hsame. apply orb_false_iff in Hused as [Husers Hteams].
  apply orb_false_iff in Hbuiltin as [Hadmin Hguest].
  apply String.eqb_neq in Hadmin, Hguest.
  cbn [store returned]. split; [|split; [|split]].
  - intros [Hu Ht]. split.
    + intros a Ha. cbn [user_role_assignments with_roles] in Ha.
      destruct (Hu a Ha) as (r & Hin & Hid). exists r. split; [|exact Hid].
      cbn [roles with_roles]. apply delete_row_In. split; [exact Hin|].
      intros Heq. pose proof (filter_empty _ _ a Husers Ha) as Hb. cbn beta in Hb.
      apply N.eqb_neq in Hb. congruence.
    + intros a Ha. cbn [team_role_assignments with_roles] in Ha.
      destruct (Ht a Ha) as (r & Hin & Hid). exists r. split; [|exact Hid].
      cbn [roles with_roles]. apply delete_row_In. split; [exact Hin|].
      intros Heq. pose proof (filter_empty _ _ a Hteams Ha) as Hb. cbn beta in Hb.
      apply N.eqb_neq in Hb. congruence.
  - intros Hnd r Hin [Hb|Hb]; cbn [roles with_roles]; apply delete_row_In;
      (split; [exact Hin|]); intros Heq;
      assert (r = role) by (apply (unique_role (roles s)); eauto using resolve_In);
      subst r; contradiction.
  - intros _. exists role. split; [reflexivity|]. split; [intros [?|?]; contradiction|].
    split; [reflexivity|]. intros (r & Hin & Hid). cbn [roles with_roles] in Hin.
    apply delete_row_In in Hin. tauto.
  - discriminate.
Qed.
End RoleRemoval.

Section Revoking.
Variable parse_uuid : string -> option UUID.

(** The outcome of [revoke_role] for a user and for a team. *)
Lemma revoke_user_role_outcome (s : Store) (role user : name_or_id)
  (project : option name_or_id) :
  revoke_role parse_uuid role user true project s
  = match resolved_filter parse_uuid project (projects s) with
    | Raise e => mkOutcome (Raise e) s 0%nat 1%nat
    | Ok p =>
      match resolve parse_uuid role (roles s), resolve parse_uuid user (users s) with
      | Some r, Some u =>
        let query :=
          fun a => (UserRoleAssignmentSchema.user_id a =? UserSchema.id u)
                   && (UserRoleAssignmentSchema.role_id a =? RoleSchema.id r)
                   && match p with
                      | Some project =>
                        col_eqb (UserRoleAssignmentSchema.project_id a)
                          (ProjectSchema.id project)
                      | None => true
                      end in
        match find query (user_role_assignments s) with
        | Some _ =>
          mkOutcome (Ok tt) (with_user_role_assignments (delete_first query) s) 1%nat 1%nat
        | None => mkOutcome (Raise KeyError) s 0%nat 1%nat
        end
      | _, _ => mkOutcome (Raise KeyError) s 0%nat 1%nat
      end
    end.
Proof.
  unfold revoke_role, revoke_role_block. open_session. step.
  destruct (resolved_filter parse_uuid project (projects s)) as [p|e]; [|reflexivity].
  step. destruct (resolve parse_uuid role (roles s)) as [r|]; [|reflexivity].
  step. destruct (resolve parse_uuid user (users s)) as [u|]; [|reflexivity].
  step.
  match goal with
  | |- context [match find ?q ?l with _ => _ end] => destruct (find q l)
  end; reflexivity.
Qed.

Lemma revoke_team_role_outcome (s : Store) (role team : name_or_id)
  (project : option name_or_id) :
  revoke_role parse_uuid role team false project s
  = match resolved_filter parse_uuid project (projects s) with
    | Raise e => mkOutcome (Raise e) s 0%nat 1%nat
    | Ok p =>
      match resolve parse_uuid role (roles s), resolve parse_uuid team (teams s) with
      | Some r, Some u =>
        let query :=
          fun a => (TeamRoleAssignmentSchema.team_id a =? TeamSchema.id u)
                   && (TeamRoleAssignmentSchema.role_id a =? RoleSchema.id r)
                   && match p with
                      | Some project =>
                        col_eqb (TeamRoleAssignmentSchema.project_id a)
                          (ProjectSchema.id project)
                      | None => true
                      end in
        match find query (team_role_assignments s) with
        | Some _ =>
          mkOutcome (Ok tt) (with_team_role_assignments (delete_first query) s) 1%nat 1%nat
        | None => mkOutcome (Raise KeyError) s 0%nat 1%nat
        end
      | _, _ => mkOutcome (Raise KeyError) s 0%nat 1%nat
      end
    end.
Proof.
  unfold revoke_role, revoke_role_block. open_session. step.
  destruct (resolved_filter parse_uuid project (projects s)) as [p|e]; [|reflexivity].
  step. destruct (resolve parse_uuid role (roles s)) as [r|]; [|reflexivity].
  step. destruct (resolve parse_uuid team (teams s)) as [u|]; [|reflexivity].
  step.
  match goal with
  | |- context [match find ?q ?l with _ => _ end] => destruct (find q l)
  end; reflexivity.
Qed.

Lemma project_clause_of_new_assignment (p : option ProjectSchema.t) :
  match p with
  | Some project => col_eqb (option_map ProjectSchema.id p) (ProjectSchema.id project)
  | None => true
  end = true.
Proof. destruct p; simpl; [apply N.eqb_refl|reflexivity]. Qed.

(** [revoke_role] undoes [assign_role]: after an assignment that returned,
    revoking the same role from the same user or team in the same scope
    returns and leaves the database as it was before the assignment. *)
Theorem revoke_role_undoes_assign_role (s : Store) (role subject : name_or_id)
  (project : option name_or_id) (is_user : bool) :
  returned (assign_role parse_uuid role subject project is_user s) = Ok tt ->
  revoke_role parse_uuid role subject is_user project
    (store (assign_role parse_uuid role subject project is_user s))
  = mkOutcome (Ok tt) s 1%nat 1%nat.
Proof.
  intros Hok. unfold assign_role in *. destruct is_user.
  - destruct (assign_role_to_user_cases parse_uuid s role subject project)
      as [[e He]|(r & p & u & Hr & Hp & Hu & Hf & Hc)].
    { rewrite He in Hok. discriminate. }
    rewrite Hc. cbn [store]. rewrite revoke_user_role_outcome.
    cbn [projects roles users user_role_assignments with_user_role_assignments].
    rewrite Hp, Hr, Hu. cbv zeta.
    rewrite (find_app_first _ _ _ [] Hf).
    2:{ cbn [UserRoleAssignmentSchema.user_id UserRoleAssignmentSchema.role_id
             UserRoleAssignmentSchema.project_id].
        rewrite !N.eqb_refl. apply project_clause_of_new_assignment. }
    f_equal. destruct s. unfold with_user_role_assignments.
    cbn -[delete_first]. f_equal.
    rewrite delete_first_app_miss; [apply app_nil_r|exact Hf|].
    cbn [UserRoleAssignmentSchema.user_id UserRoleAssignmentSchema.role_id
         UserRoleAssignmentSchema.project_id].
    rewrite !N.eqb_refl. apply project_clause_of_new_assignment.
  - destruct (assign_role_to_team_cases parse_uuid s role subject project)
      as [[e He]|(r & p & u & Hr & Hp & Hu & Hf & Hc)].
    { rewrite He in Hok. discriminate. }
    rewrite Hc. cbn [store]. rewrite revoke_team_role_outcome.
    cbn [projects roles teams team_role_assignments with_team_role_assignments].
    rewrite Hp, Hr, Hu. cbv zeta.
    rewrite (find_app_first _ _ _ [] Hf).
    2:{ cbn [TeamRoleAssignmentSchema.team_id TeamRoleAssignmentSchema.role_id
             TeamRoleAssignmentSchema.project_id].
        rewrite !N.eqb_refl. apply project_clause_of_new_assignment. }
    f_equal. destruct s. unfold with_team_role_assignments.
    cbn -[delete_first]. f_equal.
    rewrite delete_first_app_miss; [apply app_nil_r|exact Hf|].
    cbn [TeamRoleAssignmentSchema.team_id TeamRoleAssignmentSchema.role_id
         TeamRoleAssignmentSchema.project_id].
    rewrite !N.eqb_refl. apply project_clause_of_new_assignment.
Qed.
End Revoking.

Section RevokingFirst.
Variable parse_uuid : string -> option UUID.

Lemma resolved_filter_error {A} `{NamedSchema A} (value : option name_or_id) (l : list A)
  (e : error) :
  resolved_filter parse_uuid value l = Raise e -> e = KeyError.
Proof.
  unfold resolved_filter. destruct value as [x|]; [|discriminate].
  destruct (truthy (Some x)); [|discriminate].
  destruct (resolve parse_uuid x l); [discriminate|]. now intros [= <-].
Qed.

Lemma resolved_filter_falsy {A} `{NamedSchema A} (value : option name_or_id) (l : list A) :
  truthy value = false -> resolved_filter parse_uuid value l = Ok None.
Proof.
  unfold resolved_filter. destruct value as [x|]; [|reflexivity].
  now intros ->.
Qed.

(** [revoke_role] from a user who does not hold the role raises [KeyError]
    and changes nothing, whatever project is named.  Called without a
    project it revokes the earliest stored assignment of the role to the
    user, in whatever project that assignment is, and no other row. *)
Theorem revoke_role_takes_first_assignment (s : Store) (role user : name_or_id)
  (r : RoleSchema.t) (u : UserSchema.t) :
  resolve parse_uuid role (roles s) = Some r ->
  resolve parse_uuid user (users s) = Some u ->
  (forall project,
     (forall a, In a (user_role_assignments s) ->
        ~ (UserRoleAssignmentSchema.role_id a = RoleSchema.id r
           /\ UserRoleAssignmentSchema.user_id a = UserSchema.id u)) ->
     revoke_role parse_uuid role user true project s = mkOutcome (Raise KeyError) s 0%nat 1%nat)
  /\ (forall project before a after,
        truthy project = false ->
        user_role_assignments s = before ++ a :: after ->
        UserRoleAssignmentSchema.role_id a = RoleSchema.id r ->
        UserRoleAssignmentSchema.user_id a = UserSchema.id u ->
        (forall b, In b before ->
           ~ (UserRoleAssignmentSchema.role_id b = RoleSchema.id r
              /\ UserRoleAssignmentSchema.user_id b = UserSchema.id u)) ->
        revoke_role parse_uuid role user true project s
        = mkOutcome (Ok tt)
            (with_user_role_assignments (fun _ => before ++ after) s) 1%nat 1%nat).
Proof.
  intros Hr Hu. split.
  - intros project Hnone. rewrite revoke_user_role_outcome, Hr, Hu.
    destruct (resolved_filter parse_uuid project (projects s)) as [p|e] eqn:Hp.
    + cbv zeta.
      match goal with
      | |- context [match find ?q ?l with _ => _ end] => destruct (find q l) as [a|] eqn:Hf
      end; [|reflexivity].
      exfalso. apply find_some in Hf as [Hin Hb].
      apply andb_true_iff in Hb as [Hb _]. apply andb_true_iff in Hb as [H1 H2].
      apply N.eqb_eq in H1, H2. now apply (Hnone a Hin).
    + now rewrite (resolved_filter_error _ _ _ Hp).
  - intros project before a after Hfalsy Hsplit Ha1 Ha2 Hbefore.
    rewrite revoke_user_role_outcome, Hr, Hu, (resolved_filter_falsy _ _ Hfalsy).
    cbv zeta. rewrite Hsplit.
    assert (Hmiss : find (fun a => (UserRoleAssignmentSchema.user_id a =? UserSchema.id u)
                                   && (UserRoleAssignmentSchema.role_id a =? RoleSchema.id r)
                                   && true) before = None).
    { destruct (find _ before) as [b|] eqn:Hf; [|reflexivity].
      exfalso. apply find_some in Hf as [Hin Hb].
      apply andb_true_iff in Hb as [Hb _]. apply andb_true_iff in Hb as [H1 H2].
      apply N.eqb_eq in H1, H2. now apply (Hbefore b Hin). }
    assert (Hhit : (UserRoleAssignmentSchema.user_id a =? UserSchema.id u)
                   && (UserRoleAssignmentSchema.role_id a =? RoleSchema.id r)
                   && true = true).
    { now rewrite Ha1, Ha2, !N.eqb_refl. }
    rewrite (find_app_first _ _ _ after Hmiss Hhit).
    f_equal. destruct s. unfold with_user_role_assignments.
    cbn -[delete_first] in *. f_equal. rewrite Hsplit.
    now apply delete_first_app_miss.
Qed.
End RevokingFirst.

(** ** The permissions of a role *)

Lemma permission_names_spec (s : Store) (i : UUID) (x : string) :
  x ∈ permission_names s i
  <-> exists p, In p (role_permissions s)
                /\ RolePermissionSchema.role_id p = i
                /\ RolePermissionSchema.name p = x.
Proof.
  unfold permission_names. rewrite elem_of_list_to_set, list_elem_of_In, in_map_iff.
  split.
  - intros (p & Hn & Hin). apply filter_In in Hin as [Hin Hb].
    apply N.eqb_eq in Hb. eauto.
  - intros (p & Hin & Hr & Hn). exists p. split; [exact Hn|].
    apply filter_In. split; [exact Hin|]. now apply N.eqb_eq.
Qed.

Lemma filter_filter_kept {A} (q keep : A -> bool) (l : list A) :
  (forall x, q x = true -> keep x = true) ->
  List.filter q (List.filter keep l) = List.filter q l.
Proof.
  intros H. induction l as [|a l IH]; [reflexivity|]. cbn [List.filter].
  destruct (q a) eqn:Hq.
  - rewrite (H a Hq). cbn [List.filter]. rewrite Hq. now f_equal.
  - destruct (keep a); cbn [List.filter]; [rewrite Hq|]; exact IH.
Qed.

Lemma one_or_none_row {A} (table : Store -> list A) (p : A -> bool) (st : Session) :
  one_or_none table p st
  = match List.filter p (table (db st)) with
    | [] => (Ok None, st)
    | [x] => (Ok (Some x), st)
    | _ => (Raise MultipleResultsFound, st)
    end.
Proof.
  unfold one_or_none, bind, all, ret, raise. cbn [fst snd].
  destruct (List.filter p (table (db st))) as [|x [|y l]]; reflexivity.
Qed.

(** One round of the loop: what it leaves of the session, and of the names
    of the permission rows of the role. *)
Lemma sync_permission_step (i : UUID) (requested existing : gset string) (permission : string)
  (st st' : Session) (res : result unit) :
  sync_permission i requested existing permission st = (res, st') ->
  roles (db st') = roles (db st)
  /\ committed st' = committed st /\ commits st' = commits st /\ opened st' = opened st
  /\ (forall j, j <> i ->
        List.filter (permissions_of j) (role_permissions (db st'))
        = List.filter (permissions_of j) (role_permissions (db st)))
  /\ (res = Ok tt ->
      forall x, x ∈ permission_names (db st') i
                <-> (x ∈ permission_names (db st) i /\ ~ (x = permission /\ x ∉ requested))
                    \/ (x = permission /\ x ∈ requested /\ x ∉ existing)).
Proof.
  unfold sync_permission.
  destruct (decide (permission ∈ requested)) as [Hreq|Hreq].
  - rewrite (bool_decide_eq_true_2 _ Hreq). cbn [negb].
    destruct (decide (permission ∈ existing)) as [Hex|Hex].
    + rewrite (bool_decide_eq_true_2 _ Hex). cbn [negb]. unfold ret. intros [= <- <-].
      repeat split; trivial.
      * intros Hx. left. split; [exact Hx|]. intros [-> Hn]. contradiction.
      * intros [[Hx _]|(-> & _ & Hn)]; [exact Hx|contradiction].
    + rewrite (bool_decide_eq_false_2 _ Hex). cbn [negb]. unfold add. intros [= <- <-].
      cbn [db on_db committed commits opened roles with_role_permissions role_permissions].
      split; [reflexivity|]. split; [reflexivity|]. split; [reflexivity|].
      split; [reflexivity|]. split.
      * intros j Hj. rewrite List.filter_app. cbn [List.filter].
        unfold permissions_of at 2. cbn [RolePermissionSchema.role_id].
        destruct (N.eqb_spec i j); [congruence|]. apply app_nil_r.
      * intros _ x. rewrite !permission_names_spec.
        cbn [role_permissions]. split.
        -- intros (p & Hin & Hr & Hn). apply in_app_iff in Hin as [Hin|[<-|[]]].
           ++ left. split; [eauto|]. intros [-> Hnot]. contradiction.
           ++ right. cbn in Hn. subst x. auto.
        -- intros [[(p & Hin & Hr & Hn) _]|(-> & _ & _)].
           ++ exists p. split; [apply in_app_iff; now left|]. auto.
           ++ exists (RolePermissionSchema.mk permission i).
              split; [apply in_app_iff; right; now left|]. auto.
  - rewrite (bool_decide_eq_false_2 _ Hreq). cbn [negb].
    unfold bind. rewrite one_or_none_row.
    destruct (List.filter _ (role_permissions (db st))) as [|row [|row' l]].
    + unfold raise. intros [= <- <-]. repeat split; trivial; discriminate.
    + unfold add. intros [= <- <-].
      cbn [db on_db committed commits opened roles with_role_permissions role_permissions].
      split; [reflexivity|]. split; [reflexivity|]. split; [reflexivity|].
      split; [reflexivity|]. split.
      * intros j Hj. apply filter_filter_kept. intros p Hp. unfold permissions_of in Hp.
        apply N.eqb_eq in Hp. apply negb_true_iff. apply andb_false_iff. right.
        apply N.eqb_neq. congruence.
      * intros _ x. rewrite !permission_names_spec. cbn [role_permissions]. split.
        -- intros (p & Hin & Hr & Hn). apply filter_In in Hin as [Hin Hb].
           left. split; [eauto|]. intros [-> _].
           rewrite Hn, Hr, String.eqb_refl, N.eqb_refl in Hb. discriminate.
        -- intros [[(p & Hin & Hr & Hn) Hnot]|(-> & Hx & _)]; [|contradiction].
           exists p. split; [|auto]. apply filter_In. split; [exact Hin|].
           apply negb_true_iff. apply andb_false_iff.
           destruct (String.eqb_spec (RolePermissionSchema.name p) permission) as [He|He];
             [|now left].
           exfalso. apply Hnot. split; congruence.
    + unfold raise. intros [= <- <-]. repeat split; trivial; discriminate.
Qed.

Lemma sync_permissions_loop (i : UUID) (requested existing : gset string) (L : list string) :
  forall (st st' : Session) (res : result unit),
    for_each L (sync_permission i requested existing) st = (res, st') ->
    roles (db st') = roles (db st)
    /\ committed st' = committed st /\ commits st' = commits st /\ opened st' = opened st
    /\ (forall j, j <> i ->
          List.filter (permissions_of j) (role_permissions (db st'))
          = List.filter (permissions_of j) (role_permissions (db st)))
    /\ (res = Ok tt ->
        forall x, x ∈ permission_names (db st') i
                  <-> (x ∈ permission_names (db st) i /\ ~ (In x L /\ x ∉ requested))
                      \/ (In x L /\ x ∈ requested /\ x ∉ existing)).
Proof.
  induction L as [|p L IH]; intros st st' res Hrun.
  - cbn [for_each] in Hrun. unfold ret in Hrun. injection Hrun as <- <-.
    split; [reflexivity|]. split; [reflexivity|]. split; [reflexivity|].
    split; [reflexivity|]. split; [reflexivity|]. intros _ x. cbn [In]. tauto.
  - cbn [for_each] in Hrun. unfold bind in Hrun.
    destruct (sync_permission i requested existing p st) as [r1 st1] eqn:H1.
    apply sync_permission_step in H1 as (Hr1 & Hc1 & Hn1 & Ho1 & Hf1 & Hp1).
    destruct r1 as [[]|e].
    + apply IH in Hrun as (Hr2 & Hc2 & Hn2 & Ho2 & Hf2 & Hp2).
      split; [congruence|]. split; [congruence|]. split; [congruence|].
      split; [congruence|]. split.
      * intros j Hj. now rewrite Hf2, Hf1.
      * intros Hres x. rewrite (Hp2 Hres x), (Hp1 eq_refl x). cbn [In].
        destruct (decide (x ∈ requested)); intuition (subst; auto).
    + injection Hrun as <- <-.
      split; [exact Hr1|]. split; [exact Hc1|]. split; [exact Hn1|].
      split; [exact Ho1|]. split; [exact Hf1|]. discriminate.
Qed.

Lemma update_row_find {A} (pk : A -> UUID) (key : UUID) (f : A -> A) (l : list A) :
  (forall r, pk (f r) = pk r) ->
  find (fun r => pk r =? key) (update_row pk key f l)
  = option_map f (find (fun r => pk r =? key) l).
Proof.
  intros Hpk. unfold update_row. induction l as [|x l IH]; [reflexivity|]. cbn [map find].
  destruct (N.eqb_spec (pk x) key) as [Hx|Hx].
  - rewrite Hpk. destruct (N.eqb_spec (pk x) key); [reflexivity|contradiction].
  - destruct (N.eqb_spec (pk x) key); [contradiction|exact IH].
Qed.

Lemma symmetric_difference_applied (requested existing : gset string) (x : string) :
  let diff := (existing ∖ requested) ∪ (requested ∖ existing) in
  (x ∈ existing /\ ~ (In x (elements diff) /\ x ∉ requested))
  \/ (In x (elements diff) /\ x ∈ requested /\ x ∉ existing)
  <-> x ∈ requested.
Proof.
  intros diff. rewrite <- list_elem_of_In, elem_of_elements. unfold diff.
  rewrite elem_of_union, !elem_of_difference.
  destruct (decide (x ∈ requested)), (decide (x ∈ existing)); tauto.
Qed.

Section RoleUpdate.
Variable parse_uuid : string -> option UUID.

Lemma get_role_outcome (s : Store) (x : name_or_id) :
  get_role parse_uuid x s
  = mkOutcome
      match resolve parse_uuid x (roles s) with
      | Some role =>
        Ok (RoleSchema_to_model role
              (List.filter (permissions_of (RoleSchema.id role)) (role_permissions s)))
      | None => Raise KeyError
      end s 0%nat 1%nat.
Proof.
  unfold get_role. open_session. step.
  destruct (resolve parse_uuid x (roles s)); reflexivity.
Qed.

(** After [update_role] returned, the role has exactly the permissions of
    the payload, whatever rows it had before; [get_role] on its id returns
    the model that [update_role] returned; and the permission rows of the
    other roles are as they were. *)
Theorem update_role_sets_permissions (s : Store) (role m : RoleModel.t) :
  returned (update_role role s) = Ok m ->
  RoleModel.permissions m = RoleModel.permissions role
  /\ RoleModel.id m = RoleModel.id role
  /\ permission_names (store (update_role role s)) (RoleModel.id role)
     = RoleModel.permissions role
  /\ returned (get_role parse_uuid (Id (RoleModel.id role)) (store (update_role role s))) = Ok m
  /\ (forall j, j <> RoleModel.id role ->
        List.filter (permissions_of j) (role_permissions (store (update_role role s)))
        = List.filter (permissions_of j) (role_permissions s)).
Proof.
  unfold update_role, update_role_block.
  match goal with |- context [with_Session ?b s] => set (body := b) end.
  destruct (body (session_on s)) as [res st'] eqn:Hb.
  rewrite (with_Session_eq _ _ _ _ Hb). cbn [returned store]. intros ->.
  unfold body, session_on in Hb. clear body. revert Hb. step.
  destruct (find _ (roles s)) as [existing|] eqn:Hex; [|discriminate].
  assert (Hid : RoleSchema.id existing = RoleModel.id role).
  { apply find_some in Hex as [_ Hb]. now apply N.eqb_eq. }
  destruct (_ || _); [discriminate|].
  step. step. step.
  cbn [role_permissions with_roles].
  unfold bind at 1.
  match goal with
  | |- context [for_each ?L ?f ?st] =>
    destruct (for_each L f st) as [r1 st1] eqn:Hloop
  end.
  apply (sync_permissions_loop (RoleSchema.id existing) (RoleModel.permissions role))
    in Hloop as (Hr & Hc & Hn & Ho & Hframe & Hnames).
  destruct r1 as [[]|e]; [|discriminate].
  step. step. unfold ret. intros [= <- <-].
  cbn [db committed] in *.
  assert (Hset : permission_names (db st1) (RoleModel.id role) = RoleModel.permissions role).
  { apply set_eq. intros x. rewrite <- Hid, (Hnames eq_refl x).
    apply symmetric_difference_applied. }
  split; [|split; [|split; [|split]]].
  - cbn [RoleSchema_to_model RoleModel.permissions]. rewrite <- Hset, <- Hid. reflexivity.
  - cbn [RoleSchema_to_model RoleModel.id RoleSchema_from_update_model RoleSchema.id].
    exact Hid.
  - exact Hset.
  - rewrite get_role_outcome. cbn [returned resolve schema_id RoleSchema_named].
    rewrite Hr. cbn [roles with_roles]. rewrite Hid.
    rewrite update_row_find by reflexivity.
    rewrite Hex. cbn [option_map]. 
    cbn [RoleSchema_from_update_model RoleSchema.id]. rewrite Hid. reflexivity.
  - intros j Hj. rewrite Hframe by congruence. reflexivity.
Qed.
End RoleUpdate.

Lemma with_role_permissions_twice (f g : list RolePermissionSchema.t -> list RolePermissionSchema.t)
  (s : Store) :
  with_role_permissions f (with_role_permissions g s)
  = with_role_permissions (fun l => f (g l)) s.
Proof. reflexivity. Qed.

Lemma add_permissions_loop (i : UUID) (L : list string) (st : Session) :
  for_each L
    (fun p => add (with_role_permissions (fun l => l ++ [RolePermissionSchema.mk p i]))) st
  = (Ok tt,
     on_db (with_role_permissions
              (fun l => l ++ map (fun p => RolePermissionSchema.mk p i) L)) st).
Proof.
  revert st. induction L as [|p L IH]; intros st.
  - cbn [for_each map]. unfold ret, on_db. f_equal. destruct st as [d c n o]. cbn [db committed commits opened].
    f_equal. destruct d. unfold with_role_permissions. cbn. now rewrite app_nil_r.
  - cbn [for_each]. unfold bind, add at 1. rewrite IH. f_equal.
    unfold on_db. cbn [db committed commits opened]. f_equal.
    rewrite with_role_permissions_twice. destruct (db st). unfold with_role_permissions. cbn.
    f_equal. now rewrite <- app_assoc.
Qed.

Lemma bind_add_permissions {B} (i : UUID) (L : list string) (k : unit -> M B) (st : Session) :
  (let* x := for_each L
               (fun p => add (with_role_permissions
                                (fun l => l ++ [RolePermissionSchema.mk p i]))) in
   k x) st
  = k tt (on_db (with_role_permissions
                   (fun l => l ++ map (fun p => RolePermissionSchema.mk p i) L)) st).
Proof. unfold bind at 1. now rewrite add_permissions_loop. Qed.

Section RoleCreation.
Variable parse_uuid : string -> option UUID.

(** The committed database after [create_role] and what it returned. *)
Lemma create_role_cases (s : Store) (role : RoleModel.t) :
  let row := RoleSchema_from_create_model role in
  let s' :=
    with_role_permissions
      (fun l => l ++ map (fun p => RolePermissionSchema.mk p (RoleSchema.id row))
                      (elements (RoleModel.permissions role)))
      (with_roles (fun l => l ++ [row]) s) in
  (create_role role s = mkOutcome (Raise EntityExistsError) s 0%nat 1%nat)
  \/ (create_role role s
      = mkOutcome
          (Ok (RoleSchema_to_model row
                 (List.filter (permissions_of (RoleSchema.id row)) (role_permissions s'))))
          s' 2%nat 1%nat
      /\ find (fun r => String.eqb (RoleSchema.name r) (RoleModel.name role)) (roles s) = None).
Proof.
  intros row s'. unfold create_role, create_role_block. open_session. step.
  destruct (find _ (roles s)) eqn:Hname; [now left|right].
  step. step. rewrite bind_add_permissions. cbn [db committed commits opened on_db].
  step. step.
  unfold ret. reduce_session. split; reflexivity.
Qed.

(** A role that [create_role] returned is what [get_role] returns
    afterwards: for its id when no role had that id, and for its name when
    the name does not parse as an identifier.  When no permission row
    referred to the id before, the role has exactly the permissions of the
    payload. *)
Theorem created_role_is_found (s : Store) (role m : RoleModel.t) :
  returned (create_role role s) = Ok m ->
  (~ role_in s (RoleModel.id role) ->
   returned (get_role parse_uuid (Id (RoleModel.id role)) (store (create_role role s))) = Ok m)
  /\ (parse_uuid (RoleModel.name role) = None ->
      returned (get_role parse_uuid (Name (RoleModel.name role)) (store (create_role role s)))
      = Ok m)
  /\ ((forall p, In p (role_permissions s) ->
         RolePermissionSchema.role_id p <> RoleModel.id role) ->
      RoleModel.permissions m = RoleModel.permissions role).
Proof.
  intros Hok.
  destruct (create_role_cases s role) as [Hc|[Hc Hname]]; cbv zeta in Hc.
  { rewrite Hc in Hok. discriminate. }
  rewrite Hc in Hok |- *. cbn [returned store] in *. injection Hok as <-.
  rewrite !get_role_outcome. cbn [returned roles with_role_permissions with_roles].
  split; [|split].
  - intros Hfresh.
    assert (Hid : find (fun r => RoleSchema.id r =? RoleModel.id role) (roles s) = None).
    { destruct (find (fun r => RoleSchema.id r =? RoleModel.id role) (roles s))
        as [r|] eqn:Hf; [|reflexivity]. exfalso.
      apply find_some in Hf as [Hin Hb]. apply N.eqb_eq in Hb. apply Hfresh. exists r. auto. }
    cbn [resolve schema_id RoleSchema_named].
    rewrite (find_app_miss _ _ _ Hid).
    cbn [find RoleSchema_from_create_model RoleSchema.id]. rewrite N.eqb_refl. reflexivity.
  - intros Hparse. cbn [resolve schema_name RoleSchema_named]. rewrite Hparse.
    rewrite (find_app_miss _ _ _ Hname).
    cbn [find RoleSchema_from_create_model RoleSchema.name]. rewrite String.eqb_refl.
    reflexivity.
  - intros Hnone. cbn [RoleSchema_to_model RoleModel.permissions].
    cbn [role_permissions with_role_permissions with_roles RoleSchema_from_create_model
         RoleSchema.id].
    apply set_eq. intros x.
    rewrite elem_of_list_to_set, list_elem_of_In, in_map_iff. split.
    + intros (p & Hn & Hin). apply filter_In in Hin as [Hin Hb].
      apply in_app_iff in Hin as [Hin|Hin].
      * exfalso. apply (Hnone p Hin). now apply N.eqb_eq.
      * apply in_map_iff in Hin as (y & <- & Hy). cbn in Hn. subst y.
        apply elem_of_elements. now apply list_elem_of_In.
    + intros Hx. exists (RolePermissionSchema.mk x (RoleModel.id role)).
      split; [reflexivity|]. apply filter_In. split; [|apply N.eqb_refl].
      apply in_app_iff. right. apply in_map_iff. exists x. split; [reflexivity|].
      apply list_elem_of_In. now apply elem_of_elements.
Qed.
End RoleCreation.

(** ** Listing pipeline runs *)

Lemma bind_existing_reference {A B} (table : Store -> list A) (pk : A -> UUID)
  (reference : option UUID) (k : option UUID -> M B) (st : Session) :
  (let* x := existing_reference table pk reference in k x) st
  = k (kept_reference (table (db st)) pk reference) st.
Proof.
  unfold existing_reference, kept_reference, bind, first, ret.
  destruct reference as [i|]; [|reflexivity]. cbn [fst snd].
  destruct (find _ (table (db st))); reflexivity.
Qed.

(** What [create_run] stores and returns. *)
Lemma create_run_outcome (s : Store) (r : PipelineRunModel.t) :
  create_run r s
  = match find (fun x => String.eqb (PipelineRunSchema.name x) (PipelineRunModel.name r))
            (pipeline_runs s),
          find (fun x => PipelineRunSchema.id x =? PipelineRunModel.id r) (pipeline_runs s)
    with
    | None, None =>
      let new_run :=
        PipelineRunSchema_from_create_model
          (with_references r
             (kept_reference (stacks s) StackSchema.id (PipelineRunModel.stack_id r))
             (kept_reference (pipelines s) PipelineSchema.id (PipelineRunModel.pipeline_id r))) in
      mkOutcome (Ok (PipelineRunSchema_to_model new_run))
        (with_pipeline_runs (fun l => l ++ [new_run]) s) 1%nat 1%nat
    | _, _ => mkOutcome (Raise EntityExistsError) s 0%nat 1%nat
    end.
Proof.
  unfold create_run, create_run_block. open_session. step.
  destruct (find _ (pipeline_runs s)); [reflexivity|]. step.
  destruct (find _ (pipeline_runs s)); [reflexivity|].
  rewrite bind_existing_reference. cbn [db]. rewrite bind_existing_reference. cbn [db].
  step. step. reflexivity.
Qed.

Lemma kept_reference_dangling {A} (l : list A) (pk : A -> UUID) (i : UUID) :
  (forall r, In r l -> pk r <> i) -> kept_reference l pk (Some i) = None.
Proof.
  intros H. unfold kept_reference.
  destruct (find _ l) as [r|] eqn:Hf; [|reflexivity]. exfalso.
  apply find_some in Hf as [Hin Hb]. apply N.eqb_eq in Hb. now apply (H r Hin).
Qed.

Section RunLists.
Variable parse_uuid : string -> option UUID.

(** [list_runs] filtered by references only. *)
Lemma list_runs_by_reference (s : Store) (stack_id pipeline_id : option UUID)
  (unlisted : bool) :
  list_runs parse_uuid None stack_id None None None pipeline_id unlisted s
  = mkOutcome
      (Ok (map PipelineRunSchema_to_model
             (List.filter
                (fun r =>
                   where_ stack_id (fun i r => col_eqb (PipelineRunSchema.stack_id r) i) r
                   && match pipeline_id with
                      | Some pipeline_id => col_eqb (PipelineRunSchema.pipeline_id r) pipeline_id
                      | None =>
                        if unlisted
                        then match PipelineRunSchema.pipeline_id r with
                             | None => true
                             | Some _ => false
                             end
                        else true
                      end)
                (pipeline_runs s))))
      s 0%nat 1%nat.
Proof.
  unfold list_runs. open_session. step. step. step. unfold ret. reduce_session.
  f_equal. f_equal. f_equal. apply filter_ext. intros r.
  cbn [where_ andb]. rewrite !andb_true_r. 
  reflexivity.
Qed.

Lemma to_model_injective (x y : PipelineRunSchema.t) :
  PipelineRunSchema_to_model x = PipelineRunSchema_to_model y -> x = y.
Proof. destruct x, y. unfold PipelineRunSchema_to_model. cbn. congruence. Qed.

(** A run created with a reference to a pipeline that is not stored is
    recorded as an unlisted run: the model returned has no pipeline,
    [list_runs] with [unlisted] set lists it, and [list_runs] for the
    pipeline it named does not, whatever [unlisted] is.  Likewise a run
    created with a reference to a stack that is not stored is not among the
    runs of that stack. *)
Theorem run_of_unknown_pipeline_is_unlisted (s : Store) (r m : PipelineRunModel.t) :
  returned (create_run r s) = Ok m ->
  (forall p, PipelineRunModel.pipeline_id r = Some p -> ~ pipeline_in s p ->
     PipelineRunModel.pipeline_id m = None
     /\ (exists l, returned (list_runs parse_uuid None None None None None None true
                               (store (create_run r s))) = Ok l
                   /\ In m l)
     /\ (forall unlisted l,
           returned (list_runs parse_uuid None None None None None (Some p) unlisted
                       (store (create_run r s))) = Ok l ->
           ~ In m l))
  /\ (forall i, PipelineRunModel.stack_id r = Some i -> ~ stack_in s i ->
        PipelineRunModel.stack_id m = None
        /\ (forall l,
              returned (list_runs parse_uuid None (Some i) None None None None false
                          (store (create_run r s))) = Ok l ->
              ~ In m l)).
Proof.
  rewrite create_run_outcome.
  destruct (find _ (pipeline_runs s)) eqn:Hname; [discriminate|].
  destruct (find (fun x => PipelineRunSchema.id x =? _) (pipeline_runs s)) eqn:Hid;
    [discriminate|].
  cbv zeta. cbn [returned store]. intros [= <-].
  set (row := PipelineRunSchema_from_create_model _).
  split.
  - intros p Hp Hdangling.
    assert (Hnone : PipelineRunSchema.pipeline_id row = None).
    { unfold row. cbn. rewrite Hp. apply kept_reference_dangling.
      intros x Hx Heq. apply Hdangling. exists x. auto. }
    split; [exact Hnone|]. split.
    + eexists. rewrite list_runs_by_reference. cbn [returned]. split; [reflexivity|].
      apply in_map. apply filter_In. cbn [pipeline_runs with_pipeline_runs where_].
      split; [apply in_or_app; right; now left|]. now rewrite Hnone.
    + intros unlisted l. rewrite list_runs_by_reference. cbn [returned]. intros [= <-] Hin.
      apply in_map_iff in Hin as (y & Hy & Hin). apply to_model_injective in Hy. subst y.
      apply filter_In in Hin as [_ Hb]. cbn [where_] in Hb. rewrite Hnone in Hb.
      discriminate.
  - intros i Hi Hdangling.
    assert (Hnone : PipelineRunSchema.stack_id row = None).
    { unfold row. cbn. rewrite Hi. apply kept_reference_dangling.
      intros x Hx Heq. apply Hdangling. exists x. auto. }
    split; [exact Hnone|].
    intros l. rewrite list_runs_by_reference. cbn [returned]. intros [= <-] Hin.
    apply in_map_iff in Hin as (y & Hy & Hin). apply to_model_injective in Hy. subst y.
    apply filter_In in Hin as [_ Hb]. cbn [where_] in Hb. rewrite Hnone in Hb.
    discriminate.
Qed.
End RunLists.

(** ** Listing step runs *)

Lemma run_step_schema_to_model_outcome (s : Store) (step : StepRunSchema.t) :
  _run_step_schema_to_model step s = mkOutcome (Ok (step_model s step)) s 0%nat 1%nat.
Proof. reflexivity. Qed.

Lemma step_model_id (s : Store) (step : StepRunSchema.t) :
  StepRunModel.id (step_model s step) = StepRunSchema.id step.
Proof. reflexivity. Qed.

Lemma get_run_step_outcome (s : Store) (i : UUID) :
  get_run_step i s
  = match find (fun r => StepRunSchema.id r =? i) (step_runs s) with
    | Some step => mkOutcome (Ok (step_model s step)) s 0%nat 2%nat
    | None => mkOutcome (Raise KeyError) s 0%nat 1%nat
    end.
Proof.
  unfold get_run_step. open_session. step.
  destruct (find _ (step_runs s)); reflexivity.
Qed.

Lemma collect_step_models (steps : list StepRunSchema.t) (st : Session) :
  collect steps (fun step => call (_run_step_schema_to_model step)) st
  = (Ok (map (step_model (committed st)) steps),
     mkSession (db st) (committed st) (commits st) (opened st + length steps)).
Proof.
  revert st. induction steps as [|x steps IH]; intros st.
  - cbn [collect map length]. unfold ret. rewrite Nat.add_0_r. now destruct st.
  - cbn [collect map length]. unfold bind at 1, call at 1.
    rewrite run_step_schema_to_model_outcome. cbn [returned store n_commits n_sessions].
    unfold bind at 1. rewrite IH. cbn [db committed commits opened]. unfold ret.
    rewrite Nat.add_0_r. f_equal. f_equal. lia.
Qed.

Lemma find_unique_step (l : list StepRunSchema.t) (r : StepRunSchema.t) :
  NoDup (map StepRunSchema.id l) -> In r l ->
  find (fun x => StepRunSchema.id x =? StepRunSchema.id r) l = Some r.
Proof.
  induction l as [|x l IH]; cbn [map find In]; intros Hnd Hin; [contradiction|].
  apply NoDup_cons in Hnd as [Hx Hnd].
  destruct Hin as [->|Hin]; [now rewrite N.eqb_refl|].
  destruct (N.eqb_spec (StepRunSchema.id x) (StepRunSchema.id r)) as [Heq|_]; [|now apply IH].
  exfalso. apply Hx. rewrite Heq. apply list_elem_of_In. now apply in_map.
Qed.

Lemma steps_of_project_In (p : UUID) (s : Store) (r : StepRunSchema.t) :
  In r (steps_of_project p s) -> In r (step_runs s).
Proof.
  unfold steps_of_project. intros Hin. apply in_flat_map in Hin as (x & Hx & Hin).
  apply in_map_iff in Hin as (y & <- & _). exact Hx.
Qed.

Lemma list_run_steps_outcome (s : Store) (run_id project_id : option UUID)
  (cache_key : option string) (status : option ExecutionStatus) :
  exists steps,
    list_run_steps run_id project_id cache_key status s
    = mkOutcome (Ok (map (step_model s) steps)) s 0%nat (S (length steps))
    /\ (forall row, In row steps ->
          In row (step_runs s)
          /\ forall r, run_id = Some r -> StepRunSchema.pipeline_run_id row = r).
Proof.
  unfold list_run_steps. open_session. step.
  rewrite collect_step_models. cbn [fst snd db committed commits opened].
  eexists. split; [reflexivity|].
  intros row Hrow. apply filter_In in Hrow as [Hrow Hb]. split.
  - destruct run_id; [exact Hrow|]. destruct project_id; [|exact Hrow].
    now apply steps_of_project_In in Hrow.
  - intros r ->. cbn [where_] in Hb.
    apply andb_true_iff in Hb as [Hb _]. apply andb_true_iff in Hb as [Hb _].
    now apply N.eqb_eq in Hb.
Qed.

(** [list_run_steps] never raises and never writes; it opens one session
    for its query and one more for every step run it returns; when the
    ids of the step runs are unique, each model it returns is the one
    [get_run_step] returns for its id; the steps it returns for a run are
    steps of that run, and the project filter is not looked at when a run
    is given. *)
Theorem list_run_steps_agrees_with_get_run_step (s : Store) (run_id project_id : option UUID)
  (cache_key : option string) (status : option ExecutionStatus) :
  exists l,
    list_run_steps run_id project_id cache_key status s
    = mkOutcome (Ok l) s 0%nat (S (length l))
    /\ (NoDup (map StepRunSchema.id (step_runs s)) ->
        Forall (fun m => returned (get_run_step (StepRunModel.id m) s) = Ok m) l)
    /\ (forall r, run_id = Some r ->
          Forall (fun m => StepRunModel.pipeline_run_id m = r) l
          /\ list_run_steps run_id None cache_key status s
             = list_run_steps run_id project_id cache_key status s).
Proof.
  destruct (list_run_steps_outcome s run_id project_id cache_key status)
    as (steps & Heq & Hsteps).
  exists (map (step_model s) steps). rewrite length_map. split; [exact Heq|]. split.
  - intros Hnd. apply Forall_forall. intros m Hm.
    apply list_elem_of_In in Hm. apply in_map_iff in Hm as (row & <- & Hrow).
    rewrite get_run_step_outcome, step_model_id.
    destruct (Hsteps row Hrow) as [Hin _].
    now rewrite (find_unique_step _ _ Hnd Hin).
  - intros r ->. split; [|reflexivity].
    apply Forall_forall. intros m Hm.
    apply list_elem_of_In in Hm. apply in_map_iff in Hm as (row & <- & Hrow).
    destruct (Hsteps row Hrow) as [_ Hrun]. exact (Hrun r eq_refl).
Qed.

(** ** Users, teams and projects *)

Lemma NoDup_names_app {A} (name : A -> string) (l : list A) (x : A) :
  NoDup (map name l) ->
  find (fun r => String.eqb (name r) (name x)) l = None ->
  NoDup (map name (l ++ [x])).
Proof.
  intros Hnd Hf. rewrite map_app. apply NoDup_app. split; [exact Hnd|]. split.
  - intros n Hn Hx. apply list_elem_of_In in Hn, Hx. destruct Hx as [<-|[]].
    apply in_map_iff in Hn as (r & Hr & Hin).
    apply (find_none _ _ Hf) in Hin. rewrite Hr, String.eqb_refl in Hin. discriminate.
  - cbn [map]. apply NoDup_singleton.
Qed.

Lemma update_row_In {A} (pk : A -> UUID) (key : UUID) (f : A -> A) (l : list A) (r : A) :
  In r l -> pk r <> key \/ f r = r -> In r (update_row pk key f l).
Proof.
  intros Hin Hkeep. unfold update_row. apply in_map_iff. exists r. split; [|exact Hin].
  destruct (N.eqb_spec (pk r) key) as [Heq|_]; [|reflexivity].
  destruct Hkeep as [Hne|Hf]; [contradiction|exact Hf].
Qed.

Section Named.
Variable parse_uuid : string -> option UUID.
Variable _default_user_name : string.
Variable _default_project_name : string.

Lemma create_user_outcome (s : Store) (user : UserModel.t) :
  create_user user s
  = match find (fun r => String.eqb (UserSchema.name r) (UserModel.name user)) (users s) with
    | Some _ => mkOutcome (Raise EntityExistsError) s 0%nat 1%nat
    | None =>
      mkOutcome (Ok (UserSchema_to_model (UserSchema_from_create_model user)))
        (with_users (fun l => l ++ [UserSchema_from_create_model user]) s) 1%nat 1%nat
    end.
Proof.
  unfold create_user, create_user_block. open_session. step.
  destruct (find _ (users s)); [reflexivity|]. step. step. reflexivity.
Qed.

Lemma create_team_outcome (s : Store) (team : TeamModel.t) :
  create_team team s
  = match find (fun r => String.eqb (TeamSchema.name r) (TeamModel.name team)) (teams s) with
    | Some _ => mkOutcome (Raise EntityExistsError) s 0%nat 1%nat
    | None =>
      mkOutcome (Ok (TeamSchema_to_model (TeamSchema_from_create_model team)))
        (with_teams (fun l => l ++ [TeamSchema_from_create_model team]) s) 1%nat 1%nat
    end.
Proof.
  unfold create_team, create_team_block. open_session. step.
  destruct (find _ (teams s)); [reflexivity|]. step. step. reflexivity.
Qed.

Lemma create_project_outcome (s : Store) (project : ProjectModel.t) :
  create_project project s
  = match find (fun r => String.eqb (ProjectSchema.name r) (ProjectModel.name project))
            (projects s) with
    | Some _ => mkOutcome (Raise EntityExistsError) s 0%nat 1%nat
    | None =>
      mkOutcome (Ok (ProjectSchema_to_model (ProjectSchema_from_create_model project)))
        (with_projects (fun l => l ++ [ProjectSchema_from_create_model project]) s)
        1%nat 1%nat
    end.
Proof.
  unfold create_project, create_project_block. open_session. step.
  destruct (find _ (projects s)); [reflexivity|]. step. step. reflexivity.
Qed.

(** [create_user], [create_team], [create_project] and [create_role] keep
    the names of their table unique: each refuses a name that is stored
    with [EntityExistsError], leaving the database as it was, and appends
    one row otherwise. *)
Theorem creators_keep_names_unique (s : Store) :
  (forall user,
     (NoDup (map UserSchema.name (users s)) ->
      NoDup (map UserSchema.name (users (store (create_user user s)))))
     /\ ((exists r, In r (users s) /\ UserSchema.name r = UserModel.name user) ->
         create_user user s = mkOutcome (Raise EntityExistsError) s 0%nat 1%nat))
  /\ (forall team,
        (NoDup (map TeamSchema.name (teams s)) ->
         NoDup (map TeamSchema.name (teams (store (create_team team s)))))
        /\ ((exists r, In r (teams s) /\ TeamSchema.name r = TeamModel.name team) ->
            create_team team s = mkOutcome (Raise EntityExistsError) s 0%nat 1%nat))
  /\ (forall project,
        (NoDup (map ProjectSchema.name (projects s)) ->
         NoDup (map ProjectSchema.name (projects (store (create_project project s)))))
        /\ ((exists r, In r (projects s) /\ ProjectSchema.name r = ProjectModel.name project) ->
            create_project project s = mkOutcome (Raise EntityExistsError) s 0%nat 1%nat))
  /\ (forall role,
        (NoDup (map RoleSchema.name (roles s)) ->
         NoDup (map RoleSchema.name (roles (store (create_role role s)))))
        /\ ((exists r, In r (roles s) /\ RoleSchema.name r = RoleModel.name role) ->
            create_role role s = mkOutcome (Raise EntityExistsError) s 0%nat 1%nat)).
Proof.
  split; [|split; [|split]].
  - intros user. rewrite create_user_outcome.
    destruct (find _ (users s)) as [x|] eqn:Hf; cbn [store]; split; trivial.
    + intros Hnd. cbn [users with_users].
      apply (NoDup_names_app UserSchema.name); [exact Hnd|exact Hf].
    + intros (r & Hin & Hn). apply (find_none _ _ Hf) in Hin.
      rewrite Hn, String.eqb_refl in Hin. discriminate.
  - intros team. rewrite create_team_outcome.
    destruct (find _ (teams s)) as [x|] eqn:Hf; cbn [store]; split; trivial.
    + intros Hnd. cbn [teams with_teams].
      apply (NoDup_names_app TeamSchema.name); [exact Hnd|exact Hf].
    + intros (r & Hin & Hn). apply (find_none _ _ Hf) in Hin.
      rewrite Hn, String.eqb_refl in Hin. discriminate.
  - intros project. rewrite create_project_outcome.
    destruct (find _ (projects s)) as [x|] eqn:Hf; cbn [store]; split; trivial.
    + intros Hnd. cbn [projects with_projects].
      apply (NoDup_names_app ProjectSchema.name); [exact Hnd|exact Hf].
    + intros (r & Hin & Hn). apply (find_none _ _ Hf) in Hin.
      rewrite Hn, String.eqb_refl in Hin. discriminate.
  - intros role.
    destruct (create_role_cases s role) as [Hc|[Hc Hf]]; cbv zeta in Hc; rewrite Hc;
      cbn [store]; split; trivial.
    + intros Hnd. cbn [roles with_roles with_role_permissions].
      apply (NoDup_names_app RoleSchema.name); [exact Hnd|exact Hf].
    + intros (r & Hin & Hn). apply (find_none _ _ Hf) in Hin.
      rewrite Hn, String.eqb_refl in Hin. discriminate.
Qed.
End Named.

Section Defaults.
Variable parse_uuid : string -> option UUID.
Variable _default_user_name : string.
Variable _default_project_name : string.

Lemma delete_project_outcome (s : Store) (x : name_or_id) :
  delete_project parse_uuid _default_project_name x s
  = match resolve parse_uuid x (projects s) with
    | None => mkOutcome (Raise KeyError) s 0%nat 1%nat
    | Some project =>
      if String.eqb (ProjectSchema.name project) _default_project_name
      then mkOutcome (Raise IllegalOperationError) s 0%nat 1%nat
      else mkOutcome (Ok tt)
             (with_projects (delete_row ProjectSchema.id (ProjectSchema.id project)) s)
             1%nat 1%nat
    end.
Proof.
  unfold delete_project, delete_project_block. open_session. step.
  destruct (resolve parse_uuid x (projects s)) as [project|]; [|reflexivity].
  destruct (String.eqb _ _); [reflexivity|]. step. reflexivity.
Qed.

Lemma update_project_outcome (s : Store) (project : ProjectModel.t) :
  update_project parse_uuid _default_project_name project s
  = match find (fun r => ProjectSchema.id r =? ProjectModel.id project) (projects s) with
    | None => mkOutcome (Raise KeyError) s 0%nat 1%nat
    | Some existing =>
      if String.eqb (ProjectSchema.name existing) _default_project_name
         && negb (String.eqb (ProjectModel.name project) (ProjectSchema.name existing))
      then mkOutcome (Raise IllegalOperationError) s 0%nat 1%nat
      else mkOutcome
             (Ok (ProjectSchema_to_model (ProjectSchema_from_update_model project existing)))
             (with_projects
                (update_row ProjectSchema.id (ProjectSchema.id existing)
                   (ProjectSchema_from_update_model project)) s)
             1%nat 1%nat
    end.
Proof.
  unfold update_project, update_project_block. open_session. step.
  cbn [resolve schema_id ProjectSchema_named].
  destruct (find _ (projects s)) as [existing|]; [|reflexivity].
  destruct (_ && _); [reflexivity|]. step. step. reflexivity.
Qed.

Lemma delete_user_outcome (s : Store) (x : name_or_id) :
  delete_user parse_uuid _default_user_name x s
  = match resolve parse_uuid x (users s) with
    | None => mkOutcome (Raise KeyError) s 0%nat 1%nat
    | Some user =>
      if String.eqb (UserSchema.name user) _default_user_name
      then mkOutcome (Raise IllegalOperationError) s 0%nat 1%nat
      else mkOutcome (Ok tt)
             (with_users (delete_row UserSchema.id (UserSchema.id user)) s) 1%nat 1%nat
    end.
Proof.
  unfold delete_user, delete_user_block. open_session. step.
  destruct (resolve parse_uuid x (users s)) as [user|]; [|reflexivity].
  destruct (String.eqb _ _); [reflexivity|]. step. reflexivity.
Qed.

Lemma update_user_outcome (s : Store) (user : UserModel.t) :
  update_user parse_uuid _default_user_name user s
  = match find (fun r => UserSchema.id r =? UserModel.id user) (users s) with
    | None => mkOutcome (Raise KeyError) s 0%nat 1%nat
    | Some existing =>
      if String.eqb (UserSchema.name existing) _default_user_name
         && negb (String.eqb (UserModel.name user) (UserSchema.name existing))
      then mkOutcome (Raise IllegalOperationError) s 0%nat 1%nat
      else mkOutcome
             (Ok (UserSchema_to_model (UserSchema_from_update_model user existing)))
             (with_users
                (update_row UserSchema.id (UserSchema.id existing)
                   (UserSchema_from_update_model user)) s)
             1%nat 1%nat
    end.
Proof.
  unfold update_user, update_user_block. open_session. step.
  cbn [resolve schema_id UserSchema_named].
  destruct (find _ (users s)) as [existing|]; [|reflexivity].
  destruct (_ && _); [reflexivity|]. step. step. reflexivity.
Qed.

Lemma unique_row {A} (pk : A -> UUID) (l : list A) (r r' : A) :
  NoDup (map pk l) -> In r l -> In r' l -> pk r = pk r' -> r = r'.
Proof.
  induction l as [|x l IH]; simpl; intros Hnd Hr Hr' Hid; [contradiction|].
  apply NoDup_cons in Hnd as [Hx Hnd].
  destruct Hr as [->|Hr], Hr' as [->|Hr']; trivial.
  - exfalso. apply Hx. rewrite Hid. apply list_elem_of_In. now apply in_map.
  - exfalso. apply Hx. rewrite <- Hid. apply list_elem_of_In. now apply in_map.
  - now apply IH.
Qed.

(** The default project is protected: where the ids of the projects are
    unique, a stored project of the default name is still stored, under
    that name, after any [delete_project] and any [update_project]; the
    attempt to delete it raises [IllegalOperationError], and so does the
    attempt to rename it. *)
Theorem default_project_is_kept (s : Store) (r : ProjectSchema.t) :
  NoDup (map ProjectSchema.id (projects s)) ->
  In r (projects s) -> ProjectSchema.name r = _default_project_name ->
  (forall x, In r (projects (store (delete_project parse_uuid _default_project_name x s))))
  /\ (forall project,
        In r (projects (store (update_project parse_uuid _default_project_name project s))))
  /\ delete_project parse_uuid _default_project_name (Id (ProjectSchema.id r)) s
     = mkOutcome (Raise IllegalOperationError) s 0%nat 1%nat
  /\ (forall project,
        ProjectModel.id project = ProjectSchema.id r ->
        ProjectModel.name project <> _default_project_name ->
        update_project parse_uuid _default_project_name project s
        = mkOutcome (Raise IllegalOperationError) s 0%nat 1%nat).
Proof.
  intros Hnd Hin Hname.
  assert (Hfind : forall i, i = ProjectSchema.id r ->
            find (fun x => ProjectSchema.id x =? i) (projects s) = Some r).
  { intros i ->. destruct (find_hit (fun x => ProjectSchema.id x =? ProjectSchema.id r)
                             _ r Hin (N.eqb_refl _)) as [y Hy].
    rewrite Hy. f_equal. apply find_some in Hy as [Hyin Hyid]. apply N.eqb_eq in Hyid.
    now apply (unique_row ProjectSchema.id (projects s)). }
  split; [|split; [|split]].
  - intros x. rewrite delete_project_outcome.
    destruct (resolve parse_uuid x (projects s)) as [project|] eqn:Hx; [|exact Hin].
    destruct (String.eqb_spec (ProjectSchema.name project) _default_project_name)
      as [Hdef|Hdef]; [exact Hin|].
    cbn [store projects with_projects]. apply delete_row_In. split; [exact Hin|].
    intros Heq. apply Hdef. rewrite <- Hname. f_equal.
    apply (unique_row ProjectSchema.id (projects s)); eauto using resolve_In.
  - intros project. rewrite update_project_outcome.
    destruct (find _ (projects s)) as [existing|] eqn:Hex; [|exact Hin].
    destruct (_ && _) eqn:Hguard; [exact Hin|].
    cbn [store projects with_projects]. apply update_row_In; [exact Hin|].
    destruct (N.eq_dec (ProjectSchema.id r) (ProjectSchema.id existing)) as [Heq|Hne];
      [right|now left].
    assert (existing = r).
    { apply find_some in Hex as [Hexin _].
      now apply (unique_row ProjectSchema.id (projects s)). }
    subst existing. rewrite Hname, String.eqb_refl in Hguard. cbn [andb] in Hguard.
    apply negb_false_iff, String.eqb_eq in Hguard.
    destruct r as [i n]. cbn in *. unfold ProjectSchema_from_update_model. cbn. congruence.
  - rewrite delete_project_outcome. cbn [resolve schema_id ProjectSchema_named].
    rewrite (Hfind _ eq_refl), Hname, String.eqb_refl. reflexivity.
  - intros project Hid Hrename. rewrite update_project_outcome, (Hfind _ Hid), Hname.
    rewrite String.eqb_refl. cbn [andb].
    destruct (String.eqb_spec (ProjectModel.name project) _default_project_name);
      [contradiction|reflexivity].
Qed.

(** The default user is protected: where the ids of the users are unique, a
    stored user of the default name is still stored, under that name, after
    any [delete_user] and any [update_user]; the attempt to delete it
    raises [IllegalOperationError], and so does the attempt to rename
    it. *)
Theorem default_user_is_kept (s : Store) (r : UserSchema.t) :
  NoDup (map UserSchema.id (users s)) ->
  In r (users s) -> UserSchema.name r = _default_user_name ->
  (forall x, In r (users (store (delete_user parse_uuid _default_user_name x s))))
  /\ (forall user,
        In r (users (store (update_user parse_uuid _default_user_name user s))))
  /\ delete_user parse_uuid _default_user_name (Id (UserSchema.id r)) s
     = mkOutcome (Raise IllegalOperationError) s 0%nat 1%nat
  /\ (forall user,
        UserModel.id user = UserSchema.id r ->
        UserModel.name user <> _default_user_name ->
        update_user parse_uuid _default_user_name user s
        = mkOutcome (Raise IllegalOperationError) s 0%nat 1%nat).
Proof.
  intros Hnd Hin Hname.
  assert (Hfind : forall i, i = UserSchema.id r ->
            find (fun x => UserSchema.id x =? i) (users s) = Some r).
  { intros i ->. destruct (find_hit (fun x => UserSchema.id x =? UserSchema.id r)
                             _ r Hin (N.eqb_refl _)) as [y Hy].
    rewrite Hy. f_equal. apply find_some in Hy as [Hyin Hyid]. apply N.eqb_eq in Hyid.
    now apply (unique_row UserSchema.id (users s)). }
  split; [|split; [|split]].
  - intros x. rewrite delete_user_outcome.
    destruct (resolve parse_uuid x (users s)) as [user|] eqn:Hx; [|exact Hin].
    destruct (String.eqb_spec (UserSchema.name user) _default_user_name)
      as [Hdef|Hdef]; [exact Hin|].
    cbn [store users with_users]. apply delete_row_In. split; [exact Hin|].
    intros Heq. apply Hdef. rewrite <- Hname. f_equal.
    apply (unique_row UserSchema.id (users s)); eauto using resolve_In.
  - intros user. rewrite update_user_outcome.
    destruct (find _ (users s)) as [existing|] eqn:Hex; [|exact Hin].
    destruct (_ && _) eqn:Hguard; [exact Hin|].
    cbn [store users with_users]. apply update_row_In; [exact Hin|].
    destruct (N.eq_dec (UserSchema.id r) (UserSchema.id existing)) as [Heq|Hne];
      [right|now left].
    assert (existing = r).
    { apply find_some in Hex as [Hexin _].
      now apply (unique_row UserSchema.id (users s)). }
    subst existing. rewrite Hname, String.eqb_refl in Hguard. cbn [andb] in Hguard.
    apply negb_false_iff, String.eqb_eq in Hguard.
    destruct r as [i n]. cbn in *. unfold UserSchema_from_update_model. cbn. congruence.
  - rewrite delete_user_outcome. cbn [resolve schema_id UserSchema_named].
    rewrite (Hfind _ eq_refl), Hname, String.eqb_refl. reflexivity.
  - intros user Hid Hrename. rewrite update_user_outcome, (Hfind _ Hid), Hname.
    rewrite String.eqb_refl. cbn [andb].
    destruct (String.eqb_spec (UserModel.name user) _default_user_name);
      [contradiction|reflexivity].
Qed.
End Defaults.

(** ** Sessions of the further methods *)

Section FurtherSessions.
Variable parse_uuid : string -> option UUID.
Variable _default_user_name : string.
Variable _default_project_name : string.

Lemma update_team_outcome (s : Store) (team : TeamModel.t) :
  update_team team s
  = match find (fun r => TeamSchema.id r =? TeamModel.id team) (teams s) with
    | None => mkOutcome (Raise KeyError) s 0%nat 1%nat
    | Some existing =>
      mkOutcome (Ok (TeamSchema_to_model (TeamSchema_from_update_model team existing)))
        (with_teams
           (update_row TeamSchema.id (TeamSchema.id existing)
              (TeamSchema_from_update_model team)) s)
        1%nat 1%nat
    end.
Proof.
  unfold update_team, update_team_block. open_session. step.
  destruct (find _ (teams s)) as [existing|]; [|reflexivity]. step. step. reflexivity.
Qed.

Lemma delete_team_outcome (s : Store) (x : name_or_id) :
  delete_team parse_uuid x s
  = match resolve parse_uuid x (teams s) with
    | None => mkOutcome (Raise KeyError) s 0%nat 1%nat
    | Some team =>
      mkOutcome (Ok tt) (with_teams (delete_row TeamSchema.id (TeamSchema.id team)) s)
        1%nat 1%nat
    end.
Proof.
  unfold delete_team, delete_team_block. open_session. step.
  destruct (resolve parse_uuid x (teams s)) as [team|]; [|reflexivity]. step. reflexivity.
Qed.

Ltac settle :=
  repeat match goal with
         | |- context [match find ?p ?l with _ => _ end] => destruct (find p l)
         | |- context [match resolve ?u ?x ?l with _ => _ end] => destruct (resolve u x l)
         | |- context [match resolved_filter ?u ?x ?l with _ => _ end] =>
           destruct (resolved_filter u x l)
         | |- context [if ?b then _ else _] => destruct b
         end;
  cbn [returned store n_commits n_sessions guard_error]; auto.

(** Each of these methods that write opens one session, commits once when
    it returns, and has committed nothing and left the database as it was
    when one of its guards raises. *)
Theorem further_writes_are_all_or_nothing :
  (forall user, transactional 1 (create_user user))
  /\ (forall user, transactional 1 (update_user parse_uuid _default_user_name user))
  /\ (forall x, transactional 1 (delete_user parse_uuid _default_user_name x))
  /\ (forall team, transactional 1 (create_team team))
  /\ (forall team, transactional 1 (update_team team))
  /\ (forall x, transactional 1 (delete_team parse_uuid x))
  /\ (forall project, transactional 1 (create_project project))
  /\ (forall project, transactional 1 (update_project parse_uuid _default_project_name project))
  /\ (forall x, transactional 1 (delete_project parse_uuid _default_project_name x))
  /\ (forall x, transactional 1 (delete_role parse_uuid x))
  /\ (forall role subject is_user project,
        transactional 1 (revoke_role parse_uuid role subject is_user project))
  /\ (forall i, transactional 1 (delete_stack_component i)).
Proof.
  repeat match goal with |- _ /\ _ => split end; intros; intros s.
  - rewrite create_user_outcome. settle.
  - rewrite update_user_outcome. settle.
  - rewrite delete_user_outcome. settle.
  - rewrite create_team_outcome. settle.
  - rewrite update_team_outcome. settle.
  - rewrite delete_team_outcome. settle.
  - rewrite create_project_outcome. settle.
  - rewrite update_project_outcome. settle.
  - rewrite delete_project_outcome. settle.
  - rewrite delete_role_outcome. settle.
  - destruct is_user;
      [rewrite revoke_user_role_outcome|rewrite revoke_team_role_outcome]; cbv zeta; settle.
  - destruct (delete_stack_component_cases s i) as [[e ->]|(c & -> & _)];
      cbn [returned store n_commits n_sessions]; auto.
Qed.
End FurtherSessions.

Ltac read_through :=
  open_session;
  repeat first
    [ step
    | match goal with
      | |- context [match find ?p ?l with _ => _ end] => destruct (find p l)
      | |- context [match resolve ?u ?x ?l with _ => _ end] => destruct (resolve u x l)
      | |- context [match resolved_filter ?u ?x ?l with _ => _ end] =>
        destruct (resolved_filter u x l)
      | |- context [match ?v with Some _ => _ | None => _ end] => is_var v; destruct v
      end ];
  unfold ret, raise; reduce_session; auto.

Section Reads.
Variable parse_uuid : string -> option UUID.

Lemma list_user_role_assignments_reads (s : Store)
  (project role user : option name_or_id) :
  exists res, _list_user_role_assignments parse_uuid project role user s
              = mkOutcome res s 0%nat 1%nat.
Proof.
  unfold _list_user_role_assignments. open_session.
  destruct project, role, user;
    repeat first
      [ step
      | match goal with
        | |- context [match resolve ?u ?x ?l with _ => _ end] => destruct (resolve u x l)
        end ];
    eexists; reflexivity.
Qed.

Lemma list_team_role_assignments_reads (s : Store)
  (project team role : option name_or_id) :
  exists res, _list_team_role_assignments parse_uuid project team role s
              = mkOutcome res s 0%nat 1%nat.
Proof.
  unfold _list_team_role_assignments. open_session.
  destruct project, role, team;
    repeat first
      [ step
      | match goal with
        | |- context [match resolve ?u ?x ?l with _ => _ end] => destruct (resolve u x l)
        end ];
    eexists; reflexivity.
Qed.

(** The methods that get and list never write: whatever they return or
    raise, the database is as it was and nothing was committed. *)
Theorem reads_never_write :
  (forall i, read_only (get_stack i))
  /\ (forall i, read_only (get_stack_component i))
  /\ (forall x, read_only (get_user parse_uuid x))
  /\ read_only list_users
  /\ (forall x, read_only (get_team parse_uuid x))
  /\ read_only list_teams
  /\ (forall x, read_only (get_role parse_uuid x))
  /\ read_only list_roles
  /\ (forall x, read_only (get_project parse_uuid x))
  /\ read_only list_projects
  /\ (forall project role team user,
        read_only (list_role_assignments parse_uuid project role team user))
  /\ (forall x, read_only (get_run parse_uuid x))
  /\ (forall project stack component name user pipeline unlisted,
        read_only (list_runs parse_uuid project stack component name user pipeline unlisted))
  /\ (forall i, read_only (get_run_step i))
  /\ (forall run project cache_key status, read_only (list_run_steps run project cache_key status))
  /\ (forall i, read_only (get_artifact_producer_step i))
  /\ (forall uri, read_only (list_artifacts uri))
  /\ (forall project user component name is_shared,
        read_only (list_stacks parse_uuid project user component name is_shared))
  /\ (forall project user type flavor name is_shared,
        read_only (list_stack_components parse_uuid project user type flavor name is_shared)).
Proof.
  repeat match goal with |- _ /\ _ => split end; intros; intros s.
  - rewrite get_stack_outcome. auto.
  - rewrite get_stack_component_outcome. auto.
  - unfold get_user. read_through.
  - unfold list_users. read_through.
  - unfold get_team. read_through.
  - unfold list_teams. read_through.
  - rewrite get_role_outcome. auto.
  - unfold list_roles. read_through.
  - unfold get_project. read_through.
  - unfold list_projects. read_through.
  - unfold list_role_assignments, then_call.
    destruct (list_user_role_assignments_reads s project role user) as [[l|e] ->];
      cbn [returned store n_commits n_sessions]; [|auto].
    destruct (list_team_role_assignments_reads s project team role) as [res ->].
    cbn [returned store n_commits n_sessions]. auto.
  - rewrite get_run_outcome. auto.
  - unfold list_runs. read_through.
  - rewrite get_run_step_outcome. destruct (find _ (step_runs s)); auto.
  - destruct (list_run_steps_outcome s run project cache_key status) as (steps & -> & _). auto.
  - unfold get_artifact_producer_step. open_session. step. step.
    destruct (find _ (step_run_output_artifacts s)) as [edge|]; [|auto].
    unfold call. rewrite get_run_step_outcome. cbn [committed].
    destruct (find _ (step_runs s)); cbn; auto.
  - unfold list_artifacts. read_through.
  - unfold list_stacks. read_through.
  - unfold list_stack_components. read_through.
Qed.
End Reads.

(** ** Listing role assignments *)

Lemma filter_all {A} (p : A -> bool) (l : list A) :
  (forall x, p x = true) -> List.filter p l = l.
Proof.
  intros H. induction l as [|x l IH]; [reflexivity|]. cbn [List.filter].
  rewrite (H x). now f_equal.
Qed.

Section AssignmentLists.
Variable parse_uuid : string -> option UUID.

(** [list_role_assignments] applies the user filter to the assignments of
    users only and the team filter to the assignments of teams only: with a
    user as its one filter it returns the assignments of that user followed
    by every assignment of every team, and with a team as its one filter
    every assignment of every user followed by those of the team.  A filter
    is looked up whenever it is given, the empty string included: a project
    filter that is the empty string raises [KeyError] when no project has
    the empty name. *)
Theorem list_role_assignments_filters_one_side (s : Store) :
  (forall user u,
     resolve parse_uuid user (users s) = Some u ->
     list_role_assignments parse_uuid None None None (Some user) s
     = mkOutcome
         (Ok (map UserRoleAssignmentSchema_to_model
                (List.filter (fun a => UserRoleAssignmentSchema.user_id a =? UserSchema.id u)
                   (user_role_assignments s))
              ++ map TeamRoleAssignmentSchema_to_model (team_role_assignments s)))
         s 0%nat 2%nat)
  /\ (forall team t,
        resolve parse_uuid team (teams s) = Some t ->
        list_role_assignments parse_uuid None None (Some team) None s
        = mkOutcome
            (Ok (map UserRoleAssignmentSchema_to_model (user_role_assignments s)
                 ++ map TeamRoleAssignmentSchema_to_model
                      (List.filter
                         (fun a => TeamRoleAssignmentSchema.team_id a =? TeamSchema.id t)
                         (team_role_assignments s))))
            s 0%nat 2%nat)
  /\ (forall role team user,
        resolve parse_uuid (Name "") (projects s) = None ->
        list_role_assignments parse_uuid (Some (Name "")) role team user s
        = mkOutcome (Raise KeyError) s 0%nat 1%nat).
Proof.
  split; [|split].
  - intros user u Hu.
    unfold list_role_assignments, then_call, _list_user_role_assignments,
      _list_team_role_assignments.
    open_session. repeat step. rewrite Hu. repeat step.
    unfold ret. reduce_session.
    rewrite (filter_all _ (team_role_assignments s)) by reflexivity.
    reflexivity.
  - intros team t Ht.
    unfold list_role_assignments, then_call, _list_user_role_assignments,
      _list_team_role_assignments.
    open_session. repeat first [step | progress (unfold ret; reduce_session)].
    rewrite Ht. repeat first [step | progress (unfold ret; reduce_session)].
    rewrite (filter_all _ (user_role_assignments s)) by reflexivity.
    reflexivity.
  - intros role team user Hp.
    unfold list_role_assignments, then_call, _list_user_role_assignments.
    open_session. repeat step. rewrite Hp. reflexivity.
Qed.
End AssignmentLists.

(** ** Instances of the statements *)

Lemma NoDup_decided {A} `{EqDecision A} (l : list A) :
  bool_decide (NoDup l) = true -> NoDup l.
Proof. apply bool_decide_eq_true_1. Qed.

Lemma created_component_is_found_witness :
  returned (get_stack_component 15
              (store (create_stack_component no_uuid_names staging_component sharing_example)))
  = Ok staging_component.
Proof.
  exact (f_equal returned
           (proj1 (created_component_is_found no_uuid_names sharing_example
                     staging_component staging_component eq_refl))).
Defined.

Lemma sharing_example_component_ids :
  NoDup (map StackComponentSchema.id (stack_components sharing_example)).
Proof. apply NoDup_decided. reflexivity. Qed.

Lemma create_stack_checks_components_witness :
  NoDup (component_ids staging_stack)
  /\ forall i, In i (component_ids staging_stack) -> component_in sharing_example i.
Proof.
  apply (proj1 (create_stack_checks_components no_uuid_names sharing_example staging_stack
                  sharing_example_component_ids)
           (StackModel.mk 25 "staging" 1 3 false [(ORCHESTRATOR, [13])])).
  reflexivity.
Defined.

Lemma created_stack_is_found_witness :
  returned (get_stack 25 (store (create_stack no_uuid_names staging_stack sharing_example)))
  = Ok staging_stack.
Proof.
  apply (created_stack_is_found no_uuid_names sharing_example staging_stack staging_stack
           sharing_example_component_ids).
  - intros link [].
  - reflexivity.
Defined.

Lemma update_stack_drops_unknown_components_witness :
  exists m,
    returned (update_stack no_uuid_names prod_stack_update sharing_example) = Ok m
    /\ In 13 (component_ids m) /\ ~ In 99 (component_ids m).
Proof.
  destruct (update_stack_drops_unknown_components no_uuid_names sharing_example
              prod_stack_update (StackSchema.mk 23 "prod" 1 3 false))
    as (m & Hm & _ & Hids).
  - reflexivity.
  - discriminate.
  - reflexivity.
  - now right.
  - exists m. split; [exact Hm|]. split.
    + apply Hids; [discriminate|]. split; [cbn; auto|].
      exists (StackComponentSchema.mk 13 "prod" ORCHESTRATOR "kubeflow" 1 3 false "").
      split; [cbn; auto|reflexivity].
    + intros Hin. apply Hids in Hin as [_ (c & Hc & Hid)]; [|discriminate].
      cbn in Hc. destruct Hc as [<-|[<-|[<-|[<-|[]]]]]; discriminate Hid.
Defined.

Lemma assigned_role_is_not_deleted_witness :
  returned
    (delete_role no_uuid_names (Id 5)
       (store (assign_role no_uuid_names (Id 5) (Id 3) None true staffing_example)))
  = Raise IllegalOperationError.
Proof.
  exact (f_equal returned
           (assigned_role_is_not_deleted no_uuid_names staffing_example (Id 5) (Id 3) None true
              eq_refl)).
Defined.

Lemma revoke_role_undoes_assign_role_witness :
  store
    (revoke_role no_uuid_names (Id 5) (Name "bob") true (Some (Name "research"))
       (store (assign_role no_uuid_names (Id 5) (Name "bob") (Some (Name "research")) true
                 staffing_example)))
  = staffing_example.
Proof.
  exact (f_equal store
           (revoke_role_undoes_assign_role no_uuid_names staffing_example (Id 5) (Name "bob")
              (Some (Name "research")) true eq_refl)).
Defined.

Lemma revoke_role_takes_first_assignment_witness :
  revoke_role no_uuid_names (Name "editor") (Name "alice") true None staffing_example
  = mkOutcome (Ok tt) (with_user_role_assignments (fun _ => []) staffing_example) 1%nat 1%nat.
Proof.
  apply (proj2 (revoke_role_takes_first_assignment no_uuid_names staffing_example
                  (Name "editor") (Name "alice") (RoleSchema.mk 5 "editor")
                  (UserSchema.mk 2 "alice" None None) eq_refl eq_refl)
           None [] (UserRoleAssignmentSchema.mk 5 2 (Some 1)) []);
    try reflexivity.
  intros b [].
Defined.

Lemma update_role_sets_permissions_witness :
  permission_names (store (update_role deploying_editor staffing_example)) 5
  = {["read"; "deploy"]}.
Proof.
  assert (H : exists m, returned (update_role deploying_editor staffing_example) = Ok m)
    by (vm_compute; eexists; reflexivity).
  destruct H as [m H].
  exact (proj1 (proj2 (proj2 (update_role_sets_permissions no_uuid_names staffing_example
                                deploying_editor m H)))).
Defined.

Lemma created_role_is_found_witness :
  exists m,
    returned (get_role no_uuid_names (Name "viewer")
                (store (create_role viewer_role staffing_example))) = Ok m
    /\ RoleModel.permissions m = {["read"]}.
Proof.
  assert (H : exists m, returned (create_role viewer_role staffing_example) = Ok m)
    by (vm_compute; eexists; reflexivity).
  destruct H as [m H]. exists m.
  destruct (created_role_is_found no_uuid_names staffing_example viewer_role m H)
    as (_ & Hname & Hperm).
  split; [exact (Hname eq_refl)|]. apply Hperm.
  intros p [<-|[<-|[]]]; discriminate.
Defined.

Lemma run_of_unknown_pipeline_is_unlisted_witness :
  exists m,
    returned (create_run adhoc_run sharing_example) = Ok m
    /\ PipelineRunModel.pipeline_id m = None
    /\ PipelineRunModel.stack_id m = None.
Proof.
  eexists. split; [reflexivity|].
  destruct (run_of_unknown_pipeline_is_unlisted no_uuid_names sharing_example adhoc_run _
              eq_refl) as [Hp Hs].
  split.
  - apply (Hp 77 eq_refl). intros (x & [] & _).
  - apply (Hs 98 eq_refl). intros (x & Hin & Hid).
    cbn in Hin. destruct Hin as [<-|[<-|[<-|[<-|[]]]]]; discriminate Hid.
Defined.

Lemma staffing_example_project_ids :
  NoDup (map ProjectSchema.id (projects staffing_example)).
Proof. apply NoDup_decided. reflexivity. Qed.

Lemma staffing_example_user_ids :
  NoDup (map UserSchema.id (users staffing_example)).
Proof. apply NoDup_decided. reflexivity. Qed.

Lemma default_project_is_kept_witness :
  delete_project no_uuid_names "default" (Name "default") staffing_example
  = mkOutcome (Raise IllegalOperationError) staffing_example 0%nat 1%nat
  /\ In (ProjectSchema.mk 1 "default")
       (projects (store (delete_project no_uuid_names "default" (Name "research")
                           staffing_example))).
Proof.
  destruct (default_project_is_kept no_uuid_names "default" staffing_example
              (ProjectSchema.mk 1 "default") staffing_example_project_ids)
    as (Hdelete & _ & Hrefused & _).
  - cbn. auto.
  - reflexivity.
  - split; [reflexivity|apply Hdelete].
Defined.

Lemma default_user_is_kept_witness :
  update_user no_uuid_names "default" (UserModel.mk 9 "root" None None) staffing_example
  = mkOutcome (Raise IllegalOperationError) staffing_example 0%nat 1%nat
  /\ In (UserSchema.mk 9 "default" None None)
       (users (store (update_user no_uuid_names "default" (UserModel.mk 3 "robert" None None)
                        staffing_example))).
Proof.
  destruct (default_user_is_kept no_uuid_names "default" staffing_example
              (UserSchema.mk 9 "default" None None) staffing_example_user_ids)
    as (_ & Hupdate & _ & Hrefused).
  - cbn. auto.
  - reflexivity.
  - split; [apply Hrefused; [reflexivity|discriminate]|apply Hupdate].
Defined.

Lemma component_of_a_stack_is_not_deleted_witness :
  returned (delete_stack_component 13 staging_example) = Raise IllegalOperationError
  /\ returned (get_stack_component 12 (store (delete_stack_component 12 staging_example)))
     = Raise KeyError.
Proof.
  destruct (component_of_a_stack_is_not_deleted staging_example 13) as (_ & Hused & _).
  destruct (component_of_a_stack_is_not_deleted staging_example 12) as (Hgone & _).
  split.
  - apply (Hused (StackComponentSchema.mk 13 "prod" ORCHESTRATOR "kubeflow" 1 3 false "")
             (StackCompositionSchema.mk 25 13) (StackSchema.mk 25 "staging" 1 3 false));
      try reflexivity.
    cbn. auto.
  - apply Hgone. reflexivity.
Defined.

Lemma delete_role_keeps_references_witness :
  returned (delete_role no_uuid_names (Name "auditor") staffing_example) = Ok tt
  /\ assignments_have_roles (store (delete_role no_uuid_names (Name "auditor") staffing_example))
  /\ ~ role_in (store (delete_role no_uuid_names (Name "auditor") staffing_example)) 10.
Proof.
  destruct (delete_role_keeps_references no_uuid_names staffing_example (Name "auditor"))
    as (Hrefs & _ & Hgone & _).
  split; [reflexivity|]. split.
  - apply Hrefs. split.
    + intros a [<-|[]]. exists (RoleSchema.mk 5 "editor"). split; [cbn; auto|reflexivity].
    + intros a [].
  - destruct (Hgone eq_refl) as (r & Hr & _ & _ & Hnot). injection Hr as <-. exact Hnot.
Defined.

Lemma creators_keep_names_unique_witness :
  create_user (UserModel.mk 11 "alice" None None) staffing_example
  = mkOutcome (Raise EntityExistsError) staffing_example 0%nat 1%nat
  /\ NoDup (map UserSchema.name
              (users (store (create_user (UserModel.mk 12 "carol" None None) staffing_example)))).
Proof.
  destruct (creators_keep_names_unique staffing_example) as (Husers & _).
  split.
  - apply (Husers (UserModel.mk 11 "alice" None None)).
    exists (UserSchema.mk 2 "alice" None None). split; [cbn; auto|reflexivity].
  - apply (Husers (UserModel.mk 12 "carol" None None)). apply NoDup_decided. reflexivity.
Defined.

Lemma list_run_steps_agrees_with_get_run_step_witness :
  exists l,
    returned (list_run_steps (Some 1) None None (Some CACHED) lineage_example) = Ok l
    /\ length l = 1%nat
    /\ Forall (fun m => returned (get_run_step (StepRunModel.id m) lineage_example) = Ok m) l.
Proof.
  destruct (list_run_steps_agrees_with_get_run_step lineage_example (Some 1) None None
              (Some CACHED)) as (l & Heq & Hget & _).
  exists l. rewrite Heq. split; [reflexivity|]. split.
  - apply (f_equal n_sessions) in Heq. cbn in Heq. now injection Heq as <-.
  - apply Hget. apply NoDup_decided. reflexivity.
Defined.

Lemma list_role_assignments_filters_one_side_witness :
  returned (list_role_assignments no_uuid_names None None None (Some (Name "alice"))
              role_example)
  = Ok (map UserRoleAssignmentSchema_to_model (user_role_assignments role_example)
        ++ map TeamRoleAssignmentSchema_to_model (team_role_assignments role_example)).
Proof.
  destruct (list_role_assignments_filters_one_side no_uuid_names role_example)
    as (Huser & _).
  rewrite (Huser (Name "alice") (UserSchema.mk 2 "alice" None None) eq_refl). reflexivity.
Defined.

(** ** One session, one commit *)

Lemma bind_bind {A B C} (m : M A) (f : A -> M B) (k : B -> M C) (st : Session) :
  (let* y := (let* x := m in f x) in k y) st = (let* x := m in let* y := f x in k y) st.
Proof. unfold bind. destruct (m st) as [[a|e] st']; reflexivity. Qed.

(** What is left of a block after a part of it that neither commits nor
    opens a session. *)
Lemma bind_quiet {A B} (P : error -> Prop) (m : M A) (k : A -> M B) (st : Session) :
  quiet P m ->
  exists st',
    committed st' = committed st /\ commits st' = commits st /\ opened st' = opened st
    /\ ((exists a, (let* x := m in k x) st = k a st')
        \/ (exists e, P e /\ (let* x := m in k x) st = (Raise e, st'))).
Proof.
  intros Hq. destruct (Hq st) as (H1 & H2 & H3 & H4). unfold bind.
  destruct (m st) as [[a|e] st']; cbn [fst snd] in *; exists st';
    (split; [exact H1|split; [exact H2|split; [exact H3|]]]).
  - left. exists a. reflexivity.
  - right. exists e. split; [apply H4|]; reflexivity.
Qed.

Ltac run_block :=
  repeat first
    [ rewrite bind_bind
    | step
    | match goal with
      | |- context [match find ?p ?l with _ => _ end] => destruct (find p l)
      | |- context [match resolve ?u ?x ?l with _ => _ end] => destruct (resolve u x l)
      | |- context [match resolved_filter ?u ?x ?l with _ => _ end] =>
        destruct (resolved_filter u x l)
      | |- context [match List.filter ?p ?l with _ => _ end] =>
        destruct (List.filter p l) as [|? [|? ?]]
      | |- context [if ?b then _ else _] => destruct b
      | |- context [match ?x with Some _ => _ | None => _ end] => destruct x
      end ].

Ltac leave_block :=
  unfold ret, raise, commit, add;
  cbn [fst snd db committed commits opened on_db guard_error];
  repeat split; auto; try discriminate.

Ltac settle_block :=
  intros s; unfold session_on;
  unfold _get_project_schema, _get_user_schema, _get_team_schema, _get_role_schema,
    _get_run_schema, existing_reference;
  cbv zeta; run_block; leave_block.

Lemma set_run_step_parent_step_quiet (child_id parent_id : UUID) :
  quiet (fun _ => True) (_set_run_step_parent_step child_id parent_id).
Proof.
  intros st. unfold _set_run_step_parent_step. run_block; leave_block.
Qed.

Lemma set_run_step_input_artifact_quiet (run_step_id artifact_id : UUID) (name : string) :
  quiet (fun _ => True) (_set_run_step_input_artifact run_step_id artifact_id name).
Proof.
  intros st. unfold _set_run_step_input_artifact. run_block; leave_block.
Qed.

Lemma set_run_step_output_artifact_quiet (step_run_id artifact_id : UUID) (name : string) :
  quiet (fun _ => True) (_set_run_step_output_artifact step_run_id artifact_id name).
Proof.
  intros st. unfold _set_run_step_output_artifact. run_block; leave_block.
Qed.

Lemma parent_loop_quiet (step_run_id : UUID) (l : list UUID) :
  quiet (fun _ => True)
    (for_each l (fun parent_step_id => _set_run_step_parent_step step_run_id parent_step_id)).
Proof. apply for_each_quiet. intros p. apply set_run_step_parent_step_quiet. Qed.

Lemma input_loop_quiet (step_run_id : UUID) (l : list (string * UUID)) :
  quiet (fun _ => True)
    (for_each l
       (fun '(input_name, artifact_id) =>
          _set_run_step_input_artifact step_run_id artifact_id input_name)).
Proof. apply for_each_quiet. intros [n a]. apply set_run_step_input_artifact_quiet. Qed.

Lemma output_loop_quiet (step_run_id : UUID) (l : list (string * UUID)) :
  quiet (fun _ => True)
    (for_each l
       (fun '(output_name, artifact_id) =>
          _set_run_step_output_artifact step_run_id artifact_id output_name)).
Proof. apply for_each_quiet. intros [n a]. apply set_run_step_output_artifact_quiet. Qed.

Ltac through_loop H :=
  match goal with
  | |- context [(let* x := for_each ?l ?f in @?k x) ?st] =>
    destruct (bind_quiet _ (for_each l f) k st H)
      as (? & ? & ? & ? & [(? & ->)|(? & ? & ->)])
  end.

Ltac loop_raised :=
  cbn [fst snd committed commits opened db on_db] in *;
  intuition congruence.

Lemma create_run_step_all_or_nothing (step_run : StepRunModel.t) :
  all_or_nothing 1 (create_run_step_block step_run).
Proof.
  intros s. unfold create_run_step_block, session_on. cbv zeta.
  step. destruct (find _ (pipeline_runs s)); [|leave_block].
  step. destruct (find _ (step_runs s)); [leave_block|].
  step.
  through_loop (parent_loop_quiet (StepRunModel.id step_run)
                  (StepRunModel.parent_step_ids step_run)); [|loop_raised].
  through_loop (input_loop_quiet (StepRunModel.id step_run)
                  (StepRunModel.input_artifacts step_run)); [|loop_raised].
  through_loop (output_loop_quiet (StepRunModel.id step_run)
                  (StepRunModel.output_artifacts step_run)); [|loop_raised].
  step. unfold ret. loop_raised.
Qed.

Lemma update_run_step_all_or_nothing (step_run : StepRunModel.t) :
  all_or_nothing 1 (update_run_step_block step_run).
Proof.
  intros s. unfold update_run_step_block, session_on. cbv zeta.
  step. destruct (find _ (step_runs s)); [|leave_block].
  step.
  through_loop (output_loop_quiet (StepRunModel.id step_run)
                  (StepRunModel.output_artifacts step_run)); [|loop_raised].
  step. unfold ret. loop_raised.
Qed.

Lemma add_permissions_quiet (role_id : UUID) (l : list string) :
  quiet (fun _ => False)
    (for_each l
       (fun p => add (with_role_permissions
                        (fun l => l ++ [RolePermissionSchema.mk p role_id])))).
Proof. apply for_each_quiet. intros p. apply add_quiet. Qed.

Lemma create_role_all_or_nothing (role : RoleModel.t) :
  all_or_nothing 2 (create_role_block role).
Proof.
  intros s. unfold create_role_block, session_on. cbv zeta.
  step. destruct (find _ (roles s)); [leave_block|].
  step. step.
  through_loop (add_permissions_quiet (RoleSchema.id (RoleSchema_from_create_model role))
                  (elements (RoleModel.permissions role))); [|contradiction].
  step. step. unfold ret. loop_raised.
Qed.

Lemma update_role_all_or_nothing (role : RoleModel.t) :
  all_or_nothing 2 (update_role_block role).
Proof.
  intros s. unfold update_role_block, session_on. cbv zeta.
  step. destruct (find _ (roles s)) as [existing|]; [|leave_block].
  destruct (_ || _); [leave_block|].
  step. step. step.
  match goal with
  | |- context [(let* x := for_each ?l ?f in @?k x) ?st] =>
    assert (Hq : quiet (fun e => guard_error e = false) (for_each l f))
  end.
  { apply for_each_quiet. intros permission st.
    destruct (negb (bool_decide (permission ∈ RoleModel.permissions role))).
    - unfold bind.
      match goal with
      | |- context [one_or_none ?t ?p st] =>
        destruct (one_or_none_quiet t p st) as (H1 & H2 & H3 & H4);
        destruct (one_or_none t p st) as [[[x|]|e] st1]
      end; cbn [fst snd] in *.
      + unfold add. cbn [fst snd committed commits opened on_db].
        repeat split; trivial. intros e H. discriminate H.
      + unfold raise. cbn [fst snd]. repeat split; trivial.
        intros e H. inversion H. reflexivity.
      + split; [exact H1|split; [exact H2|split; [exact H3|]]].
        intros e0 He0. inversion He0; subst e0. exact (H4 e eq_refl).
    - destruct (negb _); unfold add, ret; cbn [fst snd committed commits opened on_db];
        repeat split; intros e H; discriminate H. }
  through_loop Hq.
  - step. step. unfold ret. loop_raised.
  - cbn [fst snd]. split; [loop_raised|]. intros Hg. congruence.
Qed.

Section Atomicity.
Variable parse_uuid : string -> option UUID.
Variable _default_user_name : string.
Variable _default_project_name : string.

(** C3, as the code has it: every public method of the store that writes
    is one block under [with Session(...)], in which it does its reads, its
    guard checks and its writes and which opens no other session, and it
    has committed nothing and left the stored state as it was whenever one
    of its guards raises.  When it returns it has committed once, after its
    last write, so that what is committed is what the session last saw;
    [create_role] and [update_role] commit twice, the role row first and
    its permission rows after.  [get_or_create_run] is no block of its own:
    it calls [create_run] and then [get_run] up to twice, each in its own
    session, between one and three in all, commits at most once, and leaves
    the stored state as it was when it raises. *)
Theorem writes_are_all_or_nothing :
  (forall stack,
        in_one_session 1 (create_stack parse_uuid stack) (create_stack_block parse_uuid stack))
  /\ (forall stack,
        in_one_session 1 (update_stack parse_uuid stack) (update_stack_block parse_uuid stack))
  /\ (forall stack_id,
        in_one_session 1 (delete_stack stack_id) (delete_stack_block stack_id))
  /\ (forall component,
        in_one_session 1 (create_stack_component parse_uuid component)
          (create_stack_component_block parse_uuid component))
  /\ (forall component,
        in_one_session 1 (update_stack_component parse_uuid component)
          (update_stack_component_block parse_uuid component))
  /\ (forall component_id,
        in_one_session 1 (delete_stack_component component_id)
          (delete_stack_component_block component_id))
  /\ (forall flavor,
        in_one_session 1 (create_flavor flavor) (create_flavor_block flavor))
  /\ (forall flavor,
        in_one_session 1 (update_flavor flavor) (update_flavor_block flavor))
  /\ (forall flavor_id,
        in_one_session 1 (delete_flavor flavor_id) (delete_flavor_block flavor_id))
  /\ (forall user, in_one_session 1 (create_user user) (create_user_block user))
  /\ (forall user,
        in_one_session 1 (update_user parse_uuid _default_user_name user)
          (update_user_block parse_uuid _default_user_name user))
  /\ (forall user,
        in_one_session 1 (delete_user parse_uuid _default_user_name user)
          (delete_user_block parse_uuid _default_user_name user))
  /\ (forall user response email,
        in_one_session 1 (user_email_opt_in parse_uuid user response email)
          (user_email_opt_in_block parse_uuid user response email))
  /\ (forall team, in_one_session 1 (create_team team) (create_team_block team))
  /\ (forall team, in_one_session 1 (update_team team) (update_team_block team))
  /\ (forall team,
        in_one_session 1 (delete_team parse_uuid team) (delete_team_block parse_uuid team))
  /\ (forall user team,
        in_one_session 1 (add_user_to_team parse_uuid user team)
          (add_user_to_team_block parse_uuid user team))
  /\ (forall user team,
        in_one_session 1 (remove_user_from_team parse_uuid user team)
          (remove_user_from_team_block parse_uuid user team))
  /\ (forall role, in_one_session 2 (create_role role) (create_role_block role))
  /\ (forall role, in_one_session 2 (update_role role) (update_role_block role))
  /\ (forall role,
        in_one_session 1 (delete_role parse_uuid role) (delete_role_block parse_uuid role))
  /\ (forall role subject project,
        in_one_session 1 (assign_role parse_uuid role subject project true)
          (_assign_role_to_user_block parse_uuid role subject project)
        /\ in_one_session 1 (assign_role parse_uuid role subject project false)
             (_assign_role_to_team_block parse_uuid role subject project))
  /\ (forall role subject is_user project,
        in_one_session 1 (revoke_role parse_uuid role subject is_user project)
          (revoke_role_block parse_uuid role subject is_user project))
  /\ (forall project,
        in_one_session 1 (create_project project) (create_project_block project))
  /\ (forall project,
        in_one_session 1 (update_project parse_uuid _default_project_name project)
          (update_project_block parse_uuid _default_project_name project))
  /\ (forall project,
        in_one_session 1 (delete_project parse_uuid _default_project_name project)
          (delete_project_block parse_uuid _default_project_name project))
  /\ (forall pipeline,
        in_one_session 1 (create_pipeline pipeline) (create_pipeline_block pipeline))
  /\ (forall pipeline,
        in_one_session 1 (update_pipeline pipeline) (update_pipeline_block pipeline))
  /\ (forall pipeline_id,
        in_one_session 1 (delete_pipeline pipeline_id) (delete_pipeline_block pipeline_id))
  /\ (forall run, in_one_session 1 (create_run run) (create_run_block run))
  /\ (forall run, in_one_session 1 (update_run run) (update_run_block run))
  /\ (forall step_run,
        in_one_session 1 (create_run_step step_run) (create_run_step_block step_run))
  /\ (forall step_run,
        in_one_session 1 (update_run_step step_run) (update_run_step_block step_run))
  /\ (forall artifact,
        in_one_session 1 (create_artifact artifact) (create_artifact_block artifact))
  /\ (forall run s,
        (1 <= n_sessions (get_or_create_run parse_uuid run s) <= 3)%nat
        /\ match returned (get_or_create_run parse_uuid run s) with
           | Ok _ => (n_commits (get_or_create_run parse_uuid run s) <= 1)%nat
           | Raise _ =>
             n_commits (get_or_create_run parse_uuid run s) = 0%nat
             /\ store (get_or_create_run parse_uuid run s) = s
           end).
Proof.
  repeat match goal with |- _ /\ _ => split end; intros.
  - split; [reflexivity|].
    unfold create_stack_block,
      fail_if_stack_with_id_already_exists,
      fail_if_stack_with_name_exists_for_user, fail_if_stack_with_name_already_shared.
    settle_block.
  - split; [reflexivity|].
    unfold update_stack_block,
      fail_if_stack_with_name_exists_for_user,
      fail_if_stack_with_name_already_shared.
    settle_block.
  - split; [reflexivity|]. unfold delete_stack_block. settle_block.
  - split; [reflexivity|].
    unfold create_stack_component_block,
      fail_if_component_with_id_already_exists,
      fail_if_component_with_name_type_exists_for_user,
      fail_if_component_with_name_type_already_shared.
    settle_block.
  - split; [reflexivity|].
    unfold update_stack_component_block,
      fail_if_component_with_name_type_exists_for_user,
      fail_if_component_with_name_type_already_shared.
    settle_block.
  - split; [reflexivity|]. unfold delete_stack_component_block. settle_block.
  - split; [reflexivity|]. unfold create_flavor_block. settle_block.
  - split; [reflexivity|]. unfold update_flavor_block. settle_block.
  - split; [reflexivity|]. unfold delete_flavor_block. settle_block.
  - split; [reflexivity|]. unfold create_user_block. settle_block.
  - split; [reflexivity|]. unfold update_user_block. settle_block.
  - split; [reflexivity|]. unfold delete_user_block. settle_block.
  - split; [reflexivity|]. unfold user_email_opt_in_block. settle_block.
  - split; [reflexivity|]. unfold create_team_block. settle_block.
  - split; [reflexivity|]. unfold update_team_block. settle_block.
  - split; [reflexivity|]. unfold delete_team_block. settle_block.
  - split; [reflexivity|]. unfold add_user_to_team_block. settle_block.
  - split; [reflexivity|]. unfold remove_user_from_team_block. settle_block.
  - split; [reflexivity|apply create_role_all_or_nothing].
  - split; [reflexivity|apply update_role_all_or_nothing].
  - split; [reflexivity|]. unfold delete_role_block. settle_block.
  - split; (split; [reflexivity|]).
    + unfold _assign_role_to_user_block. settle_block.
    + unfold _assign_role_to_team_block. settle_block.
  - split; [reflexivity|]. unfold revoke_role_block. settle_block.
  - split; [reflexivity|]. unfold create_project_block. settle_block.
  - split; [reflexivity|]. unfold update_project_block. settle_block.
  - split; [reflexivity|]. unfold delete_project_block. settle_block.
  - split; [reflexivity|]. unfold create_pipeline_block. settle_block.
  - split; [reflexivity|]. unfold update_pipeline_block. settle_block.
  - split; [reflexivity|]. unfold delete_pipeline_block. settle_block.
  - split; [reflexivity|]. unfold create_run_block. settle_block.
  - split; [reflexivity|]. unfold update_run_block. settle_block.
  - split; [reflexivity|apply create_run_step_all_or_nothing].
  - split; [reflexivity|apply update_run_step_all_or_nothing].
  - split; [reflexivity|]. unfold create_artifact_block. settle_block.
  - apply get_or_create_run_sessions.
Qed.
End Atomicity.

Lemma writes_are_all_or_nothing_witness :
  (n_commits (create_stack no_uuid_names new_shared_stack sharing_example) = 0%nat
   /\ store (create_stack no_uuid_names new_shared_stack sharing_example) = sharing_example)
  /\ (n_commits (create_stack no_uuid_names carol_shared_stack three_owner_example) = 0%nat
      /\ store (create_stack no_uuid_names carol_shared_stack three_owner_example)
         = three_owner_example)
  /\ (n_commits (create_role viewer_role staffing_example) = 2%nat
      /\ roles (store (create_role viewer_role staffing_example))
         = roles staffing_example ++ [RoleSchema.mk 8 "viewer"])
  /\ (n_commits (create_artifact (ArtifactModel.mk 101 "s3://bucket/report") lineage_example)
      = 1%nat
      /\ artifacts (store (create_artifact (ArtifactModel.mk 101 "s3://bucket/report")
                             lineage_example))
         = artifacts lineage_example ++ [ArtifactSchema.mk 101 "s3://bucket/report"]).
Proof.
  destruct (writes_are_all_or_nothing no_uuid_names "default" "default")
    as (Hstack & _ & _ & _ & _ & _ & _ & _ & _ & _ & _ & _ & _ & _ & _ & _ & _ & _
        & Hrole & _ & _ & _ & _ & _ & _ & _ & _ & _ & _ & _ & _ & _ & _ & Hartifact & _).
  split; [|split; [|split]].
  - destruct (Hstack new_shared_stack) as [Heq Hblock].
    destruct (Hblock sharing_example) as [_ Hraise].
    change (fst (create_stack_block no_uuid_names new_shared_stack (session_on sharing_example)))
      with (@Raise StackModel.t StackExistsError) in Hraise.
    rewrite Heq. exact (Hraise eq_refl).
  - destruct (Hstack carol_shared_stack) as [Heq Hblock].
    destruct (Hblock three_owner_example) as [_ Hraise].
    change (fst (create_stack_block no_uuid_names carol_shared_stack
                   (session_on three_owner_example)))
      with (@Raise StackModel.t StackExistsError) in Hraise.
    rewrite Heq. exact (Hraise eq_refl).
  - destruct (Hrole viewer_role) as [Heq Hblock].
    destruct (Hblock staffing_example) as [_ Hok].
    change (fst (create_role_block viewer_role (session_on staffing_example)))
      with (Ok viewer_role) in Hok.
    destruct Hok as [Hcommits Hsaved]. rewrite Heq. split; [exact Hcommits|].
    unfold with_Session. cbn [store]. unfold session_on in Hsaved. rewrite Hsaved.
    reflexivity.
  - destruct (Hartifact (ArtifactModel.mk 101 "s3://bucket/report")) as [Heq Hblock].
    destruct (Hblock lineage_example) as [_ Hok].
    change (fst (create_artifact_block (ArtifactModel.mk 101 "s3://bucket/report")
                   (session_on lineage_example)))
      with (Ok (ArtifactModel.mk 101 "s3://bucket/report")) in Hok.
    destruct Hok as [Hcommits Hsaved]. rewrite Heq. split; [exact Hcommits|].
    unfold with_Session. cbn [store]. unfold session_on in Hsaved. rewrite Hsaved.
    reflexivity.
Defined.

(** ** Every list method *)



Lemma where_clause {A V} (value : option V) (clause : V -> A -> bool) (P : V -> Prop) (r : A) :
  (forall v, clause v r = true -> P v) ->
  where_ value clause r = true -> forall v, value = Some v -> P v.
Proof. intros H Hw v ->. apply H. exact Hw. Qed.


Section EveryList.
Variable parse_uuid : string -> option UUID.






















End EveryList.


(** ** The sharing check of an update reads the payload *)

Section PayloadCheck.
Variable parse_uuid : string -> option UUID.


End PayloadCheck.

